(** * Network topology builder and validator: a shallow embedding

    The development follows [src/network_topology.py] (class
    [NetworkTopology]), [src/validator.py] (class [NetworkValidator]) and
    the two numeric extractors of [src/config_parser.py].
    Python dictionaries that the code iterates are association lists in
    insertion order, exceptions are an explicit result type, sets are
    [gset]s, and the score is an IEEE binary64 number.  The [networkx]
    queries the validator calls are library code: they are modelled in
    module [Nx] by their documented meaning and proved to have it. *)

From Stdlib Require Import ZArith String Ascii List Lia Bool.
From Stdlib Require Import DecimalString Floats.
From Stdlib Require DecimalPos DecimalFacts.
From stdpp Require Import base option list strings gmap.
Import ListNotations.

Local Open Scope Z_scope.
Local Open Scope string_scope.
Local Open Scope list_scope.

(** ** The Python runtime the sources rely on *)

Module Py.

(** The exceptions that the modelled code can raise. *)
Inductive exn : Type :=
| KeyError (key : string)
| IndexError
| ValueError
| TypeError
| ZeroDivisionError
| OverflowError
| NodeNotFound (node : string).

(** A computation either returns or raises. *)
Inductive result (A : Type) : Type :=
| Ok (a : A)
| Raise (e : exn).
Global Arguments Ok {A} a.
Global Arguments Raise {A} e.

Global Instance result_ret : MRet result := fun A a => Ok a.
Global Instance result_bind : MBind result := fun A B f m =>
  match m with
  | Ok a => f a
  | Raise e => Raise e
  end.

(** [for x in l: st = body(x, st)], where the body may raise. *)
Fixpoint for_each {A S} (body : A -> S -> result S) (l : list A) (st : S)
  : result S :=
  match l with
  | [] => Ok st
  | x :: l' => st' ← body x st; for_each body l' st'
  end.

(** [[f(x) for x in l]], where [f] may raise. *)
Fixpoint map_result {A B} (f : A -> result B) (l : list A) : result (list B) :=
  match l with
  | [] => Ok []
  | x :: l' => y ← f x; ys ← map_result f l'; mret (y :: ys)
  end.

(** *** Dictionaries in insertion order *)

Section Dict.
Context {K V : Type} `{EqDecision K}.

Definition dict : Type := list (K * V).

Fixpoint get (k : K) (d : dict) : option V :=
  match d with
  | [] => None
  | (k', v) :: d' => if decide (k' = k) then Some v else get k d'
  end.

Definition contains (k : K) (d : dict) : bool :=
  match get k d with Some _ => true | None => false end.

(** [d[k] = v]: an existing key keeps its position. *)
Fixpoint set (k : K) (v : V) (d : dict) : dict :=
  match d with
  | [] => [(k, v)]
  | (k', v') :: d' =>
      if decide (k' = k) then (k, v) :: d' else (k', v') :: set k v d'
  end.

Definition keys (d : dict) : list K := map fst d.
Definition values (d : dict) : list V := map snd d.
End Dict.
Global Arguments dict K V : clear implicits.

(** [d[k].append(x)] on a [defaultdict(list)]. *)
Definition append_to {K A} `{EqDecision K} (k : K) (x : A)
    (d : dict K (list A)) : dict K (list A) :=
  match get k d with
  | Some l => set k (l ++ [x]) d
  | None => set k [x] d
  end.

(** *** Values of mixed type: a VLAN tag is an integer, [None], or the
    string ['default'] that [check_ip_conflicts] substitutes. *)
Inductive value : Type :=
| VNone
| VInt (z : Z)
| VStr (s : string).

Global Instance value_eq_dec : EqDecision value.
Proof. solve_decision. Defined.

Global Instance value_countable : Countable value.
Proof.
  refine (inj_countable'
            (fun v => match v with
                      | VNone => inl tt
                      | VInt z => inr (inl z)
                      | VStr s => inr (inr s)
                      end)
            (fun x => match x with
                      | inl _ => VNone
                      | inr (inl z) => VInt z
                      | inr (inr s) => VStr s
                      end) _).
  intros []; reflexivity.
Defined.

Definition truthy (v : value) : bool :=
  match v with
  | VNone => false
  | VInt z => negb (Z.eqb z 0)
  | VStr s => negb (String.eqb s "")
  end.

(** Truth value of an optional string ([None] and [''] are false). *)
Definition str_truthy (s : option string) : bool :=
  match s with
  | Some s => negb (String.eqb s "")
  | None => false
  end.

(** *** Strings *)

(** [s.split(sep)] for a one-character separator. *)
Fixpoint split_on (sep : ascii) (s : string) : list string :=
  match s with
  | EmptyString => [EmptyString]
  | String c s' =>
      if Ascii.eqb c sep then EmptyString :: split_on sep s'
      else match split_on sep s' with
           | [] => [String c EmptyString]
           | w :: ws => String c w :: ws
           end
  end.

(** [sep.join(l)]. *)
Fixpoint join (sep : string) (l : list string) : string :=
  match l with
  | [] => ""
  | [x] => x
  | x :: l' => x ++ sep ++ join sep l'
  end.

(** [s[-1]]. *)
Fixpoint last_char (s : string) : result ascii :=
  match s with
  | EmptyString => Raise IndexError
  | String c EmptyString => Ok c
  | String _ s' => last_char s'
  end.

Definition is_space (c : ascii) : bool :=
  let n := nat_of_ascii c in
  ((9 <=? n) && (n <=? 13) || (28 <=? n) && (n <=? 32))%nat.

Definition digit_of (c : ascii) : option Z :=
  let n := nat_of_ascii c in
  if ((48 <=? n) && (n <=? 57))%nat then Some (Z.of_nat n - 48) else None.

Fixpoint lstrip (s : string) : string :=
  match s with
  | String c s' => if is_space c then lstrip s' else s
  | EmptyString => EmptyString
  end.

Fixpoint rstrip (s : string) : string :=
  match s with
  | EmptyString => EmptyString
  | String c s' =>
      match rstrip s' with
      | EmptyString => if is_space c then EmptyString else String c EmptyString
      | r => String c r
      end
  end.

(** Digits of an integer literal, with single underscores allowed between
    digits; [after_digit] tells whether the previous character was one. *)
Fixpoint digits (acc : Z) (after_digit : bool) (s : string) : option Z :=
  match s with
  | EmptyString => if after_digit then Some acc else None
  | String c s' =>
      match digit_of c with
      | Some d => digits (10 * acc + d) true s'
      | None =>
          if Ascii.eqb c "_"%char && after_digit then digits acc false s'
          else None
      end
  end.

(** The white space that [int] skips at both ends of an ASCII text: that
    of the C locale, without the separators 28 to 31 that [str.isspace]
    and the pattern [\s] accept. *)
Definition is_int_space (c : ascii) : bool :=
  let n := nat_of_ascii c in
  ((9 <=? n) && (n <=? 13) || (n =? 32))%nat.

Fixpoint skip_left (s : string) : string :=
  match s with
  | String c s' => if is_int_space c then skip_left s' else s
  | EmptyString => EmptyString
  end.

Fixpoint skip_right (s : string) : string :=
  match s with
  | EmptyString => EmptyString
  | String c s' =>
      match skip_right s' with
      | EmptyString => if is_int_space c then EmptyString else String c EmptyString
      | r => String c r
      end
  end.

(** The number of decimal digits in a text. *)
Fixpoint count_digits (s : string) : Z :=
  match s with
  | EmptyString => 0
  | String c s' =>
      (match digit_of c with Some _ => 1 | None => 0 end) + count_digits s'
  end.

(** [sys.get_int_max_str_digits()]: the interpreter's limit on the digits
    of an integer that is converted from or to a decimal text. *)
Definition max_str_digits : Z := 4300.

(** [int(s)] on ASCII text, base ten; a text with more digits than the
    limit raises [ValueError], like a text that is no integer literal. *)
Definition int (s : string) : result Z :=
  let body := skip_left (skip_right s) in
  let parsed :=
    match body with
    | String c r =>
        if Ascii.eqb c "-" then Z.opp <$> digits 0 false r
        else if Ascii.eqb c "+" then digits 0 false r
        else digits 0 false body
    | EmptyString => None
    end in
  match parsed with
  | Some z =>
      if Z.leb (count_digits body) max_str_digits then Ok z
      else Raise ValueError
  | None => Raise ValueError
  end.

(** The decimal numeral of an integer. *)
Definition decimal (z : Z) : string :=
  DecimalString.NilZero.string_of_int (Z.to_int z).

(** [str(z)] for an integer: its decimal numeral, or [ValueError] when it
    has more digits than the limit. *)
Definition str (z : Z) : result string :=
  let text := decimal z in
  if Z.leb (count_digits text) max_str_digits then Ok text
  else Raise ValueError.

(** [l[i]]. *)
Definition index {A} (l : list A) (i : nat) : result A :=
  match nth_error l i with
  | Some x => Ok x
  | None => Raise IndexError
  end.

(** *** Numbers: the score starts as the integer 0 and becomes a float *)
Inductive number : Type :=
| Int (z : Z)
| Float (f : float).

(** Conversion of a small non-negative integer to binary64 (exact below 2^53). *)
Definition float_of_Z (z : Z) : float := PrimFloat.of_uint63 (Uint63.of_Z z).

(** [float(i)] raises [OverflowError] from this integer on, the least that
    rounds to 2^1024. *)
Definition float_limit : Z := 2 ^ 1024 - 2 ^ 970.

(** [f"{n:.1f}"]: an integer is converted to a float first, which may
    overflow; the text itself is not kept. *)
Definition format_fixed (n : number) : result unit :=
  match n with
  | Int i => if Z.leb float_limit (Z.abs i) then Raise OverflowError else Ok tt
  | Float _ => Ok tt
  end.

(** [a / b] on integers: true division. *)
Definition truediv (a b : Z) : result float :=
  if Z.eqb b 0 then Raise ZeroDivisionError
  else Ok (PrimFloat.div (float_of_Z a) (float_of_Z b)).

End Py.

Import Py.


(** ** The graph library, as far as the sources use it

    [networkx] is outside the repository.  An undirected [nx.Graph] is a
    list of nodes in insertion order and a list of edges, each stored once
    in the orientation it was added with. *)

Module Nx.

Record Graph : Type := {
  nodes : list string;
  edges : list (string * string);
}.

Definition empty : Graph := {| nodes := []; edges := [] |}.

Definition has_node (g : Graph) (n : string) : bool :=
  bool_decide (n ∈ nodes g).

Definition adjacent (g : Graph) (u v : string) : Prop :=
  (u, v) ∈ edges g \/ (v, u) ∈ edges g.

Definition has_edge (g : Graph) (u v : string) : bool :=
  bool_decide (adjacent g u v).

(** [G.add_node(n)] *)
Definition add_node (n : string) (g : Graph) : Graph :=
  if has_node g n then g
  else {| nodes := nodes g ++ [n]; edges := edges g |}.

(** [G.add_edge(u, v)]: missing end points become nodes. *)
Definition add_edge (u v : string) (g : Graph) : Graph :=
  let g' := add_node v (add_node u g) in
  if has_edge g' u v then g'
  else {| nodes := nodes g'; edges := edges g' ++ [(u, v)] |}.

Definition neighbors (g : Graph) (u : string) : list string :=
  flat_map (fun e : string * string =>
              (if decide (e.1 = u) then [e.2] else []) ++
              (if decide (e.2 = u) then [e.1] else []))
           (edges g).

(** One round of breadth-first growth. *)
Definition expand (g : Graph) (S : gset string) : gset string :=
  S ∪ list_to_set (flat_map (neighbors g) (elements S)).

(** Growth until nothing new is found; [fuel] bounds the rounds. *)
Fixpoint closure (fuel : nat) (g : Graph) (S : gset string) : gset string :=
  match fuel with
  | O => S
  | Datatypes.S fuel' =>
      let S' := expand g S in
      if decide (S' ⊆ S) then S else closure fuel' g S'
  end.

(** The nodes reachable from [s]. *)
Definition component (g : Graph) (s : string) : gset string :=
  closure (length (nodes g)) g {[ s ]}.

(** [nx.has_path(G, source, target)] *)
Definition has_path (g : Graph) (source target : string) : result bool :=
  if negb (has_node g source) then Raise (NodeNotFound source)
  else if negb (has_node g target) then Raise (NodeNotFound target)
  else Ok (bool_decide (target ∈ component g source)).

Definition reaches (g : Graph) (u v : string) : bool :=
  bool_decide (v ∈ component g u).

Definition remove_node (v : string) (g : Graph) : Graph :=
  {| nodes := List.filter (fun n => negb (String.eqb n v)) (nodes g);
     edges := List.filter
                (fun e : string * string =>
                   negb (String.eqb e.1 v) && negb (String.eqb e.2 v))
                (edges g) |}.

Definition remove_edge (u v : string) (g : Graph) : Graph :=
  {| nodes := nodes g;
     edges := List.filter
                (fun e : string * string =>
                   negb (String.eqb e.1 u && String.eqb e.2 v) &&
                   negb (String.eqb e.1 v && String.eqb e.2 u))
                (edges g) |}.

(** A node whose removal separates two other nodes that were joined. *)
Definition is_articulation_point (g : Graph) (v : string) : bool :=
  existsb (fun a =>
    existsb (fun b =>
      negb (String.eqb a v) && negb (String.eqb b v) &&
      reaches g a b && negb (reaches (remove_node v g) a b))
    (nodes g))
  (nodes g).

(** [nx.articulation_points(G)]: each such node once.  The library yields
    them as its depth-first search finishes with them; this enumeration
    lists them in node order, so only what does not depend on the order is
    stated of it. *)
Definition articulation_points (g : Graph) : list string :=
  List.filter (is_articulation_point g) (nodes g).

(** An edge whose removal separates its end points. *)
Definition is_bridge (g : Graph) (e : string * string) : bool :=
  negb (reaches (remove_edge e.1 e.2 g) e.1 e.2).

(** [nx.bridges(G)]: the edges of the graph that are bridges, each once.
    The library names a bridge from the end that became a node first; this
    enumeration keeps the order and the ends of [add_edge], so only what
    does not depend on them is stated of it. *)
Definition bridges (g : Graph) : list (string * string) :=
  List.filter (is_bridge g) (edges g).

(** [nx.DiGraph(G)]: every edge in both directions. *)
Record DiGraph : Type := {
  dnodes : list string;
  arcs : list (string * string);
}.

Definition to_directed (g : Graph) : DiGraph :=
  {| dnodes := nodes g;
     arcs := flat_map (fun e : string * string =>
                         if decide (e.1 = e.2) then [e] else [e; (e.2, e.1)])
                      (edges g) |}.

Definition successors (g : DiGraph) (u : string) : list string :=
  flat_map (fun a : string * string => if decide (a.1 = u) then [a.2] else [])
           (arcs g).

(** The simple paths from [current] that return to [start] through
    [allowed] nodes only; [visited] is the path so far, last node first. *)
Fixpoint cycles_from (fuel : nat) (g : DiGraph) (allowed : list string)
    (start : string) (visited : list string) (current : string)
  : list (list string) :=
  match fuel with
  | O => []
  | Datatypes.S fuel' =>
      flat_map
        (fun next =>
           if decide (next = start) then [rev visited]
           else if bool_decide (next ∈ allowed) && negb (bool_decide (next ∈ visited))
                then cycles_from fuel' g allowed start (next :: visited) next
                else [])
        (successors g current)
  end.

Fixpoint cycles_rooted (fuel : nat) (g : DiGraph) (roots : list string)
  : list (list string) :=
  match roots with
  | [] => []
  | start :: later =>
      cycles_from fuel g later start [start] start ++ cycles_rooted fuel g later
  end.

(** A model of [nx.simple_cycles]: every elementary circuit once, listed
    from its first node in node order.  The library fixes no order. *)
Definition simple_cycles (g : DiGraph) : result (list (list string)) :=
  Ok (cycles_rooted (length (dnodes g)) g (dnodes g)).

End Nx.

(** ** Device records and links *)

Module Model.

Record Interface : Type := {
  if_name : option string;          (* absent: [interface['name']] raises *)
  if_ip_address : option string;    (* [None] also when the key is absent *)
  if_subnet_mask : option string;
  if_vlan : option value;           (* absent key and [None] are told apart *)
  if_mtu : option Z;
  if_bandwidth : option Z;
}.

Record Vlan : Type := {
  vlan_id : value;                  (* [vlan.get('id')] *)
  vlan_name : option string;
}.

Record RoutingProtocol : Type := {
  protocol : option string;
  protocol_number : option Z;
}.

(** A parsed configuration; a field is [None] when its key is absent. *)
Record Device : Type := {
  device_name : option string;
  device_type : option string;
  interfaces : option (list Interface);
  vlans : option (list Vlan);
  routing_protocols : option (list RoutingProtocol);
  ip_addresses : option (list string);
}.

Definition present {A} (field : option A) : bool :=
  match field with Some _ => true | None => false end.

(** [bool(device_config)]: a dictionary is false only when empty. *)
Definition nonempty (d : Device) : bool :=
  present (device_name d) || present (device_type d)
  || present (interfaces d) || present (vlans d)
  || present (routing_protocols d) || present (ip_addresses d).

(** One end of a link. *)
Record Endpoint : Type := {
  device_id : string;
  interface : string;
  ip_address : option string;
  bandwidth : option Z;
}.

Record Link : Type := {
  device1 : Endpoint;
  device2 : Endpoint;
  subnet : option string;
  bandwidth_mbps : Z;
  current_utilization : Z;
}.

(** [d[key]] on a field that may be absent. *)
Definition require {A} (key : string) (field : option A) : result A :=
  match field with
  | Some a => Ok a
  | None => Raise (KeyError key)
  end.

(** [device_config.get('interfaces', [])] *)
Definition interfaces_of (d : Device) : list Interface :=
  default [] (interfaces d).

(** [device_config.get('device_type') == role] *)
Definition has_role (role : string) (d : Device) : bool :=
  bool_decide (device_type d = Some role).

End Model.

Import Model.

(** ** [config_parser.py]: the numeric fields of an interface *)

Module ConfigParser.

Definition is_digit (c : ascii) : bool :=
  match digit_of c with Some _ => true | None => false end.

Fixpoint leading_digits (s : string) : string :=
  match s with
  | String c s' => if is_digit c then String c (leading_digits s') else EmptyString
  | EmptyString => EmptyString
  end.

Fixpoint strip_prefix (p s : string) : option string :=
  match p, s with
  | EmptyString, _ => Some s
  | String a p', String b s' => if Ascii.eqb a b then strip_prefix p' s' else None
  | String _ _, EmptyString => None
  end.

(** A match of [keyword\s+(\d+)] at the start of [s]: its group. *)
Definition match_at (keyword s : string) : option string :=
  match strip_prefix keyword s with
  | Some (String c rest) =>
      if is_space c then
        let group := leading_digits (lstrip rest) in
        if String.eqb group "" then None else Some group
      else None
  | _ => None
  end.

(** [re.search(keyword + r'\s+(\d+)', s)]: the group of the leftmost
    match, on ASCII text. *)
Fixpoint search (keyword s : string) : option string :=
  match match_at keyword s with
  | Some group => Some group
  | None =>
      match s with
      | String _ s' => search keyword s'
      | EmptyString => None
      end
  end.

(** [_extract_mtu_from_interface] *)
Definition _extract_mtu_from_interface (interface_config : string) : result Z :=
  match search "mtu" interface_config with
  | Some group => Py.int group
  | None => Ok 1500
  end.

(** [_extract_bandwidth_from_interface] *)
Definition _extract_bandwidth_from_interface (interface_config : string)
  : result Z :=
  match search "bandwidth" interface_config with
  | Some group => Py.int group
  | None => Ok 100000
  end.

End ConfigParser.

(** ** [network_topology.py] *)

Module Topology.

(** The state of a [NetworkTopology] object. *)
Record NetworkTopology : Type := {
  graph : Nx.Graph;
  devices : dict string Device;
  links : dict string Link;
}.

Definition init : NetworkTopology :=
  {| graph := Nx.empty; devices := []; links := [] |}.

(** [_calculate_subnet]: no exception is handled here. *)
Definition _calculate_subnet (ip_address subnet_mask : string) : result string :=
  ip_parts ← map_result Py.int (split_on "." ip_address);
  mask_parts ← map_result Py.int (split_on "." subnet_mask);
  subnet_parts ← map_result
    (fun i => a ← index ip_parts i; b ← index mask_parts i; mret (Z.land a b))
    [0; 1; 2; 3]%nat;
  texts ← map_result Py.str subnet_parts;
  mret (join "." texts).

(** The body of the inner loop that groups interfaces by subnet. *)
Definition group_interface (device_id : string) (interface : Interface)
    (subnet_devices : dict string (list Endpoint))
  : result (dict string (list Endpoint)) :=
  match if_ip_address interface, if_subnet_mask interface with
  | Some ip_address, Some subnet_mask =>
      if str_truthy (Some ip_address) && str_truthy (Some subnet_mask) then
        subnet ← _calculate_subnet ip_address subnet_mask;
        name ← require "name" (if_name interface);
        mret (append_to subnet
                {| device_id := device_id;
                   interface := name;
                   ip_address := Some ip_address;
                   bandwidth := Some (default 100 (if_bandwidth interface)) |}
                subnet_devices)
      else Ok subnet_devices
  | _, _ => Ok subnet_devices
  end.

Definition group_device (entry : string * Device)
    (subnet_devices : dict string (list Endpoint))
  : result (dict string (list Endpoint)) :=
  for_each (group_interface entry.1) (default [] (interfaces entry.2))
           subnet_devices.

(** The first loop of [_build_connections]. *)
Definition group_by_subnet (devices : dict string Device)
  : result (dict string (list Endpoint)) :=
  for_each group_device devices [].

Definition link_id (device1 device2 : string) : string :=
  device1 ++ "-" ++ device2.

(** [_add_link] *)
Definition _add_link (device1 device2 : Endpoint) (subnet : string)
    (self : NetworkTopology) : result NetworkTopology :=
  let id := link_id (device_id device1) (device_id device2) in
  b1 ← require "bandwidth" (bandwidth device1);
  b2 ← require "bandwidth" (bandwidth device2);
  let link_bandwidth := Z.min b1 b2 in
  mret {| graph := Nx.add_edge (device_id device1) (device_id device2) (graph self);
          devices := devices self;
          links := Py.set id
                     {| device1 := device1;
                        device2 := device2;
                        subnet := Some subnet;
                        bandwidth_mbps := link_bandwidth;
                        current_utilization := 0 |}
                     (links self) |}.

(** [for i, device1 in enumerate(l): for device2 in l[i+1:]] *)
Fixpoint pairs {A} (l : list A) : list (A * A) :=
  match l with
  | [] => []
  | x :: l' => map (pair x) l' ++ pairs l'
  end.

(** The [_add_link] calls that one subnet group causes, in order. *)
Definition group_links (group : string * list Endpoint)
  : list (Endpoint * Endpoint * string) :=
  if (1 <? length group.2)%nat
  then map (fun p => (p.1, p.2, group.1)) (pairs group.2)
  else [].

(** The second loop of [_build_connections]. *)
Definition add_subnet_links (subnet_devices : dict string (list Endpoint))
    (self : NetworkTopology) : result NetworkTopology :=
  for_each (fun call => _add_link call.1.1 call.1.2 call.2)
           (flat_map group_links subnet_devices) self.

(** [_shares_vlan_segment] *)
Definition _shares_vlan_segment (device_config : Device)
    (switch_vlans : list value) : bool :=
  let device_vlans :=
    flat_map (fun interface : Interface =>
                match if_vlan interface with
                | Some v => if truthy v then [v] else []
                | None => []
                end)
             (default [] (interfaces device_config)) in
  bool_decide
    ((list_to_set device_vlans : gset value) ∩ list_to_set switch_vlans ≠ ∅).

Definition mgmt (id : string) : Endpoint :=
  {| device_id := id; interface := "mgmt";
     ip_address := None; bandwidth := None |}.

(** [_add_switch_link] *)
Definition _add_switch_link (switch_id device_id : string)
    (self : NetworkTopology) : NetworkTopology :=
  let id := link_id switch_id device_id in
  if negb (contains id (links self))
     && negb (contains (link_id device_id switch_id) (links self))
  then {| graph := graph self;
          devices := devices self;
          links := Py.set id
                     {| device1 := mgmt switch_id;
                        device2 := mgmt device_id;
                        subnet := None;
                        bandwidth_mbps := 1000;
                        current_utilization := 0 |}
                     (links self) |}
  else self.

(** The test that guards the two strategies. *)
Definition may_attach (switch_id other_id : string)
    (self : NetworkTopology) : bool :=
  negb (String.eqb other_id switch_id)
  && negb (bool_decide
             (switch_id ∈ map (fun link : Link => device_id (device1 link))
                            (values (links self)))).

(** The body of the inner loop of [_connect_switches_to_segments]. *)
Definition try_attach (switch_id : string) (switch_vlans : list value)
    (other : string * Device) (self : NetworkTopology)
  : result NetworkTopology :=
  if may_attach switch_id other.1 self then
    if _shares_vlan_segment other.2 switch_vlans then
      Ok (_add_switch_link switch_id other.1 self)
    else if has_role "router" other.2 then
      switch_num ← last_char switch_id;
      router_num ← last_char other.1;
      if Ascii.eqb switch_num router_num
      then Ok (_add_switch_link switch_id other.1 self)
      else Ok self
    else Ok self
  else Ok self.

Definition connect_switch (switch : string * Device)
    (self : NetworkTopology) : result NetworkTopology :=
  let switch_vlans := map vlan_id (default [] (vlans switch.2)) in
  for_each (try_attach switch.1 switch_vlans) (devices self) self.

(** [_connect_switches_to_segments] *)
Definition _connect_switches_to_segments (self : NetworkTopology)
  : result NetworkTopology :=
  let switches :=
    List.filter (fun entry : string * Device => has_role "switch" entry.2)
                (devices self) in
  for_each connect_switch switches self.

(** [_build_connections] *)
Definition _build_connections (self : NetworkTopology)
  : result NetworkTopology :=
  subnet_devices ← group_by_subnet (devices self);
  self' ← add_subnet_links subnet_devices self;
  _connect_switches_to_segments self'.

(** The registration loop of [build_topology_from_configs]; a
    configuration that parsed to the empty dictionary is skipped. *)
Definition register (device_config : Device) (self : NetworkTopology)
  : result NetworkTopology :=
  if nonempty device_config then
    id ← require "device_name" (device_name device_config);
    mret {| graph := Nx.add_node id (graph self);
            devices := Py.set id device_config (devices self);
            links := links self |}
  else Ok self.

(** [build_topology_from_configs], from the parsed files on. *)
Definition build_topology_from_configs (configs : list Device)
  : result NetworkTopology :=
  self ← for_each register configs init;
  _build_connections self.

(** The links that carry a subnet tag. *)
Definition subnet_links (self : NetworkTopology) : list (string * Link) :=
  List.filter (fun kv : string * Link => present (subnet kv.2)) (links self).


End Topology.

(** ** [validator.py] *)

Module Validator.

(** What the validator reads of an exported topology. *)
Record TopologyData : Type := {
  td_devices : dict string Device;
  td_links : dict string Link;
}.

(** The traffic summary, as far as [check_capacity_adequacy] reads it. *)
Record Utilization : Type := {
  utilization_percent : option number;
}.

Record Traffic : Type := {
  link_utilization : option (dict string Utilization);
}.

Inductive Severity : Type := Critical | Warning | Suggestion.

Global Instance Severity_eq_dec : EqDecision Severity.
Proof. solve_decision. Defined.

Inductive Status : Type := StPass | StFail | StWarning | StError.

Global Instance Status_eq_dec : EqDecision Status.
Proof. solve_decision. Defined.

(** One member of an address conflict. *)
Record ConflictEntry : Type := {
  ce_device : string;
  ce_interface : string;
  ce_vlan : value;
}.

Global Instance ConflictEntry_eq_dec : EqDecision ConflictEntry.
Proof. solve_decision. Defined.

(** The structured part of an issue; its texts are formatted from it. *)
Inductive Finding : Type :=
| IpConflict (ip_address : string) (vlan : value)
             (conflicting_devices : list ConflictEntry)
| Loop (devices_in_loop : list string) (loop_length : nat)
| NoSpanningTree (device : string)
| NoPathToRouter (endpoint : string)
| NoDhcp (subnet : string)
| DeviceSpof (device : string) (device_type : string)
| LinkSpof (device1 device2 : string)
| Overloaded (link_id : string) (utilization : number)
| NearCapacity (link_id : string) (utilization : number)
| OtherFinding (text : string).

Record Issue : Type := {
  severity : Severity;
  finding : Finding;
}.

Record RuleResult : Type := {
  status : Status;
  issues : list Issue;
  suggestions : list string;
}.

Definition is_critical (i : Issue) : bool :=
  bool_decide (severity i = Critical).

(** ['fail' if any critical else 'warning' if issues else 'pass'] *)
Definition status_of (issues : list Issue) : Status :=
  if existsb is_critical issues then StFail
  else match issues with
       | [] => StPass
       | _ :: _ => StWarning
       end.

(** The undirected graph of all devices and links. *)
Definition add_link_edges (links : dict string Link) (g : Nx.Graph) : Nx.Graph :=
  fold_left (fun g (kv : string * Link) =>
               Nx.add_edge (device_id (device1 kv.2)) (device_id (device2 kv.2)) g)
            links g.

Definition add_device_nodes (ids : list string) (g : Nx.Graph) : Nx.Graph :=
  fold_left (fun g id => Nx.add_node id g) ids g.

Definition connectivity_graph (topology_data : TopologyData) : Nx.Graph :=
  add_link_edges (td_links topology_data)
    (add_device_nodes (keys (td_devices topology_data)) Nx.empty).

(** *** [check_ip_conflicts] *)

Abbreviation ip_key := (string * value)%type.

Definition record_interface (device_id : string) (interface : Interface)
    (ip_usage : dict ip_key (list ConflictEntry))
  : result (dict ip_key (list ConflictEntry)) :=
  let vlan := default (VStr "default") (if_vlan interface) in
  match if_ip_address interface with
  | Some ip_address =>
      if str_truthy (Some ip_address) then
        name ← require "name" (if_name interface);
        mret (append_to (ip_address, vlan)
                {| ce_device := device_id; ce_interface := name; ce_vlan := vlan |}
                ip_usage)
      else Ok ip_usage
  | None => Ok ip_usage
  end.

Definition record_device (entry : string * Device)
    (ip_usage : dict ip_key (list ConflictEntry))
  : result (dict ip_key (list ConflictEntry)) :=
  for_each (record_interface entry.1) (default [] (interfaces entry.2)) ip_usage.

Definition collect_ip_usage (devices : dict string Device)
  : result (dict ip_key (list ConflictEntry)) :=
  for_each record_device devices [].

Definition conflict_of (group : ip_key * list ConflictEntry) : list Issue :=
  if (1 <? length group.2)%nat
  then [ {| severity := Critical;
            finding := IpConflict group.1.1 group.1.2 group.2 |} ]
  else [].

(** [f"{vlan}"]; a VLAN number is an integer that [int] returned, whose
    numeral has no more digits than the limit of [str]. *)
Definition format_value (v : value) : string :=
  match v with
  | VNone => "None"
  | VInt z => Py.decimal z
  | VStr s => s
  end.

Definition conflict_suggestion (i : Issue) : list string :=
  match finding i with
  | IpConflict ip vlan _ =>
      [("Resolve IP conflict for " ++ ip ++ " in VLAN " ++ format_value vlan)%string]
  | _ => []
  end.

Definition check_ip_conflicts (topology_data : TopologyData) : result RuleResult :=
  ip_usage ← collect_ip_usage (td_devices topology_data);
  let conflicts := flat_map conflict_of ip_usage in
  mret {| status := match conflicts with [] => StPass | _ :: _ => StFail end;
          issues := conflicts;
          suggestions := flat_map conflict_suggestion conflicts |}.

(** *** [check_missing_components] *)

(** The first loop: routers and end points, in device order. *)
Definition classify (entry : string * Device)
    (acc : list string * list string) : result (list string * list string) :=
  role ← require "device_type" (device_type entry.2);
  if String.eqb role "router" then Ok (acc.1 ++ [entry.1], acc.2)
  else if String.eqb role "endpoint" then Ok (acc.1, acc.2 ++ [entry.1])
  else Ok acc.

(** [for router in routers: if nx.has_path(...): found; break] *)
Fixpoint connected_to_router (g : Nx.Graph) (endpoint : string)
    (routers : list string) : result bool :=
  match routers with
  | [] => Ok false
  | router :: routers' =>
      found ← Nx.has_path g endpoint router;
      if found : bool then Ok true else connected_to_router g endpoint routers'
  end.

Definition check_endpoint (g : Nx.Graph) (routers : list string)
    (endpoint : string) : result (list Issue) :=
  connected ← connected_to_router g endpoint routers;
  if connected : bool then Ok []
  else Ok [ {| severity := Critical; finding := NoPathToRouter endpoint |} ].

(** The set [subnets]; Python fixes no order for the loop over it, here
    it is the order of [elements]. *)
Definition link_subnets (links : dict string Link) : gset string :=
  list_to_set
    (flat_map (fun kv : string * Link =>
                 match subnet kv.2 with
                 | Some s => if str_truthy (Some s) then [s] else []
                 | None => []
                 end) links).

Definition check_missing_components (topology_data : TopologyData)
  : result RuleResult :=
'(routers, endpoints) ← for_each classify (td_devices topology_data) ([], []);
  let g := connectivity_graph topology_data in
  unreachable ← map_result (check_endpoint g routers) endpoints;
  let dhcp :=
    flat_map (fun s => if (length routers =? 0)%nat
                       then [ {| severity := Warning; finding := NoDhcp s |} ]
                       else [])
             (elements (link_subnets (td_links topology_data))) in
  let missing_components := concat unreachable ++ dhcp in
  mret {| status := status_of missing_components;
          issues := missing_components;
          suggestions :=
            ["Ensure all endpoints have connectivity to network infrastructure"] |}.

(** *** [check_redundancy] *)

Definition device_issue (topology_data : TopologyData) (node : string)
  : result Issue :=
  device_config ← require node (get node (td_devices topology_data));
  role ← require "device_type" (device_type device_config);
  mret {| severity := if String.eqb role "router" then Critical else Warning;
          finding := DeviceSpof node role |}.

Definition bridge_issue (bridge : string * string) : Issue :=
  {| severity := Warning; finding := LinkSpof bridge.1 bridge.2 |}.

(** [check_redundancy], for what the two queries of the graph library
    yield: the issues follow the library's order, and a bridge is named
    from the end the library names first. *)
Definition check_redundancy_with
    (articulation_points : Nx.Graph -> list string)
    (bridges : Nx.Graph -> list (string * string))
    (topology_data : TopologyData) : result RuleResult :=
  let g := connectivity_graph topology_data in
  device_issues ← map_result (device_issue topology_data) (articulation_points g);
  let redundancy_issues := device_issues ++ map bridge_issue (bridges g) in
  mret {| status := status_of redundancy_issues;
          issues := redundancy_issues;
          suggestions :=
            ["Implement redundant paths and eliminate single points of failure"] |}.

(** The rule with the enumerations of module [Nx]. *)
Definition check_redundancy : TopologyData -> result RuleResult :=
  check_redundancy_with Nx.articulation_points Nx.bridges.

(** *** [check_capacity_adequacy] *)

(** [n > z] for a number and an integer literal. *)
Definition exceeds (n : number) (z : Z) : bool :=
  match n with
  | Int i => Z.ltb z i
  | Float f => PrimFloat.ltb (float_of_Z z) f
  end.

(** The body of the loop over the links: the issue of a link is built
    with its text, and formatting the percentage may raise. *)
Definition capacity_issue (entry : string * Utilization)
  : result (list Issue) :=
  let percent := default (Int 0) (utilization_percent entry.2) in
  if exceeds percent 90 then
    _ ← format_fixed percent;
    mret [ {| severity := Critical; finding := Overloaded entry.1 percent |} ]
  else if exceeds percent 75 then
    _ ← format_fixed percent;
    mret [ {| severity := Warning; finding := NearCapacity entry.1 percent |} ]
  else Ok [].

(** The argument is [None] for a traffic summary that is false. *)
Definition check_capacity_adequacy (topology_data : TopologyData)
    (traffic_analysis : option Traffic) : result RuleResult :=
  match traffic_analysis with
  | None => Ok {| status := StPass; issues := []; suggestions := [] |}
  | Some traffic =>
      found ← map_result capacity_issue (default [] (link_utilization traffic));
      let capacity_issues := concat found in
      Ok {| status := status_of capacity_issues;
            issues := capacity_issues;
            suggestions :=
              ["Monitor link utilization and plan capacity upgrades proactively"] |}
  end.

(** *** [check_network_loops] *)

Fixpoint lower (s : string) : string :=
  match s with
  | EmptyString => EmptyString
  | String c s' =>
      let n := nat_of_ascii c in
      String (if ((65 <=? n) && (n <=? 90))%nat then ascii_of_nat (n + 32) else c)
             (lower s')
  end.

(** [needle in s] *)
Fixpoint occurs (needle s : string) : bool :=
  String.prefix needle s ||
  match s with
  | EmptyString => false
  | String _ s' => occurs needle s'
  end.

Section Loops.
(** [nx.simple_cycles] on a directed graph, and [str] of a device
    record: both are taken as given. *)
Variable simple_cycles : Nx.DiGraph -> result (list (list string)).
Variable device_str : Device -> string.

Definition is_router_or_switch (role : string) : bool :=
  String.eqb role "router" || String.eqb role "switch".

Definition add_infrastructure_node (entry : string * Device) (g : Nx.Graph)
  : result Nx.Graph :=
  role ← require "device_type" (device_type entry.2);
  if is_router_or_switch role then Ok (Nx.add_node entry.1 g) else Ok g.

Definition add_infrastructure_edge (g : Nx.Graph) (kv : string * Link)
  : Nx.Graph :=
  let device1 := device_id (device1 kv.2) in
  let device2 := device_id (device2 kv.2) in
  if Nx.has_node g device1 && Nx.has_node g device2
  then Nx.add_edge device1 device2 g
  else g.

Definition loop_issue (cycle : list string) : list Issue :=
  if (2 <? length cycle)%nat
  then [ {| severity := Warning; finding := Loop cycle (length cycle) |} ]
  else [].

(** The [try] block around the cycle search; its bare [except] passes. *)
Definition find_loops (g : Nx.Graph) : list Issue :=
  match simple_cycles (Nx.to_directed g) with
  | Ok cycles => flat_map loop_issue cycles
  | Raise _ => []
  end.

Definition stp_issue (entry : string * Device) : result (list Issue) :=
  role ← require "device_type" (device_type entry.2);
  if String.eqb role "switch" then
    if negb (occurs "spanning-tree" (lower (device_str entry.2)))
    then Ok [ {| severity := Warning; finding := NoSpanningTree entry.1 |} ]
    else Ok []
  else Ok [].

(** The graph of routers and switches and the links between them. *)
Definition infrastructure_graph (topology_data : TopologyData)
  : result Nx.Graph :=
  g0 ← for_each add_infrastructure_node (td_devices topology_data) Nx.empty;
  mret (fold_left add_infrastructure_edge (td_links topology_data) g0).

Definition check_network_loops (topology_data : TopologyData)
  : result RuleResult :=
  g ← infrastructure_graph topology_data;
  let loops := find_loops g in
  stp ← map_result stp_issue (td_devices topology_data);
  let all_issues := loops ++ concat stp in
  mret {| status := match all_issues with [] => StPass | _ :: _ => StWarning end;
          issues := all_issues;
          suggestions :=
            ["Enable and configure spanning-tree protocol on all switches";
             "Consider implementing rapid spanning-tree (RSTP) for faster convergence"] |}.
End Loops.

(** *** [validate_network_configuration] *)

(** An entry of [detailed_results]: a rule's result, or the error record
    that the handler stores. *)
Inductive Entry : Type :=
| Evaluated (result : RuleResult)
| Errored (error : exn).

Definition entry_status (e : Entry) : Status :=
  match e with
  | Evaluated r => status r
  | Errored _ => StError
  end.

Record ValidationResults : Type := {
  overall_score : number;
  total_checks : nat;
  passed_checks : Z;
  failed_checks : Z;
  warnings : Z;
  critical_issues : list Issue;
  warnings_list : list Issue;
  optimization_suggestions : list string;
  detailed_results : dict string Entry;
}.

(** A registered rule takes the topology, and the capacity rule the
    traffic summary as well. *)
Inductive Rule : Type :=
| Unary (f : TopologyData -> result RuleResult)
| Binary (f : TopologyData -> option Traffic -> result RuleResult).

(** A call with the wrong number of arguments raises [TypeError]. *)
Definition call (rule : Rule) (topology_data : TopologyData)
    (extra : option (option Traffic)) : result RuleResult :=
  match rule, extra with
  | Unary f, None => f topology_data
  | Binary f, Some traffic => f topology_data traffic
  | _, _ => Raise TypeError
  end.

Definition initial (rules : dict string Rule) : ValidationResults :=
  {| overall_score := Int 0;
     total_checks := length rules;
     passed_checks := 0;
     failed_checks := 0;
     warnings := 0;
     critical_issues := [];
     warnings_list := [];
     optimization_suggestions := [];
     detailed_results := [] |}.

(** The [try] body after the rule has returned [result]. *)
Definition record_result (rule_name : string) (result : RuleResult)
    (vr : ValidationResults) : ValidationResults :=
  {| overall_score := overall_score vr;
     total_checks := total_checks vr;
     passed_checks :=
       match status result with
       | StPass => passed_checks vr + 1
       | _ => passed_checks vr
       end;
     failed_checks :=
       match status result with
       | StFail => failed_checks vr + 1
       | _ => failed_checks vr
       end;
     warnings :=
       match status result with
       | StWarning => warnings vr + 1
       | _ => warnings vr
       end;
     critical_issues :=
       match status result with
       | StFail => critical_issues vr ++ issues result
       | _ => critical_issues vr
       end;
     warnings_list :=
       match status result with
       | StWarning => warnings_list vr ++ issues result
       | _ => warnings_list vr
       end;
     optimization_suggestions :=
       optimization_suggestions vr ++ suggestions result;
     detailed_results :=
       Py.set rule_name (Evaluated result) (detailed_results vr) |}.

(** The [except Exception] handler. *)
Definition record_error (rule_name : string) (e : exn)
    (vr : ValidationResults) : ValidationResults :=
  {| overall_score := overall_score vr;
     total_checks := total_checks vr;
     passed_checks := passed_checks vr;
     failed_checks := failed_checks vr;
     warnings := warnings vr;
     critical_issues := critical_issues vr;
     warnings_list := warnings_list vr;
     optimization_suggestions := optimization_suggestions vr;
     detailed_results :=
       Py.set rule_name (Errored e) (detailed_results vr) |}.

(** What the rule called [rule_name] does in this run. *)
Definition outcome (topology_data : TopologyData)
    (traffic_analysis : option Traffic) (rule_name : string) (rule : Rule)
  : result RuleResult :=
  if String.eqb rule_name "capacity_validation" && present traffic_analysis
  then call rule topology_data (Some traffic_analysis)
  else call rule topology_data None.

(** One iteration of the loop over the rules. *)
Definition run_rule (topology_data : TopologyData)
    (traffic_analysis : option Traffic)
    (vr : ValidationResults) (entry : string * Rule) : ValidationResults :=
  match outcome topology_data traffic_analysis entry.1 entry.2 with
  | Ok result => record_result entry.1 result vr
  | Raise e => record_error entry.1 e vr
  end.

(** [(passed * 100 + warnings * 50) / (total * 100) * 100] *)
Definition score (passed warned total : Z) : result float :=
  q ← truediv (passed * 100 + warned * 50) (total * 100);
  mret (PrimFloat.mul q (float_of_Z 100)).

Definition with_score (vr : ValidationResults) (s : number) : ValidationResults :=
  {| overall_score := s;
     total_checks := total_checks vr;
     passed_checks := passed_checks vr;
     failed_checks := failed_checks vr;
     warnings := warnings vr;
     critical_issues := critical_issues vr;
     warnings_list := warnings_list vr;
     optimization_suggestions := optimization_suggestions vr;
     detailed_results := detailed_results vr |}.

(** The body of [validate_network_configuration] for a rule table. *)
Definition run_validation (rules : dict string Rule)
    (topology_data : TopologyData) (traffic_analysis : option Traffic)
  : result ValidationResults :=
  let vr := fold_left (run_rule topology_data traffic_analysis) rules
                      (initial rules) in
  let total := passed_checks vr + failed_checks vr + warnings vr in
  if Z.ltb 0 total then
    s ← score (passed_checks vr) (warnings vr) total;
    mret (with_score vr (Float s))
  else Ok vr.

Section Registry.
(** The library calls of [check_network_loops] and the five rules that
    are not modelled further are arbitrary. *)
Variable simple_cycles : Nx.DiGraph -> result (list (list string)).
Variable device_str : Device -> string.
Variable check_vlan_consistency : TopologyData -> result RuleResult.
Variable check_gateway_configuration : TopologyData -> result RuleResult.
Variable check_mtu_mismatches : TopologyData -> result RuleResult.
Variable check_routing_protocol_optimization : TopologyData -> result RuleResult.
Variable check_security_zones : TopologyData -> result RuleResult.

(** [self.validation_rules], in registration order. *)
Definition validation_rules : dict string Rule :=
  [ ("ip_conflicts", Unary check_ip_conflicts);
    ("vlan_consistency", Unary check_vlan_consistency);
    ("gateway_validation", Unary check_gateway_configuration);
    ("mtu_mismatches", Unary check_mtu_mismatches);
    ("network_loops", Unary (check_network_loops simple_cycles device_str));
    ("missing_components", Unary check_missing_components);
    ("routing_optimization", Unary check_routing_protocol_optimization);
    ("security_zones", Unary check_security_zones);
    ("redundancy_analysis", Unary check_redundancy);
    ("capacity_validation", Binary check_capacity_adequacy) ].

Definition validate_network_configuration (topology_data : TopologyData)
    (traffic_analysis : option Traffic) : result ValidationResults :=
  run_validation validation_rules topology_data traffic_analysis.
End Registry.

End Validator.

Import Validator Topology.


(** * Specification vocabulary *)

Module Grouping.
Section Group.
Context {K A : Type} `{EqDecision K}.
Implicit Types (d : dict K (list A)) (k : K) (entries : list (K * A)).

(** The dictionary after [d[k].append(x)] for every entry in turn. *)
Definition group_by entries d : dict K (list A) :=
  fold_left (fun d (e : K * A) => append_to e.1 e.2 d) entries d.

(** The entries filed under [k], in order. *)
Definition members k entries : list A :=
  map snd (List.filter (fun e : K * A => bool_decide (e.1 = k)) entries).

End Group.
End Grouping.

Module Builder.
Import Grouping.

(** The subnet key and member record of an interface with an address and
    a mask. *)
Definition subnet_member (device_id : string) (i : Interface)
  : result (list (string * Endpoint)) :=
  match if_ip_address i, if_subnet_mask i with
  | Some ip_address, Some subnet_mask =>
      if str_truthy (Some ip_address) && str_truthy (Some subnet_mask) then
        subnet ← _calculate_subnet ip_address subnet_mask;
        name ← require "name" (if_name i);
        mret [ (subnet,
                {| device_id := device_id;
                   interface := name;
                   ip_address := Some ip_address;
                   bandwidth := Some (default 100 (if_bandwidth i)) |}) ]
      else Ok []
  | _, _ => Ok []
  end.

Definition device_members (entry : string * Device)
  : result (list (string * Endpoint)) :=
  l ← map_result (subnet_member entry.1) (interfaces_of entry.2); mret (concat l).

(** All such interfaces of all devices with their keys, in order. *)
Definition subnet_members (devices : dict string Device)
  : result (list (string * Endpoint)) :=
  l ← map_result device_members devices; mret (concat l).

Abbreviation call := (Endpoint * Endpoint * string)%type.

(** The entry that [_add_link] stores for one call. *)
Definition planned_link (c : call) : string * Link :=
  (link_id (device_id c.1.1) (device_id c.1.2),
   {| device1 := c.1.1;
      device2 := c.1.2;
      subnet := Some c.2;
      bandwidth_mbps := Z.min (default 0 (bandwidth c.1.1))
                              (default 0 (bandwidth c.1.2));
      current_utilization := 0 |}).




Definition first_device (kv : string * Link) : string := device_id (device1 kv.2).

(** The entry that [_add_switch_link] stores. *)
Definition switch_link (switch_id other_id : string) : string * Link :=
  (link_id switch_id other_id,
   {| device1 := mgmt switch_id;
      device2 := mgmt other_id;
      subnet := None;
      bandwidth_mbps := 1000;
      current_utilization := 0 |}).

(** What the switch phase has added so far to the links [base] of the
    subnet phase: management links only, at most one per switch, from a
    switch that is the first end of no earlier link, to another device. *)
Definition management_link (devs : dict string Device) (kv : string * Link)
  : Prop :=
  exists switch_id cfg other_id,
    kv = switch_link switch_id other_id
    /\ (switch_id, cfg) ∈ devs /\ has_role "switch" cfg = true
    /\ other_id ∈ keys devs /\ other_id ≠ switch_id.

Definition attached (devs : dict string Device) (base : dict string Link)
    (self : NetworkTopology) : Prop :=
  devices self = devs
  /\ exists extra,
       links self = base ++ extra
       /\ Forall (management_link devs) extra
       /\ NoDup (map first_device extra)
       /\ (forall kv, kv ∈ extra -> first_device kv ∉ map first_device base).

(** The last characters of two ids are the same. *)
Definition same_last_char (a b : string) : bool :=
  match last_char a, last_char b with
  | Ok x, Ok y => Ascii.eqb x y
  | _, _ => false
  end.

(** One of the two strategies selects [other] for [switch]: a VLAN that
    the switch declares is carried by an interface of [other], or [other]
    is a router whose id ends like that of the switch. *)
Definition wanted (switch other : string * Device) : bool :=
  _shares_vlan_segment other.2 (map vlan_id (default [] (vlans switch.2)))
  || has_role "router" other.2 && same_last_char switch.1 other.1.

(** A link is stored under the id of one of the two orderings. *)
Definition joined (a b : string) (links : dict string Link) : bool :=
  contains (link_id a b) links || contains (link_id b a) links.

(** A link that the switch phase has added: from a switch to another
    device that a strategy selects, every selected device before it in the
    order of the devices being joined with the switch already. *)
Definition chosen (devs : dict string Device) (links : dict string Link)
    (kv : string * Link) : Prop :=
  exists switch pre other post,
    devs = pre ++ other :: post
    /\ switch ∈ devs /\ has_role "switch" switch.2 = true
    /\ other.1 ≠ switch.1 /\ wanted switch other = true
    /\ kv = switch_link switch.1 other.1
    /\ forall o, o ∈ pre -> o.1 ≠ switch.1 -> wanted switch o = true ->
         joined switch.1 o.1 links = true.

(** A switch that is the first end of no link is joined with every
    candidate that a strategy selects. *)
Definition served (links : dict string Link) (switch : string * Device)
    (candidates : list (string * Device)) : Prop :=
  switch.1 ∉ map first_device links ->
  forall o, o ∈ candidates -> o.1 ≠ switch.1 -> wanted switch o = true ->
    joined switch.1 o.1 links = true.

(** The switch phase so far: the links [base] of the subnet phase,
    followed by links that were chosen. *)
Definition selected (devs : dict string Device) (base : dict string Link)
    (self : NetworkTopology) : Prop :=
  devices self = devs
  /\ exists extra,
       links self = base ++ extra
       /\ Forall (chosen devs (links self)) extra.

End Builder.

Module Numerals.
Import ConfigParser.

Fixpoint all_digits (s : string) : bool :=
  match s with
  | EmptyString => true
  | String c s' => is_digit c && all_digits s'
  end.

(** A non-empty string of decimal digits: what [\d+] matches. *)
Definition numeral (s : string) : bool :=
  negb (String.eqb s "") && all_digits s.

(** At least four numerals separated by dots. *)
Definition dotted_quad (s : string) : bool :=
  (4 <=? length (split_on "." s))%nat && forallb numeral (split_on "." s).

(** A numeral that [int] converts: one of at most 4300 digits. *)
Definition convertible (s : string) : bool :=
  numeral s && Z.leb (Z.of_nat (String.length s)) max_str_digits.

(** At least four convertible numerals separated by dots. *)
Definition short_quad (s : string) : bool :=
  (4 <=? length (split_on "." s))%nat
  && forallb convertible (split_on "." s).

End Numerals.

Module Records.
Import Numerals.

(** An interface that has an address and a mask has a name, and both are
    dotted quads of numerals that [int] converts. *)
Definition well_formed_interface (i : Interface) : bool :=
  match if_ip_address i, if_subnet_mask i with
  | Some ip_address, Some subnet_mask =>
      if str_truthy (Some ip_address) && str_truthy (Some subnet_mask)
      then present (if_name i) && short_quad ip_address && short_quad subnet_mask
      else true
  | _, _ => true
  end.

(** A record that is not empty has a non-empty name and well-formed
    interfaces; every other field may be missing. *)
Definition well_formed_record (c : Device) : bool :=
  implb (nonempty c)
        (match device_name c with
         | Some name => negb (String.eqb name "")
         | None => false
         end
         && forallb well_formed_interface (interfaces_of c)).

Definition registered_well (st : NetworkTopology) : Prop :=
  forall id c, (id, c) ∈ devices st ->
    id ≠ "" /\ forallb well_formed_interface (interfaces_of c) = true.

Definition with_bandwidth (groups : dict string (list Endpoint)) : Prop :=
  forall s l m, (s, l) ∈ groups -> m ∈ l -> is_Some (bandwidth m).

End Records.

Module Conflicts.
Import Grouping.









End Conflicts.

Module Graphs.
Import Nx.

(** The end points of every edge are nodes, and no node is listed twice. *)
Definition well_formed_graph (g : Graph) : Prop :=
  NoDup (nodes g)
  /\ forall u v, (u, v) ∈ edges g -> u ∈ nodes g /\ v ∈ nodes g.

(** There is a path of edges from [u] to [v]. *)
Definition connected (g : Graph) : relation string := rtc (adjacent g).

(** Every undirected edge is stored once. *)
Definition edges_once (g : Graph) : Prop :=
  NoDup (edges g)
  /\ forall u v, (u, v) ∈ edges g -> (v, u) ∈ edges g -> u = v.

(** Removing [v] separates two other nodes that a path joined. *)
Definition cut_vertex (g : Graph) (v : string) : Prop :=
  exists a b, a ∈ nodes g /\ b ∈ nodes g /\ a ≠ v /\ b ≠ v
              /\ connected g a b /\ ~ connected (remove_node v g) a b.

(** Removing the edge separates its end points. *)
Definition bridge_edge (g : Graph) (e : string * string) : Prop :=
  ~ connected (remove_edge e.1 e.2 g) e.1 e.2.

End Graphs.

Module Connectivity.

Definition end1 (kv : string * Link) : string := device_id (device1 kv.2).
Definition end2 (kv : string * Link) : string := device_id (device2 kv.2).

(** Some link joins [a] and [b]. *)
Definition linked (links : dict string Link) (a b : string) : Prop :=
  exists kv, kv ∈ links
             /\ ((a = end1 kv /\ b = end2 kv) \/ (a = end2 kv /\ b = end1 kv)).

(** A sequence of links leads from [a] to [b]. *)
Definition link_path (topology_data : TopologyData) : relation string :=
  rtc (linked (td_links topology_data)).

(** Every device has a [device_type]. *)
Definition typed_devices (devices : dict string Device) : bool :=
  forallb (fun entry : string * Device => present (device_type entry.2)) devices.

(** Device ids are distinct, as the keys of a dictionary are. *)
Definition unique_devices (devices : dict string Device) : bool :=
  bool_decide (NoDup (keys devices)).

(** Both ends of every link are devices. *)
Definition closed_links (topology_data : TopologyData) : bool :=
  forallb (fun kv : string * Link =>
             contains (end1 kv) (td_devices topology_data)
             && contains (end2 kv) (td_devices topology_data))
          (td_links topology_data).

End Connectivity.

Module Missing.
Import Connectivity.

Definition ids_with_role (role : string) (devices : dict string Device)
  : list string :=
  map fst (List.filter (fun entry : string * Device => has_role role entry.2)
                       devices).

(** The issues about one end point. *)
Definition about_endpoint (endpoint : string) (l : list Issue) : list Issue :=
  List.filter (fun i => match finding i with
                        | NoPathToRouter e => String.eqb e endpoint
                        | _ => false
                        end) l.

Definition unreachable_issue (endpoint : string) : Issue :=
  {| severity := Critical; finding := NoPathToRouter endpoint |}.

(** Some router can be reached from [e] over links. *)
Definition reaches_router (topology_data : TopologyData) (e : string) : Prop :=
  exists r cfg, (r, cfg) ∈ td_devices topology_data
                /\ device_type cfg = Some "router"
                /\ link_path topology_data e r.

End Missing.

Module Redundancy.

(** The role that the rule reads for a node. *)
Definition role_of (topology_data : TopologyData) (node : string) : string :=
  match get node (td_devices topology_data) with
  | Some cfg => default "" (device_type cfg)
  | None => ""
  end.

(** The issue for a single point of failure among the devices. *)
Definition device_spof (topology_data : TopologyData) (node : string) : Issue :=
  {| severity := if String.eqb (role_of topology_data node) "router"
                 then Critical else Warning;
     finding := DeviceSpof node (role_of topology_data node) |}.

(** What the library promises of [nx.articulation_points]: every cut
    vertex once, in an order of its own. *)
Definition lists_cut_vertices (articulation_points : Nx.Graph -> list string)
  : Prop :=
  forall g, Graphs.well_formed_graph g ->
    NoDup (articulation_points g)
    /\ forall v, v ∈ articulation_points g
                 <-> v ∈ Nx.nodes g /\ Graphs.cut_vertex g v.

(** What it promises of [nx.bridges]: every bridge once, named from one
    of its ends, in an order of its own. *)
Definition lists_bridges (bridges : Nx.Graph -> list (string * string))
  : Prop :=
  forall g, Graphs.well_formed_graph g -> Graphs.edges_once g ->
    NoDup (bridges g)
    /\ (forall u v, (u, v) ∈ bridges g ->
          Nx.adjacent g u v /\ Graphs.bridge_edge g (u, v))
    /\ (forall u v, (u, v) ∈ bridges g -> u ≠ v -> (v, u) ∉ bridges g)
    /\ (forall u v, Nx.adjacent g u v -> Graphs.bridge_edge g (u, v) ->
          (u, v) ∈ bridges g \/ (v, u) ∈ bridges g).

(** The chain A - B - C. *)
Definition chain_device (name role : string) : string * Device :=
  (name, {| device_name := Some name; device_type := Some role;
            interfaces := Some []; vlans := Some [];
            routing_protocols := Some []; ip_addresses := Some [] |}).

Definition chain_link (a b : string) : string * Link :=
  (Topology.link_id a b,
   {| device1 := Topology.mgmt a; device2 := Topology.mgmt b; subnet := None;
      bandwidth_mbps := 1000; current_utilization := 0 |}).

Definition chain : TopologyData :=
  {| td_devices := [chain_device "A" "endpoint"; chain_device "B" "switch";
                    chain_device "C" "router"];
     td_links := [chain_link "A" "B"; chain_link "B" "C"] |}.

End Redundancy.

Module Report.

Definition entry_of (o : result RuleResult) : Entry :=
  match o with
  | Ok r => Evaluated r
  | Raise e => Errored e
  end.

(** The number of entries of [detailed_results] with a given status. *)
Definition count_status (st : Status) (d : dict string Entry) : Z :=
  Z.of_nat (length (List.filter (fun kv : string * Entry =>
                                   bool_decide (entry_status kv.2 = st)) d)).

Definition evaluated (d : dict string Entry) : Z :=
  count_status StPass d + count_status StFail d + count_status StWarning d.

Definition entry_for (topology_data : TopologyData)
    (traffic_analysis : option Traffic) (entry : string * Rule)
  : string * Entry :=
  (entry.1, entry_of (outcome topology_data traffic_analysis entry.1 entry.2)).

(** The aggregation formula, evaluated in binary64 from left to right. *)
Definition score_formula (passed warned total : Z) : float :=
  PrimFloat.mul
    (PrimFloat.div (float_of_Z (passed * 100 + warned * 50))
                   (float_of_Z (total * 100)))
    (float_of_Z 100).

Definition in_percent_range (n : number) : bool :=
  match n with
  | Int z => Z.leb 0 z && Z.leb z 100
  | Float f => PrimFloat.leb (float_of_Z 0) f && PrimFloat.leb f (float_of_Z 100)
  end.

(** All the counts that ten rules can produce, checked one by one. *)
Definition range_table (limit : nat) : bool :=
  forallb (fun t =>
    forallb (fun p =>
      forallb (fun w =>
        implb ((p + w <=? t)%nat && (0 <? t)%nat)
              (in_percent_range
                 (Float (score_formula (Z.of_nat p) (Z.of_nat w) (Z.of_nat t)))))
        (seq 0 (S limit)))
      (seq 0 (S limit)))
    (seq 0 (S limit)).

End Report.

(** ** Concrete inputs *)

Module Examples.

Definition interface_on (name ip_address subnet_mask : string) : Interface :=
  {| if_name := Some name;
     if_ip_address := Some ip_address;
     if_subnet_mask := Some subnet_mask;
     if_vlan := Some VNone;
     if_mtu := Some 1500;
     if_bandwidth := Some 100000 |}.

Definition access_port (name : string) (vlan : Z) : Interface :=
  {| if_name := Some name;
     if_ip_address := None;
     if_subnet_mask := None;
     if_vlan := Some (VInt vlan);
     if_mtu := Some 1500;
     if_bandwidth := Some 100000 |}.

Definition device (role name : string) (declared : list Vlan)
    (ports : list Interface) : Device :=
  {| device_name := Some name;
     device_type := Some role;
     interfaces := Some ports;
     vlans := Some declared;
     routing_protocols := Some [];
     ip_addresses := Some [] |}.



(** Three routers on one subnet. *)
Definition three_on_a_subnet : list Device :=
  [ device "router" "R1" [] [interface_on "GigabitEthernet0/0" "10.0.0.1" "255.255.255.0"];
    device "router" "R2" [] [interface_on "GigabitEthernet0/0" "10.0.0.2" "255.255.255.0"];
    device "router" "R3" [] [interface_on "GigabitEthernet0/0" "10.0.0.3" "255.255.255.0"] ].

(** A switch that declares VLAN 10 and two hosts with ports in it. *)
Definition one_switch_two_hosts : list Device :=
  [ device "switch" "S1" [ {| vlan_id := VInt 10; vlan_name := Some "users" |} ] [];
    device "endpoint" "E1" [] [access_port "FastEthernet0/1" 10];
    device "endpoint" "E2" [] [access_port "FastEthernet0/1" 10] ].

(** A switch and two routers whose names end like its own, as the
    parser reads them from the texts ['hostname S1 / spanning-tree mode
    pvst'], ['hostname R1 / router ospf'] and ['hostname Q1 / router
    ospf']. *)
Definition one_switch_two_routers : list Device :=
  [ device "switch" "S1" [] [];
    device "router" "R1" [] [];
    device "router" "Q1" [] [] ].

(** An address whose last octet has 4301 digits. *)
Definition long_octet : string :=
  "10.0.0." ++ string_of_list_ascii (List.repeat "9"%char 4301).

(** The text of an interface block with that address, and a file that
    holds it. *)
Definition long_octet_block : string :=
  "ip address " ++ long_octet ++ " 255.255.255.0".

Definition long_octet_file : string :=
  "hostname H1" ++ String "010" "interface GigabitEthernet0/0"
  ++ String "010" " " ++ long_octet_block.

(** What the parser returns for that file. *)
Definition long_octet_record : Device :=
  {| device_name := Some "H1";
     device_type := Some "endpoint";
     interfaces := Some [interface_on "GigabitEthernet0/0" long_octet
                                      "255.255.255.0"];
     vlans := Some [];
     routing_protocols := Some [];
     ip_addresses := Some ["255.255.255.0"] |}.

Definition management (a b : string) : string * Link :=
  (link_id a b,
   {| device1 := mgmt a; device2 := mgmt b; subnet := None;
      bandwidth_mbps := 1000; current_utilization := 0 |}).

(** Three switches in a ring. *)
Definition ring : TopologyData :=
  {| td_devices := [ ("S1", device "switch" "S1" [] []);
                     ("S2", device "switch" "S2" [] []);
                     ("S3", device "switch" "S3" [] []) ];
     td_links := [management "S1" "S2"; management "S2" "S3"; management "S3" "S1"] |}.


(** A router with a host behind it, and a host with no link at all. *)
Definition stranded_host : TopologyData :=
  {| td_devices := [ ("R1", device "router" "R1" [] []);
                     ("PC1", device "endpoint" "PC1" [] []);
                     ("PC2", device "endpoint" "PC2" [] []) ];
     td_links := [management "R1" "PC1"] |}.

(** A single router and nothing else. *)
Definition lone_router : TopologyData :=
  {| td_devices := [ ("R1", device "router" "R1" [] []) ]; td_links := [] |}.

(** A chain whose middle device has no role and an unnamed addressed
    interface: every modelled rule raises on it. *)
Definition broken_chain : TopologyData :=
  {| td_devices :=
       [ ("A", device "endpoint" "A" [] []);
         ("B", {| device_name := Some "B"; device_type := None;
                  interfaces := Some [ {| if_name := None;
                                          if_ip_address := Some "10.0.0.1";
                                          if_subnet_mask := None;
                                          if_vlan := None;
                                          if_mtu := None;
                                          if_bandwidth := None |} ];
                  vlans := None; routing_protocols := None; ip_addresses := None |});
         ("C", device "router" "C" [] []) ];
     td_links := [management "A" "B"; management "B" "C"] |}.

(** A rule that ends with a fixed status, and one that raises. *)
Definition always (st : Status) : TopologyData -> result RuleResult :=
  fun _ => Ok {| status := st; issues := []; suggestions := [] |}.

Definition raising : TopologyData -> result RuleResult :=
  fun _ => Raise (KeyError "devices").

Definition no_text : Device -> string := fun _ => "".

End Examples.

(** ** [config_parser.py]: the fields read from a configuration text

    The patterns are matched on ASCII text, as [search] is. *)

Module Parser.
Import ConfigParser.

(** The leftmost position of [s] at which [m] matches. *)
Fixpoint first_match {A} (m : string -> option A) (s : string) : option A :=
  match m s with
  | Some x => Some x
  | None =>
      match s with
      | String _ s' => first_match m s'
      | EmptyString => None
      end
  end.

(** What [\S+] takes at the start of [s]. *)
Fixpoint leading_word (s : string) : string :=
  match s with
  | String c s' => if is_space c then EmptyString else String c (leading_word s')
  | EmptyString => EmptyString
  end.

(** A match of [keyword\s+(\S+)] at the start of [s]: its group. *)
Definition word_at (keyword s : string) : option string :=
  match strip_prefix keyword s with
  | Some (String c rest) =>
      if is_space c then
        let group := leading_word (lstrip rest) in
        if String.eqb group "" then None else Some group
      else None
  | _ => None
  end.

(** [_extract_hostname] *)
Definition _extract_hostname (content : string) : string :=
  match first_match (word_at "hostname") content with
  | Some group => group
  | None => "Unknown"
  end.

(** [_detect_device_type] *)
Definition _detect_device_type (content : string) : string :=
  if occurs "router ospf" (lower content) || occurs "router bgp" (lower content)
  then "router"
  else if occurs "spanning-tree" (lower content)
          || occurs "switchport" (lower content)
  then "switch"
  else "endpoint".

(** [_extract_interface_status] *)
Definition _extract_interface_status (interface_config : string) : string :=
  if occurs "shutdown" (lower interface_config) then "down"
  else if occurs "no shutdown" (lower interface_config) then "up"
  else "unknown".

(** What is left of [s] after [\d+]. *)
Fixpoint after_digits (s : string) : string :=
  match s with
  | String c s' => if is_digit c then after_digits s' else s
  | EmptyString => EmptyString
  end.

(** [\d+] at the start of [s]: the digits and the rest. *)
Definition number_at (s : string) : option (string * string) :=
  if String.eqb (leading_digits s) "" then None
  else Some (leading_digits s, after_digits s).

(** [\.] at the start of [s]: the rest. *)
Definition dot_at (s : string) : option string :=
  match s with
  | String c s' => if Ascii.eqb c "." then Some s' else None
  | EmptyString => None
  end.

(** [\d+\.] at the start of [s]: the digits and the rest. *)
Definition octet_dot_at (s : string) : option (string * string) :=
  match number_at s with
  | Some (digits, rest) =>
      match dot_at rest with
      | Some rest' => Some (digits, rest')
      | None => None
      end
  | None => None
  end.

(** [\d+\.\d+\.\d+\.\d+] at the start of [s]: the text matched and the
    rest. *)
Definition quad_at (s : string) : option (string * string) :=
  match octet_dot_at s with
  | Some (a, s1) =>
      match octet_dot_at s1 with
      | Some (b, s2) =>
          match octet_dot_at s2 with
          | Some (c, s3) =>
              match number_at s3 with
              | Some (d, s4) =>
                  Some ((a ++ "." ++ b ++ "." ++ c ++ "." ++ d)%string, s4)
              | None => None
              end
          | None => None
          end
      | None => None
      end
  | None => None
  end.

(** [\s+] at the start of [s]: the rest. *)
Definition spaces_at (s : string) : option string :=
  match s with
  | String c rest => if is_space c then Some (lstrip rest) else None
  | EmptyString => None
  end.

(** A match of [ip address\s+(\d+\.\d+\.\d+\.\d+)] at the start of [s]:
    the group and the rest. *)
Definition address_at (s : string) : option (string * string) :=
  match strip_prefix "ip address" s with
  | Some s1 =>
      match spaces_at s1 with
      | Some s2 => quad_at s2
      | None => None
      end
  | None => None
  end.

(** [_extract_ip_from_interface] *)
Definition _extract_ip_from_interface (interface_config : string)
  : option string :=
  first_match (fun s => fst <$> address_at s) interface_config.

(** A match of the pattern of [_extract_subnet_from_interface] at the
    start of [s]: its group. *)
Definition mask_at (s : string) : option string :=
  match address_at s with
  | Some (_, s1) =>
      match spaces_at s1 with
      | Some s2 => fst <$> quad_at s2
      | None => None
      end
  | None => None
  end.

(** [_extract_subnet_from_interface] *)
Definition _extract_subnet_from_interface (interface_config : string)
  : option string :=
  first_match mask_at interface_config.

(** [_extract_vlan_from_interface] *)
Definition _extract_vlan_from_interface (interface_config : string)
  : result (option Z) :=
  match search "switchport access vlan" interface_config with
  | Some group => z ← Py.int group; mret (Some z)
  | None => Ok None
  end.

(** The record that [_extract_interfaces] builds for one interface block,
    without its ['status'], which is [_extract_interface_status]. *)
Definition interface_info (interface_name interface_config : string)
  : result Interface :=
  vlan ← _extract_vlan_from_interface interface_config;
  mtu ← _extract_mtu_from_interface interface_config;
  bandwidth ← _extract_bandwidth_from_interface interface_config;
  mret {| if_name := Some interface_name;
          if_ip_address := _extract_ip_from_interface interface_config;
          if_subnet_mask := _extract_subnet_from_interface interface_config;
          if_vlan := Some (match vlan with Some z => VInt z | None => VNone end);
          if_mtu := Some mtu;
          if_bandwidth := Some bandwidth |}.

(** [_extract_routing_protocols]; the number is the ['process_id'] of OSPF
    and the ['as_number'] of BGP. *)
Definition _extract_routing_protocols (content : string)
  : result (list RoutingProtocol) :=
  ospf ← match search "router ospf" content with
         | Some group =>
             z ← Py.int group;
             mret [ {| protocol := Some "OSPF"; protocol_number := Some z |} ]
         | None => Ok []
         end;
  bgp ← match search "router bgp" content with
        | Some group =>
            z ← Py.int group;
            mret [ {| protocol := Some "BGP"; protocol_number := Some z |} ]
        | None => Ok []
        end;
  mret (ospf ++ bgp).

End Parser.

(** ** [network_topology.py]: summary and export *)

Module Summary.

Record TopologySummary : Type := {
  total_devices : nat;
  routers : nat;
  switches : nat;
  endpoints : nat;
  total_links : nat;
  subnets : nat;
}.

(** [[x for x in l if p(x)]], where [p] may raise. *)
Fixpoint filter_result {A} (p : A -> result bool) (l : list A) : result (list A) :=
  match l with
  | [] => Ok []
  | x :: l' =>
      keep ← p x; xs ← filter_result p l';
      mret (if keep : bool then x :: xs else xs)
  end.

(** [d['device_type'] == role] *)
Definition is_role (role : string) (d : Device) : result bool :=
  t ← require "device_type" (device_type d); mret (String.eqb t role).

(** [len([d for d in self.devices.values() if d['device_type'] == role])] *)
Definition count_role (role : string) (devices : dict string Device) : result nat :=
  selected ← filter_result (is_role role) (values devices); mret (length selected).

(** [set(link['subnet'] for link in self.links.values() if 'subnet' in link)] *)
Definition subnet_tags (links : dict string Link) : gset string :=
  list_to_set (omap subnet (values links)).

(** [get_topology_summary] *)
Definition get_topology_summary (self : NetworkTopology) : result TopologySummary :=
  routers ← count_role "router" (devices self);
  switches ← count_role "switch" (devices self);
  endpoints ← count_role "endpoint" (devices self);
  mret {| total_devices := length (devices self);
          routers := routers;
          switches := switches;
          endpoints := endpoints;
          total_links := length (links self);
          subnets := size (subnet_tags (links self)) |}.

(** The dictionary that [export_to_json] writes.  Device records and links
    hold strings, integers, [None] and lists only, so reading the file back
    with [json.load] gives the same values: [topology_data] is what the
    validator is called with. *)
Record Exported : Type := {
  topology_data : TopologyData;
  summary : TopologySummary;
}.

Definition export_to_json (self : NetworkTopology) : result Exported :=
  summary ← get_topology_summary self;
  mret {| topology_data := {| td_devices := devices self; td_links := links self |};
          summary := summary |}.

End Summary.

(** ** [validator.py]: the rules for gateways, MTUs and routing protocols

    Each rule has issues of its own kind; the texts of an issue are
    formatted from the fields kept here. *)

Module Rules.

Record Outcome (I : Type) : Type := {
  rule_status : Status;
  rule_issues : list I;
  rule_suggestions : list string;
}.
Global Arguments rule_status {I} _.
Global Arguments rule_issues {I} _.
Global Arguments rule_suggestions {I} _.

(** [_calculate_subnet] of the validator: the statements of the builder's
    function inside [try], and the address itself from the bare [except]. *)
Definition _calculate_subnet (ip_address subnet_mask : string) : string :=
  match Topology._calculate_subnet ip_address subnet_mask with
  | Ok subnet => subnet
  | Raise _ => ip_address
  end.

(** [_get_device_interfaces] *)
Definition _get_device_interfaces (topology_data : TopologyData)
    (device_id : string) : list Interface :=
  match get device_id (td_devices topology_data) with
  | Some device_config => interfaces_of device_config
  | None => []
  end.

(** [_get_interface_mtu_for_subnet]; [subnet] is [None] for a link without
    the key. *)
Fixpoint _get_interface_mtu_for_subnet (interfaces : list Interface)
    (subnet : option string) : option Z :=
  match interfaces with
  | [] => None
  | interface :: rest =>
      match if_ip_address interface, if_subnet_mask interface with
      | Some ip_address, Some subnet_mask =>
          if str_truthy (Some ip_address) && str_truthy (Some subnet_mask)
             && bool_decide (Some (_calculate_subnet ip_address subnet_mask) = subnet)
          then Some (default 1500 (if_mtu interface))
          else _get_interface_mtu_for_subnet rest subnet
      | _, _ => _get_interface_mtu_for_subnet rest subnet
      end
  end.

(** *** [check_mtu_mismatches] *)

Record MtuIssue : Type := {
  mtu_link_id : string;
  mtu_device1 : string;
  device1_mtu : Z;
  mtu_device2 : string;
  device2_mtu : Z;
}.

(** The truth value of an MTU that may be [None]. *)
Definition mtu_truthy (mtu : option Z) : bool :=
  match mtu with
  | Some z => negb (Z.eqb z 0)
  | None => false
  end.

(** The body of the loop over the links. *)
Definition mtu_issue (topology_data : TopologyData) (kv : string * Link)
  : list MtuIssue :=
  let device1_interfaces :=
    _get_device_interfaces topology_data (device_id (device1 kv.2)) in
  let device2_interfaces :=
    _get_device_interfaces topology_data (device_id (device2 kv.2)) in
  let device1_mtu := _get_interface_mtu_for_subnet device1_interfaces (subnet kv.2) in
  let device2_mtu := _get_interface_mtu_for_subnet device2_interfaces (subnet kv.2) in
  if mtu_truthy device1_mtu && mtu_truthy device2_mtu
     && negb (bool_decide (device1_mtu = device2_mtu))
  then [ {| mtu_link_id := kv.1;
            mtu_device1 := device_id (device1 kv.2);
            device1_mtu := default 0 device1_mtu;
            mtu_device2 := device_id (device2 kv.2);
            device2_mtu := default 0 device2_mtu |} ]
  else [].

Definition check_mtu_mismatches (topology_data : TopologyData)
  : Outcome MtuIssue :=
  let mtu_issues := flat_map (mtu_issue topology_data) (td_links topology_data) in
  {| rule_status := match mtu_issues with [] => StPass | _ :: _ => StWarning end;
     rule_issues := mtu_issues;
     rule_suggestions :=
       map (fun issue => ("Standardize MTU settings on link " ++ mtu_link_id issue)%string)
           mtu_issues |}.

(** *** [check_gateway_configuration] *)

Record Gateway : Type := {
  gw_device : string;
  gw_interface : string;
  gw_ip : string;
}.

Inductive GatewayIssue : Type :=
| NoGateway (subnet : string) (link_id : string)
| MultipleGateways (subnet : string) (gateways : list Gateway).

Definition gateway_severity (issue : GatewayIssue) : Severity :=
  match issue with
  | NoGateway _ _ => Critical
  | MultipleGateways _ _ => Warning
  end.

(** The body of the loop over the interfaces of a device. *)
Definition record_gateway (device_id : string) (device_config : Device)
    (interface : Interface) (subnet_gateways : dict string (list Gateway))
  : result (dict string (list Gateway)) :=
  match if_ip_address interface, if_subnet_mask interface with
  | Some ip_address, Some subnet_mask =>
      if str_truthy (Some ip_address) && str_truthy (Some subnet_mask) then
        let subnet := _calculate_subnet ip_address subnet_mask in
        role ← require "device_type" (device_type device_config);
        if String.eqb role "router" then
          name ← require "name" (if_name interface);
          mret (append_to subnet
                  {| gw_device := device_id; gw_interface := name;
                     gw_ip := ip_address |}
                  subnet_gateways)
        else Ok subnet_gateways
      else Ok subnet_gateways
  | _, _ => Ok subnet_gateways
  end.

Definition record_gateways (entry : string * Device)
    (subnet_gateways : dict string (list Gateway))
  : result (dict string (list Gateway)) :=
  for_each (record_gateway entry.1 entry.2) (interfaces_of entry.2) subnet_gateways.

Definition collect_gateways (devices : dict string Device)
  : result (dict string (list Gateway)) :=
  for_each record_gateways devices [].

(** The loop over the links. *)
Definition missing_gateway (subnet_gateways : dict string (list Gateway))
    (kv : string * Link) : list GatewayIssue :=
  if str_truthy (subnet kv.2)
     && negb (contains (default "" (subnet kv.2)) subnet_gateways)
  then [NoGateway (default "" (subnet kv.2)) kv.1]
  else [].

(** The loop over the gateways found. *)
Definition multiple_gateways (group : string * list Gateway) : list GatewayIssue :=
  if (1 <? length group.2)%nat then [MultipleGateways group.1 group.2] else [].

Definition gateway_critical (issue : GatewayIssue) : bool :=
  bool_decide (gateway_severity issue = Critical).

Definition check_gateway_configuration (topology_data : TopologyData)
  : result (Outcome GatewayIssue) :=
  subnet_gateways ← collect_gateways (td_devices topology_data);
  let gateway_issues :=
    flat_map (missing_gateway subnet_gateways) (td_links topology_data)
    ++ flat_map multiple_gateways subnet_gateways in
  mret {| rule_status :=
            if existsb gateway_critical gateway_issues then StFail
            else match gateway_issues with [] => StPass | _ :: _ => StWarning end;
          rule_issues := gateway_issues;
          rule_suggestions :=
            ["Verify default gateway configuration on all subnets"] |}.

(** *** [check_routing_protocol_optimization] *)

Inductive RoutingIssue : Type :=
| LargeOspfNetwork (router_count : nat)
| MixedProtocols (protocols : dict string Z)
| SingleRouter.

(** [protocol_usage[protocol_name] += 1] on a [defaultdict(int)]. *)
Definition count_protocol (protocol_usage : dict string Z) (p : RoutingProtocol)
  : dict string Z :=
  let protocol_name := default "unknown" (protocol p) in
  Py.set protocol_name (default 0 (get protocol_name protocol_usage) + 1)
         protocol_usage.

Definition count_protocols (entry : string * Device) (protocol_usage : dict string Z)
  : result (dict string Z) :=
  role ← require "device_type" (device_type entry.2);
  if String.eqb role "router"
  then Ok (fold_left count_protocol (default [] (routing_protocols entry.2))
                     protocol_usage)
  else Ok protocol_usage.

Definition check_routing_protocol_optimization (topology_data : TopologyData)
  : result (Outcome RoutingIssue) :=
  router_count ← Summary.count_role "router" (td_devices topology_data);
  protocol_usage ← for_each count_protocols (td_devices topology_data) [];
  let routing_issues :=
    (if (20 <? router_count)%nat
        && Z.ltb (default 0 (get "BGP" protocol_usage))
                 (default 0 (get "OSPF" protocol_usage))
     then [LargeOspfNetwork router_count] else [])
    ++ (if (1 <? length protocol_usage)%nat
        then [MixedProtocols protocol_usage] else [])
    ++ (if (router_count =? 1)%nat then [SingleRouter] else []) in
  mret {| rule_status :=
            match routing_issues with [] => StPass | _ :: _ => StWarning end;
          rule_issues := routing_issues;
          rule_suggestions :=
            ["Optimize routing protocol selection based on network size and requirements"] |}.

(** *** [check_vlan_consistency] *)

(** The issue about the names of a VLAN keeps the id; its text lists the
    names in the order of the set. *)
Inductive VlanIssue : Type :=
| UndefinedVlan (device interface : string) (vlan : value)
| InconsistentNames (vlan_id : value).

(** [interface.get('vlan')] *)
Definition vlan_tag (interface : Interface) : value :=
  default VNone (if_vlan interface).

(** [device_config.get('vlans', [])] *)
Definition vlans_of (device_config : Device) : list Vlan :=
  default [] (vlans device_config).

(** [if vlan_id: vlan_configs[vlan_id].add(vlan_name)]; the set of names is
    a list without duplicates. *)
Definition add_vlan_name (vlan_configs : dict value (list (option string)))
    (vlan : Vlan) : dict value (list (option string)) :=
  if truthy (vlan_id vlan) then
    let names := default [] (get (vlan_id vlan) vlan_configs) in
    Py.set (vlan_id vlan)
           (if bool_decide (vlan_name vlan ∈ names) then names
            else names ++ [vlan_name vlan])
           vlan_configs
  else vlan_configs.

(** The check of one interface against the VLANs of its own device. *)
Definition check_interface_vlan (device_id : string) (device_config : Device)
    (interface : Interface) (vlan_issues : list VlanIssue)
  : result (list VlanIssue) :=
  let vlan := vlan_tag interface in
  if truthy vlan
     && negb (bool_decide (vlan ∈ map vlan_id (vlans_of device_config)))
  then
    name ← require "name" (if_name interface);
    mret (vlan_issues ++ [UndefinedVlan device_id name vlan])
  else Ok vlan_issues.

(** The body of the loop over the devices. *)
Definition check_device_vlans (entry : string * Device)
    (st : dict value (list (option string)) * list VlanIssue)
  : result (dict value (list (option string)) * list VlanIssue) :=
  let vlan_configs := fold_left add_vlan_name (vlans_of entry.2) st.1 in
  vlan_issues ← for_each (check_interface_vlan entry.1 entry.2)
                         (interfaces_of entry.2) st.2;
  mret (vlan_configs, vlan_issues).

(** The body of the loop over [vlan_configs]: [", ".join(names)] raises
    when a name is [None]. *)
Definition check_names (group : value * list (option string))
    (vlan_issues : list VlanIssue) : result (list VlanIssue) :=
  if (1 <? length group.2)%nat then
    if forallb present group.2
    then Ok (vlan_issues ++ [InconsistentNames group.1])
    else Raise TypeError
  else Ok vlan_issues.

Definition check_vlan_consistency (topology_data : TopologyData)
  : result (Outcome VlanIssue) :=
  st ← for_each check_device_vlans (td_devices topology_data) ([], []);
  vlan_issues ← for_each check_names st.1 st.2;
  mret {| rule_status :=
            match vlan_issues with [] => StPass | _ :: _ => StWarning end;
          rule_issues := vlan_issues;
          rule_suggestions :=
            ["Standardize VLAN naming conventions across all devices"] |}.

(** *** [check_security_zones] *)

Inductive SecurityIssue : Type :=
| FewVlans (device_count vlan_count : nat)
| DefaultVlanInUse (devices : list string).

(** The true VLAN tags of all interfaces, in iteration order. *)
Definition used_vlans (devices : dict string Device) : list value :=
  flat_map (fun entry : string * Device =>
              List.filter truthy (map vlan_tag (interfaces_of entry.2)))
           devices.

(** The id of a device, once for each of its interfaces on VLAN 1. *)
Definition default_vlan_devices (devices : dict string Device) : list string :=
  flat_map (fun entry : string * Device =>
              flat_map (fun interface =>
                          if bool_decide (vlan_tag interface = VInt 1)
                          then [entry.1] else [])
                       (interfaces_of entry.2))
           devices.

Definition check_security_zones (topology_data : TopologyData)
  : result (Outcome SecurityIssue) :=
  let vlan_count :=
    size (list_to_set (used_vlans (td_devices topology_data)) : gset value) in
  let device_count := length (td_devices topology_data) in
  let on_default := default_vlan_devices (td_devices topology_data) in
  let security_issues :=
    (if (10 <? device_count)%nat && (vlan_count <? 3)%nat
     then [FewVlans device_count vlan_count] else [])
    ++ (match on_default with
        | [] => []
        | _ :: _ => [DefaultVlanInUse on_default]
        end) in
  Ok {| rule_status :=
          match security_issues with [] => StPass | _ :: _ => StWarning end;
        rule_issues := security_issues;
        rule_suggestions :=
          ["Implement proper network segmentation and security zones"] |}.

End Rules.

Module Texts.
Import ConfigParser.

(** Some character of [s] is white space. *)
Fixpoint has_space (s : string) : bool :=
  match s with
  | String c s' => is_space c || has_space s'
  | EmptyString => false
  end.

(** [s] does not begin with a decimal digit. *)
Definition no_digit_ahead (s : string) : bool :=
  match s with
  | String c _ => negb (is_digit c)
  | EmptyString => true
  end.

End Texts.

Module Subnets.

(** [[int(x) for x in s.split('.')]] *)
Definition octets (s : string) : result (list Z) :=
  map_result Py.int (split_on "." s).

(** The first four octets of an address under those of a mask. *)
Definition masked (address mask : list Z) : list Z :=
  zip_with Z.land (take 4 address) (take 4 mask).

Fixpoint dotless (s : string) : bool :=
  match s with
  | String c s' => negb (Ascii.eqb c ".") && dotless s'
  | EmptyString => true
  end.

End Subnets.

Module Built.
Import Connectivity.

(** [m] is the member record that the builder files under the key [s] for
    some interface of a device. *)
Definition subnet_member_of (devs : dict string Device) (s : string)
    (m : Endpoint) : Prop :=
  exists cfg i ip mask name,
    (device_id m, cfg) ∈ devs /\ i ∈ interfaces_of cfg
    /\ if_ip_address i = Some ip /\ if_subnet_mask i = Some mask
    /\ if_name i = Some name
    /\ Topology._calculate_subnet ip mask = Ok s
    /\ m = {| device_id := device_id m;
              interface := name;
              ip_address := Some ip;
              bandwidth := Some (default 100 (if_bandwidth i)) |}.

(** A record that is not empty and is named [id]. *)
Definition named (id : string) (c : Device) : bool :=
  nonempty c && bool_decide (device_name c = Some id).

(** The last such record of a list. *)
Definition last_named (id : string) (configs : list Device) : option Device :=
  last (List.filter (named id) configs).

(** The type of a device is one of the three the parser knows. *)
Definition known_type (d : Device) : bool :=
  has_role "router" d || has_role "switch" d || has_role "endpoint" d.

(** Every device is filed once, under its name, and is a node. *)
Definition registered (st : NetworkTopology) : Prop :=
  NoDup (keys (devices st))
  /\ Nx.nodes (graph st) = keys (devices st)
  /\ (forall id c, (id, c) ∈ devices st -> device_name c = Some id /\ nonempty c = true).

(** What the links and the graph of a topology have to do with its
    devices. *)
Definition closed (devs : dict string Device) (st : NetworkTopology) : Prop :=
  Nx.nodes (graph st) = keys devs
  /\ NoDup (keys (links st))
  /\ (forall u v, Nx.adjacent (graph st) u v -> u ∈ keys devs /\ v ∈ keys devs)
  /\ (forall kv, kv ∈ links st -> end1 kv ∈ keys devs /\ end2 kv ∈ keys devs)
  /\ (forall kv, kv ∈ links st -> is_Some (subnet kv.2) ->
        Nx.adjacent (graph st) (end1 kv) (end2 kv)).

(** The topology as the validator gets it. *)
Definition exported (self : NetworkTopology) : TopologyData :=
  {| td_devices := devices self; td_links := links self |}.

End Built.

Module Statuses.
Import Nx Missing.

(** The issues of [check_missing_components] for end points. *)
Definition unreachable_issues (topology_data : TopologyData) : list Issue :=
  concat (map (fun e =>
                 if negb (existsb (reaches (connectivity_graph topology_data) e)
                                  (ids_with_role "router" (td_devices topology_data)))
                 then [unreachable_issue e] else [])
              (ids_with_role "endpoint" (td_devices topology_data))).

(** Its issues for subnets. *)
Definition dhcp_issues (topology_data : TopologyData) : list Issue :=
  flat_map (fun s =>
              if (length (ids_with_role "router" (td_devices topology_data)) =? 0)%nat
              then [ {| severity := Warning; finding := NoDhcp s |} ]
              else [])
           (elements (link_subnets (td_links topology_data))).

End Statuses.

Module Gateways.
Import Rules.

(** The interface has an address and a mask that are true values. *)
Definition masked_interface (i : Interface) : bool :=
  str_truthy (if_ip_address i) && str_truthy (if_subnet_mask i).

(** The subnet under which the validator files the interface. *)
Definition subnet_of (i : Interface) : string :=
  _calculate_subnet (default "" (if_ip_address i)) (default "" (if_subnet_mask i)).

(** The gateway that an interface of a router stands for, with its
    subnet. *)
Definition gateway_entry (device_id : string) (device_config : Device)
    (i : Interface) : list (string * Gateway) :=
  if masked_interface i && has_role "router" device_config
  then [ (subnet_of i,
          {| gw_device := device_id;
             gw_interface := default "" (if_name i);
             gw_ip := default "" (if_ip_address i) |}) ]
  else [].

Definition device_gateways (entry : string * Device) : list (string * Gateway) :=
  flat_map (gateway_entry entry.1 entry.2) (interfaces_of entry.2).

(** All gateways with their subnets, in the order the rule meets them. *)
Definition gateway_entries (devices : dict string Device) : list (string * Gateway) :=
  flat_map device_gateways devices.

(** What the rule reads is there: a device with an interface that has an
    address and a mask has a type, and such an interface of a router has
    a name. *)
Definition gateway_ready (devices : dict string Device) : bool :=
  forallb (fun entry : string * Device =>
             forallb (fun i =>
                        implb (masked_interface i)
                              (present (device_type entry.2)
                               && implb (has_role "router" entry.2)
                                        (present (if_name i))))
                     (interfaces_of entry.2))
          devices.

(** The status that the rule gives to its issues. *)
Definition gateway_status_of (l : list GatewayIssue) : Status :=
  if existsb gateway_critical l then StFail
  else match l with [] => StPass | _ :: _ => StWarning end.

End Gateways.

Module Mtus.
Import Rules Gateways.

(** The validator files the interface under the subnet [s]. *)
Definition on_subnet (s : string) (i : Interface) : bool :=
  masked_interface i && String.eqb (subnet_of i) s.

(** The MTU that the rule reads for an interface. *)
Definition mtu_of (i : Interface) : Z := default 1500 (if_mtu i).

(** The first interface of a device on a subnet. *)
Definition first_on_subnet (topology_data : TopologyData) (id s : string)
  : option Interface :=
  List.find (on_subnet s) (_get_device_interfaces topology_data id).

End Mtus.

Module Protocols.
Import Rules.

(** [protocol.get('protocol', 'unknown')] *)
Definition protocol_name (p : RoutingProtocol) : string :=
  default "unknown" (protocol p).

(** The names of the protocols of all routers, in order. *)
Definition router_protocol_names (devices : dict string Device) : list string :=
  flat_map (fun entry : string * Device =>
              if has_role "router" entry.2
              then map protocol_name (default [] (routing_protocols entry.2))
              else [])
           devices.

(** How often a name is in a list. *)
Definition occurrences (name : string) (names : list string) : Z :=
  Z.of_nat (length (List.filter (String.eqb name) names)).

(** One more use of a name. *)
Definition count_name (usage : dict string Z) (name : string) : dict string Z :=
  Py.set name (default 0 (get name usage) + 1) usage.

(** What a counting dictionary says of a name. *)
Definition uses (usage : dict string Z) (name : string) : Z :=
  default 0 (get name usage).

End Protocols.

Module Vlans.
Import Rules.

(** Some device declares a VLAN with this id and this name. *)
Definition declared (devices : dict string Device) (v : value)
    (n : option string) : Prop :=
  exists id cfg vl,
    (id, cfg) ∈ devices /\ vl ∈ vlans_of cfg
    /\ vlan_id vl = v /\ vlan_name vl = n.


(** Some interface carries this true tag. *)
Definition tagged (devices : dict string Device) (v : value) : Prop :=
  truthy v = true
  /\ exists id cfg i,
       (id, cfg) ∈ devices /\ i ∈ interfaces_of cfg /\ vlan_tag i = v.

(** The device has an interface on VLAN 1. *)
Definition on_default_vlan (devices : dict string Device) (id : string) : Prop :=
  exists cfg i,
    (id, cfg) ∈ devices /\ i ∈ interfaces_of cfg /\ vlan_tag i = VInt 1.









End Vlans.


Module Aggregation.

(** The issues of an entry that was evaluated with a given status. *)
Definition issues_of (st : Status) (e : Entry) : list Issue :=
  match e with
  | Evaluated r => if bool_decide (status r = st) then issues r else []
  | Errored _ => []
  end.

(** The issues of all entries with a given status, in the order of the
    entries. *)
Definition issues_with (st : Status) (d : dict string Entry) : list Issue :=
  flat_map (fun kv : string * Entry => issues_of st kv.2) d.

Definition suggestions_of (e : Entry) : list string :=
  match e with
  | Evaluated r => suggestions r
  | Errored _ => []
  end.

(** The suggestions of all evaluated entries, in the order of the entries. *)
Definition all_suggestions (d : dict string Entry) : list string :=
  flat_map (fun kv : string * Entry => suggestions_of kv.2) d.

(** The percentage that the capacity rule reads of a link. *)
Definition percent_of (u : Utilization) : number :=
  default (Int 0) (utilization_percent u).

(** The issue of a link by its utilization, when the text of the issue
    can be formatted. *)
Definition link_issues (entry : string * Utilization) : list Issue :=
  if exceeds (percent_of entry.2) 90 then
    [ {| severity := Critical;
         finding := Overloaded entry.1 (percent_of entry.2) |} ]
  else if exceeds (percent_of entry.2) 75 then
    [ {| severity := Warning;
         finding := NearCapacity entry.1 (percent_of entry.2) |} ]
  else [].


(** Every score that ten rules can produce is 100.0 exactly when all
    evaluated rules passed, and 0.0 exactly when all of them failed. *)
Definition extremes_table (limit : nat) : bool :=
  forallb (fun t =>
    forallb (fun p =>
      forallb (fun w =>
        implb ((p + w <=? t)%nat && (0 <? t)%nat)
              (let s := Report.score_formula (Z.of_nat p) (Z.of_nat w) (Z.of_nat t) in
               Bool.eqb (PrimFloat.eqb s (float_of_Z 100)) ((p =? t)%nat)
               && Bool.eqb (PrimFloat.eqb s (float_of_Z 0))
                           ((p =? 0)%nat && (w =? 0)%nat)))
        (seq 0 (S limit)))
      (seq 0 (S limit)))
    (seq 0 (S limit)).

End Aggregation.


(** ** More concrete inputs *)

Module Scenarios.
Import Examples.

(** The link that the builder files for R1 and R2 of [three_on_a_subnet]. *)
Definition first_link : string * Link :=
  ("R1-R2",
   {| device1 := {| device_id := "R1"; interface := "GigabitEthernet0/0";
                    ip_address := Some "10.0.0.1"; bandwidth := Some 100000 |};
      device2 := {| device_id := "R2"; interface := "GigabitEthernet0/0";
                    ip_address := Some "10.0.0.2"; bandwidth := Some 100000 |};
      subnet := Some "10.0.0.0";
      bandwidth_mbps := 100000;
      current_utilization := 0 |}).

(** Two records with one name. *)
Definition renamed : list Device :=
  [ device "router" "R1" [] []; device "switch" "R1" [] [] ].

(** Two routers on one subnet, as exported. *)
Definition shared_subnet : TopologyData :=
  {| td_devices :=
       [ ("R1", device "router" "R1" []
                  [interface_on "GigabitEthernet0/0" "10.0.0.1" "255.255.255.0"]);
         ("R2", device "router" "R2" []
                  [interface_on "GigabitEthernet0/0" "10.0.0.2" "255.255.255.0"]) ];
     td_links := [first_link] |}.

End Scenarios.

(** * Properties *)

(** ** Dictionaries *)

Module DictFacts.
Section Dict.
Context {K V : Type} `{EqDecision K}.
Implicit Types (d : dict K V) (k : K) (v : V).

Lemma get_None d k : get k d = None <-> k ∉ keys d.
Proof.
  induction d as [|[k' v'] d IH]; simpl.
  - split; [intros _; apply not_elem_of_nil | done].
  - destruct (decide (k' = k)) as [->|Hne].
    + split; [done | intros []; left].
    + rewrite IH, not_elem_of_cons. split; [by split | by intros [_ ?]].
Qed.

Lemma contains_true d k : contains k d = true <-> k ∈ keys d.
Proof.
  unfold contains. destruct (get k d) eqn:E.
  - split; [intros _ | done].
    destruct (decide (k ∈ keys d)) as [|Hn]; [done|].
    apply get_None in Hn. congruence.
  - apply get_None in E. split; [done | intros; contradiction].
Qed.

Lemma contains_false d k : contains k d = false <-> k ∉ keys d.
Proof.
  rewrite <- contains_true. destruct (contains k d); split; done.
Qed.

(** A fresh key goes to the end. *)
Lemma set_fresh d k v : k ∉ keys d -> Py.set k v d = d ++ [(k, v)].
Proof.
  induction d as [|[k' v'] d IH]; simpl; [done|].
  intros Hn. apply not_elem_of_cons in Hn as [Hne Hn].
  destruct (decide (k' = k)); [congruence|]. by rewrite IH.
Qed.

(** Assignment never changes the order of the keys already there. *)
Lemma keys_set d k v :
  keys (Py.set k v d) = if contains k d then keys d else keys d ++ [k].
Proof.
  induction d as [|[k' v'] d IH]; simpl; [done|].
  unfold contains in *. simpl.
  destruct (decide (k' = k)) as [->|Hne]; simpl; [done|].
  rewrite IH. by destruct (get k d).
Qed.

Lemma NoDup_keys_set d k v : NoDup (keys d) -> NoDup (keys (Py.set k v d)).
Proof.
  intros Hd. rewrite keys_set. destruct (contains k d) eqn:E; [done|].
  apply contains_false in E. apply NoDup_app. split; [done|].
  split; [|apply NoDup_singleton].
  intros x Hx Hx'. apply list_elem_of_singleton in Hx'. by subst.
Qed.

Lemma get_set_eq d k v : get k (Py.set k v d) = Some v.
Proof.
  induction d as [|[k' v'] d IH]; simpl.
  - by rewrite decide_True.
  - destruct (decide (k' = k)) as [->|Hne]; simpl.
    + by rewrite decide_True.
    + by rewrite decide_False.
Qed.

Lemma get_set_ne d k k' v : k ≠ k' -> get k' (Py.set k v d) = get k' d.
Proof.
  intros Hne. induction d as [|[k0 v0] d IH]; simpl.
  - by rewrite decide_False.
  - destruct (decide (k0 = k)) as [->|Hne0]; simpl.
    + by rewrite !decide_False.
    + destruct (decide (k0 = k')); [done | apply IH].
Qed.

Lemma get_Some_elem d k v : get k d = Some v -> (k, v) ∈ d.
Proof.
  induction d as [|[k' v'] d IH]; simpl; [done|].
  destruct (decide (k' = k)) as [->|Hne].
  - intros [= ->]. left.
  - intros Hg. right. by apply IH.
Qed.

Lemma elem_get d k v : NoDup (keys d) -> (k, v) ∈ d -> get k d = Some v.
Proof.
  induction d as [|[k' v'] d IH]; simpl.
  - intros _ Hin. by apply elem_of_nil in Hin.
  - intros Hnd Hin. apply NoDup_cons in Hnd as [Hk' Hnd].
    apply elem_of_cons in Hin as [[= <- <-]|Hin].
    + by rewrite decide_True.
    + destruct (decide (k' = k)) as [->|Hne]; [|by apply IH].
      exfalso. apply Hk'. apply list_elem_of_fmap. by exists (k, v).
Qed.
End Dict.
End DictFacts.

(** ** Loops and comprehensions that may raise *)

Module PyFacts.

Lemma map_result_Ok {A B} (f : A -> result B) l ys :
  map_result f l = Ok ys <-> Forall2 (fun x y => f x = Ok y) l ys.
Proof.
  revert ys. induction l as [|x l IH]; intros ys; simpl.
  - split.
    + intros [= <-]. constructor.
    + intros H. by inversion H.
  - destruct (f x) as [y|e] eqn:Ef; simpl.
    + destruct (map_result f l) as [ys'|e] eqn:El; simpl.
      * split.
        -- unfold mret, result_ret. intros [= <-]. constructor; [done | by apply IH].
        -- intros H. inversion H as [|? y' ? ys'' Hy Hys]; subst.
           apply IH in Hys. unfold mret, result_ret. congruence.
      * split; [done|].
        intros H. inversion H as [|? y' ? ys'' Hy Hys]; subst.
        apply IH in Hys. congruence.
    + split; [done|]. intros H. inversion H; congruence.
Qed.

Lemma map_result_elem_r {A B} (f : A -> result B) l ys y :
  map_result f l = Ok ys -> y ∈ ys -> exists x, x ∈ l /\ f x = Ok y.
Proof.
  rewrite map_result_Ok. induction 1 as [|x y' l ys Hxy _ IH].
  - intros Hy. by apply elem_of_nil in Hy.
  - intros Hy. apply elem_of_cons in Hy as [->|Hy].
    + exists x. split; [left | done].
    + destruct (IH Hy) as (x' & Hx' & Hf). exists x'. split; [by right | done].
Qed.

(** A comprehension over a total function is [map]. *)
Lemma map_result_total {A B} (f : A -> result B) (g : A -> B) l :
  (forall x, x ∈ l -> f x = Ok (g x)) -> map_result f l = Ok (map g l).
Proof.
  induction l as [|x l IH]; intros Hf; simpl; [done|].
  rewrite Hf by left. simpl. rewrite IH; [done|].
  intros y Hy. apply Hf. by right.
Qed.

End PyFacts.


(** ** Grouping with [defaultdict(list)] *)

Module GroupFacts.
Export Grouping.
Import DictFacts.

Section Group.
Context {K A : Type} `{EqDecision K}.
Implicit Types (d : dict K (list A)) (k : K) (entries : list (K * A)).

Lemma get_append_to_eq k x d :
  get k (append_to k x d) = Some (default [] (get k d) ++ [x]).
Proof.
  unfold append_to. destruct (get k d) eqn:E; simpl; by rewrite get_set_eq.
Qed.

Lemma get_append_to_ne k k' x d :
  k ≠ k' -> get k' (append_to k x d) = get k' d.
Proof.
  intros Hne. unfold append_to. destruct (get k d); by rewrite get_set_ne.
Qed.

Lemma NoDup_keys_append_to k x d :
  NoDup (keys d) -> NoDup (keys (append_to k x d)).
Proof. unfold append_to. destruct (get k d); apply NoDup_keys_set. Qed.

Lemma NoDup_keys_group_by entries d :
  NoDup (keys d) -> NoDup (keys (group_by entries d)).
Proof.
  revert d. induction entries as [|e entries IH]; intros d Hd; simpl; [done|].
  apply IH. by apply NoDup_keys_append_to.
Qed.

Lemma members_cons k e entries :
  members k (e :: entries) =
  if decide (e.1 = k) then e.2 :: members k entries else members k entries.
Proof.
  unfold members. simpl. unfold bool_decide.
  by destruct (decide_rel eq e.1 k), (decide (e.1 = k)).
Qed.

Lemma get_group_by k entries d :
  get k (group_by entries d) =
  match get k d, members k entries with
  | None, [] => None
  | o, m => Some (default [] o ++ m)
  end.
Proof.
  revert d. induction entries as [|e entries IH]; intros d; simpl.
  - destruct (get k d); simpl; [by rewrite app_nil_r | done].
  - rewrite IH, members_cons. destruct (decide (e.1 = k)) as [<-|Hne].
    + rewrite get_append_to_eq. destruct (get e.1 d); simpl; [|done].
      by rewrite <- app_assoc.
    + by rewrite get_append_to_ne.
Qed.

Lemma get_group_by_nil k entries :
  get k (group_by entries []) =
  match members k entries with [] => None | m => Some m end.
Proof. rewrite get_group_by. simpl. by destruct (members k entries). Qed.

Lemma group_by_app entries1 entries2 d :
  group_by (entries1 ++ entries2) d = group_by entries2 (group_by entries1 d).
Proof. unfold group_by. by rewrite fold_left_app. Qed.

(** Every group is the list of its members, and is not empty. *)
Lemma elem_group_by k l entries :
  (k, l) ∈ group_by entries [] <-> l = members k entries /\ l ≠ [].
Proof.
  split.
  - intros Hin. apply elem_get in Hin; [|apply NoDup_keys_group_by, NoDup_nil_2].
    rewrite get_group_by_nil in Hin. destruct (members k entries); [done|].
    by injection Hin as <-.
  - intros [-> Hne]. apply get_Some_elem. rewrite get_group_by_nil.
    by destruct (members k entries).
Qed.

End Group.
End GroupFacts.

(** ** The topology builder *)

Module TopologyFacts.
Export Builder.
Import DictFacts GroupFacts PyFacts.

(** A property that every iteration preserves holds after the loop. *)
Lemma for_each_invariant {A S} (P : S -> Prop) (body : A -> S -> result S) l st st' :
  (forall x st st', x ∈ l -> P st -> body x st = Ok st' -> P st') ->
  P st -> for_each body l st = Ok st' -> P st'.
Proof.
  revert st. induction l as [|x l IH]; intros st Hbody Hst; simpl.
  - by intros [= <-].
  - destruct (body x st) as [st1|e] eqn:E; simpl; [|done].
    apply IH.
    + intros y s s' Hy. apply Hbody. by right.
    + eapply Hbody; [left | exact Hst | exact E].
Qed.

(** *** Pairs *)






(** *** What is grouped *)

Lemma group_interface_spec id i d d' :
  group_interface id i d = Ok d' ->
  exists es, subnet_member id i = Ok es /\ d' = group_by es d.
Proof.
  unfold group_interface, subnet_member.
  destruct (if_ip_address i) as [ip|]; [|intros [= <-]; by exists []].
  destruct (if_subnet_mask i) as [mask|]; [|intros [= <-]; by exists []].
  destruct (_ && _); [|intros [= <-]; by exists []].
  destruct (_calculate_subnet ip mask) as [s|]; simpl; [|done].
  destruct (if_name i) as [name|]; simpl; [|done].
  intros [= <-]. by eexists.
Qed.

Lemma group_device_spec entry d d' :
  group_device entry d = Ok d' ->
  exists es, device_members entry = Ok es /\ d' = group_by es d.
Proof.
  unfold group_device, device_members. fold (interfaces_of entry.2).
  revert d. induction (interfaces_of entry.2) as [|i l IH]; intros d; simpl.
  - intros [= <-]. by exists [].
  - destruct (group_interface entry.1 i d) as [d1|] eqn:E; simpl; [|done].
    apply group_interface_spec in E as (es1 & -> & ->).
    intros (es & Hes & ->)%IH. simpl.
    destruct (map_result (subnet_member entry.1) l) as [rest|]; simpl in *; [|done].
    injection Hes as <-. exists (es1 ++ concat rest).
    split; [done | by rewrite group_by_app].
Qed.

(** The groups are the members filed under their keys. *)
Lemma group_by_subnet_spec devices groups :
  group_by_subnet devices = Ok groups ->
  exists es, subnet_members devices = Ok es /\ groups = group_by es [].
Proof.
  unfold group_by_subnet, subnet_members.
  generalize (@nil (string * list Endpoint)). revert groups.
  induction devices as [|entry devices IH]; intros groups d; simpl.
  - intros [= <-]. by exists [].
  - destruct (group_device entry d) as [d1|] eqn:E; simpl; [|done].
    apply group_device_spec in E as (es1 & -> & ->).
    intros (es & Hes & ->)%IH. simpl.
    destruct (map_result device_members devices) as [rest|]; simpl in *; [|done].
    injection Hes as <-. exists (es1 ++ concat rest).
    split; [done | by rewrite group_by_app].
Qed.

(** *** Grouping by subnet keeps keys distinct *)



(** *** The subnet phase *)

Lemma _add_link_spec d1 d2 s self self' :
  _add_link d1 d2 s self = Ok self' ->
  links self' = Py.set (planned_link (d1, d2, s)).1 (planned_link (d1, d2, s)).2
                       (links self)
  /\ devices self' = devices self.
Proof.
  unfold _add_link, planned_link. simpl.
  destruct (bandwidth d1); simpl; [|done].
  destruct (bandwidth d2); simpl; [|done].
  intros [= <-]. done.
Qed.

Lemma add_subnet_links_spec groups self self' :
  add_subnet_links groups self = Ok self' ->
  links self' = fold_left (fun d (kv : string * Link) => Py.set kv.1 kv.2 d)
                          (map planned_link (flat_map group_links groups))
                          (links self)
  /\ devices self' = devices self.
Proof.
  unfold add_subnet_links. generalize (flat_map group_links groups). intros plan.
  revert self. induction plan as [|[[d1 d2] s] plan IH]; intros self; simpl.
  - by intros [= <-].
  - destruct (_add_link d1 d2 s self) as [self1|e] eqn:E; simpl; [|done].
    apply _add_link_spec in E as [El Ed]. intros Hrest.
    apply IH in Hrest as [-> ->]. by rewrite El, Ed.
Qed.

(** Assignments to fresh, distinct keys append. *)
Lemma fold_set_fresh {V} (d : dict string V) kvs :
  NoDup (keys d ++ map fst kvs) ->
  fold_left (fun d (kv : string * V) => Py.set kv.1 kv.2 d) kvs d = d ++ kvs.
Proof.
  revert d. induction kvs as [|[k v] kvs IH]; intros d Hnd; simpl.
  - by rewrite app_nil_r.
  - rewrite set_fresh.
    + rewrite IH; [by rewrite <- app_assoc|].
      unfold keys in *. rewrite map_app. simpl. by rewrite <- app_assoc.
    + apply NoDup_app in Hnd as (_ & Hd & _). intros Hin. apply (Hd k Hin). left.
Qed.

(** *** The switch phase *)

Lemma _add_switch_link_spec switch_id other_id self :
  let self' := _add_switch_link switch_id other_id self in
  graph self' = graph self /\ devices self' = devices self
  /\ links self' =
       if contains (link_id switch_id other_id) (links self)
          || contains (link_id other_id switch_id) (links self)
       then links self
       else links self ++ [switch_link switch_id other_id].
Proof.
  unfold _add_switch_link.
  destruct (contains (link_id switch_id other_id) (links self)) eqn:E1; simpl; [done|].
  destruct (contains (link_id other_id switch_id) (links self)) eqn:E2; simpl; [done|].
  repeat split. apply set_fresh. by apply contains_false.
Qed.

Lemma may_attach_spec switch_id other_id self :
  may_attach switch_id other_id self = true <->
  other_id ≠ switch_id /\ switch_id ∉ map first_device (links self).
Proof.
  unfold may_attach. rewrite andb_true_iff, !negb_true_iff.
  unfold values. rewrite map_map. fold first_device.
  change (map (fun x : string * Link => device_id (device1 x.2)) (links self))
    with (map first_device (links self)).
  rewrite bool_decide_eq_false. split.
  - intros [Hne Hn]. split; [|done]. intros ->. by rewrite String.eqb_refl in Hne.
  - intros [Hne Hn]. split; [|done]. by apply String.eqb_neq.
Qed.

Lemma attached_start self : attached (devices self) (links self) self.
Proof.
  split; [done|]. exists []. rewrite app_nil_r. repeat split; try constructor.
  intros kv Hkv. by apply elem_of_nil in Hkv.
Qed.

Lemma attached_add devs base switch_id cfg other_id self :
  (switch_id, cfg) ∈ devs -> has_role "switch" cfg = true ->
  other_id ∈ keys devs ->
  may_attach switch_id other_id self = true ->
  attached devs base self ->
  attached devs base (_add_switch_link switch_id other_id self).
Proof.
  intros Hsw Hrole Hother [Hne Hfirst]%may_attach_spec (Hd & extra & Hl & Hall & Hnd & Hbase).
  destruct (_add_switch_link_spec switch_id other_id self) as (_ & Hd' & Hl').
  split; [by rewrite Hd'|]. rewrite Hl'.
  destruct (_ || _); [by exists extra|].
  exists (extra ++ [switch_link switch_id other_id]).
  rewrite Hl in Hfirst. rewrite map_app, not_elem_of_app in Hfirst.
  destruct Hfirst as [Hf1 Hf2].
  split; [by rewrite Hl, app_assoc|]. split; [|split].
  - apply Forall_app. split; [done|]. constructor; [|constructor].
    by exists switch_id, cfg, other_id.
  - rewrite map_app. apply NoDup_app. split; [done|]. split.
    + intros x Hx Hx'. simpl in Hx'. apply list_elem_of_singleton in Hx'.
      subst x. by apply Hf2.
    + apply NoDup_singleton.
  - intros kv [Hkv|Hkv]%elem_of_app; [by apply Hbase|].
    apply list_elem_of_singleton in Hkv. by subst kv.
Qed.

Lemma try_attach_attached devs base switch_id cfg vlans other self self' :
  (switch_id, cfg) ∈ devs -> has_role "switch" cfg = true -> other ∈ devs ->
  attached devs base self ->
  try_attach switch_id vlans other self = Ok self' ->
  attached devs base self'.
Proof.
  intros Hsw Hrole Hother Hatt. unfold try_attach.
  assert (Hkey : other.1 ∈ keys devs)
    by (apply list_elem_of_fmap; by exists other).
  destruct (may_attach switch_id other.1 self) eqn:Hmay; [|by intros [= <-]].
  destruct (_shares_vlan_segment other.2 vlans).
  { intros [= <-]. by eapply attached_add. }
  destruct (has_role "router" other.2); [|by intros [= <-]].
  destruct (last_char switch_id); simpl; [|done].
  destruct (last_char other.1); simpl; [|done].
  destruct (Ascii.eqb _ _); intros [= <-]; [by eapply attached_add | done].
Qed.

Lemma connect_switches_attached self self' :
  _connect_switches_to_segments self = Ok self' ->
  attached (devices self) (links self) self'.
Proof.
  unfold _connect_switches_to_segments.
  apply (for_each_invariant (attached (devices self) (links self)));
    [|apply attached_start].
  intros [switch_id cfg] st st' Hin Hst. unfold connect_switch. simpl.
  apply list_elem_of_In, filter_In in Hin as [Hin Hrole]. simpl in Hrole.
  apply list_elem_of_In in Hin.
  destruct Hst as [Hd Hrest]. rewrite Hd.
  apply (for_each_invariant (attached (devices self) (links self))); [|by split].
  intros other s s' Hother Hs. by eapply try_attach_attached.
Qed.

(** *** Registration and the whole build *)

Lemma register_links configs self self' :
  for_each register configs self = Ok self' -> links self' = links self.
Proof.
  apply (for_each_invariant (fun st => links st = links self)); [|done].
  intros c st st' _ Hst. unfold register.
  destruct (nonempty c); [|by intros [= <-]].
  destruct (device_name c); simpl; [|done]. by intros [= <-].
Qed.

(** The phases of a build that returned. *)
Lemma build_phases configs topo :
  build_topology_from_configs configs = Ok topo ->
  exists self groups self',
    for_each register configs init = Ok self
    /\ group_by_subnet (devices self) = Ok groups
    /\ add_subnet_links groups self = Ok self'
    /\ _connect_switches_to_segments self' = Ok topo.
Proof.
  unfold build_topology_from_configs, _build_connections.
  destruct (for_each register configs init) as [self|] eqn:E1; simpl; [|done].
  destruct (group_by_subnet (devices self)) as [groups|] eqn:E2; simpl; [|done].
  destruct (add_subnet_links groups self) as [self'|] eqn:E3; simpl; [|done].
  intros E4. by exists self, groups, self'.
Qed.

End TopologyFacts.

(** ** Subnet links *)

Module SubnetLinkFacts.
Import DictFacts GroupFacts PyFacts TopologyFacts.

Lemma filter_planned s plan :
  List.filter (fun kv : string * Link => bool_decide (subnet kv.2 = Some s))
              (map planned_link plan)
  = map planned_link
        (List.filter (fun c : call => bool_decide (c.2 = s)) plan).
Proof.
  induction plan as [|c plan IH]; simpl; [done|]. rewrite IH.
  destruct (decide (c.2 = s)) as [->|Hne].
  - by rewrite !bool_decide_eq_true_2.
  - rewrite !bool_decide_eq_false_2; [done | done | congruence].
Qed.

Lemma management_untagged devs extra (p : string * Link -> bool) :
  (forall kv, subnet kv.2 = None -> p kv = false) ->
  Forall (management_link devs) extra -> List.filter p extra = [].
Proof.
  intros Hp. induction 1 as [|kv extra (sw & cfg & other & -> & _) _ IH]; simpl; [done|].
  by rewrite Hp, IH.
Qed.

(** *** Assignments in a row *)

Abbreviation assign :=
  (fold_left (fun d (kv : string * Link) => Py.set kv.1 kv.2 d)).




(** *** The calls that are not replaced *)









(** *** The calls of one group *)



End SubnetLinkFacts.

Section SubnetLinks.
Import DictFacts GroupFacts PyFacts TopologyFacts SubnetLinkFacts.

End SubnetLinks.

(** ** Switch links *)

Module AttachFacts.
Import DictFacts GroupFacts PyFacts TopologyFacts.

Lemma _shares_vlan_segment_spec d vlans :
  _shares_vlan_segment d vlans = true <->
  exists v i, v ∈ vlans /\ i ∈ interfaces_of d
              /\ if_vlan i = Some v /\ truthy v = true.
Proof.
  unfold _shares_vlan_segment. fold (interfaces_of d).
  rewrite bool_decide_eq_true. split.
  - intros Hne. apply set_choose_L in Hne as (v & Hv).
    apply elem_of_intersection in Hv as [Hd Hs].
    apply elem_of_list_to_set in Hd, Hs.
    apply list_elem_of_In, in_flat_map in Hd as (i & Hi & Hv).
    exists v, i. split; [done|]. split; [by apply list_elem_of_In|].
    destruct (if_vlan i) as [v'|]; [|done].
    destruct (truthy v') eqn:Ht; [|done].
    destruct Hv as [->|[]]. done.
  - intros (v & i & Hv & Hi & Hvlan & Ht) Hempty.
    assert (Hin : v ∈ (list_to_set
                         (flat_map (fun interface : Interface =>
                                      match if_vlan interface with
                                      | Some v => if truthy v then [v] else []
                                      | None => []
                                      end) (interfaces_of d)) : gset value)
                      ∩ list_to_set vlans).
    { apply elem_of_intersection. split; apply elem_of_list_to_set; [|done].
      apply list_elem_of_In, in_flat_map. exists i.
      split; [by apply list_elem_of_In|]. rewrite Hvlan, Ht. by left. }
    rewrite Hempty in Hin. by apply not_elem_of_empty in Hin.
Qed.

Lemma untagged_is_management devs base extra kv :
  Forall (fun kv : string * Link => subnet kv.2 ≠ None) base ->
  Forall (management_link devs) extra ->
  kv ∈ base ++ extra -> subnet kv.2 = None ->
  kv ∈ extra /\ management_link devs kv.
Proof.
  intros Hbase Hextra [Hin|Hin]%elem_of_app Hnone.
  - rewrite Forall_forall in Hbase. by destruct (Hbase kv Hin).
  - split; [done|]. rewrite Forall_forall in Hextra. by apply Hextra.
Qed.

Lemma fold_set_tagged (plan : list call) (d : dict string Link) :
  Forall (fun kv : string * Link => subnet kv.2 ≠ None) d ->
  Forall (fun kv : string * Link => subnet kv.2 ≠ None)
         (fold_left (fun d (kv : string * Link) => Py.set kv.1 kv.2 d)
                    (map planned_link plan) d).
Proof.
  revert d. induction plan as [|c plan IH]; intros d Hd; simpl; [done|].
  apply IH. clear IH. induction d as [|[k v] d IHd]; simpl.
  - by repeat constructor.
  - apply Forall_cons in Hd as [Hv Hd]. destruct (decide _).
    + by constructor.
    + constructor; [done | by apply IHd].
Qed.

(** The links of a built topology: those of the subnet phase, all tagged,
    followed by management links. *)
Lemma build_links configs topo :
  build_topology_from_configs configs = Ok topo ->
  exists base extra,
    links topo = base ++ extra
    /\ Forall (fun kv : string * Link => subnet kv.2 ≠ None) base
    /\ Forall (management_link (devices topo)) extra
    /\ NoDup (map first_device extra)
    /\ (forall kv, kv ∈ extra -> first_device kv ∉ map first_device base).
Proof.
  intros (self & groups & self' & Hreg & Hgroups & Hsub & Hsw)%build_phases.
  apply register_links in Hreg. simpl in Hreg.
  apply add_subnet_links_spec in Hsub as [Hlinks Hdevs]. rewrite Hreg in Hlinks.
  apply connect_switches_attached in Hsw as (Hd & extra & Hl & Hextra & Hnd & Hfirst).
  exists (links self'), extra. rewrite Hd. repeat split; try done.
  rewrite Hlinks. apply fold_set_tagged. constructor.
Qed.

(** *** What the switch phase selects *)

(** A property of the state and of the items behind, kept by every
    iteration, holds of all items after the loop. *)
Lemma for_each_prefix_invariant {A S} (P : list A -> S -> Prop)
    (body : A -> S -> result S) l st st' :
  (forall pre x post s s',
      l = pre ++ x :: post -> P pre s -> body x s = Ok s' ->
      P (pre ++ [x]) s') ->
  P [] st -> for_each body l st = Ok st' -> P l st'.
Proof.
  intros Hstep.
  enough (H : forall rest pre s,
             l = pre ++ rest -> P pre s -> for_each body rest s = Ok st' ->
             P l st').
  { intros. by apply (H l [] st). }
  induction rest as [|x rest IH]; intros pre s Hl Hp; simpl.
  - intros [= <-]. by rewrite Hl, app_nil_r.
  - destruct (body x s) as [s1|] eqn:E; simpl; [|done].
    apply (IH (pre ++ [x])).
    + by rewrite <- app_assoc.
    + by eapply Hstep.
Qed.

Lemma contains_app_l {V} (d e : dict string V) k :
  contains k d = true -> contains k (d ++ e) = true.
Proof.
  rewrite !contains_true. unfold keys. rewrite map_app, elem_of_app. by left.
Qed.

Lemma joined_mono a b (links more : dict string Link) :
  joined a b links = true -> joined a b (links ++ more) = true.
Proof.
  unfold joined. rewrite !orb_true_iff.
  intros [?|?]; [left | right]; by apply contains_app_l.
Qed.

Lemma chosen_mono devs (links more : dict string Link) kv :
  chosen devs links kv -> chosen devs (links ++ more) kv.
Proof.
  intros (switch & pre & other & post & Hd & Hsw & Hrole & Hne & Hw & Hkv & Hpre).
  exists switch, pre, other, post. repeat (split; [done|]).
  intros o Ho Hno Hwo. by apply joined_mono, Hpre.
Qed.

Lemma served_mono (links more : dict string Link) switch candidates :
  served links switch candidates -> served (links ++ more) switch candidates.
Proof.
  intros Hs Hfirst o Ho Hne Hw. apply joined_mono, Hs; try done.
  intros Hin. apply Hfirst. rewrite map_app. apply elem_of_app. by left.
Qed.

Lemma selected_start self : selected (devices self) (links self) self.
Proof. split; [done|]. exists []. by rewrite app_nil_r. Qed.

(** What one attempt does. *)
Lemma try_attach_cases switch other st st' :
  try_attach switch.1 (map vlan_id (default [] (vlans switch.2))) other st
  = Ok st' ->
  (may_attach switch.1 other.1 st = true /\ wanted switch other = true
   /\ st' = _add_switch_link switch.1 other.1 st)
  \/ ((may_attach switch.1 other.1 st = false \/ wanted switch other = false)
      /\ st' = st).
Proof.
  unfold try_attach, wanted, same_last_char.
  destruct (may_attach switch.1 other.1 st); [|intros [= <-]; right; auto].
  destruct (_shares_vlan_segment _ _); [intros [= <-]; left; auto|].
  destruct (has_role "router" other.2); [|intros [= <-]; right; auto].
  destruct (last_char switch.1) as [a|]; [|done].
  destruct (last_char other.1) as [b|]; [|done].
  cbn. destruct (Ascii.eqb a b); intros [= <-]; [left | right]; auto.
Qed.

Lemma try_attach_step devs base switch pre other post st st' :
  devs = pre ++ other :: post ->
  switch ∈ devs -> has_role "switch" switch.2 = true ->
  selected devs base st -> served (links st) switch pre ->
  try_attach switch.1 (map vlan_id (default [] (vlans switch.2))) other st
  = Ok st' ->
  selected devs base st' /\ served (links st') switch (pre ++ [other])
  /\ links st `prefix_of` links st'.
Proof.
  intros Hdevs Hsw Hrole Hsel Hserved Hrun.
  apply try_attach_cases in Hrun as [(Hmay & Hw & ->)|[Hno ->]].
  - apply may_attach_spec in Hmay as [Hne Hfirst].
    destruct (_add_switch_link_spec switch.1 other.1 st) as (_ & Hd' & Hl').
    fold (joined switch.1 other.1 (links st)) in Hl'.
    destruct Hsel as (Hd & extra & Hl & Hall).
    destruct (joined switch.1 other.1 (links st)) eqn:Hj.
    + split; [|split].
      * split; [by rewrite Hd'|]. exists extra. by rewrite Hl'.
      * rewrite Hl'. intros Hf o [Ho | ->%list_elem_of_singleton]%elem_of_app Hno Hwo;
          [by apply Hserved | done].
      * by rewrite Hl'.
    + split; [|split].
      * split; [by rewrite Hd'|].
        exists (extra ++ [switch_link switch.1 other.1]). rewrite Hl'.
        split; [by rewrite Hl, app_assoc|].
        apply Forall_app. split.
        -- eapply Forall_impl; [exact Hall|]. intros kv. apply chosen_mono.
        -- constructor; [|constructor].
           exists switch, pre, other, post. repeat (split; [done|]).
           intros o Ho Hno Hwo. by apply joined_mono, Hserved.
      * rewrite Hl'. intros Hf. exfalso. apply Hf. rewrite map_app.
        apply elem_of_app. right. left.
      * rewrite Hl'. by exists [switch_link switch.1 other.1].
  - split; [done|]. split; [|done].
    intros Hf o [Ho | ->%list_elem_of_singleton]%elem_of_app Hne Hwo;
      [by apply Hserved|].
    destruct Hno as [Hno|Hno]; [|congruence].
    assert (may_attach switch.1 other.1 st = true); [|congruence].
    by apply may_attach_spec.
Qed.

Lemma connect_switch_step devs base switch st st' :
  switch ∈ devs -> has_role "switch" switch.2 = true ->
  selected devs base st -> connect_switch switch st = Ok st' ->
  selected devs base st' /\ served (links st') switch devs
  /\ links st `prefix_of` links st'.
Proof.
  intros Hsw Hrole Hsel. unfold connect_switch.
  rewrite (proj1 Hsel).
  apply (for_each_prefix_invariant
           (fun pre s => selected devs base s /\ served (links s) switch pre
                         /\ links st `prefix_of` links s)).
  - intros pre other post s s' Hdevs (Hs & Hserved & Hpre) Hrun.
    destruct (try_attach_step devs base switch pre other post s s'
                Hdevs Hsw Hrole Hs Hserved Hrun) as (H1 & H2 & H3).
    split; [done|]. split; [done|]. by etrans.
  - split; [done|]. split; [|done].
    intros _ o Ho. by apply elem_of_nil in Ho.
Qed.

(** The switch phase adds chosen links only, and leaves no switch that is
    the first end of no link without its selected devices. *)
Lemma connect_switches_selected self topo :
  _connect_switches_to_segments self = Ok topo ->
  selected (devices self) (links self) topo
  /\ forall switch,
       switch ∈ devices self -> has_role "switch" switch.2 = true ->
       served (links topo) switch (devices self).
Proof.
  unfold _connect_switches_to_segments. intros Hrun.
  set (switches := List.filter _ (devices self)) in Hrun.
  enough (H : selected (devices self) (links self) topo
              /\ forall switch, switch ∈ switches ->
                                served (links topo) switch (devices self)).
  { destruct H as [H1 H2]. split; [done|]. intros switch Hin Hrole.
    apply H2. apply list_elem_of_In, filter_In.
    split; [by apply list_elem_of_In | done]. }
  revert Hrun.
  apply (for_each_prefix_invariant
           (fun spre s => selected (devices self) (links self) s
                          /\ forall switch, switch ∈ spre ->
                               served (links s) switch (devices self))).
  - intros spre switch spost s s' Hsw (Hs & Hdone) Hrun.
    assert (Hin : switch ∈ switches) by (rewrite Hsw; set_solver).
    apply list_elem_of_In, filter_In in Hin as [Hin%list_elem_of_In Hrole].
    destruct (connect_switch_step _ _ switch s s' Hin Hrole Hs Hrun)
      as (H1 & H2 & [more Hmore]).
    split; [done|].
    intros x [Hx | ->%list_elem_of_singleton]%elem_of_app; [|done].
    rewrite Hmore. by apply served_mono, Hdone.
  - split; [apply selected_start|]. intros x Hx. by apply elem_of_nil in Hx.
Qed.

(** The untagged links of a built topology are chosen, and its switches
    served. *)
Lemma build_selected configs topo :
  build_topology_from_configs configs = Ok topo ->
  (forall kv, kv ∈ links topo -> subnet kv.2 = None ->
              chosen (devices topo) (links topo) kv)
  /\ (forall switch,
        switch ∈ devices topo -> has_role "switch" switch.2 = true ->
        served (links topo) switch (devices topo)).
Proof.
  intros (self & groups & self' & Hreg & Hgroups & Hsub & Hsw)%build_phases.
  apply register_links in Hreg. simpl in Hreg.
  apply add_subnet_links_spec in Hsub as [Hlinks Hdevs]. rewrite Hreg in Hlinks.
  apply connect_switches_selected in Hsw as ((Hd & extra & Hl & Hall) & Hserved).
  rewrite Hd. split; [|done].
  intros kv Hin Hnone. rewrite Forall_forall in Hall. apply Hall.
  rewrite Hl in Hin. apply elem_of_app in Hin as [Hin|Hin]; [|done].
  exfalso. revert Hnone.
  assert (Htagged : Forall (fun kv : string * Link => subnet kv.2 ≠ None)
                           (links self')).
  { rewrite Hlinks. apply fold_set_tagged. constructor. }
  rewrite Forall_forall in Htagged. by apply Htagged.
Qed.

End AttachFacts.

Section SwitchAttachment.
Import DictFacts GroupFacts PyFacts TopologyFacts AttachFacts.
Import Examples.

(** C3 (as the code has it). For a switch and another device the builder
    tries an attachment exactly when the switch is not yet the first end
    of any link; it then connects on VLAN overlap (a VLAN id of the switch
    that is a true value carried by an interface of the candidate), and
    else, for a router, when the last characters of the two ids agree.  A
    switch link has bandwidth 1000 and no subnet tag, and is not stored
    when a link with the id of either ordering exists.  In the topology
    that the build returns, every link without a subnet tag is such a link
    from a switch to another device that a strategy selects, all selected
    devices before it in device order having a link id with the switch in
    one of the orderings; a switch gets at most one such link; and a
    switch that is the first end of no link at all has a link id, in one
    of the orderings, with every other device that a strategy selects.
    From a switch S1 and the routers R1 and Q1 the build makes the one
    link S1 - R1. *)
Theorem C3_switch_attachment :
  (forall switch_id vlans (other : string * Device) self,
      (may_attach switch_id other.1 self = true <->
       other.1 ≠ switch_id /\ switch_id ∉ map first_device (links self))
      /\ (may_attach switch_id other.1 self = false ->
          try_attach switch_id vlans other self = Ok self)
      /\ (may_attach switch_id other.1 self = true ->
          _shares_vlan_segment other.2 vlans = true ->
          try_attach switch_id vlans other self
          = Ok (_add_switch_link switch_id other.1 self))
      /\ (may_attach switch_id other.1 self = true ->
          _shares_vlan_segment other.2 vlans = false ->
          has_role "router" other.2 = false ->
          try_attach switch_id vlans other self = Ok self)
      /\ (may_attach switch_id other.1 self = true ->
          _shares_vlan_segment other.2 vlans = false ->
          has_role "router" other.2 = true ->
          forall a b, last_char switch_id = Ok a -> last_char other.1 = Ok b ->
            try_attach switch_id vlans other self
            = Ok (if Ascii.eqb a b
                  then _add_switch_link switch_id other.1 self else self)))
  /\ (forall d vlans,
        _shares_vlan_segment d vlans = true <->
        exists v i, v ∈ vlans /\ i ∈ interfaces_of d
                    /\ if_vlan i = Some v /\ truthy v = true)
  /\ (forall switch_id other_id self,
        links (_add_switch_link switch_id other_id self)
        = if joined switch_id other_id (links self)
          then links self
          else links self ++ [switch_link switch_id other_id])
  /\ (forall configs topo,
        build_topology_from_configs configs = Ok topo ->
        (forall kv, kv ∈ links topo -> subnet kv.2 = None ->
           bandwidth_mbps kv.2 = 1000
           /\ chosen (devices topo) (links topo) kv)
        /\ (forall kv kv', kv ∈ links topo -> kv' ∈ links topo ->
              subnet kv.2 = None -> subnet kv'.2 = None ->
              first_device kv = first_device kv' -> kv = kv')
        /\ (forall switch,
              switch ∈ devices topo -> has_role "switch" switch.2 = true ->
              served (links topo) switch (devices topo)))
  /\ (exists topo,
        build_topology_from_configs one_switch_two_routers = Ok topo
        /\ links topo = [switch_link "S1" "R1"]).
Proof.
  split; [|split; [|split; [|split]]].
  - intros switch_id vlans other self. split; [apply may_attach_spec|].
    unfold try_attach. repeat split.
    + by intros ->.
    + by intros -> ->.
    + by intros -> -> ->.
    + intros -> -> -> a b -> ->. simpl. by destruct (Ascii.eqb a b).
  - apply _shares_vlan_segment_spec.
  - intros. apply _add_switch_link_spec.
  - intros configs topo Hbuild.
    destruct (build_selected _ _ Hbuild) as [Hchosen Hserved].
    apply build_links in Hbuild
      as (base & extra & Hl & Hbase & Hextra & Hnd & _).
    split; [|split; [|done]].
    + intros kv Hin Hnone. split; [|by apply Hchosen].
      rewrite Hl in Hin.
      by destruct (untagged_is_management _ _ _ _ Hbase Hextra Hin Hnone)
        as (_ & sw & cfg & other & -> & _).
    + rewrite Hl. intros kv kv' Hin Hin' Hnone Hnone' Hfirst.
      destruct (untagged_is_management _ _ _ _ Hbase Hextra Hin Hnone) as [He _].
      destruct (untagged_is_management _ _ _ _ Hbase Hextra Hin' Hnone') as [He' _].
      clear -He He' Hfirst Hnd. induction extra as [|x extra IH]; [by apply elem_of_nil in He|].
      simpl in Hnd. apply NoDup_cons in Hnd as [Hx Hnd].
      apply elem_of_cons in He as [->|He], He' as [->|He'].
      * done.
      * exfalso. apply Hx. rewrite Hfirst. apply list_elem_of_fmap. by exists kv'.
      * exfalso. apply Hx. rewrite <- Hfirst. apply list_elem_of_fmap. by exists kv.
      * by apply IH.
  - eexists. split; [vm_compute; reflexivity | reflexivity].
Qed.
End SwitchAttachment.

(** ** Numerals, and what the parser and the builder do with them *)

Module NumeralFacts.
Export Numerals.
Import ConfigParser PyFacts.

Lemma digit_not_space c : is_digit c = true -> is_space c = false.
Proof.
  unfold is_digit, digit_of, is_space.
  repeat match goal with
         | |- context [(?a <=? ?b)%nat] => destruct (Nat.leb_spec a b)
         end; simpl; intros; done || lia.
Qed.

Lemma digit_not_int_space c : is_digit c = true -> is_int_space c = false.
Proof.
  unfold is_digit, digit_of, is_int_space.
  destruct (Nat.eqb_spec (nat_of_ascii c) 32) as [->|_]; [done|].
  repeat match goal with
         | |- context [(?a <=? ?b)%nat] => destruct (Nat.leb_spec a b)
         end; simpl; intros; done || lia.
Qed.

Lemma rstrip_digits s : all_digits s = true -> rstrip s = s.
Proof.
  induction s as [|c s IH]; simpl; [done|].
  intros [Hc Hs]%andb_prop. rewrite IH by done.
  destruct s; [|done]. by rewrite digit_not_space.
Qed.

Lemma lstrip_digits s : all_digits s = true -> lstrip s = s.
Proof.
  destruct s as [|c s]; simpl; [done|].
  intros [Hc Hs]%andb_prop. by rewrite digit_not_space.
Qed.

Lemma skip_right_digits s : all_digits s = true -> skip_right s = s.
Proof.
  induction s as [|c s IH]; simpl; [done|].
  intros [Hc Hs]%andb_prop. rewrite IH by done.
  destruct s; [|done]. by rewrite digit_not_int_space.
Qed.

Lemma skip_left_digits s : all_digits s = true -> skip_left s = s.
Proof.
  destruct s as [|c s]; simpl; [done|].
  intros [Hc Hs]%andb_prop. by rewrite digit_not_int_space.
Qed.

Lemma count_digits_all s :
  all_digits s = true -> count_digits s = Z.of_nat (String.length s).
Proof.
  induction s as [|c s IH]; [done|]. cbn [all_digits count_digits String.length].
  intros [Hc Hs]%andb_prop. rewrite IH by done. unfold is_digit in Hc.
  destruct (digit_of c); [lia | done].
Qed.

Lemma digit_of_range c d : digit_of c = Some d -> 0 <= d <= 9.
Proof.
  unfold digit_of. destruct (_ && _)%nat eqn:Eb; [|done]. intros [= <-].
  apply andb_prop in Eb as [H1%Nat.leb_le H2%Nat.leb_le]. lia.
Qed.

(** The value of a string of digits, read after [acc]. *)
Lemma digits_all_digits s acc after :
  all_digits s = true -> after = true \/ s ≠ "" -> 0 <= acc ->
  exists z, digits acc after s = Some z
            /\ acc * 10 ^ Z.of_nat (String.length s) <= z
               < (acc + 1) * 10 ^ Z.of_nat (String.length s).
Proof.
  revert acc after. induction s as [|c s IH]; intros acc after.
  - cbn. intros _ [->|Hne] Hacc; [|done]. exists acc. split; [done | lia].
  - cbn [all_digits digits String.length].
    intros [Hc Hs]%andb_prop _ Hacc. unfold is_digit in Hc.
    destruct (digit_of c) as [d|] eqn:Ed; [|done].
    apply digit_of_range in Ed.
    destruct (IH (10 * acc + d) true Hs ltac:(by left) ltac:(lia))
      as (z & -> & Hz).
    exists z. split; [done|].
    rewrite Nat2Z.inj_succ, Z.pow_succ_r by lia.
    pose proof (Z.pow_pos_nonneg 10 (Z.of_nat (String.length s))
                  ltac:(lia) ltac:(lia)).
    nia.
Qed.

(** [int] converts a numeral exactly when it has at most 4300 digits. *)
Lemma int_numeral s :
  numeral s = true ->
  if Z.leb (Z.of_nat (String.length s)) max_str_digits
  then exists z, Py.int s = Ok z
                 /\ 0 <= z < 10 ^ Z.of_nat (String.length s)
  else Py.int s = Raise ValueError.
Proof.
  unfold numeral. intros [Hne Hd]%andb_prop. unfold Py.int.
  rewrite skip_right_digits, skip_left_digits by done.
  rewrite (count_digits_all s Hd).
  destruct s as [|c r]; [done|].
  assert (Hc : is_digit c = true)
    by (simpl in Hd; by apply andb_prop in Hd as [? _]).
  destruct (Ascii.eqb_spec c "-") as [->|_]; [done|].
  destruct (Ascii.eqb_spec c "+") as [->|_]; [done|].
  destruct (digits_all_digits (String c r) 0 false Hd) as (z & -> & Hz);
    [by right | done |].
  destruct (Z.leb _ max_str_digits); [|done].
  exists z. split; [done | lia].
Qed.

Lemma int_convertible s :
  convertible s = true ->
  exists z, Py.int s = Ok z /\ 0 <= z < 10 ^ max_str_digits.
Proof.
  unfold convertible. intros [Hn Hl]%andb_prop.
  pose proof (int_numeral s Hn) as H. rewrite Hl in H.
  destruct H as (z & Hz & Hr). exists z. split; [done|].
  apply Z.leb_le in Hl. split; [lia|].
  eapply Z.lt_le_trans; [apply Hr|].
  apply Z.pow_le_mono_r; lia.
Qed.

(** On a numeral [int] raises nothing but [ValueError]. *)
Lemma int_numeral_cases s :
  numeral s = true ->
  (exists z, Py.int s = Ok z /\ 0 <= z) \/ Py.int s = Raise ValueError.
Proof.
  intros Hn. pose proof (int_numeral s Hn) as H.
  destruct (Z.leb _ max_str_digits); [left | by right].
  destruct H as (z & Hz & Hr). exists z. split; [done | lia].
Qed.

(** *** Decimal numerals *)

Lemma digits_of_uint_acc d p :
  digits (Z.pos p) true (DecimalString.NilEmpty.string_of_uint d)
  = Some (Z.pos (Pos.of_uint_acc d p)).
Proof.
  revert p. induction d; intros p; simpl; try reflexivity;
    rewrite <- IHd; f_equal;
    match goal with
    | |- context [Z.of_nat (nat_of_ascii ?c)] =>
        let v := eval vm_compute in (Z.of_nat (nat_of_ascii c)) in
        change (Z.of_nat (nat_of_ascii c)) with v
    end; lia.
Qed.

Lemma digits_of_uint d after :
  after = true \/ d <> Decimal.Nil ->
  digits 0 after (DecimalString.NilEmpty.string_of_uint d)
  = Some (Z.of_N (Pos.of_uint d)).
Proof.
  revert after. induction d; intros after Hd; simpl;
    try (apply (digits_of_uint_acc d)).
  - destruct Hd as [->|Hd]; done.
  - apply IHd. by left.
Qed.

Lemma all_digits_of_uint d :
  all_digits (DecimalString.NilEmpty.string_of_uint d) = true.
Proof. induction d; simpl; done. Qed.

Lemma string_of_pos_shape p :
  exists c s, DecimalString.NilEmpty.string_of_uint (Pos.to_uint p) = String c s
              /\ is_digit c = true /\ all_digits s = true.
Proof.
  pose proof (DecimalPos.Unsigned.to_uint_nonnil p) as Hnil.
  pose proof (all_digits_of_uint (Pos.to_uint p)) as Hall.
  destruct (DecimalString.NilEmpty.string_of_uint (Pos.to_uint p)) as [|c s] eqn:E.
  - destruct (Pos.to_uint p); done.
  - simpl in Hall. apply andb_true_iff in Hall as [Hc Hs]. by exists c, s.
Qed.

Lemma decimal_pos p :
  Py.decimal (Z.pos p)
  = DecimalString.NilEmpty.string_of_uint (Pos.to_uint p).
Proof.
  unfold Py.decimal. simpl.
  pose proof (DecimalPos.Unsigned.to_uint_nonnil p).
  by destruct (Pos.to_uint p).
Qed.

Lemma decimal_neg p :
  Py.decimal (Z.neg p) = String "-" (Py.decimal (Z.pos p)).
Proof.
  rewrite decimal_pos. unfold Py.decimal. simpl.
  pose proof (DecimalPos.Unsigned.to_uint_nonnil p).
  by destruct (Pos.to_uint p).
Qed.

Lemma digits_decimal_pos p :
  digits 0 false (Py.decimal (Z.pos p)) = Some (Z.pos p).
Proof.
  rewrite decimal_pos, digits_of_uint.
  - by rewrite DecimalPos.Unsigned.of_to.
  - right. apply DecimalPos.Unsigned.to_uint_nonnil.
Qed.

Lemma numeral_decimal z : 0 <= z -> numeral (Py.decimal z) = true.
Proof.
  intros Hz. destruct z as [|p|p]; [done| |lia].
  rewrite decimal_pos. destruct (string_of_pos_shape p) as (c & s & -> & Hc & Hs).
  unfold numeral. simpl. by rewrite Hc, Hs.
Qed.

Lemma leading_digits_all s : all_digits (leading_digits s) = true.
Proof.
  induction s as [|c s IH]; simpl; [done|].
  destruct (is_digit c) eqn:E; simpl; [by rewrite E|done].
Qed.

Lemma match_at_numeral keyword s group :
  match_at keyword s = Some group -> numeral group = true.
Proof.
  unfold match_at. destruct (strip_prefix keyword s) as [[|c rest]|]; try done.
  destruct (is_space c); [|done].
  destruct (String.eqb _ "") eqn:E; [done|]. intros [= <-].
  unfold numeral. by rewrite E, leading_digits_all.
Qed.

Lemma search_numeral keyword s group :
  search keyword s = Some group -> numeral group = true.
Proof.
  induction s as [|c s IH]; simpl.
  - destruct (match_at keyword "") eqn:E; [|done].
    intros [= <-]. by eapply match_at_numeral.
  - destruct (match_at keyword (String c s)) eqn:E; [|done].
    intros [= <-]. by eapply match_at_numeral.
Qed.

Lemma leading_digits_length s :
  (String.length (leading_digits s) <= String.length s)%nat.
Proof.
  induction s as [|c s IH]; simpl; [done|].
  destruct (is_digit c); simpl; lia.
Qed.

Lemma lstrip_length s : (String.length (lstrip s) <= String.length s)%nat.
Proof.
  induction s as [|c s IH]; simpl; [done|].
  destruct (is_space c); simpl; lia.
Qed.

Lemma strip_prefix_length p s r :
  strip_prefix p s = Some r -> (String.length r <= String.length s)%nat.
Proof.
  revert s. induction p as [|a p IH]; intros s.
  - destruct s; simpl; by intros [= <-].
  - destruct s as [|b s]; simpl; [done|].
    destruct (Ascii.eqb a b); [|done]. intros H%IH. lia.
Qed.

Lemma match_at_length keyword s group :
  match_at keyword s = Some group ->
  (String.length group <= String.length s)%nat.
Proof.
  unfold match_at.
  destruct (strip_prefix keyword s) as [[|c rest]|] eqn:E; try done.
  apply strip_prefix_length in E. simpl in E.
  destruct (is_space c); [|done].
  destruct (String.eqb _ ""); [done|]. intros [= <-].
  pose proof (leading_digits_length (lstrip rest)).
  pose proof (lstrip_length rest). lia.
Qed.

Lemma search_length keyword s group :
  search keyword s = Some group ->
  (String.length group <= String.length s)%nat.
Proof.
  induction s as [|c s IH]; simpl.
  - destruct (match_at keyword "") eqn:E; [|done].
    intros [= <-]. by apply match_at_length in E.
  - destruct (match_at keyword (String c s)) eqn:E.
    + intros [= <-]. by apply match_at_length in E.
    + intros H%IH. lia.
Qed.

(** The number found after a keyword is converted, or has more digits
    than [int] accepts. *)
Lemma search_int keyword s group :
  search keyword s = Some group ->
  (exists z, Py.int group = Ok z /\ 0 <= z)
  \/ (Py.int group = Raise ValueError
      /\ max_str_digits < Z.of_nat (String.length s)).
Proof.
  intros H. pose proof (search_length _ _ _ H) as Hlen.
  apply search_numeral in H. pose proof (int_numeral group H) as Hint.
  destruct (Z.leb_spec (Z.of_nat (String.length group)) max_str_digits).
  - left. destruct Hint as (z & Hz & Hr). exists z. split; [done | lia].
  - right. split; [done | lia].
Qed.

(** The two extractors raise only on a number of more than 4300 digits. *)
Lemma extract_mtu_cases interface_config :
  (exists z, _extract_mtu_from_interface interface_config = Ok z /\ 0 <= z)
  \/ (_extract_mtu_from_interface interface_config = Raise ValueError
      /\ max_str_digits < Z.of_nat (String.length interface_config)).
Proof.
  unfold _extract_mtu_from_interface.
  destruct (search "mtu" interface_config) as [group|] eqn:E.
  - by apply search_int in E.
  - left. by exists 1500.
Qed.

Lemma extract_bandwidth_cases interface_config :
  (exists z, _extract_bandwidth_from_interface interface_config = Ok z /\ 0 <= z)
  \/ (_extract_bandwidth_from_interface interface_config = Raise ValueError
      /\ max_str_digits < Z.of_nat (String.length interface_config)).
Proof.
  unfold _extract_bandwidth_from_interface.
  destruct (search "bandwidth" interface_config) as [group|] eqn:E.
  - by apply search_int in E.
  - left. by exists 100000.
Qed.

(** *** The length of a decimal numeral *)

Lemma to_uint_head p d : Pos.to_uint p <> Decimal.D0 d.
Proof.
  pose proof (DecimalPos.Unsigned.to_of (Pos.to_uint p)) as H.
  rewrite DecimalPos.Unsigned.of_to in H. cbn [N.to_uint] in H.
  intros E. rewrite E in H at 1. unfold Decimal.unorm in H.
  destruct (Decimal.nzhead (Pos.to_uint p)) eqn:En; try discriminate.
  - apply (DecimalPos.Unsigned.to_uint_nonzero p). by rewrite E, H.
  - by apply (DecimalFacts.nzhead_nonzero (Pos.to_uint p) u).
Qed.

Lemma decimal_pos_head p :
  exists c s d, Py.decimal (Z.pos p) = String c s
                /\ digit_of c = Some d /\ 1 <= d /\ all_digits s = true.
Proof.
  rewrite decimal_pos. pose proof (to_uint_head p) as Hhead.
  pose proof (DecimalPos.Unsigned.to_uint_nonnil p) as Hnil.
  pose proof (all_digits_of_uint (Pos.to_uint p)) as Hall.
  destruct (Pos.to_uint p) as [|u|u|u|u|u|u|u|u|u|u]; [done|by destruct (Hhead u)|..];
    cbn [DecimalString.NilEmpty.string_of_uint all_digits] in *;
    apply andb_prop in Hall as [_ Hall];
    eexists _, _, _; (split; [reflexivity|]);
    (split; [vm_compute; reflexivity|]); (split; [lia | exact Hall]).
Qed.

Lemma decimal_pos_length p :
  10 ^ (Z.of_nat (String.length (Py.decimal (Z.pos p))) - 1) <= Z.pos p.
Proof.
  pose proof (digits_decimal_pos p) as Hd.
  destruct (decimal_pos_head p) as (c & s & d & E & Hc & Hd1 & Hs).
  rewrite E in *. cbn [digits String.length] in *. rewrite Hc in Hd.
  pose proof (digit_of_range _ _ Hc).
  destruct (digits_all_digits s (10 * 0 + d) true Hs ltac:(by left) ltac:(lia))
    as (z & Hz & Hr).
  rewrite Hz in Hd. injection Hd as ->.
  replace (Z.of_nat (S (String.length s)) - 1) with (Z.of_nat (String.length s))
    by lia.
  pose proof (Z.pow_pos_nonneg 10 (Z.of_nat (String.length s))
                ltac:(lia) ltac:(lia)).
  nia.
Qed.

(** [str] returns on the non-negative integers below 10^4300. *)
Lemma str_returns v :
  0 <= v < 10 ^ max_str_digits -> Py.str v = Ok (Py.decimal v).
Proof.
  intros Hv. unfold Py.str.
  destruct v as [|p|p]; [reflexivity| |lia].
  rewrite (count_digits_all _ (proj2 (andb_prop _ _ (numeral_decimal (Z.pos p) ltac:(lia))))).
  pose proof (decimal_pos_length p) as Hlen.
  destruct (Z.leb_spec (Z.of_nat (String.length (Py.decimal (Z.pos p))))
                       max_str_digits) as [|Hlong]; [done|].
  exfalso.
  assert (10 ^ max_str_digits
          <= 10 ^ (Z.of_nat (String.length (Py.decimal (Z.pos p))) - 1))
    by (apply Z.pow_le_mono_r; lia).
  lia.
Qed.

Lemma land_bound a b limit :
  0 <= a < limit -> 0 <= b -> 0 <= Z.land a b < limit.
Proof.
  intros Ha Hb. split; [apply Z.land_nonneg; lia|].
  rewrite <- (Z2N.id a), <- (Z2N.id b), <- N2Z.inj_land by lia.
  pose proof (N.land_le_l (Z.to_N a) (Z.to_N b)). lia.
Qed.

(** *** Dotted quads *)

Lemma map_result_int parts :
  forallb convertible parts = true ->
  exists zs, map_result Py.int parts = Ok zs /\ length zs = length parts
             /\ Forall (fun z => 0 <= z < 10 ^ max_str_digits) zs.
Proof.
  induction parts as [|p parts IH]; simpl; [by exists []|].
  intros [Hp Hparts]%andb_prop.
  destruct (int_convertible p Hp) as (z & -> & Hz).
  destruct (IH Hparts) as (zs & -> & Hlen & Hall). simpl.
  exists (z :: zs). simpl. rewrite Hlen.
  split; [done|]. split; [done|]. by constructor.
Qed.

Lemma index_lt {A} (l : list A) i :
  (i < length l)%nat -> exists x, index l i = Ok x.
Proof.
  intros Hi. unfold index. destruct (nth_error l i) eqn:E; [by eexists|].
  apply nth_error_None in E. lia.
Qed.

Lemma index_Forall {A} (P : A -> Prop) (l : list A) i x :
  Forall P l -> index l i = Ok x -> P x.
Proof.
  intros Hall. unfold index. destruct (nth_error l i) eqn:E; [|done].
  intros [= <-]. rewrite Forall_forall in Hall. apply Hall.
  apply list_elem_of_In. by eapply nth_error_In.
Qed.

(** On dotted quads of convertible numerals [_calculate_subnet] returns. *)
Lemma calculate_subnet_returns ip_address subnet_mask :
  short_quad ip_address = true -> short_quad subnet_mask = true ->
  exists s, Topology._calculate_subnet ip_address subnet_mask = Ok s.
Proof.
  unfold short_quad. intros [Hlen1 Hnum1]%andb_prop [Hlen2 Hnum2]%andb_prop.
  apply Nat.leb_le in Hlen1, Hlen2. unfold _calculate_subnet.
  destruct (map_result_int _ Hnum1) as (ips & -> & Hl1 & Hips).
  destruct (map_result_int _ Hnum2) as (masks & -> & Hl2 & Hmasks).
  cbn [mbind result_bind map_result].
  destruct (index_lt ips 0) as (a0 & Ea0); [lia|].
  destruct (index_lt masks 0) as (b0 & Eb0); [lia|].
  destruct (index_lt ips 1) as (a1 & Ea1); [lia|].
  destruct (index_lt masks 1) as (b1 & Eb1); [lia|].
  destruct (index_lt ips 2) as (a2 & Ea2); [lia|].
  destruct (index_lt masks 2) as (b2 & Eb2); [lia|].
  destruct (index_lt ips 3) as (a3 & Ea3); [lia|].
  destruct (index_lt masks 3) as (b3 & Eb3); [lia|].
  rewrite Ea0, Eb0, Ea1, Eb1, Ea2, Eb2, Ea3, Eb3.
  cbn [mbind result_bind mret result_ret map_result].
  pose proof (index_Forall _ _ _ _ Hips Ea0).
  pose proof (index_Forall _ _ _ _ Hips Ea1).
  pose proof (index_Forall _ _ _ _ Hips Ea2).
  pose proof (index_Forall _ _ _ _ Hips Ea3).
  pose proof (index_Forall _ _ _ _ Hmasks Eb0).
  pose proof (index_Forall _ _ _ _ Hmasks Eb1).
  pose proof (index_Forall _ _ _ _ Hmasks Eb2).
  pose proof (index_Forall _ _ _ _ Hmasks Eb3).
  cbv beta in *.
  rewrite !str_returns by (apply land_bound; lia).
  by eexists.
Qed.

End NumeralFacts.

(** ** The build as a whole *)

Module BuildFacts.
Export Records.
Import DictFacts GroupFacts PyFacts TopologyFacts NumeralFacts.

Lemma for_each_returns {A S} (P : S -> Prop) (body : A -> S -> result S) l st :
  (forall x st, x ∈ l -> P st -> exists st', body x st = Ok st' /\ P st') ->
  P st -> exists st', for_each body l st = Ok st' /\ P st'.
Proof.
  revert st. induction l as [|x l IH]; intros st Hbody Hst; simpl.
  - by exists st.
  - destruct (Hbody x st) as (st1 & -> & Hst1); [left | done |]. simpl.
    apply IH; [|done]. intros y s Hy. apply Hbody. by right.
Qed.

Lemma elem_set {V} (d : dict string V) k v kv :
  kv ∈ Py.set k v d -> kv = (k, v) \/ kv ∈ d.
Proof.
  induction d as [|[k' v'] d IH]; simpl.
  - intros ->%list_elem_of_singleton. by left.
  - destruct (decide (k' = k)).
    + intros [->|Hin]%elem_of_cons; [by left | right; by right].
    + intros [->|Hin]%elem_of_cons; [right; left|].
      destruct (IH Hin) as [->|Hd]; [by left | right; by right].
Qed.

Lemma elem_append_to {A} (d : dict string (list A)) k x k' l' :
  (k', l') ∈ append_to k x d ->
  (k', l') ∈ d \/ (k' = k /\ l' = default [] (get k d) ++ [x]).
Proof.
  unfold append_to. destruct (get k d) as [l|] eqn:E.
  - intros [[= -> ->]|Hin]%elem_set; [right | by left]. done.
  - intros [[= -> ->]|Hin]%elem_set; [right | by left]. done.
Qed.

Lemma in_pairs {A} (l : list A) a b : (a, b) ∈ pairs l -> a ∈ l /\ b ∈ l.
Proof.
  induction l as [|x l IH]; simpl.
  - intros H. by apply elem_of_nil in H.
  - intros [Hin|Hin]%elem_of_app.
    + apply list_elem_of_fmap in Hin as (y & [= -> ->] & Hy).
      split; [left | by right].
    + destruct (IH Hin). split; by right.
Qed.

Lemma last_char_returns s : s ≠ "" -> exists c, last_char s = Ok c.
Proof.
  induction s as [|c s IH]; [done|]. intros _. simpl.
  destruct s as [|c' s']; [by exists c|]. by apply IH.
Qed.

(** *** Registration *)

Lemma register_returns configs :
  forallb well_formed_record configs = true ->
  exists self, for_each register configs init = Ok self /\ registered_well self.
Proof.
  intros Hwf. apply for_each_returns.
  - intros c st Hc Hst. rewrite forallb_forall in Hwf.
    apply list_elem_of_In in Hc. specialize (Hwf c Hc).
    unfold register, well_formed_record in *. destruct (nonempty c); [|by exists st].
    simpl in Hwf. destruct (device_name c) as [name|]; [|done]. simpl.
    apply andb_prop in Hwf as [Hname Hifs]. eexists. split; [done|].
    intros id c' [[= -> ->]|Hin]%elem_set; [|by apply Hst].
    split; [|done]. intros ->. done.
  - intros id c Hin. by apply elem_of_nil in Hin.
Qed.

Lemma register_keeps configs st st' :
  for_each register configs st = Ok st' ->
  (forall id, id ∈ keys (devices st) -> id ∈ keys (devices st'))
  /\ (forall c, c ∈ configs -> nonempty c = true ->
        exists id, device_name c = Some id /\ id ∈ keys (devices st')).
Proof.
  revert st. induction configs as [|c configs IH]; intros st; simpl.
  - intros [= <-]. split; [done|]. intros c Hc. by apply elem_of_nil in Hc.
  - destruct (register c st) as [st1|] eqn:E; simpl; [|done].
    intros Hrest. destruct (IH _ Hrest) as [Hkeep Hreg].
    assert (Hst1 : forall id, id ∈ keys (devices st) -> id ∈ keys (devices st1)).
    { intros id Hid. unfold register in E. destruct (nonempty c); [|by injection E as <-].
      destruct (device_name c) as [name|]; simpl in E; [|done].
      injection E as <-. simpl. rewrite keys_set.
      destruct (contains name (devices st)); [done|]. apply elem_of_app. by left. }
    split; [intros id Hid; by apply Hkeep, Hst1|].
    intros c' [->|Hc']%elem_of_cons Hne; [|by apply Hreg].
    unfold register in E. rewrite Hne in E.
    destruct (device_name c) as [name|]; simpl in E; [|done].
    injection E as <-. exists name. split; [done|]. apply Hkeep. simpl.
    rewrite keys_set. destruct (contains name (devices st)) eqn:Ec.
    + by apply contains_true.
    + apply elem_of_app. right. left.
Qed.

(** *** Grouping *)

Lemma group_interface_returns id i groups :
  well_formed_interface i = true -> with_bandwidth groups ->
  exists groups', group_interface id i groups = Ok groups' /\ with_bandwidth groups'.
Proof.
  unfold well_formed_interface, group_interface. intros Hwf Hg.
  destruct (if_ip_address i) as [ip|]; [|by exists groups].
  destruct (if_subnet_mask i) as [mask|]; [|by exists groups].
  destruct (_ && _); [|by exists groups].
  apply andb_prop in Hwf as [[Hname Hip]%andb_prop Hmask].
  destruct (calculate_subnet_returns ip mask Hip Hmask) as (s & ->). simpl.
  destruct (if_name i) as [name|]; [|done]. simpl. eexists. split; [done|].
  intros s' l m [Hin|[-> ->]]%elem_append_to Hm; [by eapply Hg|].
  apply elem_of_app in Hm as [Hm|Hm];
    [|apply list_elem_of_singleton in Hm; subst m; by eexists].
  destruct (get s groups) as [l0|] eqn:E; simpl in Hm; [|by apply elem_of_nil in Hm].
  apply get_Some_elem in E. by eapply Hg.
Qed.

Lemma group_by_subnet_returns devs :
  (forall id c, (id, c) ∈ devs ->
     forallb well_formed_interface (interfaces_of c) = true) ->
  exists groups, group_by_subnet devs = Ok groups /\ with_bandwidth groups.
Proof.
  intros Hwf. apply for_each_returns.
  - intros [id c] groups Hin Hg. unfold group_device. simpl.
    fold (interfaces_of c). apply for_each_returns; [|done].
    intros i g Hi Hgi. apply group_interface_returns; [|done].
    specialize (Hwf id c Hin). rewrite forallb_forall in Hwf.
    by apply Hwf, list_elem_of_In.
  - intros s l m Hin. by apply elem_of_nil in Hin.
Qed.

(** *** Links *)

Lemma add_subnet_links_returns groups self :
  with_bandwidth groups ->
  exists self', add_subnet_links groups self = Ok self'
                /\ devices self' = devices self.
Proof.
  intros Hg. unfold add_subnet_links.
  apply (for_each_returns (fun st => devices st = devices self)); [|done].
  intros [[d1 d2] s] st Hin Hst. simpl.
  apply list_elem_of_In, in_flat_map in Hin as ([s' l] & Hgroup & Hcall).
  apply list_elem_of_In in Hgroup. unfold group_links in Hcall. simpl in Hcall.
  destruct (1 <? length l)%nat; [|done].
  apply list_elem_of_In, list_elem_of_fmap in Hcall as ([a b] & [= -> -> ->] & Hp).
  apply in_pairs in Hp as [Ha Hb].
  destruct (Hg _ _ _ Hgroup Ha) as [b1 E1], (Hg _ _ _ Hgroup Hb) as [b2 E2].
  unfold _add_link. rewrite E1, E2. simpl. by eexists.
Qed.

Lemma connect_switches_returns self :
  (forall id c, (id, c) ∈ devices self -> id ≠ "") ->
  exists topo, _connect_switches_to_segments self = Ok topo
               /\ devices topo = devices self.
Proof.
  intros Hids. unfold _connect_switches_to_segments.
  apply (for_each_returns (fun st => devices st = devices self)); [|done].
  intros [sw cfg] st Hin Hst. unfold connect_switch. simpl.
  apply list_elem_of_In, filter_In in Hin as [Hin%list_elem_of_In _].
  apply (for_each_returns (fun s => devices s = devices self)); [|done].
  intros [other ocfg] s Hother Hs. unfold try_attach. simpl.
  rewrite Hst in Hother.
  destruct (may_attach sw other s); [|by exists s].
  destruct (_add_switch_link_spec sw other s) as (_ & Hd & _).
  assert (Hadd : devices (_add_switch_link sw other s) = devices self)
    by (by rewrite Hd).
  destruct (_shares_vlan_segment ocfg _); [by eexists|].
  destruct (has_role "router" ocfg); [|by exists s].
  destruct (last_char_returns sw) as (a & ->); [by eapply Hids|].
  destruct (last_char_returns other) as (b & ->); [by eapply Hids|]. simpl.
  destruct (Ascii.eqb a b); by eexists.
Qed.

(** A build over well-formed records returns and registers them all. *)
Lemma build_returns configs :
  forallb well_formed_record configs = true ->
  exists topo,
    build_topology_from_configs configs = Ok topo
    /\ forall c, c ∈ configs -> nonempty c = true ->
         exists id, device_name c = Some id /\ id ∈ keys (devices topo).
Proof.
  intros Hwf. unfold build_topology_from_configs, _build_connections.
  destruct (register_returns configs Hwf) as (self & Hreg & Hself).
  rewrite Hreg. simpl.
  destruct (group_by_subnet_returns (devices self)) as (groups & -> & Hg).
  { intros id c Hin. by destruct (Hself id c Hin). }
  simpl. destruct (add_subnet_links_returns groups self Hg) as (self' & -> & Hd).
  simpl. destruct (connect_switches_returns self') as (topo & -> & Hd').
  { intros id c Hin. rewrite Hd in Hin. by destruct (Hself id c Hin). }
  exists topo. split; [done|]. rewrite Hd', Hd.
  by apply (register_keeps configs init self).
Qed.

End BuildFacts.

(** ** An octet that [int] refuses *)

Section LongOctet.
Import ConfigParser Parser Examples.

(** C9. The build raises on a record that the parser returns: from an
    interface block whose address has an octet of 4301 digits the parser
    builds an interface with that address, its pattern asking for digits
    only; the builder converts the octets without handling the
    [ValueError] of [int], and so the whole build raises, where the
    subnet helper of the validator, which has the same statements inside
    a [try], returns the address unchanged. *)
Theorem C9_long_octet_raises :
  interface_info "GigabitEthernet0/0" long_octet_block
  = Ok (interface_on "GigabitEthernet0/0" long_octet "255.255.255.0")
  /\ Parser._extract_hostname long_octet_file = "H1"
  /\ Parser._detect_device_type long_octet_file = "endpoint"
  /\ Topology._calculate_subnet long_octet "255.255.255.0" = Raise ValueError
  /\ build_topology_from_configs [long_octet_record] = Raise ValueError
  /\ Rules._calculate_subnet long_octet "255.255.255.0" = long_octet.
Proof.
  split; [vm_compute; reflexivity|].
  split; [vm_compute; reflexivity|].
  split; [vm_compute; reflexivity|].
  split; [vm_compute; reflexivity|].
  split; vm_compute; reflexivity.
Qed.
End LongOctet.

(** ** The loop rule *)

Module LoopFacts.
Import PyFacts.

Lemma loop_issue_spec cycle i :
  i ∈ loop_issue cycle ->
  i = {| severity := Warning; finding := Loop cycle (length cycle) |}
  /\ (2 < length cycle)%nat.
Proof.
  unfold loop_issue. destruct (Nat.ltb_spec 2 (length cycle)) as [Hlt|Hge].
  - intros Hi. apply list_elem_of_singleton in Hi. by split.
  - intros Hi. by apply elem_of_nil in Hi.
Qed.

Lemma stp_issue_spec device_str entry l i :
  stp_issue device_str entry = Ok l -> i ∈ l ->
  i = {| severity := Warning; finding := NoSpanningTree entry.1 |}.
Proof.
  unfold stp_issue. destruct (device_type entry.2) as [role|]; simpl; [|done].
  destruct (String.eqb role "switch"); [|intros [= <-] Hi; by apply elem_of_nil in Hi].
  destruct (negb _); intros [= <-] Hi.
  - by apply list_elem_of_singleton in Hi.
  - by apply elem_of_nil in Hi.
Qed.

(** The searched digraph has every edge in both directions. *)
Lemma arcs_to_directed g u v :
  (u, v) ∈ Nx.arcs (Nx.to_directed g) <-> Nx.adjacent g u v.
Proof.
  unfold Nx.to_directed, Nx.adjacent. simpl.
  rewrite list_elem_of_In, in_flat_map. split.
  - intros ([a b] & He%list_elem_of_In & Hin). simpl in Hin.
    destruct (decide (a = b)) as [->|Hne].
    + destruct Hin as [[= -> ->]|[]]. by left.
    + destruct Hin as [[= -> ->]|[[= -> ->]|[]]]; [by left | by right].
  - intros [He|He].
    + exists (u, v). split; [by apply list_elem_of_In|]. simpl.
      destruct (decide (u = v)); by left.
    + exists (v, u). split; [by apply list_elem_of_In|]. simpl.
      destruct (decide (v = u)) as [->|]; [by left | right; by left].
Qed.

End LoopFacts.

Section LoopRule.
Import PyFacts LoopFacts.
Variable simple_cycles : Nx.DiGraph -> result (list (list string)).
Variable device_str : Device -> string.

(** C8. The loop rule searches the digraph that has both directions of
    every link between routers and switches, and reports a cycle that the
    search returns exactly when the cycle has more than two devices: every
    loop issue lists strictly more than two devices. *)
Theorem C8_loops_list_more_than_two_devices topology_data r :
  check_network_loops simple_cycles device_str topology_data = Ok r ->
  (exists g,
     infrastructure_graph topology_data = Ok g
     /\ (forall u v, (u, v) ∈ Nx.arcs (Nx.to_directed g) <-> Nx.adjacent g u v)
     /\ forall cycles, simple_cycles (Nx.to_directed g) = Ok cycles ->
          forall cycle,
            {| severity := Warning; finding := Loop cycle (length cycle) |}
              ∈ issues r
            <-> cycle ∈ cycles /\ (2 < length cycle)%nat)
  /\ forall i cycle n,
       i ∈ issues r -> finding i = Loop cycle n ->
       n = length cycle /\ (2 < length cycle)%nat.
Proof.
  unfold check_network_loops.
  destruct (infrastructure_graph topology_data) as [g|e]; simpl; [|done].
  destruct (map_result _ _) as [stp|e] eqn:Hstp; simpl; [|done].
  intros [= <-]. simpl.
  assert (Hstp_issue : forall i, i ∈ concat stp -> exists d, finding i = NoSpanningTree d).
  { intros i (l & Hl%list_elem_of_In & Hi%list_elem_of_In)%list_elem_of_In%in_concat.
    destruct (map_result_elem_r _ _ _ _ Hstp Hl) as (entry & _ & Hentry).
    rewrite (stp_issue_spec _ _ _ _ Hentry Hi). by eexists. }
  split.
  - exists g. split; [done|]. split; [apply arcs_to_directed|].
    intros cycles Hcycles cycle. unfold find_loops. rewrite Hcycles.
    rewrite elem_of_app. split.
    + intros [Hi|Hi].
      * apply list_elem_of_In, in_flat_map in Hi as (c & Hc%list_elem_of_In & Hi).
        apply list_elem_of_In, loop_issue_spec in Hi as [[= <-] Hlen]. done.
      * apply Hstp_issue in Hi as (d & Hd). discriminate.
    + intros [Hc Hlen]. left. apply list_elem_of_In, in_flat_map.
      exists cycle. split; [by apply list_elem_of_In|].
      unfold loop_issue. apply Nat.ltb_lt in Hlen. rewrite Hlen. by left.
  - intros i cycle n Hi Hf. apply elem_of_app in Hi as [Hi|Hi].
    + unfold find_loops in Hi.
      destruct (simple_cycles _) as [cycles|e]; [|by apply elem_of_nil in Hi].
      apply list_elem_of_In, in_flat_map in Hi as (c & _ & Hi).
      apply list_elem_of_In, loop_issue_spec in Hi as [-> Hlen].
      simpl in Hf. injection Hf as <- <-. by split.
    + apply Hstp_issue in Hi as (d & Hd). congruence.
Qed.
End LoopRule.

(** ** The address conflict rule *)

Module ConflictFacts.
Export Conflicts.
Import DictFacts GroupFacts PyFacts.










End ConflictFacts.

Section ConflictRule.
Import DictFacts GroupFacts PyFacts ConflictFacts.

End ConflictRule.

(** ** Paths in a graph *)

Module GraphFacts.
Export Graphs.
Import Nx.
Local Open Scope nat_scope.

Lemma adjacent_sym g u v : adjacent g u v -> adjacent g v u.
Proof. unfold adjacent. tauto. Qed.

Lemma connected_sym g u v : connected g u v -> connected g v u.
Proof.
  induction 1 as [|u w v Huw _ IH]; [apply rtc_refl|].
  eapply rtc_r; [exact IH | by apply adjacent_sym].
Qed.

Lemma neighbors_spec g u v : v ∈ neighbors g u <-> adjacent g u v.
Proof.
  unfold neighbors, adjacent. rewrite list_elem_of_In, in_flat_map. split.
  - intros ([a b] & He & Hv). simpl in Hv. apply list_elem_of_In in He.
    apply in_app_or in Hv as [Hv|Hv].
    + destruct (decide (a = u)) as [->|]; [|done]. destruct Hv as [->|[]]. by left.
    + destruct (decide (b = u)) as [->|]; [|done]. destruct Hv as [->|[]]. by right.
  - intros [He|He].
    + exists (u, v). split; [by apply list_elem_of_In|]. simpl.
      rewrite decide_True by done. by left.
    + exists (v, u). split; [by apply list_elem_of_In|]. simpl.
      apply in_or_app. right. rewrite decide_True by done. by left.
Qed.

Lemma expand_spec g (S : gset string) x :
  x ∈ expand g S <-> x ∈ S \/ exists u, u ∈ S /\ adjacent g u x.
Proof.
  unfold expand. rewrite elem_of_union, elem_of_list_to_set.
  rewrite list_elem_of_In, in_flat_map. split.
  - intros [Hx|(u & Hu & Hx)]; [by left|]. right. exists u.
    apply list_elem_of_In, elem_of_elements in Hu.
    by apply list_elem_of_In, neighbors_spec in Hx.
  - intros [Hx|(u & Hu & Hx)]; [by left|]. right. exists u.
    split; [by apply list_elem_of_In, elem_of_elements|].
    by apply list_elem_of_In, neighbors_spec.
Qed.

Lemma closure_extends fuel g (S : gset string) : S ⊆ closure fuel g S.
Proof.
  revert S. induction fuel as [|fuel IH]; intros S; simpl; [done|].
  destruct (decide (expand g S ⊆ S)); [done|].
  etransitivity; [|apply IH]. intros x Hx. apply expand_spec. by left.
Qed.

(** Everything found is reachable from a start node. *)
Lemma closure_sound fuel g (S : gset string) x :
  x ∈ closure fuel g S -> exists s, s ∈ S /\ connected g s x.
Proof.
  revert S. induction fuel as [|fuel IH]; intros S; simpl.
  - intros Hx. exists x. split; [done | apply rtc_refl].
  - destruct (decide (expand g S ⊆ S)).
    + intros Hx. exists x. split; [done | apply rtc_refl].
    + intros (s & Hs & Hsx)%IH.
      apply expand_spec in Hs as [Hs|(u & Hu & Hus)]; [by exists s|].
      exists u. split; [done|]. by eapply rtc_l.
Qed.

(** A set closed under edges holds whatever is reachable from it. *)
Lemma closed_reachable g (C : gset string) s x :
  expand g C ⊆ C -> s ∈ C -> connected g s x -> x ∈ C.
Proof.
  intros Hclosed Hs Hpath. induction Hpath as [|s y x Hsy _ IH]; [done|].
  apply IH, Hclosed, expand_spec. right. by exists s.
Qed.

Lemma size_list_to_set_le (l : list string) :
  size (list_to_set l : gset string) <= length l.
Proof.
  induction l as [|x l IH].
  - rewrite list_to_set_nil, size_empty. done.
  - rewrite list_to_set_cons, size_union_alt, size_singleton. simpl.
    assert (Hle : size (list_to_set l ∖ {[x]} : gset string)
                  <= size (list_to_set l : gset string))
      by (apply subseteq_size, subseteq_difference_l; done).
    lia.
Qed.

Lemma expand_nodes g (S : gset string) :
  well_formed_graph g -> S ⊆ list_to_set (nodes g) -> expand g S ⊆ list_to_set (nodes g).
Proof.
  intros [_ Hwf] HS x [Hx|(u & Hu & [He|He])]%expand_spec; [by apply HS| |];
    apply elem_of_list_to_set; by destruct (Hwf _ _ He).
Qed.

(** With enough fuel the growth stops at a closed set. *)
Lemma closure_closed fuel g (S : gset string) :
  well_formed_graph g -> S ⊆ list_to_set (nodes g) ->
  size (list_to_set (nodes g) : gset string) < size S + fuel ->
  expand g (closure fuel g S) ⊆ closure fuel g S.
Proof.
  intros Hwf. revert S. induction fuel as [|fuel IH]; intros S HS Hfuel; simpl.
  - apply subseteq_size in HS. lia.
  - destruct (decide (expand g S ⊆ S)) as [|Hgrow]; [done|].
    apply IH; [by apply expand_nodes|].
    assert (Hsub : S ⊂ expand g S).
    { split; [|done]. intros x Hx. apply expand_spec. by left. }
    apply subset_size in Hsub. lia.
Qed.

(** The computed component is the set of reachable nodes. *)
Theorem component_spec g s x :
  well_formed_graph g -> s ∈ nodes g ->
  x ∈ component g s <-> connected g s x.
Proof.
  intros Hwf Hs. unfold component. split.
  - intros (s' & ->%elem_of_singleton & Hpath)%closure_sound. done.
  - apply closed_reachable.
    + apply closure_closed; [done | |].
      * intros y ->%elem_of_singleton. by apply elem_of_list_to_set.
      * rewrite size_singleton. pose proof (size_list_to_set_le (nodes g)). lia.
    + apply closure_extends. by apply elem_of_singleton.
Qed.

Lemma reaches_spec g u v :
  well_formed_graph g -> u ∈ nodes g -> reaches g u v = true <-> connected g u v.
Proof.
  intros Hwf Hu. unfold reaches. rewrite bool_decide_eq_true.
  by apply component_spec.
Qed.

(** [has_path] answers for nodes of the graph, and answers rightly. *)
Theorem has_path_spec g source target :
  well_formed_graph g -> source ∈ nodes g -> target ∈ nodes g ->
  has_path g source target = Ok (reaches g source target)
  /\ (reaches g source target = true <-> connected g source target).
Proof.
  intros Hwf Hs Ht. split; [|by apply reaches_spec].
  unfold has_path, has_node.
  by rewrite (bool_decide_eq_true_2 _ Hs), (bool_decide_eq_true_2 _ Ht).
Qed.

End GraphFacts.
Module GraphBuildFacts.
Import Nx GraphFacts.

Lemma has_node_spec g n : has_node g n = true <-> n ∈ nodes g.
Proof. unfold has_node. apply bool_decide_eq_true. Qed.

Lemma edges_add_node n g : edges (add_node n g) = edges g.
Proof. unfold add_node. by destruct (has_node g n). Qed.

Lemma nodes_add_node n g x :
  x ∈ nodes (add_node n g) <-> x ∈ nodes g \/ x = n.
Proof.
  unfold add_node. destruct (has_node g n) eqn:E; simpl.
  - apply has_node_spec in E. split; [by left | by intros [?| ->]].
  - rewrite elem_of_app, list_elem_of_singleton. done.
Qed.

Lemma well_formed_add_node n g : well_formed_graph g -> well_formed_graph (add_node n g).
Proof.
  intros [Hnd Hwf]. split.
  - unfold add_node. destruct (has_node g n) eqn:E; simpl; [done|].
    apply NoDup_app. split; [done|]. split; [|apply NoDup_singleton].
    intros x Hx ->%list_elem_of_singleton.
    apply has_node_spec in Hx. congruence.
  - intros u v. rewrite edges_add_node, !nodes_add_node.
    intros He. destruct (Hwf u v He). split; by left.
Qed.

Lemma adjacent_add_edge u v g a b :
  adjacent (add_edge u v g) a b <->
  adjacent g a b \/ (a = u /\ b = v) \/ (a = v /\ b = u).
Proof.
  unfold add_edge, has_edge.
  set (g' := add_node v (add_node u g)).
  assert (Hadj : forall x y, adjacent g' x y <-> adjacent g x y).
  { intros x y. unfold adjacent, g'. by rewrite !edges_add_node. }
  destruct (bool_decide (adjacent g' u v)) eqn:E.
  - apply bool_decide_eq_true in E. rewrite Hadj. split; [by left|].
    intros [H|[[-> ->]|[-> ->]]]; [done | by apply Hadj |].
    by apply adjacent_sym, Hadj.
  - unfold adjacent at 1. simpl. rewrite !elem_of_app, !list_elem_of_singleton.
    fold (adjacent g' a b). unfold g' at 1 2. rewrite !edges_add_node.
    unfold adjacent. split.
    + intros [[H|[= -> ->]]|[H|[= -> ->]]]; tauto.
    + intros [[H|H]|[[-> ->]|[-> ->]]]; tauto.
Qed.

Lemma nodes_add_edge u v g x :
  x ∈ nodes (add_edge u v g) <-> x ∈ nodes g \/ x = u \/ x = v.
Proof.
  unfold add_edge. destruct (has_edge _ u v); simpl;
    rewrite !nodes_add_node; tauto.
Qed.

Lemma well_formed_add_edge u v g : well_formed_graph g -> well_formed_graph (add_edge u v g).
Proof.
  intros Hwf.
  assert (Hwf' : well_formed_graph (add_node v (add_node u g)))
    by by do 2 apply well_formed_add_node.
  unfold add_edge. destruct (has_edge _ u v); [done|].
  destruct Hwf' as [Hnd Hedges]. split; [done|]. simpl.
  intros a b [He|[= -> ->]%list_elem_of_singleton]%elem_of_app; [by apply Hedges|].
  rewrite !nodes_add_node. tauto.
Qed.

Lemma edges_once_add_edge u v g : edges_once g -> edges_once (add_edge u v g).
Proof.
  intros [Hnd Hrev]. unfold add_edge, has_edge, edges_once.
  destruct (bool_decide _) eqn:E; simpl; rewrite ?edges_add_node; [done|].
  apply bool_decide_eq_false in E. unfold adjacent in E.
  rewrite !edges_add_node in E. split.
  - apply NoDup_app. split; [done|]. split; [|apply NoDup_singleton].
    intros e He ->%list_elem_of_singleton. tauto.
  - intros a b [H1|[= -> ->]%list_elem_of_singleton]%elem_of_app
               [H2|[= Ha Hb]%list_elem_of_singleton]%elem_of_app;
      subst; try tauto. by apply Hrev.
Qed.

(** *** Removing a node or an edge *)

Lemma nodes_remove_node v g x :
  x ∈ nodes (remove_node v g) <-> x ∈ nodes g /\ x ≠ v.
Proof.
  unfold remove_node. simpl. rewrite list_elem_of_In, filter_In, <- list_elem_of_In.
  rewrite negb_true_iff, String.eqb_neq. done.
Qed.

Lemma edges_remove_node v g a b :
  (a, b) ∈ edges (remove_node v g) <-> (a, b) ∈ edges g /\ a ≠ v /\ b ≠ v.
Proof.
  unfold remove_node. simpl. rewrite list_elem_of_In, filter_In, <- list_elem_of_In.
  simpl. rewrite andb_true_iff, !negb_true_iff, !String.eqb_neq. done.
Qed.

Lemma well_formed_remove_node v g : well_formed_graph g -> well_formed_graph (remove_node v g).
Proof.
  intros [Hnd Hwf]. split.
  - unfold remove_node. simpl. by apply NoDup_ListNoDup, List.NoDup_filter, NoDup_ListNoDup.
  - intros a b (He & Ha & Hb)%edges_remove_node.
    rewrite !nodes_remove_node. destruct (Hwf a b He). done.
Qed.

Lemma edges_remove_edge u v g a b :
  (a, b) ∈ edges (remove_edge u v g) <->
  (a, b) ∈ edges g /\ (a, b) ≠ (u, v) /\ (a, b) ≠ (v, u).
Proof.
  unfold remove_edge. simpl. rewrite list_elem_of_In, filter_In, <- list_elem_of_In.
  simpl. rewrite andb_true_iff, !negb_true_iff, !andb_false_iff, !String.eqb_neq.
  split; intros [He [H1 H2]]; (split; [done|]); split.
  - intros [= -> ->]. tauto.
  - intros [= -> ->]. tauto.
  - destruct (decide (a = u)) as [->|]; [right; intros ->; done | by left].
  - destruct (decide (a = v)) as [->|]; [right; intros ->; done | by left].
Qed.

Lemma well_formed_remove_edge u v g : well_formed_graph g -> well_formed_graph (remove_edge u v g).
Proof.
  intros [Hnd Hwf]. split; [done|].
  intros a b (He & _)%edges_remove_edge. by apply Hwf.
Qed.

(** *** Cut vertices and bridges *)

Lemma is_articulation_point_spec g v :
  well_formed_graph g -> is_articulation_point g v = true <-> cut_vertex g v.
Proof.
  intros Hwf. unfold is_articulation_point, cut_vertex.
  rewrite existsb_exists. split.
  - intros (a & Ha%list_elem_of_In & (b & Hb%list_elem_of_In & H)%existsb_exists).
    apply andb_prop in H as [[[Hav Hbv]%andb_prop Hab]%andb_prop Hcut].
    apply negb_true_iff, String.eqb_neq in Hav, Hbv.
    exists a, b. repeat split; try done.
    + by apply reaches_spec in Hab.
    + apply negb_true_iff in Hcut. intros Hpath.
      apply reaches_spec in Hpath;
        [congruence | by apply well_formed_remove_node | by apply nodes_remove_node].
  - intros (a & b & Ha & Hb & Hav & Hbv & Hab & Hcut).
    exists a. split; [by apply list_elem_of_In|].
    apply existsb_exists. exists b. split; [by apply list_elem_of_In|].
    rewrite !andb_true_iff, !negb_true_iff, !String.eqb_neq.
    repeat split; try done.
    + by apply reaches_spec.
    + apply not_true_is_false. intros Hr. apply Hcut.
      apply reaches_spec in Hr;
        [done | by apply well_formed_remove_node | by apply nodes_remove_node].
Qed.

Theorem articulation_points_spec g v :
  well_formed_graph g ->
  v ∈ articulation_points g <-> v ∈ nodes g /\ cut_vertex g v.
Proof.
  intros Hwf. unfold articulation_points.
  rewrite list_elem_of_In, filter_In, <- list_elem_of_In.
  by rewrite is_articulation_point_spec.
Qed.

Lemma NoDup_articulation_points g :
  well_formed_graph g -> NoDup (articulation_points g).
Proof. intros [Hnd _]. by apply NoDup_ListNoDup, List.NoDup_filter, NoDup_ListNoDup. Qed.

Theorem bridges_spec g e :
  well_formed_graph g -> e ∈ bridges g <-> e ∈ edges g /\ bridge_edge g e.
Proof.
  intros Hwf. unfold bridges, is_bridge, bridge_edge.
  rewrite list_elem_of_In, filter_In, <- list_elem_of_In, negb_true_iff.
  split; intros [He Hb]; (split; [done|]).
  - intros Hpath. apply reaches_spec in Hpath; [congruence | |].
    + by apply well_formed_remove_edge.
    + destruct Hwf as [_ Hwf]. destruct e as [a b]. by destruct (Hwf a b He).
  - apply not_true_is_false. intros Hr. apply Hb.
    apply reaches_spec in Hr; [done | by apply well_formed_remove_edge |].
    destruct Hwf as [_ Hwf]. destruct e as [a b]. by destruct (Hwf a b He).
Qed.

Lemma NoDup_bridges g : edges_once g -> NoDup (bridges g).
Proof. intros [Hnd _]. by apply NoDup_ListNoDup, List.NoDup_filter, NoDup_ListNoDup. Qed.

End GraphBuildFacts.
(** ** The connectivity graph of a topology *)

Module ConnectivityFacts.
Export Connectivity.
Import Nx DictFacts PyFacts GraphFacts GraphBuildFacts.

Lemma well_formed_empty : well_formed_graph Nx.empty.
Proof.
  split; [constructor|]. intros u v H. by apply elem_of_nil in H.
Qed.

Lemma edges_once_empty : edges_once Nx.empty.
Proof.
  split; [constructor|]. intros u v H. by apply elem_of_nil in H.
Qed.

Lemma add_device_nodes_spec ids g :
  let g' := add_device_nodes ids g in
  (well_formed_graph g -> well_formed_graph g')
  /\ edges g' = edges g
  /\ forall x, x ∈ nodes g' <-> x ∈ nodes g \/ x ∈ ids.
Proof.
  unfold add_device_nodes. revert g.
  induction ids as [|id ids IH]; intros g; simpl.
  - split; [done|]. split; [done|]. intros x. split; [by left|].
    intros [?|H]; [done | by apply elem_of_nil in H].
  - destruct (IH (add_node id g)) as (Hwf & He & Hn). split; [|split].
    + intros Hg. by apply Hwf, well_formed_add_node.
    + by rewrite He, edges_add_node.
    + intros x. rewrite Hn, nodes_add_node, elem_of_cons. tauto.
Qed.

Lemma add_link_edges_spec links g :
  let g' := add_link_edges links g in
  (well_formed_graph g -> well_formed_graph g')
  /\ (edges_once g -> edges_once g')
  /\ (forall x, x ∈ nodes g' <->
                x ∈ nodes g \/ exists kv, kv ∈ links /\ (x = end1 kv \/ x = end2 kv))
  /\ (forall a b, adjacent g' a b <-> adjacent g a b \/ linked links a b).
Proof.
  unfold add_link_edges. revert g.
  induction links as [|kv links IH]; intros g; simpl.
  - split; [done|]. split; [done|]. split.
    + intros x. split; [by left|].
      intros [?|(kv & H & _)]; [done | by apply elem_of_nil in H].
    + intros a b. split; [by left|].
      intros [?|(kv & H & _)]; [done | by apply elem_of_nil in H].
  - destruct (IH (add_edge (end1 kv) (end2 kv) g)) as (Hwf & Honce & Hn & Hadj).
    fold (end1 kv) (end2 kv). split; [|split; [|split]].
    + intros Hg. by apply Hwf, well_formed_add_edge.
    + intros Hg. by apply Honce, edges_once_add_edge.
    + intros x. rewrite Hn, nodes_add_edge. split.
      * intros [[?|[->| ->]]|(kv' & Hin & Hx)]; [by left | | |].
        -- right. exists kv. split; [left | by left].
        -- right. exists kv. split; [left | by right].
        -- right. exists kv'. split; [by right | done].
      * intros [?|(kv' & [->|Hin]%elem_of_cons & Hx)]; [by left; left | |].
        -- left. tauto.
        -- right. by exists kv'.
    + intros a b. rewrite Hadj, adjacent_add_edge. unfold linked. split.
      * intros [[?|H]|(kv' & Hin & H)]; [by left | |].
        -- right. exists kv. split; [left | done].
        -- right. exists kv'. split; [by right | done].
      * intros [?|(kv' & [->|Hin]%elem_of_cons & H)]; [by left; left | |].
        -- left. by right.
        -- right. by exists kv'.
Qed.

Section Connectivity.
Variable topology_data : TopologyData.
Let g := connectivity_graph topology_data.

Lemma connectivity_well_formed : well_formed_graph g.
Proof.
  unfold g, connectivity_graph.
  apply add_link_edges_spec, add_device_nodes_spec, well_formed_empty.
Qed.

Lemma connectivity_edges_once : edges_once g.
Proof.
  unfold g, connectivity_graph. apply add_link_edges_spec.
  unfold edges_once.
  destruct (add_device_nodes_spec (keys (td_devices topology_data)) Nx.empty)
    as (_ & -> & _).
  apply edges_once_empty.
Qed.

Lemma connectivity_adjacent a b :
  adjacent g a b <-> linked (td_links topology_data) a b.
Proof.
  unfold g, connectivity_graph.
  destruct (add_link_edges_spec (td_links topology_data)
              (add_device_nodes (keys (td_devices topology_data)) Nx.empty))
    as (_ & _ & _ & Hadj).
  rewrite Hadj. unfold adjacent at 1.
  destruct (add_device_nodes_spec (keys (td_devices topology_data)) Nx.empty)
    as (_ & -> & _).
  simpl. split; [|by right].
  intros [[H|H]|?]; [by apply elem_of_nil in H | by apply elem_of_nil in H | done].
Qed.

Lemma connectivity_connected a b :
  connected g a b <-> link_path topology_data a b.
Proof.
  unfold connected, link_path. split; apply rtc_subrel; intros x y;
    apply connectivity_adjacent.
Qed.

Lemma connectivity_device_nodes id :
  id ∈ keys (td_devices topology_data) -> id ∈ nodes g.
Proof.
  intros Hid. unfold g, connectivity_graph.
  apply add_link_edges_spec. left. apply add_device_nodes_spec. by right.
Qed.

Lemma connectivity_nodes id :
  closed_links topology_data = true ->
  id ∈ nodes g <-> id ∈ keys (td_devices topology_data).
Proof.
  intros Hclosed. split; [|apply connectivity_device_nodes].
  unfold g, connectivity_graph. intros Hid.
  apply add_link_edges_spec in Hid as [Hid|(kv & Hkv & Hid)].
  - apply add_device_nodes_spec in Hid as [Hid|Hid]; [|done].
    by apply elem_of_nil in Hid.
  - unfold closed_links in Hclosed. rewrite forallb_forall in Hclosed.
    apply list_elem_of_In, Hclosed in Hkv.
    apply andb_prop in Hkv as [H1%contains_true H2%contains_true].
    by destruct Hid as [->| ->].
Qed.

End Connectivity.
End ConnectivityFacts.
(** ** Missing components *)

Module MissingFacts.
Export Missing.
Import Nx DictFacts PyFacts GraphFacts GraphBuildFacts ConnectivityFacts.

Lemma has_role_eqb role cfg r :
  device_type cfg = Some r -> has_role role cfg = String.eqb r role.
Proof.
  intros Hr. unfold has_role. rewrite Hr.
  destruct (String.eqb_spec r role) as [->|Hne].
  - by apply bool_decide_eq_true_2.
  - apply bool_decide_eq_false_2. congruence.
Qed.

Lemma classify_step id cfg role routers endpoints :
  device_type cfg = Some role ->
  classify (id, cfg) (routers, endpoints)
  = Ok (if String.eqb role "router" then (routers ++ [id], endpoints)
        else if String.eqb role "endpoint" then (routers, endpoints ++ [id])
        else (routers, endpoints)).
Proof.
  intros Hrole. unfold classify. simpl. rewrite Hrole. simpl.
  by destruct (String.eqb role "router"), (String.eqb role "endpoint").
Qed.

Lemma classify_spec devices routers endpoints :
  typed_devices devices = true ->
  for_each classify devices (routers, endpoints)
  = Ok (routers ++ ids_with_role "router" devices,
        endpoints ++ ids_with_role "endpoint" devices).
Proof.
  unfold typed_devices, ids_with_role.
  revert routers endpoints.
  induction devices as [|[id cfg] devices IH]; intros routers endpoints; simpl.
  - by rewrite !app_nil_r.
  - intros [Hty Hrest]%andb_prop.
    destruct (device_type cfg) as [role|] eqn:E; [|done].
    rewrite (classify_step _ _ _ _ _ E), !(has_role_eqb _ _ _ E). simpl.
    destruct (String.eqb_spec role "router") as [->|Hne]; simpl.
    + rewrite IH by done. by rewrite <- app_assoc.
    + destruct (String.eqb role "endpoint"); simpl; rewrite IH by done;
        [by rewrite <- app_assoc | done].
Qed.

Lemma connected_to_router_spec g endpoint routers :
  well_formed_graph g -> endpoint ∈ nodes g -> (forall r, r ∈ routers -> r ∈ nodes g) ->
  connected_to_router g endpoint routers
  = Ok (existsb (reaches g endpoint) routers).
Proof.
  intros Hwf He. induction routers as [|r routers IH]; intros Hr; simpl; [done|].
  destruct (has_path_spec g endpoint r Hwf He) as [-> _]; [apply Hr; left|].
  simpl. destruct (reaches g endpoint r); simpl; [done|].
  apply IH. intros r' Hr'. apply Hr. by right.
Qed.

Lemma in_ids_with_role role devices id :
  id ∈ ids_with_role role devices <->
  exists cfg, (id, cfg) ∈ devices /\ device_type cfg = Some role.
Proof.
  unfold ids_with_role. rewrite list_elem_of_fmap. split.
  - intros ([id' cfg] & -> & [Hin Hrole]%list_elem_of_In%filter_In).
    exists cfg. split; [by apply list_elem_of_In|].
    by apply bool_decide_eq_true in Hrole.
  - intros (cfg & Hin & Hrole). exists (id, cfg). split; [done|].
    apply list_elem_of_In, filter_In. split; [by apply list_elem_of_In|].
    by apply bool_decide_eq_true.
Qed.

Lemma NoDup_ids_with_role role devices :
  NoDup (keys devices) -> NoDup (ids_with_role role devices).
Proof.
  unfold ids_with_role, keys. induction devices as [|[id cfg] devices IH]; simpl.
  - constructor.
  - intros [Hid Hnd]%NoDup_cons. destruct (has_role role cfg); simpl; [|by apply IH].
    apply NoDup_cons. split; [|by apply IH]. intros Hin. apply Hid.
    apply list_elem_of_fmap in Hin as (e & -> & [He _]%list_elem_of_In%filter_In).
    apply list_elem_of_fmap. exists e. split; [done | by apply list_elem_of_In].
Qed.

(** The issues about [e] among those of a list of distinct end points. *)
Lemma about_endpoint_concat (unreachable : string -> bool) endpoints e :
  NoDup endpoints ->
  about_endpoint e
    (concat (map (fun x => if unreachable x then [unreachable_issue x] else [])
                 endpoints))
  = if bool_decide (e ∈ endpoints) && unreachable e
    then [unreachable_issue e] else [].
Proof.
  unfold about_endpoint. induction endpoints as [|x endpoints IH]; simpl; [done|].
  intros [Hx Hnd]%NoDup_cons. rewrite List.filter_app, IH by done.
  destruct (decide (x = e)) as [->|Hne].
  - rewrite (bool_decide_eq_true_2 (e ∈ e :: endpoints)) by left.
    rewrite (bool_decide_eq_false_2 (e ∈ endpoints)) by done. simpl.
    destruct (unreachable e); simpl; [|done]. by rewrite String.eqb_refl.
  - assert (Hhead : List.filter
                      (fun i => match finding i with
                                | NoPathToRouter e0 => String.eqb e0 e
                                | _ => false
                                end)
                      (if unreachable x then [unreachable_issue x] else []) = []).
    { destruct (unreachable x); simpl; [|done].
      by destruct (String.eqb_spec x e). }
    rewrite Hhead. simpl.
    destruct (decide (e ∈ endpoints)) as [Hin|Hnin].
    + rewrite (bool_decide_eq_true_2 (e ∈ x :: endpoints)) by (by right).
      by rewrite (bool_decide_eq_true_2 (e ∈ endpoints)).
    + rewrite (bool_decide_eq_false_2 (e ∈ x :: endpoints))
        by (intros [?|?]%elem_of_cons; congruence).
      by rewrite (bool_decide_eq_false_2 (e ∈ endpoints)).
Qed.

End MissingFacts.
Section MissingComponents.
Import Nx DictFacts PyFacts GraphFacts GraphBuildFacts ConnectivityFacts MissingFacts.

Variable topology_data : TopologyData.
Let devices := td_devices topology_data.
Let g := connectivity_graph topology_data.
Let routers := ids_with_role "router" devices.
Let endpoints := ids_with_role "endpoint" devices.

Lemma existsb_reaches e :
  e ∈ keys devices ->
  existsb (reaches g e) routers = true <-> reaches_router topology_data e.
Proof.
  intros He. rewrite existsb_exists. unfold reaches_router. split.
  - intros (r & Hr%list_elem_of_In & Hreach).
    apply in_ids_with_role in Hr as (cfg & Hin & Hrole).
    exists r, cfg. split; [done|]. split; [done|].
    apply connectivity_connected, reaches_spec; [| |done].
    + apply connectivity_well_formed.
    + by apply connectivity_device_nodes.
  - intros (r & cfg & Hin & Hrole & Hpath). exists r. split.
    + apply list_elem_of_In, in_ids_with_role. by exists cfg.
    + apply reaches_spec; [apply connectivity_well_formed
                          | by apply connectivity_device_nodes
                          | by apply connectivity_connected].
Qed.

Lemma check_endpoint_spec e :
  e ∈ keys devices ->
  check_endpoint g routers e
  = Ok (if negb (existsb (reaches g e) routers) then [unreachable_issue e] else []).
Proof.
  intros He. unfold check_endpoint.
  rewrite connected_to_router_spec.
  - simpl. by destruct (existsb _ _).
  - apply connectivity_well_formed.
  - by apply connectivity_device_nodes.
  - intros r (cfg & Hin & _)%in_ids_with_role.
    apply connectivity_device_nodes, list_elem_of_fmap. by exists (r, cfg).
Qed.

(** C7. Every end point device from which no sequence of links leads to a
    router gets exactly one issue, of severity critical, and the rule then
    fails; an end point that reaches a router gets none.  An end point
    that is an end of no link reaches no router. *)
Theorem C7_missing_components :
  typed_devices (td_devices topology_data) = true ->
  unique_devices (td_devices topology_data) = true ->
  exists r,
    check_missing_components topology_data = Ok r
    /\ forall e cfg,
         (e, cfg) ∈ td_devices topology_data ->
         device_type cfg = Some "endpoint" ->
         (~ reaches_router topology_data e ->
          about_endpoint e (issues r)
          = [ {| severity := Critical; finding := NoPathToRouter e |} ]
          /\ status r = StFail)
         /\ (reaches_router topology_data e -> about_endpoint e (issues r) = [])
         /\ ((forall kv, kv ∈ td_links topology_data ->
                end1 kv ≠ e /\ end2 kv ≠ e) ->
             ~ reaches_router topology_data e).
Proof.
  intros Htyped Hunique%bool_decide_eq_true.
  unfold check_missing_components.
  rewrite classify_spec by done. simpl. fold devices routers endpoints g.
  rewrite (map_result_total _
             (fun e => if negb (existsb (reaches g e) routers)
                       then [unreachable_issue e] else [])).
  2:{ intros e (cfg & Hin & _)%in_ids_with_role. apply check_endpoint_spec.
      apply list_elem_of_fmap. by exists (e, cfg). }
  simpl. eexists. split; [reflexivity|]. simpl.
  intros e cfg Hin Hrole.
  assert (He : e ∈ keys devices) by (apply list_elem_of_fmap; by exists (e, cfg)).
  assert (Hend : e ∈ endpoints) by (apply in_ids_with_role; by exists cfg).
  set (dhcp := flat_map _ (elements _)).
  assert (Hdhcp : about_endpoint e dhcp = []).
  { unfold about_endpoint, dhcp. generalize (elements (link_subnets (td_links topology_data))).
    intros l. induction l as [|s l IH]; simpl; [done|].
    rewrite List.filter_app, IH, app_nil_r. by destruct (_ =? _)%nat. }
  assert (Habout : about_endpoint e
                     (concat (map (fun e => if negb (existsb (reaches g e) routers)
                                            then [unreachable_issue e] else [])
                                  endpoints) ++ dhcp)
                   = if negb (existsb (reaches g e) routers)
                     then [unreachable_issue e] else []).
  { unfold about_endpoint at 1. rewrite List.filter_app.
    fold (about_endpoint e dhcp). rewrite Hdhcp, app_nil_r.
    fold (about_endpoint e (concat (map (fun e => if negb (existsb (reaches g e) routers)
                                                   then [unreachable_issue e] else [])
                                         endpoints))).
    rewrite (about_endpoint_concat (fun e => negb (existsb (reaches g e) routers)))
      by by apply NoDup_ids_with_role.
    by rewrite (bool_decide_eq_true_2 _ Hend). }
  split; [|split].
  - intros Hno. rewrite Habout.
    assert (Hex : existsb (reaches g e) routers = false).
    { apply not_true_is_false. intros Hex. by apply Hno, existsb_reaches. }
    rewrite Hex. simpl. split; [done|].
    unfold status_of.
    assert (Hcrit : existsb is_critical
                      (concat (map (fun e => if negb (existsb (reaches g e) routers)
                                             then [unreachable_issue e] else [])
                                   endpoints) ++ dhcp) = true).
    { apply existsb_exists. exists (unreachable_issue e). split; [|done].
      apply in_or_app. left. apply in_concat. exists [unreachable_issue e].
      split; [|by left]. apply in_map_iff. exists e.
      rewrite Hex. split; [done | by apply list_elem_of_In]. }
    by rewrite Hcrit.
  - intros Hreach%existsb_reaches; [|done]. rewrite Habout, Hreach. done.
  - intros Hnolink (r & rcfg & Hr & Hrrole & Hpath).
    assert (r = e) as ->.
    { unfold link_path in Hpath. apply rtc_inv in Hpath as [->|(y & Hlink & _)]; [done|].
      destruct Hlink as (kv & Hkv & [[He1 _]|[He2 _]]);
        destruct (Hnolink kv Hkv); congruence. }
    pose proof (elem_get _ _ _ Hunique Hin) as H1.
    pose proof (elem_get _ _ _ Hunique Hr) as H2. congruence.
Qed.
End MissingComponents.
(** ** Redundancy *)

Module RedundancyFacts.
Export Redundancy.
Import Nx DictFacts PyFacts GraphFacts GraphBuildFacts ConnectivityFacts.

Lemma device_issue_spec topology_data node :
  typed_devices (td_devices topology_data) = true ->
  node ∈ keys (td_devices topology_data) ->
  device_issue topology_data node = Ok (device_spof topology_data node).
Proof.
  intros Htyped Hnode. unfold device_issue, device_spof, role_of.
  destruct (get node (td_devices topology_data)) as [cfg|] eqn:E.
  - simpl. apply get_Some_elem in E.
    unfold typed_devices in Htyped. rewrite forallb_forall in Htyped.
    apply list_elem_of_In, Htyped in E. simpl in E.
    destruct (device_type cfg); [done | discriminate].
  - by apply get_None in E.
Qed.

End RedundancyFacts.

Module RedundancyRuleFacts.
Import Nx DictFacts PyFacts GraphFacts GraphBuildFacts ConnectivityFacts RedundancyFacts.

Lemma remove_edge_sym u v g : remove_edge u v g = remove_edge v u g.
Proof.
  unfold remove_edge. f_equal. apply List.filter_ext. intros e.
  apply andb_comm.
Qed.

Lemma bridge_edge_sym g u v : bridge_edge g (u, v) -> bridge_edge g (v, u).
Proof.
  unfold bridge_edge. cbn [fst snd]. intros H Hc. apply H.
  rewrite remove_edge_sym. by apply connected_sym.
Qed.

(** The enumerations of module [Nx] keep the library's promises. *)
Lemma Nx_lists_cut_vertices : lists_cut_vertices articulation_points.
Proof.
  intros g Hwf. split; [by apply NoDup_articulation_points|].
  intros v. by apply articulation_points_spec.
Qed.

Lemma Nx_lists_bridges : lists_bridges bridges.
Proof.
  intros g Hwf Honce. split; [by apply NoDup_bridges|].
  assert (Hspec : forall e, e ∈ bridges g <-> e ∈ edges g /\ bridge_edge g e)
    by (intros e; by apply bridges_spec).
  split; [|split].
  - intros u v [He Hb]%Hspec. split; [by left | done].
  - intros u v [He _]%Hspec Hne [He' _]%Hspec.
    destruct Honce as [_ Honce]. by apply Hne, Honce.
  - intros u v [He|He] Hb.
    + left. by apply Hspec.
    + right. apply Hspec. split; [done | by apply bridge_edge_sym].
Qed.

Lemma device_spof_inj topology_data v w :
  device_spof topology_data v = device_spof topology_data w -> v = w.
Proof. unfold device_spof. by intros [= _ ->]. Qed.

Lemma bridge_issue_inj e e' : bridge_issue e = bridge_issue e' -> e = e'.
Proof.
  destruct e, e'. unfold bridge_issue. cbn [fst snd]. by intros [= -> ->].
Qed.

Section Rule.
Variable articulation_points : Graph -> list string.
Variable bridges : Graph -> list (string * string).
Hypothesis cut_vertices_listed : lists_cut_vertices articulation_points.
Hypothesis bridges_listed : lists_bridges bridges.
Variable topology_data : TopologyData.
Hypothesis typed : typed_devices (td_devices topology_data) = true.
Hypothesis closed : closed_links topology_data = true.

Local Abbreviation g := (connectivity_graph topology_data).

(** What the rule returns, whatever the order and the ends the library
    chooses. *)
Lemma redundancy_issues_spec :
  exists r,
    check_redundancy_with articulation_points bridges topology_data = Ok r
    /\ issues r = map (device_spof topology_data) (articulation_points g)
                  ++ map bridge_issue (bridges g)
    /\ status r = status_of (issues r)
    /\ NoDup (issues r)
    /\ (forall v, device_spof topology_data v ∈ issues r
                  <-> v ∈ keys (td_devices topology_data) /\ cut_vertex g v)
    /\ (forall u v, bridge_issue (u, v) ∈ issues r
                    \/ bridge_issue (v, u) ∈ issues r
                    <-> linked (td_links topology_data) u v
                        /\ bridge_edge g (u, v))
    /\ (forall u v, u ≠ v -> bridge_issue (u, v) ∈ issues r ->
                    bridge_issue (v, u) ∉ issues r)
    /\ (forall i, i ∈ issues r ->
          (exists v, v ∈ keys (td_devices topology_data) /\ cut_vertex g v
                     /\ i = device_spof topology_data v)
          \/ (exists u v, linked (td_links topology_data) u v
                          /\ bridge_edge g (u, v) /\ i = bridge_issue (u, v))).
Proof.
  pose proof (connectivity_well_formed topology_data) as Hwf.
  pose proof (connectivity_edges_once topology_data) as Honce.
  destruct (cut_vertices_listed g Hwf) as [Hnd_ap Hap].
  destruct (bridges_listed g Hwf Honce) as (Hnd_br & Hbr & Hone & Hall).
  assert (Hdev : forall v, v ∈ articulation_points g
                           <-> v ∈ keys (td_devices topology_data)
                               /\ cut_vertex g v).
  { intros v. by rewrite Hap, connectivity_nodes. }
  assert (Hin_dev : forall i,
            i ∈ map (device_spof topology_data) (articulation_points g)
            <-> exists v, v ∈ articulation_points g
                          /\ i = device_spof topology_data v).
  { intros i. rewrite list_elem_of_fmap. split; intros (v & H1 & H2); by exists v. }
  assert (Hin_br : forall i,
            i ∈ map bridge_issue (bridges g)
            <-> exists e, e ∈ bridges g /\ i = bridge_issue e).
  { intros i. rewrite list_elem_of_fmap. split; intros (e & H1 & H2); by exists e. }
  unfold check_redundancy_with.
  rewrite (map_result_total _ (device_spof topology_data)).
  2:{ intros v Hv. apply Hdev in Hv as [Hv _]. by apply device_issue_spec. }
  eexists. split; [reflexivity|]. cbn [issues status].
  split; [reflexivity|]. split; [reflexivity|]. split; [|split; [|split; [|split]]].
  - apply NoDup_app. split; [|split].
    + apply NoDup_fmap_2; [|done]. intros v w. apply device_spof_inj.
    + intros i (v & _ & ->)%Hin_dev (e & _ & He)%Hin_br. discriminate.
    + apply NoDup_fmap_2; [|done]. intros e e'. apply bridge_issue_inj.
  - intros v. rewrite elem_of_app, Hin_dev, Hin_br, <- Hdev. split.
    + intros [(w & Hw & ->%device_spof_inj)|(e & _ & He)]; [done | discriminate].
    + intros Hv. left. by exists v.
  - intros u v. rewrite <- (connectivity_adjacent topology_data u v).
    rewrite !elem_of_app.
    rewrite (Hin_dev (bridge_issue (u, v))), (Hin_dev (bridge_issue (v, u))),
      (Hin_br (bridge_issue (u, v))), (Hin_br (bridge_issue (v, u))). split.
    + intros [[(w & _ & Hw)|(e & He & <-%bridge_issue_inj)]
             |[(w & _ & Hw)|(e & He & <-%bridge_issue_inj)]];
        try discriminate.
      * by apply Hbr.
      * apply Hbr in He as [Ha Hb].
        split; [by apply adjacent_sym | by apply bridge_edge_sym].
    + intros [Ha Hb]. destruct (Hall u v Ha Hb) as [He|He].
      * left. right. by exists (u, v).
      * right. right. by exists (v, u).
  - intros u v Hne. rewrite !elem_of_app, !Hin_dev, !Hin_br.
    intros [(w & _ & Hw)|(e & He & <-%bridge_issue_inj)]; [discriminate|].
    intros [(w & _ & Hw)|(e & He' & <-%bridge_issue_inj)]; [discriminate|].
    by apply (Hone u v He Hne).
  - intros i. rewrite elem_of_app, Hin_dev, Hin_br.
    intros [(v & Hv & ->)|([u v] & He & ->)].
    + left. exists v. by apply Hdev in Hv as [? ?].
    + right. exists u, v. apply Hbr in He as [Ha Hb].
      by apply connectivity_adjacent in Ha.
Qed.
End Rule.

(** The graph of the chain A - B - C. *)
Lemma chain_cut_vertex v :
  v ∈ keys (td_devices chain) /\ cut_vertex (connectivity_graph chain) v
  <-> v = "B".
Proof.
  rewrite <- (connectivity_nodes chain) by reflexivity.
  rewrite <- articulation_points_spec by apply connectivity_well_formed.
  change (Nx.articulation_points (connectivity_graph chain)) with ["B"].
  apply list_elem_of_singleton.
Qed.

Lemma chain_bridge u v :
  linked (td_links chain) u v /\ bridge_edge (connectivity_graph chain) (u, v)
  <-> (u, v) ∈ [("A", "B"); ("B", "A"); ("B", "C"); ("C", "B")].
Proof.
  pose proof (connectivity_well_formed chain) as Hwf.
  pose proof (connectivity_edges_once chain) as Honce.
  destruct (Nx_lists_bridges _ Hwf Honce) as (_ & Hbr & _ & Hall).
  change (Nx.bridges (connectivity_graph chain)) with [("A", "B"); ("B", "C")]
    in Hbr, Hall.
  rewrite <- (connectivity_adjacent chain). split.
  - intros [Ha Hb]. destruct (Hall u v Ha Hb) as [He|He];
      rewrite !elem_of_cons, elem_of_nil in He;
      destruct He as [[= -> ->]|[[= -> ->]|[]]];
      rewrite !elem_of_cons; tauto.
  - intros He. rewrite !elem_of_cons, elem_of_nil in He.
    destruct He as [[= -> ->]|[[= -> ->]|[[= -> ->]|[[= -> ->]|[]]]]].
    + apply Hbr. left.
    + destruct (Hbr "A" "B" ltac:(left)) as [Ha Hb].
      split; [by apply adjacent_sym | by apply bridge_edge_sym].
    + apply Hbr. right. left.
    + destruct (Hbr "B" "C" ltac:(right; left)) as [Ha Hb].
      split; [by apply adjacent_sym | by apply bridge_edge_sym].
Qed.

End RedundancyRuleFacts.

Section Redundancy.
Import Nx DictFacts PyFacts GraphFacts GraphBuildFacts ConnectivityFacts.
Import RedundancyFacts RedundancyRuleFacts.

(** C6. Whatever order the graph library yields them in, and whichever
    end of a bridge it names first: the issues of the redundancy rule are
    one for every articulation point of the undirected graph of devices
    and links, critical for a router and warning for any other device, and
    one warning for every bridge, each reported once and nothing else.
    The articulation points are the devices whose removal separates two
    other devices, the bridges the links whose removal separates their
    ends.  On the chain A - B - C the rule reports B and both links. *)
Theorem C6_redundancy articulation_points bridges topology_data :
  lists_cut_vertices articulation_points -> lists_bridges bridges ->
  typed_devices (td_devices topology_data) = true ->
  closed_links topology_data = true ->
  let g := connectivity_graph topology_data in
  (exists r,
     check_redundancy_with articulation_points bridges topology_data = Ok r
     /\ issues r = map (device_spof topology_data) (articulation_points g)
                   ++ map bridge_issue (bridges g)
     /\ NoDup (issues r)
     /\ (forall v, device_spof topology_data v ∈ issues r
                   <-> v ∈ keys (td_devices topology_data) /\ cut_vertex g v)
     /\ (forall u v, bridge_issue (u, v) ∈ issues r
                     \/ bridge_issue (v, u) ∈ issues r
                     <-> linked (td_links topology_data) u v
                         /\ bridge_edge g (u, v))
     /\ (forall u v, u ≠ v -> bridge_issue (u, v) ∈ issues r ->
                     bridge_issue (v, u) ∉ issues r)
     /\ (forall i, i ∈ issues r ->
           (exists v, v ∈ keys (td_devices topology_data) /\ cut_vertex g v
                      /\ i = device_spof topology_data v)
           \/ (exists u v, linked (td_links topology_data) u v
                           /\ bridge_edge g (u, v) /\ i = bridge_issue (u, v))))
  /\ (forall a b, adjacent g a b <-> linked (td_links topology_data) a b)
  /\ (forall v, severity (device_spof topology_data v)
                = if String.eqb (role_of topology_data v) "router"
                  then Critical else Warning)
  /\ (forall e, severity (bridge_issue e) = Warning)
  /\ (exists r,
        check_redundancy_with articulation_points bridges chain = Ok r
        /\ {| severity := Warning; finding := DeviceSpof "B" "switch" |} ∈ issues r
        /\ (bridge_issue ("A", "B") ∈ issues r
            \/ bridge_issue ("B", "A") ∈ issues r)
        /\ (bridge_issue ("B", "C") ∈ issues r
            \/ bridge_issue ("C", "B") ∈ issues r)
        /\ (forall i, i ∈ issues r ->
              i ∈ [ {| severity := Warning; finding := DeviceSpof "B" "switch" |};
                    bridge_issue ("A", "B"); bridge_issue ("B", "A");
                    bridge_issue ("B", "C"); bridge_issue ("C", "B") ])
        /\ status r = StWarning).
Proof.
  intros Hap Hbr Htyped Hclosed g.
  split.
  { destruct (redundancy_issues_spec _ _ Hap Hbr topology_data Htyped Hclosed)
      as (r & Hr & Hi & _ & Hrest).
    exists r. by split; [|split]. }
  split; [intros a b; apply connectivity_adjacent|].
  split; [done|]. split; [done|].
  destruct (redundancy_issues_spec _ _ Hap Hbr chain eq_refl eq_refl)
    as (r & Hr & _ & Hst & _ & Hdev & Hbridge & _ & Hall).
  exists r. split; [exact Hr|].
  assert (HB : {| severity := Warning; finding := DeviceSpof "B" "switch" |}
               ∈ issues r).
  { apply (Hdev "B"). by apply chain_cut_vertex. }
  assert (Hcand : forall i, i ∈ issues r ->
            i ∈ [ {| severity := Warning; finding := DeviceSpof "B" "switch" |};
                  bridge_issue ("A", "B"); bridge_issue ("B", "A");
                  bridge_issue ("B", "C"); bridge_issue ("C", "B") ]).
  { intros i [(v & Hv & Hc & ->)|(u & v & Hl & Hb & ->)]%Hall.
    - assert (v = "B") as -> by (by apply chain_cut_vertex). left.
    - assert (He : (u, v) ∈ [("A", "B"); ("B", "A"); ("B", "C"); ("C", "B")])
        by (by apply chain_bridge).
      rewrite !elem_of_cons, elem_of_nil in He.
      destruct He as [[= -> ->]|[[= -> ->]|[[= -> ->]|[[= -> ->]|[]]]]];
        rewrite !elem_of_cons; tauto. }
  split; [exact HB|].
  split; [apply Hbridge, chain_bridge; left|].
  split; [apply Hbridge, chain_bridge; do 2 right; left|].
  split; [exact Hcand|].
  rewrite Hst. unfold status_of.
  destruct (existsb is_critical (issues r)) eqn:Ecrit.
  - apply existsb_exists in Ecrit as (i & Hi & Hc). exfalso.
    apply list_elem_of_In, Hcand in Hi.
    rewrite !elem_of_cons, elem_of_nil in Hi.
    destruct Hi as [->|[->|[->|[->|[->|[]]]]]]; discriminate.
  - destruct (issues r); [by apply elem_of_nil in HB | done].
Qed.
End Redundancy.

Module ValidatorFacts.
Export Report.
Import DictFacts.

Lemma count_status_app st d1 d2 :
  count_status st (d1 ++ d2) = count_status st d1 + count_status st d2.
Proof.
  unfold count_status. rewrite List.filter_app, length_app. lia.
Qed.

Lemma count_status_one st k e :
  count_status st [(k, e)] = if decide (entry_status e = st) then 1 else 0.
Proof.
  unfold count_status. simpl. unfold bool_decide.
  by destruct (decide_rel eq (entry_status e) st), (decide (entry_status e = st)).
Qed.

Lemma count_status_nonneg st d : 0 <= count_status st d.
Proof. unfold count_status. lia. Qed.

Lemma count_status_bound d :
  evaluated d <= Z.of_nat (length d).
Proof.
  unfold evaluated, count_status.
  induction d as [|[k e] d IH]; simpl; [lia|].
  destruct (entry_status e); simpl; lia.
Qed.

Section Run.
Variable topology_data : TopologyData.
Variable traffic_analysis : option Traffic.

(** What the loop over the rules leaves in the report. *)
Lemma fold_run_rule rules vr :
  NoDup (keys (detailed_results vr) ++ keys rules) ->
  let vr' := fold_left (run_rule topology_data traffic_analysis) rules vr in
  detailed_results vr' = detailed_results vr ++ map (entry_for topology_data traffic_analysis) rules
  /\ passed_checks vr' = passed_checks vr + count_status StPass (map (entry_for topology_data traffic_analysis) rules)
  /\ failed_checks vr' = failed_checks vr + count_status StFail (map (entry_for topology_data traffic_analysis) rules)
  /\ warnings vr' = warnings vr + count_status StWarning (map (entry_for topology_data traffic_analysis) rules)
  /\ overall_score vr' = overall_score vr
  /\ total_checks vr' = total_checks vr.
Proof.
  revert vr. induction rules as [|[name rule] rules IH]; intros vr Hnd; simpl.
  - rewrite app_nil_r. unfold count_status. simpl. repeat split; lia.
  - assert (Hfresh : name ∉ keys (detailed_results vr)).
    { apply NoDup_app in Hnd as (_ & Hd & _). intros Hin.
      apply (Hd name Hin). left. }
    assert (Hnd' : forall e, NoDup (keys (detailed_results vr ++ [(name, e)]) ++ keys rules)).
    { intros e. unfold keys in *. rewrite map_app. simpl.
      rewrite <- app_assoc. exact Hnd. }
    assert (Hstep : run_rule topology_data traffic_analysis vr (name, rule)
                    = match outcome topology_data traffic_analysis name rule with
                      | Ok r => record_result name r vr
                      | Raise e => record_error name e vr
                      end) by reflexivity.
    rewrite Hstep. clear Hstep.
    destruct (outcome topology_data traffic_analysis name rule) as [r|e] eqn:Ho.
    + assert (He : entry_for topology_data traffic_analysis (name, rule) = (name, Evaluated r))
        by (unfold entry_for; simpl; by rewrite Ho).
      specialize (IH (record_result name r vr)).
      simpl in IH. rewrite set_fresh in IH by done.
      specialize (IH (Hnd' _)).
      destruct IH as (-> & -> & -> & -> & -> & ->).
      rewrite He, <- app_assoc.
      change ((name, Evaluated r) :: map (entry_for topology_data traffic_analysis) rules)
        with ([(name, Evaluated r)] ++ map (entry_for topology_data traffic_analysis) rules).
      rewrite !count_status_app, !count_status_one. simpl.
      repeat split; destruct (status r); simpl; lia.
    + assert (He : entry_for topology_data traffic_analysis (name, rule) = (name, Errored e))
        by (unfold entry_for; simpl; by rewrite Ho).
      specialize (IH (record_error name e vr)).
      simpl in IH. rewrite set_fresh in IH by done.
      specialize (IH (Hnd' _)).
      destruct IH as (-> & -> & -> & -> & -> & ->).
      rewrite He, <- app_assoc.
      change ((name, Errored e) :: map (entry_for topology_data traffic_analysis) rules)
        with ([(name, Errored e)] ++ map (entry_for topology_data traffic_analysis) rules).
      rewrite !count_status_app, !count_status_one. simpl.
      repeat split; lia.
Qed.
End Run.
End ValidatorFacts.
Module ScoreFacts.
Import ValidatorFacts.

Lemma score_total passed warned total :
  total ≠ 0 -> score passed warned total = Ok (score_formula passed warned total).
Proof.
  intros Hne. unfold score, truediv, score_formula.
  destruct (Z.eqb_spec (total * 100) 0) as [E|E]; [lia|]. reflexivity.
Qed.

Lemma range_table_ten : range_table 10 = true.
Proof. vm_compute. reflexivity. Qed.

Lemma score_formula_range passed warned total :
  0 <= passed -> 0 <= warned -> passed + warned <= total ->
  0 < total <= 10 ->
  in_percent_range (Float (score_formula passed warned total)) = true.
Proof.
  intros Hp Hw Hpw Ht.
  assert (Hin : forall z, 0 <= z <= 10 -> In (Z.to_nat z) (seq 0 11))
    by (intros z Hz; apply in_seq; lia).
  pose proof (proj1 (forallb_forall _ _) range_table_ten _ (Hin total ltac:(lia))) as H1.
  pose proof (proj1 (forallb_forall _ _) H1 _ (Hin passed ltac:(lia))) as H2.
  pose proof (proj1 (forallb_forall _ _) H2 _ (Hin warned ltac:(lia))) as H3.
  cbv beta in H3. rewrite !Z2Nat.id in H3 by lia.
  destruct (Nat.leb_spec (Z.to_nat passed + Z.to_nat warned) (Z.to_nat total)); [|lia].
  destruct (Nat.ltb_spec 0 (Z.to_nat total)); [|lia].
  exact H3.
Qed.
End ScoreFacts.
Module RunFacts.
Import DictFacts ValidatorFacts ScoreFacts.

Section Run.
Variable rules : dict string Rule.
Variable topology_data : TopologyData.
Variable traffic_analysis : option Traffic.
Hypothesis rules_distinct : NoDup (keys rules).

Abbreviation entries := (map (entry_for topology_data traffic_analysis) rules).

(** The run never raises, and the report is determined by what each
    rule did on its own. *)
Lemma run_validation_spec :
  exists vr,
    run_validation rules topology_data traffic_analysis = Ok vr
    /\ detailed_results vr = entries
    /\ passed_checks vr = count_status StPass entries
    /\ failed_checks vr = count_status StFail entries
    /\ warnings vr = count_status StWarning entries
    /\ total_checks vr = length rules
    /\ overall_score vr =
         if Z.ltb 0 (evaluated entries)
         then Float (score_formula (count_status StPass entries)
                                   (count_status StWarning entries)
                                   (evaluated entries))
         else Int 0.
Proof.
  unfold run_validation.
  destruct (fold_run_rule topology_data traffic_analysis rules (initial rules))
    as (Hd & Hp & Hf & Hw & Hs & Ht); [simpl; exact rules_distinct|].
  simpl in Hd, Hp, Hf, Hw, Hs, Ht.
  set (vr := fold_left (run_rule topology_data traffic_analysis) rules
                       (initial rules)) in *.
  rewrite Hp, Hf, Hw, !Z.add_0_l. fold (evaluated entries).
  destruct (Z.ltb_spec 0 (evaluated entries)) as [Hpos|Hzero].
  - rewrite score_total by lia. simpl.
    eexists. split; [reflexivity|]. simpl. rewrite Hd, Hp, Hf, Hw, Ht.
    repeat split; reflexivity || lia.
  - exists vr. rewrite Hd, Hp, Hf, Hw, Ht, Hs. repeat split; lia.
Qed.
End Run.
End RunFacts.
(** ** The validation run *)

Section ValidationRun.
Import DictFacts ValidatorFacts ScoreFacts RunFacts.

Variable simple_cycles : Nx.DiGraph -> result (list (list string)).
Variable device_str : Device -> string.
Variable check_vlan_consistency : TopologyData -> result RuleResult.
Variable check_gateway_configuration : TopologyData -> result RuleResult.
Variable check_mtu_mismatches : TopologyData -> result RuleResult.
Variable check_routing_protocol_optimization : TopologyData -> result RuleResult.
Variable check_security_zones : TopologyData -> result RuleResult.

Abbreviation the_rules :=
  (validation_rules simple_cycles device_str check_vlan_consistency
     check_gateway_configuration check_mtu_mismatches
     check_routing_protocol_optimization check_security_zones).

Abbreviation validate :=
  (validate_network_configuration simple_cycles device_str
     check_vlan_consistency check_gateway_configuration check_mtu_mismatches
     check_routing_protocol_optimization check_security_zones).

Lemma validation_rules_distinct : NoDup (keys the_rules).
Proof. apply (bool_decide_unpack _). vm_compute. reflexivity. Qed.

Lemma validation_rules_length : length the_rules = 10%nat.
Proof. reflexivity. Qed.

(** C1. When at least one rule ends with pass, fail or warning, the
    overall score is (passed * 100 + warnings * 50) / (evaluated * 100)
    * 100, where the counts are those of the statuses in the report and
    rules that ended in error are not counted; with 6 passed, 2 warnings
    and 2 failed rules the score is exactly 70.0. *)
Theorem C1_overall_score topology_data traffic_analysis :
  exists vr,
    validate topology_data traffic_analysis = Ok vr
    /\ (let passed := count_status StPass (detailed_results vr) in
        let failed := count_status StFail (detailed_results vr) in
        let warned := count_status StWarning (detailed_results vr) in
        (0 < passed + failed + warned ->
         overall_score vr =
           Float (score_formula passed warned (passed + failed + warned)))
        /\ (passed = 6 -> warned = 2 -> failed = 2 ->
            overall_score vr = Float 70%float)).
Proof.
  destruct (run_validation_spec the_rules topology_data traffic_analysis
              validation_rules_distinct)
    as (vr & Hrun & Hd & _ & _ & _ & _ & Hs).
  exists vr. split; [exact Hrun|]. rewrite Hd. cbv zeta.
  unfold evaluated in Hs. split.
  - intros Hpos. rewrite Hs.
    destruct (Z.ltb_spec 0 (count_status StPass (map (entry_for topology_data traffic_analysis) the_rules)
                            + count_status StFail (map (entry_for topology_data traffic_analysis) the_rules)
                            + count_status StWarning (map (entry_for topology_data traffic_analysis) the_rules)));
      [reflexivity | lia].
  - intros Hp Hw Hf. rewrite Hs, Hp, Hw, Hf. reflexivity.
Qed.

(** C4. Whatever the topology and whichever rules raise, the run returns
    a report: it has one entry per registered rule, the entry of a rule
    that raised has status error, and the entry of every other rule is
    the result that this rule returned. *)
Theorem C4_rule_errors_are_isolated topology_data traffic_analysis :
  exists vr,
    validate topology_data traffic_analysis = Ok vr
    /\ keys (detailed_results vr) = keys the_rules
    /\ forall name rule, (name, rule) ∈ the_rules ->
         match outcome topology_data traffic_analysis name rule with
         | Raise e =>
             get name (detailed_results vr) = Some (Errored e)
             /\ entry_status (Errored e) = StError
         | Ok r => get name (detailed_results vr) = Some (Evaluated r)
         end.
Proof.
  destruct (run_validation_spec the_rules topology_data traffic_analysis
              validation_rules_distinct)
    as (vr & Hrun & Hd & _).
  exists vr. split; [exact Hrun|]. rewrite Hd. split.
  - unfold keys. rewrite map_map. reflexivity.
  - intros name rule Hin.
    assert (Hget : get name (map (entry_for topology_data traffic_analysis) the_rules)
                   = Some (entry_of (outcome topology_data traffic_analysis name rule))).
    { apply elem_get.
      - unfold keys. rewrite map_map. apply validation_rules_distinct.
      - apply list_elem_of_fmap. exists (name, rule). split; [reflexivity | exact Hin]. }
    destruct (outcome topology_data traffic_analysis name rule); simpl in Hget;
      [exact Hget | split; [exact Hget | reflexivity]].
Qed.

(** C10. The overall score of every run lies between 0 and 100, and it is
    the initial 0 when no rule ended with pass, fail or warning. *)
Theorem C10_score_range topology_data traffic_analysis :
  exists vr,
    validate topology_data traffic_analysis = Ok vr
    /\ in_percent_range (overall_score vr) = true
    /\ (evaluated (detailed_results vr) = 0 -> overall_score vr = Int 0).
Proof.
  destruct (run_validation_spec the_rules topology_data traffic_analysis
              validation_rules_distinct)
    as (vr & Hrun & Hd & _ & _ & _ & _ & Hs).
  exists vr. split; [exact Hrun|]. rewrite Hd, Hs.
  pose proof (count_status_bound (map (entry_for topology_data traffic_analysis) the_rules)) as Hb.
  rewrite length_map, validation_rules_length in Hb.
  pose proof (count_status_nonneg StPass (map (entry_for topology_data traffic_analysis) the_rules)).
  pose proof (count_status_nonneg StFail (map (entry_for topology_data traffic_analysis) the_rules)).
  pose proof (count_status_nonneg StWarning (map (entry_for topology_data traffic_analysis) the_rules)).
  split.
  - destruct (Z.ltb_spec 0 (evaluated (map (entry_for topology_data traffic_analysis) the_rules)));
      [|reflexivity].
    apply score_formula_range; unfold evaluated in *; lia.
  - intros ->. reflexivity.
Qed.
End ValidationRun.

(** ** Substrings, lower case, and decimal numerals *)

Module TextFacts.
Export Texts.
Import ConfigParser NumeralFacts.

Lemma append_nil (b : string) : ("" ++ b)%string = b.
Proof. reflexivity. Qed.

Lemma append_cons c (a b : string) : (String c a ++ b)%string = String c (a ++ b).
Proof. reflexivity. Qed.

Lemma prefix_spec p s : String.prefix p s = true <-> exists post, s = (p ++ post)%string.
Proof.
  revert s. induction p as [|a p IH]; intros s.
  - split; [intros _; by exists s | by destruct s].
  - destruct s as [|b s]; simpl; [split; [done | by intros (post & ?)]|].
    destruct (Ascii.ascii_dec a b) as [->|Hne].
    + rewrite IH. split; intros (post & Hs); exists post;
        rewrite append_cons in *; congruence.
    + split; [done|]. intros (post & Hs). rewrite append_cons in Hs. congruence.
Qed.

Lemma occurs_nil needle : occurs needle "" = String.prefix needle "".
Proof. unfold occurs. apply orb_false_r. Qed.

Lemma occurs_cons needle c s :
  occurs needle (String c s) = String.prefix needle (String c s) || occurs needle s.
Proof. reflexivity. Qed.

Lemma occurs_spec needle s :
  occurs needle s = true <-> exists pre post, s = (pre ++ needle ++ post)%string.
Proof.
  induction s as [|c s IH].
  - rewrite occurs_nil, prefix_spec. split.
    + intros (post & Hs). by exists "", post.
    + intros (pre & post & Hs). destruct pre; [by exists post|done].
  - rewrite occurs_cons, orb_true_iff, prefix_spec, IH. split.
    + intros [(post & Hs)|(pre & post & ->)].
      * by exists "", post.
      * by exists (String c pre), post.
    + intros ([|c' pre] & post & Hs).
      * left. by exists post.
      * right. exists pre, post. rewrite append_cons in Hs. congruence.
Qed.

Lemma string_app_assoc (a b c : string) : ((a ++ b) ++ c = a ++ b ++ c)%string.
Proof.
  induction a as [|x a IH]; [done|]. by rewrite !append_cons, IH.
Qed.

Lemma occurs_trans a b c :
  occurs a b = true -> occurs b c = true -> occurs a c = true.
Proof.
  rewrite !occurs_spec. intros (p1 & q1 & ->) (p2 & q2 & ->).
  exists (p2 ++ p1)%string, (q1 ++ q2)%string.
  by rewrite !string_app_assoc.
Qed.

Lemma occurs_app_r a b s :
  occurs (a ++ b) s = true -> occurs b s = true.
Proof.
  rewrite !occurs_spec. intros (p & q & ->).
  exists (p ++ a)%string, q. by rewrite !string_app_assoc.
Qed.

Lemma lower_app a b : lower (a ++ b) = (lower a ++ lower b)%string.
Proof.
  induction a as [|x a IH]; [done|].
  rewrite append_cons. simpl. by rewrite append_cons, IH.
Qed.

Lemma occurs_lower needle s :
  occurs needle s = true -> occurs (lower needle) (lower s) = true.
Proof.
  rewrite !occurs_spec. intros (p & q & ->).
  exists (lower p), (lower q). by rewrite !lower_app.
Qed.

Lemma strip_prefix_spec p s r :
  strip_prefix p s = Some r <-> s = (p ++ r)%string.
Proof.
  revert s. induction p as [|a p IH]; intros s; simpl.
  - rewrite append_nil. split; congruence.
  - rewrite append_cons. destruct s as [|b s]; [split; discriminate|].
    destruct (Ascii.eqb_spec a b) as [->|Hne].
    + rewrite IH. split; congruence.
    + split; [discriminate | congruence].
Qed.

Lemma match_at_occurs keyword s group :
  match_at keyword s = Some group -> String.prefix keyword s = true.
Proof.
  unfold match_at. destruct (strip_prefix keyword s) as [r|] eqn:E; [|done].
  intros _. apply strip_prefix_spec in E. apply prefix_spec. by exists r.
Qed.

Lemma search_occurs keyword s group :
  search keyword s = Some group -> occurs keyword s = true.
Proof.
  induction s as [|c s IH]; intros H.
  - rewrite occurs_nil. simpl in H.
    destruct (match_at keyword "") eqn:E; [|done].
    exact (match_at_occurs _ _ _ E).
  - rewrite occurs_cons. simpl in H.
    destruct (match_at keyword (String c s)) eqn:E.
    + by rewrite (match_at_occurs _ _ _ E).
    + rewrite (IH H). apply orb_true_r.
Qed.

(** *** [int] undoes [str] *)

Lemma numeral_all_digits d : numeral d = true -> all_digits d = true.
Proof. unfold numeral. intros H. by apply andb_true_iff in H as [_ ?]. Qed.

(** The text that [str] returns is the decimal numeral, of at most 4300
    digits. *)
Lemma str_Ok z s :
  Py.str z = Ok s ->
  s = Py.decimal z /\ count_digits (Py.decimal z) <= max_str_digits.
Proof.
  unfold Py.str. destruct (Z.leb_spec (count_digits (Py.decimal z)) max_str_digits);
    [|done].
  by intros [= <-].
Qed.

Lemma str_decimal z s : Py.str z = Ok s -> s = Py.decimal z.
Proof. by intros [? _]%str_Ok. Qed.

Lemma numeral_str z s : 0 <= z -> Py.str z = Ok s -> numeral s = true.
Proof. intros Hz ->%str_decimal. by apply numeral_decimal. Qed.

Lemma int_decimal_pos p :
  Py.int (Py.decimal (Z.pos p))
  = if Z.leb (count_digits (Py.decimal (Z.pos p))) max_str_digits
    then Ok (Z.pos p) else Raise ValueError.
Proof.
  pose proof (numeral_decimal (Z.pos p) ltac:(lia)) as Hnum.
  pose proof (digits_decimal_pos p) as Hd.
  unfold numeral in Hnum. apply andb_true_iff in Hnum as [Hne Hall].
  unfold Py.int. rewrite skip_right_digits, skip_left_digits by done.
  destruct (Py.decimal (Z.pos p)) as [|c r] eqn:E; [done|].
  assert (Hc : is_digit c = true)
    by (simpl in Hall; by apply andb_prop in Hall as [? _]).
  destruct (Ascii.eqb_spec c "-") as [->|_]; [done|].
  destruct (Ascii.eqb_spec c "+") as [->|_]; [done|].
  by rewrite Hd.
Qed.

(** [int(str(z))] is [z]. *)
Lemma int_str z s : Py.str z = Ok s -> Py.int s = Ok z.
Proof.
  intros [-> Hlen]%str_Ok. apply Z.leb_le in Hlen.
  destruct z as [|p|p]; [reflexivity| |].
  - by rewrite int_decimal_pos, Hlen.
  - rewrite decimal_neg in *.
    pose proof (numeral_decimal (Z.pos p) ltac:(lia)) as Hnum.
    pose proof (digits_decimal_pos p) as Hd.
    unfold numeral in Hnum. apply andb_true_iff in Hnum as [Hne Hall].
    unfold Py.int.
    assert (skip_right (String "-" (Py.decimal (Z.pos p)))
            = String "-" (Py.decimal (Z.pos p))) as ->.
    { cbn [skip_right]. rewrite (skip_right_digits _ Hall).
      destruct (Py.decimal (Z.pos p)); [done | reflexivity]. }
    cbn [skip_left]. change (is_int_space "-") with false. cbv iota.
    change (Ascii.eqb "-" "-") with true. cbv iota.
    rewrite Hd. cbn [fmap option_fmap option_map]. by rewrite Hlen.
Qed.

End TextFacts.

(** ** The configuration parser *)

Module ParserFacts.
Import ConfigParser Parser NumeralFacts TextFacts.

Lemma first_match_Some {A} (m : string -> option A) s x :
  first_match m s = Some x ->
  exists pre post, s = (pre ++ post)%string /\ m post = Some x.
Proof.
  induction s as [|c s IH]; simpl.
  - destruct (m "") eqn:E; [|done]. intros [= ->]. by exists "", "".
  - destruct (m (String c s)) eqn:E.
    + intros [= ->]. by exists "", (String c s).
    + intros H. destruct (IH H) as (pre & post & -> & Hm).
      by exists (String c pre), post.
Qed.

Lemma first_match_here {A} (m : string -> option A) s x :
  m s = Some x -> first_match m s = Some x.
Proof. intros H. destruct s; simpl; by rewrite H. Qed.

Lemma has_space_leading_word s : has_space (leading_word s) = false.
Proof.
  induction s as [|c s IH]; simpl; [done|].
  destruct (is_space c) eqn:E; simpl; [done|]. by rewrite E, IH.
Qed.

Lemma word_at_word keyword s group :
  word_at keyword s = Some group -> group ≠ "" /\ has_space group = false.
Proof.
  unfold word_at. destruct (strip_prefix keyword s) as [[|c rest]|]; try done.
  destruct (is_space c); [|done].
  destruct (String.eqb_spec (leading_word (lstrip rest)) "") as [|Hne]; [done|].
  intros [= <-]. split; [done | apply has_space_leading_word].
Qed.

Lemma hostname_word content :
  _extract_hostname content ≠ "" /\ has_space (_extract_hostname content) = false.
Proof.
  unfold _extract_hostname.
  destruct (first_match (word_at "hostname") content) as [group|] eqn:E; [|done].
  apply first_match_Some in E as (pre & post & _ & Hm).
  by apply word_at_word in Hm.
Qed.

(** *** Numbers written in a text *)

Lemma leading_digits_app d rest :
  all_digits d = true -> no_digit_ahead rest = true ->
  leading_digits (d ++ rest) = d.
Proof.
  intros Hd Hrest. induction d as [|c d IH].
  - rewrite append_nil. destruct rest as [|c rest]; [done|].
    simpl in *. by destruct (is_digit c).
  - rewrite append_cons. simpl in *. apply andb_true_iff in Hd as [-> Hd].
    by rewrite IH.
Qed.

Lemma match_at_written keyword d rest :
  numeral d = true -> no_digit_ahead rest = true ->
  match_at keyword (keyword ++ String " " (d ++ rest)) = Some d.
Proof.
  unfold numeral. intros H Hrest. apply andb_true_iff in H as [Hne Hd].
  unfold match_at.
  rewrite (proj2 (strip_prefix_spec keyword _ (String " " (d ++ rest))) eq_refl).
  change (is_space " ") with true. cbv iota.
  assert (lstrip (d ++ rest) = (d ++ rest)%string) as ->.
  { destruct d as [|c d]; [done|]. rewrite append_cons. simpl.
    simpl in Hd. apply andb_true_iff in Hd as [Hc _].
    by rewrite (digit_not_space _ Hc). }
  rewrite (leading_digits_app _ _ Hd Hrest).
  by destruct (String.eqb d "").
Qed.

Lemma search_written keyword d rest :
  numeral d = true -> no_digit_ahead rest = true ->
  search keyword (keyword ++ String " " (d ++ rest)) = Some d.
Proof.
  intros Hd Hrest. pose proof (match_at_written keyword d rest Hd Hrest) as H.
  destruct (keyword ++ String " " (d ++ rest))%string; simpl; by rewrite H.
Qed.

(** *** Addresses *)

Lemma number_at_spec s d rest :
  number_at s = Some (d, rest) -> numeral d = true.
Proof.
  unfold number_at, numeral.
  destruct (String.eqb (leading_digits s) "") eqn:E; [done|].
  intros [= <- <-]. by rewrite E, leading_digits_all.
Qed.

Lemma octet_dot_at_spec s d rest :
  octet_dot_at s = Some (d, rest) -> numeral d = true.
Proof.
  unfold octet_dot_at. destruct (number_at s) as [[d' r]|] eqn:E; [|done].
  destruct (dot_at r); [|done]. intros [= <- <-]. by apply number_at_spec in E.
Qed.

Lemma split_on_numeral d :
  all_digits d = true -> split_on "." d = [d].
Proof.
  induction d as [|c d IH]; simpl; [done|]. intros H.
  apply andb_true_iff in H as [Hc Hd].
  destruct (Ascii.eqb_spec c ".") as [->|_]; [done|]. by rewrite (IH Hd).
Qed.

Lemma split_on_numeral_dot d rest :
  all_digits d = true ->
  split_on "." (d ++ "." ++ rest) = d :: split_on "." rest.
Proof.
  induction d as [|c d IH]; intros H.
  - reflexivity.
  - rewrite append_cons. simpl in *. apply andb_true_iff in H as [Hc Hd].
    destruct (Ascii.eqb_spec c ".") as [->|_]; [done|]. by rewrite (IH Hd).
Qed.

Lemma quad_at_spec s q rest :
  quad_at s = Some (q, rest) ->
  exists a b c d,
    q = (a ++ "." ++ b ++ "." ++ c ++ "." ++ d)%string
    /\ split_on "." q = [a; b; c; d]
    /\ forallb numeral [a; b; c; d] = true.
Proof.
  unfold quad_at.
  destruct (octet_dot_at s) as [[a s1]|] eqn:Ea; [|done].
  destruct (octet_dot_at s1) as [[b s2]|] eqn:Eb; [|done].
  destruct (octet_dot_at s2) as [[c s3]|] eqn:Ec; [|done].
  destruct (number_at s3) as [[d s4]|] eqn:Ed; [|done].
  intros [= <- <-]. exists a, b, c, d.
  apply octet_dot_at_spec in Ea, Eb, Ec. apply number_at_spec in Ed.
  split; [done|]. split.
  - rewrite !split_on_numeral_dot by by apply numeral_all_digits.
    by rewrite split_on_numeral by by apply numeral_all_digits.
  - simpl. by rewrite Ea, Eb, Ec, Ed.
Qed.

Lemma quad_at_dotted s q rest :
  quad_at s = Some (q, rest) -> dotted_quad q = true.
Proof.
  intros H. apply quad_at_spec in H as (a & b & c & d & _ & Hsplit & Hnum).
  unfold dotted_quad. by rewrite Hsplit, Hnum.
Qed.

Lemma address_at_dotted s q rest :
  address_at s = Some (q, rest) -> dotted_quad q = true.
Proof.
  unfold address_at. destruct (strip_prefix "ip address" s); [|done].
  destruct (spaces_at _); [|done]. apply quad_at_dotted.
Qed.

Lemma extract_ip_dotted interface_config ip :
  _extract_ip_from_interface interface_config = Some ip -> dotted_quad ip = true.
Proof.
  unfold _extract_ip_from_interface. intros H.
  apply first_match_Some in H as (pre & post & _ & Hm).
  destruct (address_at post) as [[q rest]|] eqn:E; [|done].
  injection Hm as <-. by apply address_at_dotted in E.
Qed.

Lemma extract_subnet_dotted interface_config mask :
  _extract_subnet_from_interface interface_config = Some mask ->
  dotted_quad mask = true.
Proof.
  unfold _extract_subnet_from_interface, mask_at. intros H.
  apply first_match_Some in H as (pre & post & _ & Hm).
  destruct (address_at post) as [[q rest]|]; [|done].
  destruct (spaces_at rest) as [s2|]; [|done].
  destruct (quad_at s2) as [[m r]|] eqn:E; [|done].
  injection Hm as <-. by apply quad_at_dotted in E.
Qed.

(** A mask is found only where an address is. *)
Lemma first_match_weaker {A B} (m : string -> option A) (m' : string -> option B) s :
  (forall t, is_Some (m t) -> is_Some (m' t)) ->
  is_Some (first_match m s) -> is_Some (first_match m' s).
Proof.
  intros Hm. induction s as [|c s IH]; simpl.
  - destruct (m "") eqn:E; [|by intros []].
    intros _. destruct (Hm "") as [y Hy]; [by rewrite E|]. by rewrite Hy.
  - destruct (m (String c s)) eqn:E.
    + intros _. destruct (Hm (String c s)) as [y Hy]; [by rewrite E|]. by rewrite Hy.
    + intros H. destruct (m' (String c s)); [done | by apply IH].
Qed.

Lemma extract_vlan_cases interface_config :
  (exists v, _extract_vlan_from_interface interface_config = Ok v
             /\ forall z, v = Some z -> 0 <= z)
  \/ (_extract_vlan_from_interface interface_config = Raise ValueError
      /\ max_str_digits < Z.of_nat (String.length interface_config)).
Proof.
  unfold _extract_vlan_from_interface.
  destruct (search "switchport access vlan" interface_config) eqn:E.
  - apply search_int in E as [(z & -> & Hz)|[-> Hlong]]; [left | by right].
    exists (Some z). split; [done|]. by intros ? [= <-].
  - left. by exists None.
Qed.

(** *** The length of what is matched *)

Lemma length_append (a b : string) :
  String.length (a ++ b) = (String.length a + String.length b)%nat.
Proof. induction a as [|c a IH]; simpl; [done | by rewrite IH]. Qed.

Lemma after_digits_length s :
  (String.length (after_digits s) <= String.length s)%nat.
Proof.
  induction s as [|c s IH]; simpl; [done|].
  destruct (is_digit c); simpl; lia.
Qed.

Lemma number_at_length s d rest :
  number_at s = Some (d, rest) ->
  (String.length d <= String.length s)%nat
  /\ (String.length rest <= String.length s)%nat.
Proof.
  unfold number_at. destruct (String.eqb _ ""); [done|]. intros [= <- <-].
  split; [apply leading_digits_length | apply after_digits_length].
Qed.

Lemma octet_dot_at_length s d rest :
  octet_dot_at s = Some (d, rest) ->
  (String.length d <= String.length s)%nat
  /\ (String.length rest <= String.length s)%nat.
Proof.
  unfold octet_dot_at. destruct (number_at s) as [[d' r]|] eqn:E; [|done].
  apply number_at_length in E as [Hd Hr].
  destruct r as [|c r]; simpl; [done|].
  destruct (Ascii.eqb c "."); [|done]. intros [= <- <-]. simpl in Hr. lia.
Qed.

Lemma spaces_at_length s rest :
  spaces_at s = Some rest -> (String.length rest <= String.length s)%nat.
Proof.
  destruct s as [|c s]; simpl; [done|]. destruct (is_space c); [|done].
  intros [= <-]. pose proof (lstrip_length s). lia.
Qed.

(** A quad matched in a text of at most 4300 characters has octets that
    [int] converts. *)
Lemma quad_at_short s q rest :
  quad_at s = Some (q, rest) ->
  (String.length rest <= String.length s)%nat
  /\ (Z.of_nat (String.length s) <= max_str_digits -> short_quad q = true).
Proof.
  intros H. pose proof (quad_at_spec _ _ _ H) as (a & b & c & d & _ & Hsplit & Hnum).
  unfold quad_at in H.
  destruct (octet_dot_at s) as [[a' s1]|] eqn:Ea; [|done].
  destruct (octet_dot_at s1) as [[b' s2]|] eqn:Eb; [|done].
  destruct (octet_dot_at s2) as [[c' s3]|] eqn:Ec; [|done].
  destruct (number_at s3) as [[d' s4]|] eqn:Ed; [|done].
  injection H as Hq <-.
  pose proof (octet_dot_at_spec _ _ _ Ea) as Na.
  pose proof (octet_dot_at_spec _ _ _ Eb) as Nb.
  pose proof (octet_dot_at_spec _ _ _ Ec) as Nc.
  pose proof (number_at_spec _ _ _ Ed) as Nd.
  apply octet_dot_at_length in Ea as [La L1], Eb as [Lb L2], Ec as [Lc L3].
  apply number_at_length in Ed as [Ld L4].
  split; [lia|]. intros Hlen. unfold short_quad.
  assert (Hparts : split_on "." q = [a'; b'; c'; d']).
  { rewrite <- Hq. rewrite !split_on_numeral_dot by by apply numeral_all_digits.
    by rewrite split_on_numeral by by apply numeral_all_digits. }
  rewrite Hparts. unfold convertible. cbn [length forallb].
  rewrite Na, Nb, Nc, Nd. cbn [andb].
  repeat (rewrite (proj2 (Z.leb_le _ _)) by lia). reflexivity.
Qed.

Lemma address_at_short s q rest :
  address_at s = Some (q, rest) ->
  (String.length rest <= String.length s)%nat
  /\ (Z.of_nat (String.length s) <= max_str_digits -> short_quad q = true).
Proof.
  unfold address_at. destruct (strip_prefix "ip address" s) as [s1|] eqn:E1; [|done].
  destruct (spaces_at s1) as [s2|] eqn:E2; [|done].
  apply strip_prefix_length in E1. apply spaces_at_length in E2.
  intros [Hr Hq]%quad_at_short. split; [lia|]. intros Hlen. apply Hq. lia.
Qed.

Lemma first_match_length {A} (m : string -> option A) s x :
  first_match m s = Some x ->
  exists post, m post = Some x
               /\ (String.length post <= String.length s)%nat.
Proof.
  intros (pre & post & -> & Hm)%first_match_Some. exists post.
  split; [done|]. rewrite length_append. lia.
Qed.

Lemma extract_ip_short interface_config ip :
  _extract_ip_from_interface interface_config = Some ip ->
  Z.of_nat (String.length interface_config) <= max_str_digits ->
  short_quad ip = true.
Proof.
  unfold _extract_ip_from_interface.
  intros (post & Hm & Hlen)%first_match_length Hshort.
  destruct (address_at post) as [[q rest]|] eqn:E; [|done].
  injection Hm as <-. apply address_at_short in E as [_ Hq]. apply Hq. lia.
Qed.

Lemma extract_subnet_short interface_config mask :
  _extract_subnet_from_interface interface_config = Some mask ->
  Z.of_nat (String.length interface_config) <= max_str_digits ->
  short_quad mask = true.
Proof.
  unfold _extract_subnet_from_interface, mask_at.
  intros (post & Hm & Hlen)%first_match_length Hshort.
  destruct (address_at post) as [[q rest]|] eqn:E; [|done].
  apply address_at_short in E as [Hrest _].
  destruct (spaces_at rest) as [s2|] eqn:E2; [|done].
  apply spaces_at_length in E2.
  destruct (quad_at s2) as [[m r]|] eqn:E3; [|done].
  injection Hm as <-. apply quad_at_short in E3 as [_ Hq]. apply Hq. lia.
Qed.

(** *** The subnet of a dotted quad *)

Lemma map_result_int_cases parts :
  forallb numeral parts = true ->
  forallb convertible parts = true
  \/ (forallb convertible parts = false
      /\ map_result Py.int parts = Raise ValueError).
Proof.
  induction parts as [|p parts IH]; [by left|].
  cbn [forallb map_result]. intros [Hp Hparts]%andb_prop.
  pose proof (int_numeral p Hp) as Hint. unfold convertible at 1 3.
  rewrite Hp. cbn [andb].
  destruct (Z.leb (Z.of_nat (String.length p)) max_str_digits).
  - destruct Hint as (z & -> & _). cbn [andb].
    destruct (IH Hparts) as [Hc|[Hc ->]]; [by left | by right].
  - right. by rewrite Hint.
Qed.

(** On dotted quads [_calculate_subnet] returns, or raises [ValueError]
    on an octet of more than 4300 digits. *)
Lemma calculate_subnet_cases ip_address subnet_mask :
  dotted_quad ip_address = true -> dotted_quad subnet_mask = true ->
  (short_quad ip_address = true /\ short_quad subnet_mask = true
   /\ exists s, Topology._calculate_subnet ip_address subnet_mask = Ok s)
  \/ ((short_quad ip_address = false \/ short_quad subnet_mask = false)
      /\ Topology._calculate_subnet ip_address subnet_mask = Raise ValueError).
Proof.
  unfold dotted_quad, short_quad.
  intros [Hl1 Hn1]%andb_prop [Hl2 Hn2]%andb_prop. rewrite Hl1, Hl2. cbn [andb].
  destruct (map_result_int_cases _ Hn1) as [Hc1|[Hc1 Hr1]].
  - destruct (map_result_int_cases _ Hn2) as [Hc2|[Hc2 Hr2]].
    + left. split; [done|]. split; [done|].
      apply calculate_subnet_returns; unfold short_quad; by rewrite ?Hl1, ?Hl2.
    + right. split; [by right|]. unfold Topology._calculate_subnet.
      destruct (map_result_int _ Hc1) as (ips & -> & _). by rewrite Hr2.
  - right. split; [by left|]. unfold Topology._calculate_subnet. by rewrite Hr1.
Qed.

End ParserFacts.

Section ParserProperties.
Import ConfigParser Parser NumeralFacts TextFacts ParserFacts BuildFacts.

(** X1. The interface status is never ['up']: the test for ['shutdown']
    comes first and also holds of a text with ['no shutdown'], which is
    therefore reported as ['down']. *)
Theorem interface_status_is_never_up :
  (forall interface_config,
     _extract_interface_status interface_config = "down"
     \/ _extract_interface_status interface_config = "unknown")
  /\ (forall pre post,
        _extract_interface_status (pre ++ "no shutdown" ++ post) = "down").
Proof.
  split.
  - intros interface_config. unfold _extract_interface_status.
    destruct (occurs "shutdown" (lower interface_config)) eqn:E; [by left|].
    destruct (occurs "no shutdown" (lower interface_config)) eqn:E'; [|by right].
    apply (occurs_app_r "no " "shutdown") in E'. congruence.
  - intros pre post. unfold _extract_interface_status.
    assert (occurs "shutdown" (lower (pre ++ "no shutdown" ++ post)) = true) as ->; [|done].
    apply (occurs_app_r "no " "shutdown"), (occurs_lower "no shutdown"),
      occurs_spec.
    by exists pre, post.
Qed.

(** X2. The detected device type agrees with the fields extracted from
    the same text: a text from which a routing protocol is extracted is a
    router, and a text that holds an interface block with an access VLAN
    is never an end point. *)
Theorem detected_type_agrees_with_fields content :
  (forall protocols,
     _extract_routing_protocols content = Ok protocols -> protocols ≠ [] ->
     _detect_device_type content = "router")
  /\ (forall block vlan,
        occurs block content = true ->
        _extract_vlan_from_interface block = Ok (Some vlan) ->
        _detect_device_type content = "router"
        \/ _detect_device_type content = "switch").
Proof.
  split.
  - intros protocols Hrun Hne. unfold _detect_device_type.
    unfold _extract_routing_protocols in Hrun.
    destruct (search "router ospf" content) as [g|] eqn:Eo.
    { apply search_occurs, occurs_lower in Eo.
      change (lower "router ospf") with "router ospf" in Eo. by rewrite Eo. }
    destruct (search "router bgp" content) as [g|] eqn:Eb.
    { apply search_occurs, occurs_lower in Eb.
      change (lower "router bgp") with "router bgp" in Eb.
      rewrite Eb. by rewrite orb_true_r. }
    simpl in Hrun. by injection Hrun as <-.
  - intros block vlan Hblock Hvlan. unfold _extract_vlan_from_interface in Hvlan.
    destruct (search "switchport access vlan" block) as [g|] eqn:E; [|done].
    apply search_occurs in E.
    pose proof (occurs_trans _ _ _ E Hblock) as Hin.
    assert (occurs "switchport" content = true) as Hsw.
    { apply occurs_spec in Hin as (p & q & ->). apply occurs_spec.
      by exists p, (" access vlan" ++ q)%string. }
    apply occurs_lower in Hsw. change (lower "switchport") with "switchport" in Hsw.
    unfold _detect_device_type. rewrite Hsw, orb_true_r.
    destruct (_ || _); [by left | by right].
Qed.

(** X3. Each of the three numbers that the parser reads from an
    interface block, the MTU, the bandwidth and the access VLAN when there
    is one, is returned and is not negative, unless its conversion raises
    [ValueError]; that happens only in a block of more than 4300
    characters, so on every shorter block the three are returned. *)
Theorem extracted_numbers_are_not_negative interface_config :
  ((exists z, _extract_mtu_from_interface interface_config = Ok z /\ 0 <= z)
   \/ (_extract_mtu_from_interface interface_config = Raise ValueError
       /\ max_str_digits < Z.of_nat (String.length interface_config)))
  /\ ((exists z, _extract_bandwidth_from_interface interface_config = Ok z
                 /\ 0 <= z)
      \/ (_extract_bandwidth_from_interface interface_config = Raise ValueError
          /\ max_str_digits < Z.of_nat (String.length interface_config)))
  /\ ((exists v, _extract_vlan_from_interface interface_config = Ok v
                 /\ forall z, v = Some z -> 0 <= z)
      \/ (_extract_vlan_from_interface interface_config = Raise ValueError
          /\ max_str_digits < Z.of_nat (String.length interface_config)))
  /\ (Z.of_nat (String.length interface_config) <= max_str_digits ->
      exists mtu bandwidth vlan,
        _extract_mtu_from_interface interface_config = Ok mtu
        /\ _extract_bandwidth_from_interface interface_config = Ok bandwidth
        /\ _extract_vlan_from_interface interface_config = Ok vlan
        /\ 0 <= mtu /\ 0 <= bandwidth /\ forall z, vlan = Some z -> 0 <= z).
Proof.
  pose proof (extract_mtu_cases interface_config) as Hmtu.
  pose proof (extract_bandwidth_cases interface_config) as Hbw.
  pose proof (extract_vlan_cases interface_config) as Hvlan.
  split; [done|]. split; [done|]. split; [done|]. intros Hshort.
  destruct Hmtu as [(mtu & Hmtu & ?)|[_ ?]]; [|lia].
  destruct Hbw as [(bw & Hbw & ?)|[_ ?]]; [|lia].
  destruct Hvlan as [(v & Hv & ?)|[_ ?]]; [|lia].
  by exists mtu, bw, v.
Qed.

(** X4. A number written after its keyword is read back: for a natural
    number n whose decimal text [str] returns (one of at most 4300 digits),
    followed by anything but a digit, the texts ['mtu n'], ['bandwidth n']
    and ['switchport access vlan n'] give n. *)
Theorem written_numbers_are_read_back n text rest :
  0 <= n -> Py.str n = Ok text -> no_digit_ahead rest = true ->
  _extract_mtu_from_interface ("mtu " ++ text ++ rest) = Ok n
  /\ _extract_bandwidth_from_interface ("bandwidth " ++ text ++ rest) = Ok n
  /\ _extract_vlan_from_interface ("switchport access vlan " ++ text ++ rest)
     = Ok (Some n).
Proof.
  intros Hn Htext Hrest. pose proof (numeral_str n text Hn Htext) as Hnum.
  unfold _extract_mtu_from_interface, _extract_bandwidth_from_interface,
    _extract_vlan_from_interface.
  pose proof (search_written "mtu" _ _ Hnum Hrest) as H1.
  pose proof (search_written "bandwidth" _ _ Hnum Hrest) as H2.
  pose proof (search_written "switchport access vlan" _ _ Hnum Hrest) as H3.
  change ("mtu" ++ String " " (text ++ rest))%string
    with ("mtu " ++ text ++ rest)%string in H1.
  change ("bandwidth" ++ String " " (text ++ rest))%string
    with ("bandwidth " ++ text ++ rest)%string in H2.
  change ("switchport access vlan" ++ String " " (text ++ rest))%string
    with ("switchport access vlan " ++ text ++ rest)%string in H3.
  rewrite H1, H2, H3, (int_str n text Htext). done.
Qed.

(** X5. The host name is never empty and holds no white space, whatever
    the text (it is ['Unknown'] when the text names none); so its last
    character, which the builder compares for switches and routers,
    exists. *)
Theorem hostname_is_a_word content :
  _extract_hostname content ≠ ""
  /\ has_space (_extract_hostname content) = false
  /\ (exists c, last_char (_extract_hostname content) = Ok c)
  /\ (first_match (word_at "hostname") content = None ->
      _extract_hostname content = "Unknown").
Proof.
  destruct (hostname_word content) as [Hne Hsp].
  split; [done|]. split; [done|]. split.
  - by apply last_char_returns.
  - unfold _extract_hostname. by intros ->.
Qed.

(** X6. The parser builds the record of an interface block, or raises
    [ValueError] on a number of more than 4300 digits, which needs a
    longer block.  A record that it builds has its name, an MTU and a
    bandwidth; an address and a mask that were found are four decimal
    numbers separated by dots, on which the subnet computation of the
    builder returns, or raises [ValueError] when the block is longer than
    4300 characters; a mask is found only when an address is.  From a
    block of at most 4300 characters the record is built, and it is one
    the topology builder accepts. *)
Theorem parsed_interfaces_are_well_formed interface_name interface_config :
  ((exists i, interface_info interface_name interface_config = Ok i)
   \/ (interface_info interface_name interface_config = Raise ValueError
       /\ max_str_digits < Z.of_nat (String.length interface_config)))
  /\ (forall i,
        interface_info interface_name interface_config = Ok i ->
        if_name i = Some interface_name
        /\ is_Some (if_mtu i) /\ is_Some (if_bandwidth i)
        /\ (forall ip mask,
              if_ip_address i = Some ip -> if_subnet_mask i = Some mask ->
              dotted_quad ip = true /\ dotted_quad mask = true
              /\ ((exists s, Topology._calculate_subnet ip mask = Ok s)
                  \/ (Topology._calculate_subnet ip mask = Raise ValueError
                      /\ max_str_digits
                         < Z.of_nat (String.length interface_config))))
        /\ (is_Some (if_subnet_mask i) -> is_Some (if_ip_address i)))
  /\ (Z.of_nat (String.length interface_config) <= max_str_digits ->
      exists i, interface_info interface_name interface_config = Ok i
                /\ well_formed_interface i = true).
Proof.
  pose proof (extract_mtu_cases interface_config) as Hmtu.
  pose proof (extract_bandwidth_cases interface_config) as Hbw.
  pose proof (extract_vlan_cases interface_config) as Hvlan.
  assert (Hquads : forall ip mask,
            _extract_ip_from_interface interface_config = Some ip ->
            _extract_subnet_from_interface interface_config = Some mask ->
            dotted_quad ip = true /\ dotted_quad mask = true).
  { intros ip mask Hip Hmask. split.
    - by apply extract_ip_dotted in Hip.
    - by apply extract_subnet_dotted in Hmask. }
  unfold interface_info. split; [|split].
  - destruct Hvlan as [(v & -> & _)|[-> ?]]; [|by right].
    destruct Hmtu as [(mtu & -> & _)|[-> ?]]; [|by right].
    destruct Hbw as [(bw & -> & _)|[-> ?]]; [|by right].
    left. by eexists.
  - intros i.
    destruct (_extract_vlan_from_interface interface_config) as [v|]; [|done].
    destruct (_extract_mtu_from_interface interface_config) as [mtu|]; [|done].
    destruct (_extract_bandwidth_from_interface interface_config) as [bw|];
      [|done].
    intros [= <-]. cbn.
    split; [done|]. split; [done|]. split; [done|]. split.
    + intros ip mask Hip Hmask. destruct (Hquads ip mask Hip Hmask) as [H1 H2].
      split; [done|]. split; [done|].
      destruct (calculate_subnet_cases ip mask H1 H2)
        as [(_ & _ & Hs)|[Hlong Hraise]]; [by left|].
      right. split; [done|].
      destruct (Z.leb_spec (Z.of_nat (String.length interface_config))
                           max_str_digits) as [Hshort|]; [|done].
      pose proof (extract_ip_short _ _ Hip Hshort).
      pose proof (extract_subnet_short _ _ Hmask Hshort).
      destruct Hlong; congruence.
    + unfold _extract_subnet_from_interface, _extract_ip_from_interface.
      apply first_match_weaker. intros t. unfold mask_at.
      destruct (address_at t) as [[q r]|]; [by eexists | by intros []].
  - intros Hshort.
    destruct Hvlan as [(v & -> & _)|[_ ?]]; [|lia].
    destruct Hmtu as [(mtu & -> & _)|[_ ?]]; [|lia].
    destruct Hbw as [(bw & -> & _)|[_ ?]]; [|lia].
    eexists. split; [reflexivity|]. unfold well_formed_interface. cbn.
    destruct (_extract_ip_from_interface interface_config) as [ip|] eqn:Eip;
      [|done].
    destruct (_extract_subnet_from_interface interface_config) as [mask|] eqn:Em;
      [|done].
    rewrite (extract_ip_short _ _ Eip Hshort),
      (extract_subnet_short _ _ Em Hshort).
    by destruct (_ && _).
Qed.

End ParserProperties.

(** ** The subnet key *)

Module SubnetFacts.
Export Subnets.
Import ConfigParser NumeralFacts TextFacts PyFacts.

Lemma split_on_dotless d : dotless d = true -> split_on "." d = [d].
Proof.
  induction d as [|c d IH]; simpl; [done|]. intros H.
  apply andb_true_iff in H as [Hc Hd].
  destruct (Ascii.eqb c "."); [done|]. by rewrite (IH Hd).
Qed.

Lemma split_on_dotless_dot d rest :
  dotless d = true -> split_on "." (d ++ "." ++ rest) = d :: split_on "." rest.
Proof.
  induction d as [|c d IH]; intros H.
  - reflexivity.
  - rewrite append_cons. simpl in *. apply andb_true_iff in H as [Hc Hd].
    destruct (Ascii.eqb c "."); [done|]. by rewrite (IH Hd).
Qed.

Lemma split_on_join l :
  l ≠ [] -> Forall (fun s => dotless s = true) l -> split_on "." (join "." l) = l.
Proof.
  induction l as [|x [|y l] IH]; intros Hne Hl; [done| |].
  - simpl. apply split_on_dotless. by inversion Hl.
  - change (join "." (x :: y :: l)) with (x ++ "." ++ join "." (y :: l))%string.
    inversion Hl as [|? ? Hx Hl']; subst.
    rewrite split_on_dotless_dot by done. by rewrite IH.
Qed.

Lemma all_digits_dotless s : all_digits s = true -> dotless s = true.
Proof.
  induction s as [|c s IH]; simpl; [done|]. intros H.
  apply andb_true_iff in H as [Hc Hs]. rewrite (IH Hs), andb_true_r.
  destruct (Ascii.eqb_spec c ".") as [->|]; done.
Qed.

Lemma dotless_decimal z : dotless (Py.decimal z) = true.
Proof.
  destruct z as [|p|p]; [done| |].
  - apply all_digits_dotless, numeral_all_digits, numeral_decimal. lia.
  - rewrite decimal_neg. cbn [dotless].
    change (Ascii.eqb "-" ".") with false. cbn [negb andb].
    apply all_digits_dotless, numeral_all_digits, numeral_decimal. lia.
Qed.

Lemma dotless_str z s : Py.str z = Ok s -> dotless s = true.
Proof. intros ->%str_decimal. apply dotless_decimal. Qed.

Lemma octets_join l texts :
  l ≠ [] -> map_result Py.str l = Ok texts -> octets (join "." texts) = Ok l.
Proof.
  intros Hne Htexts%map_result_Ok. unfold octets. rewrite split_on_join.
  - apply map_result_Ok. clear Hne.
    induction Htexts as [|z t l texts Hz _ IH]; [constructor|].
    constructor; [by apply int_str | done].
  - intros ->. inversion Htexts. by subst.
  - clear Hne. induction Htexts as [|z t l texts Hz _ IH]; [constructor|].
    constructor; [by eapply dotless_str | done].
Qed.

Lemma bind_Ok {A B} (a : A) (f : A -> result B) : (Ok a ≫= f) = f a.
Proof. reflexivity. Qed.

Lemma index_Ok {A} (l : list A) i x : index l i = Ok x <-> nth_error l i = Some x.
Proof. unfold index. destruct (nth_error l i); split; congruence. Qed.

(** The loop over [range(4)]. *)
Lemma masked_loop (a m : list Z) :
  map_result (fun i => x ← index a i; y ← index m i; mret (Z.land x y))
             [0; 1; 2; 3]%nat
  = if ((4 <=? length a) && (4 <=? length m))%nat then Ok (masked a m)
    else Raise IndexError.
Proof.
  destruct a as [|a0 [|a1 [|a2 [|a3 a]]]]; try reflexivity;
    destruct m as [|m0 [|m1 [|m2 [|m3 m]]]]; reflexivity.
Qed.

Lemma calculate_subnet_unfold ip mask :
  Topology._calculate_subnet ip mask =
  a ← octets ip; m ← octets mask;
  if ((4 <=? length a) && (4 <=? length m))%nat
  then texts ← map_result Py.str (masked a m); mret (join "." texts)
  else Raise IndexError.
Proof.
  unfold Topology._calculate_subnet, octets.
  destruct (map_result Py.int (split_on "." ip)) as [a|]; [|done].
  destruct (map_result Py.int (split_on "." mask)) as [m|]; [|done].
  rewrite !bind_Ok, masked_loop. by destruct (_ && _).
Qed.

Lemma calculate_subnet_Ok ip mask s :
  Topology._calculate_subnet ip mask = Ok s <->
  exists a m, octets ip = Ok a /\ octets mask = Ok m
              /\ (4 <= length a)%nat /\ (4 <= length m)%nat
              /\ exists texts, map_result Py.str (masked a m) = Ok texts
                               /\ s = join "." texts.
Proof.
  rewrite calculate_subnet_unfold. split.
  - destruct (octets ip) as [a|]; [|done]. destruct (octets mask) as [m|]; [|done].
    rewrite !bind_Ok. destruct (_ && _) eqn:E; [|done].
    destruct (map_result Py.str (masked a m)) as [texts|] eqn:Et; [|done].
    rewrite bind_Ok. intros [= <-].
    apply andb_true_iff in E as [Ha%Nat.leb_le Hm%Nat.leb_le].
    exists a, m. repeat (split; [done|]). by exists texts.
  - intros (a & m & -> & -> & Ha%Nat.leb_le & Hm%Nat.leb_le & texts & Ht & ->).
    rewrite !bind_Ok. by rewrite Ha, Hm, Ht.
Qed.

Lemma masked_length a m :
  (4 <= length a)%nat -> (4 <= length m)%nat -> length (masked a m) = 4%nat.
Proof.
  intros Ha Hm. unfold masked. rewrite length_zip_with, !length_take. lia.
Qed.

Lemma masked_idem a m :
  (4 <= length a)%nat -> (4 <= length m)%nat -> masked (masked a m) m = masked a m.
Proof.
  intros Ha Hm.
  destruct a as [|a0 [|a1 [|a2 [|a3 a]]]]; simpl in Ha; try lia.
  destruct m as [|m0 [|m1 [|m2 [|m3 m]]]]; simpl in Hm; try lia.
  unfold masked. simpl.
  by rewrite <- !Z.land_assoc, !Z.land_diag.
Qed.

End SubnetFacts.

Section SubnetKey.
Import SubnetFacts.

(** X7. A subnet key is canonical: it reads back as the four octets of
    the address masked by those of the mask (parts after the fourth are
    ignored), and the subnet of a key under the same mask is the key
    itself. *)
Theorem subnet_key_is_canonical ip_address subnet_mask s :
  Topology._calculate_subnet ip_address subnet_mask = Ok s ->
  exists a m,
    octets ip_address = Ok a /\ octets subnet_mask = Ok m
    /\ (4 <= length a)%nat /\ (4 <= length m)%nat
    /\ octets s = Ok (masked a m)
    /\ length (split_on "." s) = 4%nat
    /\ Topology._calculate_subnet s subnet_mask = Ok s.
Proof.
  intros (a & m & Ha & Hm & Hla & Hlm & texts & Ht & ->)%calculate_subnet_Ok.
  exists a, m. split; [done|]. split; [done|]. split; [done|]. split; [done|].
  pose proof (masked_length a m Hla Hlm) as Hlen.
  assert (Hne : masked a m ≠ []) by (intros E; rewrite E in Hlen; done).
  pose proof (octets_join _ _ Hne Ht) as Hoct.
  split; [done|]. split.
  - unfold octets in Hoct. apply PyFacts.map_result_Ok in Hoct.
    apply Forall2_length in Hoct. lia.
  - apply calculate_subnet_Ok. exists (masked a m), m.
    split; [done|]. split; [done|]. split; [lia|]. split; [done|].
    exists texts. by rewrite masked_idem.
Qed.

(** X8. Two interfaces get the same subnet key exactly when their masked
    octets agree, however the numbers are written. *)
Theorem same_key_iff_same_masked_octets ip1 mask1 ip2 mask2 s1 s2 :
  Topology._calculate_subnet ip1 mask1 = Ok s1 ->
  Topology._calculate_subnet ip2 mask2 = Ok s2 ->
  exists a1 m1 a2 m2,
    octets ip1 = Ok a1 /\ octets mask1 = Ok m1
    /\ octets ip2 = Ok a2 /\ octets mask2 = Ok m2
    /\ (s1 = s2 <-> masked a1 m1 = masked a2 m2).
Proof.
  intros (a1 & m1 & Ha1 & Hm1 & Hla1 & Hlm1 & t1 & Ht1 & ->)%calculate_subnet_Ok
         (a2 & m2 & Ha2 & Hm2 & Hla2 & Hlm2 & t2 & Ht2 & ->)%calculate_subnet_Ok.
  exists a1, m1, a2, m2. repeat (split; [done|]).
  split; [|intros Heq; rewrite Heq in Ht1; congruence].
  intros Heq.
  assert (H1 : masked a1 m1 ≠ []).
  { intros E. pose proof (masked_length a1 m1 Hla1 Hlm1) as H. by rewrite E in H. }
  assert (H2 : masked a2 m2 ≠ []).
  { intros E. pose proof (masked_length a2 m2 Hla2 Hlm2) as H. by rewrite E in H. }
  pose proof (octets_join _ _ H1 Ht1) as O1.
  pose proof (octets_join _ _ H2 Ht2) as O2.
  rewrite Heq in O1. congruence.
Qed.

End SubnetKey.

(** ** What a built topology holds *)

Module BuiltFacts.
Export Built.
Import Nx DictFacts GroupFacts PyFacts TopologyFacts BuildFacts.
Import GraphFacts GraphBuildFacts ConnectivityFacts.

Lemma in_concat_elem {A} (ls : list (list A)) x :
  x ∈ concat ls -> exists l, l ∈ ls /\ x ∈ l.
Proof.
  intros H%list_elem_of_In%in_concat. destruct H as (l & Hl & Hx).
  exists l. split; by apply list_elem_of_In.
Qed.

Lemma subnet_member_spec id cfg (devs : dict string Device) i es s m :
  (id, cfg) ∈ devs -> i ∈ interfaces_of cfg ->
  subnet_member id i = Ok es -> (s, m) ∈ es -> subnet_member_of devs s m.
Proof.
  intros Hdev Hi. unfold subnet_member.
  destruct (if_ip_address i) as [ip|] eqn:Eip; [|intros [= <-] H; by apply elem_of_nil in H].
  destruct (if_subnet_mask i) as [mask|] eqn:Em; [|intros [= <-] H; by apply elem_of_nil in H].
  destruct (_ && _); [|intros [= <-] H; by apply elem_of_nil in H].
  destruct (_calculate_subnet ip mask) as [s'|] eqn:Es; simpl; [|done].
  destruct (if_name i) as [name|] eqn:En; simpl; [|done].
  intros [= <-] [= -> ->]%list_elem_of_singleton.
  by exists cfg, i, ip, mask, name.
Qed.

Lemma subnet_members_spec devs es s m :
  subnet_members devs = Ok es -> (s, m) ∈ es -> subnet_member_of devs s m.
Proof.
  unfold subnet_members.
  destruct (map_result device_members devs) as [l|] eqn:E; simpl; [|done].
  intros [= <-] (es1 & Hes1 & Hin)%in_concat_elem.
  destruct (map_result_elem_r _ _ _ _ E Hes1) as ([id cfg] & Hdev & Hmem).
  unfold device_members in Hmem. simpl in Hmem.
  destruct (map_result (subnet_member id) (interfaces_of cfg)) as [l'|] eqn:E';
    simpl in Hmem; [|done].
  injection Hmem as <-. apply in_concat_elem in Hin as (es2 & Hes2 & Hin).
  destruct (map_result_elem_r _ _ _ _ E' Hes2) as (i & Hi & Hsub).
  by eapply subnet_member_spec.
Qed.

Lemma in_members {K A} `{EqDecision K} (k : K) (entries : list (K * A)) x :
  x ∈ members k entries -> (k, x) ∈ entries.
Proof.
  unfold members. intros ([k' x'] & -> & Hin)%list_elem_of_fmap.
  apply list_elem_of_In, filter_In in Hin as [Hin Hk]. simpl in Hk.
  apply bool_decide_eq_true_1 in Hk as ->. by apply list_elem_of_In.
Qed.

Lemma group_members devs groups s l m :
  group_by_subnet devs = Ok groups -> (s, l) ∈ groups -> m ∈ l ->
  subnet_member_of devs s m.
Proof.
  intros (es & Hes & ->)%group_by_subnet_spec [-> _]%elem_group_by Hm.
  apply in_members in Hm. by eapply subnet_members_spec.
Qed.

Lemma plan_calls devs groups (c : call) :
  group_by_subnet devs = Ok groups -> c ∈ flat_map group_links groups ->
  subnet_member_of devs c.2 c.1.1 /\ subnet_member_of devs c.2 c.1.2.
Proof.
  intros Hgroups Hc. apply list_elem_of_In, in_flat_map in Hc as ([s l] & Hg & Hc).
  apply list_elem_of_In in Hg. unfold group_links in Hc. simpl in Hc.
  destruct (1 <? length l)%nat; [|done].
  apply in_map_iff in Hc as ([m1 m2] & <- & Hp). simpl.
  apply list_elem_of_In, in_pairs in Hp as [H1 H2].
  split; by eapply group_members.
Qed.

Lemma member_device devs s m : subnet_member_of devs s m -> device_id m ∈ keys devs.
Proof.
  intros (cfg & _ & _ & _ & _ & Hdev & _). apply list_elem_of_fmap.
  by exists (device_id m, cfg).
Qed.

Lemma elem_fold_set {V} (kvs : list (string * V)) (d : dict string V) kv :
  kv ∈ fold_left (fun d (kv : string * V) => Py.set kv.1 kv.2 d) kvs d ->
  kv ∈ d \/ kv ∈ kvs.
Proof.
  revert d. induction kvs as [|[k v] kvs IH]; intros d; simpl; [by left|].
  intros [Hin|Hin]%IH.
  - apply elem_set in Hin as [->|Hin]; [right; left | by left].
  - right. by right.
Qed.

(** *** Registration *)

Lemma nodes_add_node_eq n g :
  nodes (add_node n g) = if has_node g n then nodes g else nodes g ++ [n].
Proof. unfold add_node. by destruct (has_node g n). Qed.

Lemma has_node_contains {V} (d : dict string V) g n :
  nodes g = keys d -> has_node g n = contains n d.
Proof.
  intros Hn. destruct (contains n d) eqn:E.
  - apply has_node_spec. rewrite Hn. by apply contains_true.
  - apply not_true_is_false. intros H%has_node_spec. rewrite Hn in H.
    by apply contains_false in E.
Qed.

Lemma register_registered configs st st' :
  for_each register configs st = Ok st' ->
  registered st ->
  registered st' /\ edges (graph st') = edges (graph st).
Proof.
  intros Hrun Hst.
  eapply (for_each_invariant
            (fun s => registered s /\ edges (graph s) = edges (graph st)));
    [|split; [exact Hst | done]|exact Hrun].
  clear. intros c s s' _ [(Hnd & Hnodes & Hnames) Hedges]. unfold register.
  destruct (nonempty c) eqn:Hne; [|by intros [= <-]].
  destruct (device_name c) as [id|] eqn:Hname; simpl; [|done].
  intros [= <-]. unfold registered. cbn [graph devices links].
  split; [split; [|split]|].
  - by apply NoDup_keys_set.
  - rewrite nodes_add_node_eq, keys_set, (has_node_contains (devices s)) by done.
    rewrite Hnodes. by destruct (contains id (devices s)).
  - intros id' c' [[= -> ->]|Hin]%elem_set; [done | by apply Hnames].
  - by rewrite edges_add_node.
Qed.

Lemma registered_init : registered init.
Proof. split; [apply NoDup_nil_2 | split; [done|]]. intros ? ? H. by apply elem_of_nil in H. Qed.

Lemma last_named_cons id c configs :
  last_named id (c :: configs) =
  match last_named id configs with
  | Some c' => Some c'
  | None => if named id c then Some c else None
  end.
Proof.
  unfold last_named. simpl. destruct (named id c); [|by destruct (last _)].
  by rewrite last_cons.
Qed.

Lemma register_get configs st st' id :
  for_each register configs st = Ok st' ->
  get id (devices st') =
  match last_named id configs with
  | Some c => Some c
  | None => get id (devices st)
  end.
Proof.
  revert st. induction configs as [|c configs IH]; intros st; simpl.
  - by intros [= <-].
  - destruct (register c st) as [st1|] eqn:E; simpl; [|done].
    intros Hrun. rewrite (IH _ Hrun), last_named_cons.
    destruct (last_named id configs); [done|].
    unfold register in E. unfold named.
    destruct (nonempty c); [|by injection E as <-].
    destruct (device_name c) as [n|]; simpl in E; [|done].
    injection E as <-. simpl.
    destruct (decide (n = id)) as [->|Hne].
    + rewrite bool_decide_eq_true_2 by done. by rewrite get_set_eq.
    + rewrite bool_decide_eq_false_2 by congruence. by rewrite get_set_ne.
Qed.

(** *** The subnet phase *)

Lemma nodes_add_edge_eq u v g :
  u ∈ nodes g -> v ∈ nodes g -> nodes (add_edge u v g) = nodes g.
Proof.
  intros Hu Hv. unfold add_edge.
  assert (add_node u g = g) as ->.
  { unfold add_node. by rewrite (proj2 (has_node_spec g u) Hu). }
  assert (add_node v g = g) as ->.
  { unfold add_node. by rewrite (proj2 (has_node_spec g v) Hv). }
  by destruct (has_edge g u v).
Qed.

Lemma add_link_closed devs d1 d2 s st st' :
  device_id d1 ∈ keys devs -> device_id d2 ∈ keys devs ->
  closed devs st -> _add_link d1 d2 s st = Ok st' -> closed devs st'.
Proof.
  intros H1 H2 (Hnodes & Hnd & Hadj & Hends & Htag). unfold _add_link.
  destruct (bandwidth d1); simpl; [|done]. destruct (bandwidth d2); simpl; [|done].
  intros [= <-]. unfold closed. cbn [graph devices links].
  split; [|split; [|split; [|split]]].
  - rewrite nodes_add_edge_eq; [done| |]; by rewrite Hnodes.
  - by apply NoDup_keys_set.
  - intros u v [H|[[-> ->]|[-> ->]]]%adjacent_add_edge; [by apply Hadj|done|done].
  - intros kv [->|Hin]%elem_set; [done | by apply Hends].
  - intros kv [->|Hin]%elem_set Htagged.
    + apply adjacent_add_edge. right. by left.
    + apply adjacent_add_edge. left. by apply Htag.
Qed.

Lemma add_subnet_links_closed devs groups st st' :
  group_by_subnet devs = Ok groups -> closed devs st ->
  add_subnet_links groups st = Ok st' -> closed devs st'.
Proof.
  intros Hgroups Hst. unfold add_subnet_links.
  apply (for_each_invariant (closed devs)); [|done].
  intros c s s' Hc Hs.
  destruct (plan_calls _ _ _ Hgroups Hc) as [H1%member_device H2%member_device].
  by apply add_link_closed.
Qed.

(** *** The switch phase *)

Lemma add_switch_link_closed devs switch_id other_id st :
  switch_id ∈ keys devs -> other_id ∈ keys devs ->
  closed devs st -> closed devs (_add_switch_link switch_id other_id st).
Proof.
  intros Hsw Hother (Hnodes & Hnd & Hadj & Hends & Htag).
  destruct (_add_switch_link_spec switch_id other_id st) as (Hg & _ & Hl).
  unfold closed. rewrite Hg, Hl.
  destruct (contains (link_id switch_id other_id) (links st)) eqn:E1; [done|].
  destruct (contains (link_id other_id switch_id) (links st)) eqn:E2; [done|].
  simpl. split; [done|]. split; [|split; [done|split]].
  - unfold keys. rewrite map_app. apply NoDup_app. split; [done|].
    split; [|apply NoDup_singleton].
    intros k Hk [= ->]%list_elem_of_singleton. by apply contains_false in E1.
  - intros kv [Hin|[= ->]%list_elem_of_singleton]%elem_of_app; [by apply Hends|done].
  - intros kv [Hin|[= ->]%list_elem_of_singleton]%elem_of_app; [by apply Htag|].
    by intros [].
Qed.

Lemma try_attach_closed devs switch_id vlans other st st' :
  switch_id ∈ keys devs -> other.1 ∈ keys devs ->
  closed devs st -> try_attach switch_id vlans other st = Ok st' ->
  closed devs st' /\ devices st' = devices st.
Proof.
  intros Hsw Hother Hst. unfold try_attach.
  pose proof (add_switch_link_closed devs switch_id other.1 st Hsw Hother Hst) as Hadd.
  destruct (_add_switch_link_spec switch_id other.1 st) as (_ & Hdev & _).
  destruct (may_attach switch_id other.1 st); [|by intros [= <-]].
  destruct (_shares_vlan_segment other.2 vlans); [by intros [= <-]|].
  destruct (has_role "router" other.2); [|by intros [= <-]].
  destruct (last_char switch_id); simpl; [|done].
  destruct (last_char other.1); simpl; [|done].
  destruct (Ascii.eqb _ _); by intros [= <-].
Qed.

Lemma connect_switches_closed st st' :
  closed (devices st) st ->
  _connect_switches_to_segments st = Ok st' ->
  closed (devices st) st' /\ devices st' = devices st.
Proof.
  intros Hst. unfold _connect_switches_to_segments.
  apply (for_each_invariant
           (fun s => closed (devices st) s /\ devices s = devices st)); [|done].
  intros [switch_id cfg] s s' Hin [Hs Hdev]. unfold connect_switch. simpl.
  apply list_elem_of_In, filter_In in Hin as [Hin _]. apply list_elem_of_In in Hin.
  assert (Hsw : switch_id ∈ keys (devices st)).
  { apply list_elem_of_fmap. by exists (switch_id, cfg). }
  apply (for_each_invariant
           (fun s => closed (devices st) s /\ devices s = devices st)); [|done].
  intros other t t' Hother [Ht Htdev] Hrun. rewrite Hdev in Hother.
  assert (Ho : other.1 ∈ keys (devices st)).
  { apply list_elem_of_fmap. by exists other. }
  destruct (try_attach_closed _ _ _ _ _ _ Hsw Ho Ht Hrun) as [? ?].
  split; [done | congruence].
Qed.

(** *** The whole build *)

Lemma build_closed configs topo :
  build_topology_from_configs configs = Ok topo ->
  exists self groups,
    for_each register configs init = Ok self
    /\ group_by_subnet (devices self) = Ok groups
    /\ devices topo = devices self
    /\ registered self
    /\ closed (devices topo) topo
    /\ forall kv, kv ∈ links topo -> is_Some (subnet kv.2) ->
         exists c, c ∈ flat_map group_links groups /\ kv = planned_link c.
Proof.
  intros (self & groups & self' & Hreg & Hgroups & Hsub & Hsw)%build_phases.
  destruct (register_registered _ _ _ Hreg registered_init) as [Hself Hedges].
  pose proof (register_links _ _ _ Hreg) as Hlinks. simpl in Hlinks, Hedges.
  destruct (add_subnet_links_spec _ _ _ Hsub) as [Hl' Hd'].
  assert (Hclosed : closed (devices self) self).
  { destruct Hself as (Hnd & Hnodes & _).
    split; [done|]. rewrite Hlinks. split; [apply NoDup_nil_2|].
    split; [|split].
    - intros u v [H|H]; rewrite Hedges in H; by apply elem_of_nil in H.
    - intros kv H. by apply elem_of_nil in H.
    - intros kv H. by apply elem_of_nil in H. }
  pose proof (add_subnet_links_closed _ _ _ _ Hgroups Hclosed Hsub) as Hclosed'.
  rewrite <- Hd' in Hclosed'.
  destruct (connect_switches_closed _ _ Hclosed' Hsw) as [Htopo Hdev].
  exists self, groups. split; [done|]. split; [done|].
  split; [congruence|]. split; [done|]. split; [by rewrite Hdev|].
  intros kv Hkv Htag.
  destruct (connect_switches_attached _ _ Hsw) as (_ & extra & Hl & Hextra & _).
  rewrite Hl in Hkv. apply elem_of_app in Hkv as [Hkv|Hkv].
  - rewrite Hl', Hlinks in Hkv. apply elem_fold_set in Hkv as [Hkv|Hkv].
    + by apply elem_of_nil in Hkv.
    + apply list_elem_of_fmap in Hkv as (c & -> & Hc). by exists c.
  - rewrite Forall_forall in Hextra.
    destruct (Hextra kv Hkv) as (sw & cfg & other & -> & _).
    by destruct Htag.
Qed.

End BuiltFacts.

Section BuiltTopology.
Import Nx DictFacts GroupFacts PyFacts TopologyFacts BuildFacts BuiltFacts.
Import Connectivity.

(** X9. In a topology that the builder returns, every device is filed
    once, under its own name, and is a node of the graph; every link is
    filed once and both its ends are devices of the topology, so no link
    dangles; the graph joins devices only, and it joins the two ends of
    every link that carries a subnet tag. *)
Theorem built_topology_is_closed configs topo :
  build_topology_from_configs configs = Ok topo ->
  NoDup (keys (devices topo))
  /\ NoDup (keys (links topo))
  /\ (forall id c, (id, c) ∈ devices topo -> device_name c = Some id)
  /\ nodes (graph topo) = keys (devices topo)
  /\ (forall kv, kv ∈ links topo ->
        end1 kv ∈ keys (devices topo) /\ end2 kv ∈ keys (devices topo))
  /\ (forall u v, adjacent (graph topo) u v ->
        u ∈ keys (devices topo) /\ v ∈ keys (devices topo))
  /\ (forall kv, kv ∈ links topo -> is_Some (subnet kv.2) ->
        adjacent (graph topo) (end1 kv) (end2 kv)).
Proof.
  intros (self & groups & _ & _ & Hdev & (Hnd & _ & Hnames) &
          (Hnodes & Hndl & Hadj & Hends & Htag) & _)%build_closed.
  rewrite Hdev. split; [done|]. split; [done|]. split.
  { intros id c Hin. by destruct (Hnames id c Hin). }
  rewrite <- Hdev. done.
Qed.

(** X10. A link with a subnet tag joins two interfaces of that subnet:
    each end is the record of an interface of a registered device whose
    address under its mask gives the tag, with the bandwidth of that
    interface or 100 when it has none; the link is filed under the id made
    of the two device ids, its bandwidth is the smaller of the two, and its
    utilization is 0. *)
Theorem tagged_links_join_subnet_members configs topo kv s :
  build_topology_from_configs configs = Ok topo ->
  kv ∈ links topo -> subnet kv.2 = Some s ->
  subnet_member_of (devices topo) s (device1 kv.2)
  /\ subnet_member_of (devices topo) s (device2 kv.2)
  /\ kv.1 = link_id (end1 kv) (end2 kv)
  /\ (exists b1 b2, bandwidth (device1 kv.2) = Some b1
                    /\ bandwidth (device2 kv.2) = Some b2
                    /\ bandwidth_mbps kv.2 = Z.min b1 b2)
  /\ current_utilization kv.2 = 0.
Proof.
  intros (self & groups & _ & Hgroups & Hdev & _ & _ & Hplan)%build_closed Hkv Htag.
  destruct (Hplan kv Hkv) as (c & Hc & ->); [by rewrite Htag|].
  destruct (plan_calls _ _ _ Hgroups Hc) as [H1 H2]. rewrite <- Hdev in H1, H2.
  simpl in Htag. injection Htag as <-.
  split; [done|]. split; [done|]. split; [done|]. split; [|done].
  destruct H1 as (? & i1 & ? & ? & ? & _ & _ & _ & _ & _ & _ & E1).
  destruct H2 as (? & i2 & ? & ? & ? & _ & _ & _ & _ & _ & _ & E2).
  exists (default 100 (if_bandwidth i1)), (default 100 (if_bandwidth i2)).
  simpl. rewrite E1, E2. done.
Qed.

(** X11. When several records carry the same name, the last one is the
    device of that name: the devices of a built topology are the last
    records of their names, and a name that no record carries is no
    device. *)
Theorem last_record_of_a_name_wins configs topo id :
  build_topology_from_configs configs = Ok topo ->
  get id (devices topo) = last_named id configs.
Proof.
  intros (self & groups & Hreg & _ & Hdev & _)%build_closed.
  rewrite Hdev, (register_get _ _ _ id Hreg). by destruct (last_named id configs).
Qed.

End BuiltTopology.

(** ** The summary of a topology *)

Module SummaryFacts.
Import Summary.
Export Built.
Import DictFacts PyFacts GraphFacts ConnectivityFacts MissingFacts.
Local Open Scope nat_scope.

Lemma is_role_typed role d t :
  device_type d = Some t -> is_role role d = Ok (has_role role d).
Proof.
  intros Ht. unfold is_role. rewrite Ht. simpl. by rewrite (has_role_eqb role d t).
Qed.

Lemma filter_result_total {A} (p : A -> result bool) (q : A -> bool) l :
  (forall x, x ∈ l -> p x = Ok (q x)) -> filter_result p l = Ok (List.filter q l).
Proof.
  induction l as [|x l IH]; intros Hp; simpl; [done|].
  rewrite (Hp x) by left. simpl. rewrite IH by (intros; apply Hp; by right).
  simpl. by destruct (q x).
Qed.

Lemma typed_devices_values devices :
  typed_devices devices = true <->
  forall d, d ∈ values devices -> exists t, device_type d = Some t.
Proof.
  unfold typed_devices. rewrite forallb_forall. split.
  - intros H d ([id d'] & -> & Hin)%list_elem_of_fmap.
    specialize (H _ (proj1 (list_elem_of_In _ _) Hin)). simpl in *.
    destruct (device_type d'); [by eexists | done].
  - intros H [id d] Hin. simpl. destruct (H d) as [t ->]; [|done].
    apply list_elem_of_fmap. exists (id, d). split; [done | by apply list_elem_of_In].
Qed.

Lemma count_role_typed role devices :
  typed_devices devices = true ->
  count_role role devices
  = Ok (length (List.filter (has_role role) (values devices))).
Proof.
  intros Ht. unfold count_role.
  rewrite (filter_result_total _ (has_role role)); [done|].
  intros d Hd. destruct (proj1 (typed_devices_values devices) Ht d Hd) as [t Hdt].
  by eapply is_role_typed.
Qed.

Lemma filter_result_untyped role (l : list Device) :
  forallb (fun d => present (device_type d)) l = false ->
  filter_result (is_role role) l = Raise (KeyError "device_type").
Proof.
  induction l as [|d l IH]; simpl; [done|].
  destruct (device_type d) as [t|] eqn:Ht; simpl.
  - intros H. rewrite (is_role_typed role d t Ht), (IH H). done.
  - intros _. unfold is_role. by rewrite Ht.
Qed.

Lemma count_role_untyped role devices :
  typed_devices devices = false ->
  count_role role devices = Raise (KeyError "device_type").
Proof.
  intros Ht. unfold count_role. rewrite filter_result_untyped; [done|].
  rewrite <- Ht. clear Ht. unfold typed_devices, values.
  induction devices as [|[id d] devices IH]; simpl; [done|]. by rewrite IH.
Qed.

Lemma length_ids_with_role role devices :
  length (ids_with_role role devices)
  = length (List.filter (has_role role) (values devices)).
Proof.
  unfold ids_with_role, values. rewrite length_map.
  induction devices as [|[id d] devices IH]; simpl; [done|].
  destruct (has_role role d); simpl; by rewrite IH.
Qed.

(** The three roles that are counted exclude one another. *)
Lemma roles_exclusive d a b :
  a ≠ b -> has_role a d = true -> has_role b d = false.
Proof.
  unfold has_role. intros Hne Ha%bool_decide_eq_true_1.
  apply bool_decide_eq_false_2. congruence.
Qed.

Lemma role_counts (l : list Device) :
  let n := length (List.filter (has_role "router") l)
           + length (List.filter (has_role "switch") l)
           + length (List.filter (has_role "endpoint") l) in
  n <= length l /\ (n = length l <-> forallb known_type l = true).
Proof.
  induction l as [|d l [IH1 IH2]]; simpl; [done|].
  unfold known_type at 1.
  destruct (has_role "router" d) eqn:Er.
  { rewrite (roles_exclusive d "router" "switch") by done.
    rewrite (roles_exclusive d "router" "endpoint") by done.
    simpl. split; [lia|]. rewrite <- IH2. lia. }
  destruct (has_role "switch" d) eqn:Es.
  { rewrite (roles_exclusive d "switch" "endpoint") by done.
    simpl. split; [lia|]. rewrite <- IH2. lia. }
  destruct (has_role "endpoint" d) eqn:Ee; simpl.
  - split; [lia|]. rewrite <- IH2. lia.
  - split; [lia|]. split; [lia | done].
Qed.

Lemma length_omap_le {A B} (f : A -> option B) l : length (omap f l) <= length l.
Proof.
  induction l as [|x l IH]; [done|]. csimpl.
  destruct (f x); simpl; lia.
Qed.

Lemma subnet_tags_le links : size (subnet_tags links) <= length links.
Proof.
  unfold subnet_tags. etransitivity; [apply size_list_to_set_le|].
  etransitivity; [apply length_omap_le|]. unfold values. by rewrite length_map.
Qed.

Lemma summary_typed self :
  typed_devices (devices self) = true ->
  get_topology_summary self
  = Ok {| total_devices := length (devices self);
          routers := length (ids_with_role "router" (devices self));
          switches := length (ids_with_role "switch" (devices self));
          endpoints := length (ids_with_role "endpoint" (devices self));
          total_links := length (links self);
          subnets := size (subnet_tags (links self)) |}.
Proof.
  intros Ht. unfold get_topology_summary.
  rewrite !count_role_typed by done. simpl.
  by rewrite !length_ids_with_role.
Qed.

Lemma summary_untyped self :
  typed_devices (devices self) = false ->
  get_topology_summary self = Raise (KeyError "device_type").
Proof.
  intros Ht. unfold get_topology_summary.
  by rewrite (count_role_untyped "router").
Qed.

End SummaryFacts.

Section SummaryProperties.
Import Summary SummaryFacts ConnectivityFacts MissingFacts.
Import DictFacts PyFacts TopologyFacts BuiltFacts SubnetLinkFacts AttachFacts.
Local Open Scope nat_scope.

(** X12. The summary of a topology exists exactly when every device has
    a type; otherwise [KeyError] is raised for ['device_type'].  When it
    exists, routers, switches and end points together are at most all the
    devices, with equality exactly when every device has one of these
    three types, and there are at most as many subnets as links. *)
Theorem summary_counts self :
  if typed_devices (devices self)
  then exists s,
         get_topology_summary self = Ok s
         /\ total_devices s = length (devices self)
         /\ total_links s = length (links self)
         /\ routers s = length (ids_with_role "router" (devices self))
         /\ switches s = length (ids_with_role "switch" (devices self))
         /\ endpoints s = length (ids_with_role "endpoint" (devices self))
         /\ routers s + switches s + endpoints s <= total_devices s
         /\ (routers s + switches s + endpoints s = total_devices s
             <-> forallb known_type (values (devices self)) = true)
         /\ subnets s <= total_links s
  else get_topology_summary self = Raise (KeyError "device_type").
Proof.
  destruct (typed_devices (devices self)) eqn:Ht; [|by apply summary_untyped].
  eexists. split; [by apply summary_typed|]. simpl.
  do 5 (split; [done|]).
  destruct (role_counts (values (devices self))) as [Hle Hiff].
  rewrite !length_ids_with_role.
  assert (length (devices self) = length (values (devices self))) as ->
    by (unfold values; by rewrite length_map).
  split; [done|]. split; [done|]. apply subnet_tags_le.
Qed.

(** X13. A built topology has at most one link without a subnet tag per
    switch: its links are at most its subnet links and as many more as it
    has switches. *)
Theorem at_most_one_untagged_link_per_switch configs topo s :
  build_topology_from_configs configs = Ok topo ->
  get_topology_summary topo = Ok s ->
  total_links s <= length (subnet_links topo) + switches s.
Proof.
  intros Hbuild Hsum.
  destruct (typed_devices (devices topo)) eqn:Ht;
    [|by rewrite summary_untyped in Hsum].
  rewrite summary_typed in Hsum by done. injection Hsum as <-. simpl.
  destruct (build_links _ _ Hbuild) as (base & extra & Hl & Hbase & Hextra & Hnd & _).
  unfold subnet_links. rewrite Hl, List.filter_app, !length_app.
  rewrite (management_untagged (devices topo) extra); [|by intros kv ->|done].
  assert (List.filter (fun kv : string * Link => present (subnet kv.2)) base = base) as ->.
  { clear -Hbase. induction Hbase as [|kv base Hkv _ IH]; simpl; [done|].
    destruct (subnet kv.2); [|done]. simpl. by rewrite IH. }
  simpl. rewrite Nat.add_0_r. apply Nat.add_le_mono_l.
  rewrite <- (length_map first_device extra).
  apply submseteq_length, NoDup_submseteq; [done|].
  intros id (kv & -> & Hkv)%list_elem_of_fmap.
  rewrite Forall_forall in Hextra.
  destruct (Hextra kv Hkv) as (sw & cfg & other & -> & Hsw & Hrole & _).
  apply in_ids_with_role. exists cfg. split; [done|].
  by apply bool_decide_eq_true_1 in Hrole.
Qed.

End SummaryProperties.

(** ** More on the rules for missing components and redundancy *)

Module RuleFacts.
Export Statuses.
Import Nx DictFacts PyFacts GraphFacts GraphBuildFacts ConnectivityFacts.
Import MissingFacts RedundancyFacts.

Lemma map_result_returns {A B} (f : A -> result B) l :
  (forall x, x ∈ l -> exists y, f x = Ok y) -> exists ys, map_result f l = Ok ys.
Proof.
  induction l as [|x l IH]; intros Hf; simpl; [by eexists|].
  destruct (Hf x) as [y ->]; [left|]. simpl.
  destruct IH as [ys ->]; [intros; apply Hf; by right|]. simpl. by eexists.
Qed.

Lemma map_result_elem_l {A B} (f : A -> result B) l ys x :
  map_result f l = Ok ys -> x ∈ l -> exists y, y ∈ ys /\ f x = Ok y.
Proof.
  rewrite map_result_Ok. induction 1 as [|x' y l ys Hxy _ IH].
  - intros Hx. by apply elem_of_nil in Hx.
  - intros Hx. apply elem_of_cons in Hx as [->|Hx].
    + exists y. split; [left | done].
    + destruct (IH Hx) as (y' & Hy' & Hf). exists y'. split; [by right | done].
Qed.

Lemma empty_or_elem {A} (l : list A) : l = [] \/ exists x, x ∈ l.
Proof. destruct l as [|x l]; [by left|]. right. exists x. left. Qed.

Lemma status_of_fail l : status_of l = StFail <-> existsb is_critical l = true.
Proof. unfold status_of. destruct (existsb is_critical l); [done|]. by destruct l. Qed.

Lemma status_of_pass l : status_of l = StPass <-> l = [].
Proof.
  unfold status_of. destruct l as [|i l]; [done|].
  destruct (existsb is_critical (i :: l)); done.
Qed.

Lemma status_of_warning l :
  status_of l = StWarning <-> existsb is_critical l = false /\ l ≠ [].
Proof.
  unfold status_of. destruct (existsb is_critical l) eqn:E.
  - split; [done | by intros [? _]].
  - destruct l; [split; [done | by intros [_ ?]] | done].
Qed.

(** *** Missing components *)

Section Missing.
Variable topology_data : TopologyData.
Local Abbreviation devices := (td_devices topology_data).
Local Abbreviation g := (connectivity_graph topology_data).
Local Abbreviation routers := (ids_with_role "router" devices).
Local Abbreviation endpoints := (ids_with_role "endpoint" devices).
Local Abbreviation unreachable := (unreachable_issues topology_data).
Local Abbreviation dhcp := (dhcp_issues topology_data).

Lemma check_missing_components_typed :
  typed_devices devices = true ->
  check_missing_components topology_data
  = Ok {| status := status_of (unreachable ++ dhcp);
          issues := unreachable ++ dhcp;
          suggestions :=
            ["Ensure all endpoints have connectivity to network infrastructure"] |}.
Proof.
  intros Htyped. unfold check_missing_components.
  rewrite classify_spec by done. simpl.
  rewrite (map_result_total _
             (fun e => if negb (existsb (reaches g e) routers)
                       then [unreachable_issue e] else [])).
  2:{ intros e (cfg & Hin & _)%in_ids_with_role. apply check_endpoint_spec.
      apply list_elem_of_fmap. by exists (e, cfg). }
  reflexivity.
Qed.

Lemma in_unreachable i :
  i ∈ unreachable <->
  exists e, e ∈ endpoints /\ ~ reaches_router topology_data e /\ i = unreachable_issue e.
Proof.
  unfold unreachable_issues. rewrite list_elem_of_In, in_concat. split.
  - intros (l & Hl & Hi). apply in_map_iff in Hl as (e & <- & He).
    apply list_elem_of_In in He.
    assert (Hkey : e ∈ keys devices).
    { apply in_ids_with_role in He as (cfg & Hin & _).
      apply list_elem_of_fmap. by exists (e, cfg). }
    destruct (existsb (reaches g e) routers) eqn:E; simpl in Hi; [done|].
    destruct Hi as [<-|[]]. exists e. split; [done|]. split; [|done].
    intros Hr. apply (existsb_reaches topology_data) in Hr; [|done].
    congruence.
  - intros (e & He & Hno & ->).
    assert (Hkey : e ∈ keys devices).
    { apply in_ids_with_role in He as (cfg & Hin & _).
      apply list_elem_of_fmap. by exists (e, cfg). }
    exists [unreachable_issue e]. split; [|by left].
    apply in_map_iff. exists e. split; [|by apply list_elem_of_In].
    destruct (existsb (reaches g e) routers) eqn:E; [|done].
    exfalso. apply Hno. by apply (existsb_reaches topology_data).
Qed.

Lemma reaches_router_dec e :
  e ∈ endpoints ->
  reaches_router topology_data e \/ ~ reaches_router topology_data e.
Proof.
  intros (cfg & Hin & _)%in_ids_with_role.
  assert (Hkey : e ∈ keys devices) by (apply list_elem_of_fmap; by exists (e, cfg)).
  destruct (existsb (reaches g e) routers) eqn:E.
  - left. by apply (existsb_reaches topology_data).
  - right. intros Hr. apply (existsb_reaches topology_data) in Hr; [|done]. congruence.
Qed.

Lemma in_dhcp i :
  i ∈ dhcp <->
  routers = [] /\ exists s, s ∈ link_subnets (td_links topology_data)
                            /\ i = {| severity := Warning; finding := NoDhcp s |}.
Proof.
  unfold dhcp_issues. rewrite list_elem_of_In, in_flat_map. split.
  - intros (s & Hs%list_elem_of_In%elem_of_elements & Hi).
    destruct routers; simpl in Hi; [|done]. destruct Hi as [<-|[]].
    split; [done|]. by exists s.
  - intros (Hr & s & Hs & ->). exists s.
    split; [by apply list_elem_of_In, elem_of_elements|]. rewrite Hr. by left.
Qed.

Lemma critical_missing :
  existsb is_critical (unreachable ++ dhcp) = true <-> unreachable ≠ [].
Proof.
  rewrite existsb_exists. split.
  - intros (i & Hi & Hc). apply list_elem_of_In, elem_of_app in Hi as [Hi|Hi].
    + intros E. rewrite E in Hi. by apply elem_of_nil in Hi.
    + apply in_dhcp in Hi as (_ & s & _ & ->). done.
  - intros Hne. destruct unreachable as [|i l] eqn:E; [done|].
    assert (Hi : i ∈ unreachable) by (rewrite E; left).
    apply in_unreachable in Hi as (e & _ & _ & ->).
    exists (unreachable_issue e). split; [by left | done].
Qed.

End Missing.

(** *** Redundancy *)

Lemma device_issue_Ok topology_data node i :
  device_issue topology_data node = Ok i <->
  exists cfg t, get node (td_devices topology_data) = Some cfg
                /\ device_type cfg = Some t
                /\ i = device_spof topology_data node.
Proof.
  unfold device_issue, device_spof, role_of.
  destruct (get node (td_devices topology_data)) as [cfg|]; simpl.
  - destruct (device_type cfg) as [t|] eqn:Et; simpl.
    + split; [intros [= <-]; by exists cfg, t | by intros (? & ? & _ & _ & ->)].
    + split; [done|]. intros (? & ? & [= <-] & ? & _). congruence.
  - split; [done | by intros (? & ? & ? & _)].
Qed.

Lemma check_redundancy_Ok topology_data r :
  check_redundancy topology_data = Ok r <->
  (forall v, v ∈ articulation_points (connectivity_graph topology_data) ->
     exists cfg t, get v (td_devices topology_data) = Some cfg
                   /\ device_type cfg = Some t)
  /\ r = let l := map (device_spof topology_data)
                      (articulation_points (connectivity_graph topology_data))
                  ++ map bridge_issue (bridges (connectivity_graph topology_data)) in
         {| status := status_of l;
            issues := l;
            suggestions :=
              ["Implement redundant paths and eliminate single points of failure"] |}.
Proof.
  unfold check_redundancy, check_redundancy_with.
  set (aps := articulation_points (connectivity_graph topology_data)).
  split.
  - destruct (map_result (device_issue topology_data) aps) as [l|] eqn:E; simpl; [|done].
    intros [= <-].
    assert (Hall : forall v, v ∈ aps ->
              exists cfg t, get v (td_devices topology_data) = Some cfg
                            /\ device_type cfg = Some t).
    { intros v Hv. destruct (map_result_elem_l _ _ _ _ E Hv) as (i & _ & Hi).
      apply device_issue_Ok in Hi as (cfg & t & ? & ? & _). by exists cfg, t. }
    split; [done|]. apply map_result_Ok in E.
    assert (l = map (device_spof topology_data) aps) as ->; [|done].
    clear Hall. induction E as [|v i aps' l' Hvi _ IH]; simpl; [done|].
    apply device_issue_Ok in Hvi as (_ & _ & _ & _ & ->). by rewrite IH.
  - intros [Hall ->]. rewrite (map_result_total _ (device_spof topology_data)); [done|].
    intros v Hv. destruct (Hall v Hv) as (cfg & t & ? & ?).
    apply device_issue_Ok. by exists cfg, t.
Qed.

End RuleFacts.

Section RuleProperties.
Import Nx DictFacts PyFacts GraphFacts GraphBuildFacts ConnectivityFacts.
Import MissingFacts RedundancyFacts RuleFacts.

(** X14. The status of the rule for missing components, when every
    device has a type: fail exactly when some end point reaches no router;
    warning exactly when there is neither an end point nor a router but
    some link carries a subnet tag; pass otherwise.  Without any router,
    every topology with an end point fails. *)
Theorem missing_components_status topology_data :
  typed_devices (td_devices topology_data) = true ->
  let endpoints := ids_with_role "endpoint" (td_devices topology_data) in
  let routers := ids_with_role "router" (td_devices topology_data) in
  exists r,
    check_missing_components topology_data = Ok r
    /\ (status r = StFail <->
        exists e, e ∈ endpoints /\ ~ reaches_router topology_data e)
    /\ (status r = StWarning <->
        endpoints = [] /\ routers = []
        /\ link_subnets (td_links topology_data) ≠ ∅)
    /\ (status r = StPass <->
        (forall e, e ∈ endpoints -> reaches_router topology_data e)
        /\ (routers = [] -> link_subnets (td_links topology_data) = ∅))
    /\ (routers = [] -> endpoints ≠ [] -> status r = StFail).
Proof.
  intros Htyped endpoints routers.
  rewrite check_missing_components_typed by done.
  eexists. split; [reflexivity|]. simpl.
  assert (Hfail : status_of (unreachable_issues topology_data ++ dhcp_issues topology_data)
                  = StFail <->
                  exists e, e ∈ endpoints /\ ~ reaches_router topology_data e).
  { rewrite status_of_fail, critical_missing. split.
    - intros Hne. destruct (unreachable_issues topology_data) as [|i l] eqn:E; [done|].
      assert (Hi : i ∈ unreachable_issues topology_data) by (rewrite E; left).
      apply in_unreachable in Hi as (e & He & Hno & _). by exists e.
    - intros (e & He & Hno) E.
      assert (Hi : unreachable_issue e ∈ unreachable_issues topology_data).
      { apply in_unreachable. by exists e. }
      rewrite E in Hi. by apply elem_of_nil in Hi. }
  assert (Hnone : forall e, e ∈ endpoints -> routers = [] ->
                            ~ reaches_router topology_data e).
  { intros e He Hr (r & cfg & Hin & Hrole & _).
    assert (r ∈ routers) by (apply in_ids_with_role; by exists cfg).
    rewrite Hr in H. by apply elem_of_nil in H. }
  assert (Hun : unreachable_issues topology_data = [] <->
                forall e, e ∈ endpoints -> reaches_router topology_data e).
  { split.
    - intros E e He. destruct (reaches_router_dec topology_data e He) as [|Hno]; [done|].
      assert (Hi : unreachable_issue e ∈ unreachable_issues topology_data).
      { apply in_unreachable. by exists e. }
      rewrite E in Hi. by apply elem_of_nil in Hi.
    - intros Hall. destruct (unreachable_issues topology_data) as [|i l] eqn:E; [done|].
      assert (Hi : i ∈ unreachable_issues topology_data) by (rewrite E; left).
      apply in_unreachable in Hi as (e & He & Hno & _). by destruct Hno; apply Hall. }
  assert (Hdhcp : dhcp_issues topology_data = [] <->
                  (routers = [] -> link_subnets (td_links topology_data) = ∅)).
  { split.
    - intros E Hr. apply set_eq. intros s.
      split; [|by intros ?%not_elem_of_empty].
      intros Hs.
      assert (Hi : {| severity := Warning; finding := NoDhcp s |}
                     ∈ dhcp_issues topology_data).
      { apply in_dhcp. split; [done|]. by exists s. }
      rewrite E in Hi. by apply elem_of_nil in Hi.
    - intros Himp. destruct (dhcp_issues topology_data) as [|i l] eqn:E; [done|].
      assert (Hi : i ∈ dhcp_issues topology_data) by (rewrite E; left).
      apply in_dhcp in Hi as (Hr & s & Hs & _). rewrite (Himp Hr) in Hs.
      by apply not_elem_of_empty in Hs. }
  split; [done|]. split; [|split].
  - rewrite status_of_warning. split.
    + intros [Hcrit Hne].
      assert (Hu : unreachable_issues topology_data = []).
      { destruct (unreachable_issues topology_data) eqn:E; [done|].
        assert (existsb is_critical (unreachable_issues topology_data
                                     ++ dhcp_issues topology_data) = true).
        { apply critical_missing. by rewrite E. }
        rewrite E in H. congruence. }
      rewrite Hu in Hne. simpl in Hne.
      destruct (dhcp_issues topology_data) as [|i l] eqn:E; [done|].
      assert (Hi : i ∈ dhcp_issues topology_data) by (rewrite E; left).
      apply in_dhcp in Hi as (Hr & s & Hs & _).
      split; [|split; [done|]];
        [|intros Hem; rewrite Hem in Hs; by apply not_elem_of_empty in Hs].
      destruct (empty_or_elem endpoints) as [|[e He]]; [done|]. exfalso.
      apply (Hnone e He Hr). by apply (proj1 Hun Hu).
    + intros (He & Hr & Hs).
      assert (Hu : unreachable_issues topology_data = []).
      { apply Hun. intros e Hin. rewrite He in Hin. by apply elem_of_nil in Hin. }
      rewrite Hu. simpl. split.
      * apply not_true_is_false. intros Hc.
        change (dhcp_issues topology_data)
          with ([] ++ dhcp_issues topology_data) in Hc.
        rewrite <- Hu in Hc. apply critical_missing in Hc. done.
      * intros E. apply Hs. by apply Hdhcp.
  - rewrite status_of_pass. split.
    + intros [Hu Hd]%app_eq_nil. split; [by apply Hun | by apply Hdhcp].
    + intros [Hall Hd]. apply Hun in Hall. apply Hdhcp in Hd. by rewrite Hall, Hd.
  - intros Hr He. apply Hfail.
    destruct (empty_or_elem endpoints) as [|[e Hin]]; [done|]. exists e.
    split; [done | by apply Hnone].
Qed.

(** X15. The redundancy rule returns exactly when every articulation
    point of the graph is a device that has a type; it then passes exactly
    when the graph has neither an articulation point nor a bridge, and
    fails exactly when some articulation point is a router. *)
Theorem redundancy_returns_and_status topology_data :
  let g := connectivity_graph topology_data in
  ((exists r, check_redundancy topology_data = Ok r) <->
   forall v, v ∈ articulation_points g ->
     exists cfg t, get v (td_devices topology_data) = Some cfg
                   /\ device_type cfg = Some t)
  /\ forall r, check_redundancy topology_data = Ok r ->
       (status r = StPass <-> articulation_points g = [] /\ bridges g = [])
       /\ (status r = StFail <->
           exists v, v ∈ articulation_points g
                     /\ role_of topology_data v = "router").
Proof.
  intros g. split.
  - split.
    + intros (r & Hr). by apply check_redundancy_Ok in Hr as [? _].
    + intros Hall. eexists. apply check_redundancy_Ok. by split.
  - intros r [_ ->]%check_redundancy_Ok. fold g. simpl. split.
    + rewrite status_of_pass. split.
      * intros [H1 H2]%app_eq_nil. split; by eapply map_eq_nil.
      * by intros [-> ->].
    + rewrite status_of_fail, existsb_app, orb_true_iff, !existsb_exists. split.
      * intros [(i & Hi & Hc)|(i & Hi & Hc)].
        -- apply in_map_iff in Hi as (v & <- & Hv). exists v.
           split; [by apply list_elem_of_In|].
           unfold is_critical, device_spof in Hc. simpl in Hc.
           destruct (String.eqb_spec (role_of topology_data v) "router"); done.
        -- apply in_map_iff in Hi as (e & <- & _). done.
      * intros (v & Hv & Hrole). left. exists (device_spof topology_data v).
        split; [apply in_map; by apply list_elem_of_In|].
        unfold is_critical, device_spof. simpl. by rewrite Hrole.
Qed.

End RuleProperties.

(** ** From the builder to the validator *)

Module PipelineFacts.
Import Nx DictFacts PyFacts GraphFacts GraphBuildFacts ConnectivityFacts.
Import MissingFacts RedundancyFacts RuleFacts BuildFacts.

Lemma typed_elem devices id cfg :
  typed_devices devices = true -> (id, cfg) ∈ devices ->
  exists t, device_type cfg = Some t.
Proof.
  unfold typed_devices. rewrite forallb_forall. intros H Hin%list_elem_of_In.
  specialize (H _ Hin). simpl in H. destruct (device_type cfg); [by eexists | done].
Qed.

Lemma get_key {V} (d : dict string V) k : k ∈ keys d -> exists v, get k d = Some v.
Proof.
  intros Hk. destruct (get k d) as [v|] eqn:E; [by eexists|].
  by apply get_None in E.
Qed.

Lemma redundancy_returns topology_data :
  typed_devices (td_devices topology_data) = true ->
  closed_links topology_data = true ->
  exists r, check_redundancy topology_data = Ok r.
Proof.
  intros Htyped Hclosed. eexists. apply check_redundancy_Ok. split; [|done].
  intros v [Hv _]%articulation_points_spec; [|apply connectivity_well_formed].
  apply connectivity_nodes in Hv; [|done].
  destruct (get_key _ _ Hv) as [cfg Hget].
  destruct (typed_elem _ _ _ Htyped (get_Some_elem _ _ _ Hget)) as [t Ht].
  by exists cfg, t.
Qed.

Section Loops.
Variable simple_cycles : Nx.DiGraph -> result (list (list string)).
Variable device_str : Device -> string.

Lemma loops_return topology_data :
  typed_devices (td_devices topology_data) = true ->
  exists r, check_network_loops simple_cycles device_str topology_data = Ok r.
Proof.
  intros Htyped. unfold check_network_loops, infrastructure_graph.
  destruct (for_each_returns (fun _ => True) add_infrastructure_node
              (td_devices topology_data) Nx.empty) as (g0 & -> & _); [|done|].
  { intros [id cfg] g Hin _. destruct (typed_elem _ _ _ Htyped Hin) as [t Ht].
    unfold add_infrastructure_node. simpl. rewrite Ht. simpl.
    destruct (is_router_or_switch t); by eexists. }
  simpl.
  destruct (map_result_returns (stp_issue device_str) (td_devices topology_data))
    as [stp ->]; [|by eexists].
  intros [id cfg] Hin. destruct (typed_elem _ _ _ Htyped Hin) as [t Ht].
  unfold stp_issue. simpl. rewrite Ht. simpl.
  destruct (String.eqb t "switch"); [|by eexists].
  destruct (negb _); by eexists.
Qed.
End Loops.

End PipelineFacts.

Section Pipeline.
Import Nx DictFacts PyFacts ConnectivityFacts MissingFacts RuleFacts.
Import Summary SummaryFacts BuiltFacts PipelineFacts.
Variable simple_cycles : Nx.DiGraph -> result (list (list string)).
Variable device_str : Device -> string.

(** X16. Whatever the builder returns and [export_to_json] accepts, the
    validator can work on: the exported devices all have a type and
    distinct ids, every exported link ends in exported devices, and on
    these data the rules for missing components, for redundancy and for
    loops return a result instead of raising. *)
Theorem exported_topologies_validate configs topo ex :
  build_topology_from_configs configs = Ok topo ->
  export_to_json topo = Ok ex ->
  topology_data ex = exported topo
  /\ typed_devices (td_devices (topology_data ex)) = true
  /\ unique_devices (td_devices (topology_data ex)) = true
  /\ closed_links (topology_data ex) = true
  /\ (exists r, check_missing_components (topology_data ex) = Ok r)
  /\ (exists r, check_redundancy (topology_data ex) = Ok r)
  /\ (exists r, check_network_loops simple_cycles device_str (topology_data ex) = Ok r).
Proof.
  intros Hbuild Hex. unfold export_to_json in Hex.
  destruct (typed_devices (devices topo)) eqn:Htyped;
    [|by rewrite summary_untyped in Hex].
  rewrite summary_typed in Hex by done. simpl in Hex. injection Hex as <-. simpl.
  destruct (build_closed _ _ Hbuild)
    as (self & groups & _ & _ & Hdev & (Hnd & _) & (_ & _ & _ & Hends & _) & _).
  assert (Hclosed : closed_links (exported topo) = true).
  { unfold closed_links. apply forallb_forall. intros kv Hkv%list_elem_of_In.
    destruct (Hends kv Hkv) as [H1 H2]. simpl.
    by rewrite (proj2 (contains_true _ _) H1), (proj2 (contains_true _ _) H2). }
  split; [done|]. split; [done|]. split.
  { apply bool_decide_eq_true_2. by rewrite Hdev. }
  split; [done|]. split; [|split].
  - eexists. by apply check_missing_components_typed.
  - by apply redundancy_returns.
  - by apply loops_return.
Qed.

End Pipeline.

(** ** The gateway rule *)

Module GatewayFacts.
Export Gateways.
Import Rules DictFacts GroupFacts PyFacts MissingFacts.

Lemma masked_interface_spec i :
  masked_interface i = true <->
  exists ip mask, if_ip_address i = Some ip /\ if_subnet_mask i = Some mask
                  /\ str_truthy (Some ip) && str_truthy (Some mask) = true.
Proof.
  unfold masked_interface.
  destruct (if_ip_address i) as [ip|], (if_subnet_mask i) as [mask|]; simpl.
  - split; [intros H; by exists ip, mask | by intros (? & ? & [= <-] & [= <-] & ?)].
  - rewrite andb_false_r. split; [done | by intros (? & ? & _ & ? & _)].
  - split; [done | by intros (? & ? & ? & _)].
  - split; [done | by intros (? & ? & ? & _)].
Qed.

Lemma record_gateway_spec id cfg i d :
  implb (masked_interface i)
        (present (device_type cfg)
         && implb (has_role "router" cfg) (present (if_name i))) = true ->
  record_gateway id cfg i d = Ok (group_by (gateway_entry id cfg i) d).
Proof.
  unfold record_gateway, gateway_entry, masked_interface, subnet_of.
  destruct (if_ip_address i) as [ip|]; [|done].
  destruct (if_subnet_mask i) as [mask|]; [|by rewrite andb_false_r].
  destruct (str_truthy (Some ip) && str_truthy (Some mask)); [|done].
  simpl. destruct (device_type cfg) as [t|] eqn:Et; [|done]. simpl.
  rewrite (has_role_eqb "router" cfg t Et).
  destruct (String.eqb t "router"); [|done].
  destruct (if_name i); [|done]. done.
Qed.

Lemma record_gateways_spec entry d :
  forallb (fun i =>
             implb (masked_interface i)
                   (present (device_type entry.2)
                    && implb (has_role "router" entry.2) (present (if_name i))))
          (interfaces_of entry.2) = true ->
  record_gateways entry d = Ok (group_by (device_gateways entry) d).
Proof.
  unfold record_gateways, device_gateways.
  revert d. induction (interfaces_of entry.2) as [|i l IH]; intros d; simpl; [done|].
  intros [Hi Hl]%andb_true_iff. rewrite record_gateway_spec by done. simpl.
  rewrite IH by done. by rewrite group_by_app.
Qed.

Lemma collect_gateways_spec devices :
  gateway_ready devices = true ->
  collect_gateways devices = Ok (group_by (gateway_entries devices) []).
Proof.
  unfold collect_gateways, gateway_entries, gateway_ready.
  generalize (@nil (string * list Gateway)).
  induction devices as [|entry devices IH]; intros d; simpl; [done|].
  intros [He Hl]%andb_true_iff. rewrite record_gateways_spec by done. simpl.
  rewrite IH by done. by rewrite group_by_app.
Qed.

Lemma contains_group_by {A} (s : string) (es : list (string * A)) :
  contains s (group_by es []) = true <-> members s es ≠ [].
Proof.
  unfold contains. rewrite get_group_by_nil. by destruct (members s es).
Qed.

Section Issues.
Variable topology_data : TopologyData.
Local Abbreviation gateways := (gateway_entries (td_devices topology_data)).
Local Abbreviation groups := (group_by gateways []).
Local Abbreviation missing :=
  (flat_map (missing_gateway groups) (td_links topology_data)).
Local Abbreviation multiple := (flat_map multiple_gateways groups).

Lemma in_missing issue :
  issue ∈ missing <->
  exists kv s, kv ∈ td_links topology_data /\ subnet kv.2 = Some s /\ s ≠ ""
               /\ members s gateways = [] /\ issue = NoGateway s kv.1.
Proof.
  rewrite list_elem_of_In, in_flat_map. unfold missing_gateway. split.
  - intros (kv & Hkv%list_elem_of_In & Hi).
    destruct (subnet kv.2) as [s|] eqn:Es; [|done]. simpl in Hi.
    destruct (String.eqb_spec s "") as [->|Hne]; [done|]. simpl in Hi.
    destruct (contains s groups) eqn:Ec; [done|]. destruct Hi as [<-|[]].
    exists kv, s. repeat (split; [done|]). split; [|done].
    destruct (members s gateways) eqn:Em; [done|].
    assert (contains s groups = true) by (apply contains_group_by; by rewrite Em).
    congruence.
  - intros (kv & s & Hkv & Es & Hne & Hm & ->). exists kv.
    split; [by apply list_elem_of_In|]. rewrite Es. simpl.
    destruct (String.eqb_spec s ""); [done|]. simpl.
    destruct (contains s groups) eqn:Ec; [|by left].
    apply contains_group_by in Ec. done.
Qed.

Lemma in_multiple issue :
  issue ∈ multiple <->
  exists s, (1 < length (members s gateways))%nat
            /\ issue = MultipleGateways s (members s gateways).
Proof.
  rewrite list_elem_of_In, in_flat_map. unfold multiple_gateways. split.
  - intros ([s l] & [-> Hne]%list_elem_of_In%elem_group_by & Hi). simpl in Hi.
    destruct (Nat.ltb_spec 1 (length (members s gateways))); [|done].
    destruct Hi as [<-|[]]. by exists s.
  - intros (s & Hlen & ->). exists (s, members s gateways). split.
    + apply list_elem_of_In, elem_group_by. split; [done|].
      intros E. rewrite E in Hlen. simpl in Hlen. lia.
    + simpl. apply Nat.ltb_lt in Hlen. rewrite Hlen. by left.
Qed.

Lemma gateway_critical_missing :
  existsb gateway_critical (missing ++ multiple) = true <-> missing ≠ [].
Proof.
  rewrite existsb_exists. split.
  - intros (i & Hi & Hc). apply list_elem_of_In, elem_of_app in Hi as [Hi|Hi].
    + intros E. rewrite E in Hi. by apply elem_of_nil in Hi.
    + apply in_multiple in Hi as (s & _ & ->). done.
  - intros Hne. destruct missing as [|i l] eqn:E; [done|].
    assert (Hi : i ∈ missing) by (rewrite E; left).
    apply in_missing in Hi as (kv & s & _ & _ & _ & _ & ->).
    exists (NoGateway s kv.1). split; [by left | done].
Qed.

Lemma missing_nonempty :
  missing ≠ [] <->
  exists kv s, kv ∈ td_links topology_data /\ subnet kv.2 = Some s
               /\ s ≠ "" /\ members s gateways = [].
Proof.
  split.
  - intros Hne. destruct missing as [|i l] eqn:E; [done|].
    assert (Hi : i ∈ missing) by (rewrite E; left).
    apply in_missing in Hi as (kv & s & ? & ? & ? & ? & _). by exists kv, s.
  - intros (kv & s & ? & ? & ? & ?) E.
    assert (Hi : NoGateway s kv.1 ∈ missing).
    { apply in_missing. by exists kv, s. }
    rewrite E in Hi. by apply elem_of_nil in Hi.
Qed.

Lemma multiple_empty :
  multiple = [] <-> forall s, (length (members s gateways) <= 1)%nat.
Proof.
  split.
  - intros E s.
    destruct (Nat.le_gt_cases (length (members s gateways)) 1) as [|Hlt]; [done|].
    assert (Hi : MultipleGateways s (members s gateways) ∈ multiple).
    { apply in_multiple. by exists s. }
    rewrite E in Hi. by apply elem_of_nil in Hi.
  - intros Hall. destruct multiple as [|i l] eqn:E; [done|].
    assert (Hi : i ∈ multiple) by (rewrite E; left).
    apply in_multiple in Hi as (s & Hlt & _). specialize (Hall s). lia.
Qed.

Lemma gateway_status_fail :
  gateway_status_of (missing ++ multiple) = StFail <-> missing ≠ [].
Proof.
  rewrite <- gateway_critical_missing. unfold gateway_status_of.
  by destruct (existsb _ _), (missing ++ multiple).
Qed.

Lemma gateway_status_pass :
  gateway_status_of (missing ++ multiple) = StPass
  <-> missing = [] /\ multiple = [].
Proof.
  unfold gateway_status_of. split.
  - destruct (existsb _ _); [done|].
    destruct (missing ++ multiple) eqn:E; [|done]. intros _. by apply app_eq_nil.
  - by intros [-> ->].
Qed.

Lemma check_gateway_configuration_ready :
  gateway_ready (td_devices topology_data) = true ->
  check_gateway_configuration topology_data
  = Ok {| rule_status :=
            if existsb gateway_critical (missing ++ multiple) then StFail
            else match missing ++ multiple with [] => StPass | _ :: _ => StWarning end;
          rule_issues := missing ++ multiple;
          rule_suggestions :=
            ["Verify default gateway configuration on all subnets"] |}.
Proof.
  intros Hr. unfold check_gateway_configuration.
  by rewrite collect_gateways_spec.
Qed.

End Issues.
End GatewayFacts.

Section GatewayRule.
Import Rules DictFacts GroupFacts PyFacts GatewayFacts RuleFacts.

(** X17. The gateway rule, when the fields it reads are there: it fails
    exactly when some link carries a subnet tag under which no interface
    of a router is filed, it passes exactly when there is no such link
    and no subnet has two gateways, and it reports every subnet with more
    than one gateway, listing them all, in one issue. *)
Theorem gateway_rule_status topology_data :
  gateway_ready (td_devices topology_data) = true ->
  let gateways := gateway_entries (td_devices topology_data) in
  exists r,
    check_gateway_configuration topology_data = Ok r
    /\ (rule_status r = StFail <->
        exists kv s, kv ∈ td_links topology_data /\ subnet kv.2 = Some s
                     /\ s ≠ "" /\ members s gateways = [])
    /\ (rule_status r = StPass <->
        (forall kv s, kv ∈ td_links topology_data -> subnet kv.2 = Some s ->
                      s ≠ "" -> members s gateways ≠ [])
        /\ forall s, (length (members s gateways) <= 1)%nat)
    /\ (forall s l, MultipleGateways s l ∈ rule_issues r <->
                    l = members s gateways /\ (1 < length l)%nat)
    /\ (forall s id, NoGateway s id ∈ rule_issues r <->
                     exists l, (id, l) ∈ td_links topology_data
                               /\ subnet l = Some s /\ s ≠ ""
                               /\ members s gateways = []).
Proof.
  intros Hready gateways. subst gateways.
  rewrite check_gateway_configuration_ready by done.
  eexists. split; [reflexivity|]. simpl.
  pose proof (gateway_status_fail topology_data) as Hfail.
  pose proof (gateway_status_pass topology_data) as Hpass.
  unfold gateway_status_of in Hfail, Hpass.
  split; [|split; [|split]].
  - by rewrite Hfail, missing_nonempty.
  - rewrite Hpass, multiple_empty. split.
    + intros [Hm Hall]. split; [|done]. intros kv s Hkv Hs Hne Hmem.
      apply (proj2 (missing_nonempty topology_data)); [|done]. by exists kv, s.
    + intros [Hno Hall]. split; [|done].
      destruct (flat_map _ (td_links topology_data)) as [|i l] eqn:E; [done|].
      exfalso. assert (Hne : i :: l ≠ []) by done. rewrite <- E in Hne.
      apply missing_nonempty in Hne as (kv & s & ? & ? & ? & ?). by eapply Hno.
  - intros s l. rewrite elem_of_app. split.
    + intros [Hi|Hi].
      * by apply in_missing in Hi as (? & ? & _ & _ & _ & _ & ?).
      * apply in_multiple in Hi as (s' & Hlt & [= -> ->]). done.
    + intros [-> Hlt]. right. apply in_multiple. by exists s.
  - intros s id. rewrite elem_of_app. split.
    + intros [Hi|Hi].
      * apply in_missing in Hi as ([id' l] & s' & ? & ? & ? & ? & [= -> ->]).
        by exists l.
      * by apply in_multiple in Hi as (? & _ & ?).
    + intros (l & ? & ? & ? & ?). left. apply in_missing. by exists (id, l), s.
Qed.

End GatewayRule.

(** ** The gateway rule on a built topology *)

Module BuiltGatewayFacts.
Import Rules DictFacts GroupFacts PyFacts TopologyFacts BuildFacts BuiltFacts.
Import ConnectivityFacts MissingFacts RedundancyFacts RuleFacts PipelineFacts.
Import GatewayFacts SubnetFacts.

(** The builder has computed the subnet of every interface with an
    address and a mask, and has read its name. *)
Lemma grouped_interfaces devs groups id cfg i :
  group_by_subnet devs = Ok groups ->
  (id, cfg) ∈ devs -> i ∈ interfaces_of cfg -> masked_interface i = true ->
  exists ip mask name s,
    if_ip_address i = Some ip /\ if_subnet_mask i = Some mask
    /\ if_name i = Some name /\ Topology._calculate_subnet ip mask = Ok s.
Proof.
  intros (es & Hes & _)%group_by_subnet_spec Hdev Hi Hm.
  unfold subnet_members in Hes.
  destruct (map_result device_members devs) as [l|] eqn:E; simpl in Hes; [|done].
  destruct (map_result_elem_l _ _ _ _ E Hdev) as (es1 & _ & Hmem).
  unfold device_members in Hmem. simpl in Hmem.
  destruct (map_result (subnet_member id) (interfaces_of cfg)) as [l'|] eqn:E';
    simpl in Hmem; [|done].
  destruct (map_result_elem_l _ _ _ _ E' Hi) as (es2 & _ & Hsub).
  apply masked_interface_spec in Hm as (ip & mask & Hip & Hmask & Htruthy).
  unfold subnet_member in Hsub. rewrite Hip, Hmask, Htruthy in Hsub.
  destruct (Topology._calculate_subnet ip mask) as [s|] eqn:Es; simpl in Hsub; [|done].
  destruct (if_name i) as [name|] eqn:En; simpl in Hsub; [|done].
  by exists ip, mask, name, s.
Qed.

Lemma calculate_subnet_truthy ip mask s :
  Topology._calculate_subnet ip mask = Ok s ->
  str_truthy (Some ip) && str_truthy (Some mask) = true.
Proof.
  intros (a & m & Ha & Hm & _)%calculate_subnet_Ok.
  destruct ip; [by vm_compute in Ha|]. destruct mask; [by vm_compute in Hm|]. done.
Qed.

Lemma built_gateway_ready devs groups :
  group_by_subnet devs = Ok groups -> typed_devices devs = true ->
  gateway_ready devs = true.
Proof.
  intros Hgroups Htyped. unfold gateway_ready.
  apply forallb_forall. intros [id cfg] Hdev%list_elem_of_In.
  apply forallb_forall. intros i Hi%list_elem_of_In. simpl.
  destruct (masked_interface i) eqn:Hm; [|done]. simpl.
  destruct (typed_elem _ _ _ Htyped Hdev) as [t ->]. simpl.
  destruct (grouped_interfaces _ _ _ _ _ Hgroups Hdev Hi Hm)
    as (? & ? & name & ? & _ & _ & -> & _).
  by destruct (has_role "router" cfg).
Qed.

Lemma role_of_router topology_data id cfg :
  NoDup (keys (td_devices topology_data)) ->
  (id, cfg) ∈ td_devices topology_data ->
  role_of topology_data id = "router" -> has_role "router" cfg = true.
Proof.
  intros Hnd Hin. unfold role_of. rewrite (elem_get _ _ _ Hnd Hin).
  intros Hrole. apply bool_decide_eq_true_2.
  destruct (device_type cfg); simpl in Hrole; by subst.
Qed.

(** The gateway that a member of a subnet stands for. *)
Lemma member_gateway devs s m :
  subnet_member_of devs s m ->
  (forall cfg, (device_id m, cfg) ∈ devs -> has_role "router" cfg = true) ->
  exists g, gw_device g = device_id m /\ g ∈ members s (gateway_entries devs).
Proof.
  intros (cfg & i & ip & mask & name & Hdev & Hi & Hip & Hmask & Hname & Hs & _) Hrole.
  exists {| gw_device := device_id m; gw_interface := name; gw_ip := ip |}.
  split; [done|]. unfold members. apply list_elem_of_fmap.
  exists (s, {| gw_device := device_id m; gw_interface := name; gw_ip := ip |}).
  split; [done|]. apply list_elem_of_In, filter_In. split.
  - unfold gateway_entries. apply in_flat_map. exists (device_id m, cfg).
    split; [by apply list_elem_of_In|]. unfold device_gateways.
    apply in_flat_map. exists i. split; [by apply list_elem_of_In|].
    unfold gateway_entry, masked_interface, subnet_of, Rules._calculate_subnet.
    simpl. rewrite Hip, Hmask, Hname. simpl. rewrite Hs.
    pose proof (calculate_subnet_truthy _ _ _ Hs) as Ht. simpl in Ht. rewrite Ht.
    rewrite (Hrole cfg Hdev). by left.
  - simpl. by apply bool_decide_eq_true_2.
Qed.

Lemma two_elements {A} (l : list A) x y :
  x ∈ l -> y ∈ l -> x ≠ y -> (1 < length l)%nat.
Proof.
  intros Hx Hy Hne. destruct l as [|a [|b l]]; simpl; [|exfalso|lia].
  - by apply elem_of_nil in Hx.
  - apply list_elem_of_singleton in Hx, Hy. congruence.
Qed.

End BuiltGatewayFacts.

Section BuiltGateways.
Import Rules DictFacts GroupFacts PyFacts TopologyFacts BuildFacts BuiltFacts.
Import ConnectivityFacts MissingFacts RedundancyFacts RuleFacts PipelineFacts.
Import GatewayFacts Summary SummaryFacts BuiltGatewayFacts.

(** X18. On a topology that was built and exported the gateway rule
    returns.  A link with a subnet tag that has a router at one end is not
    reported for a missing gateway; when it joins two different routers,
    both count as gateways of its subnet, the subnet is reported for
    multiple gateways, and the rule does not pass. *)
Theorem links_between_routers_are_flagged configs topo ex kv s :
  build_topology_from_configs configs = Ok topo ->
  export_to_json topo = Ok ex ->
  kv ∈ links topo -> subnet kv.2 = Some s ->
  let gateways := gateway_entries (devices topo) in
  exists r,
    check_gateway_configuration (topology_data ex) = Ok r
    /\ (role_of (topology_data ex) (end1 kv) = "router"
        \/ role_of (topology_data ex) (end2 kv) = "router" ->
        NoGateway s kv.1 ∉ rule_issues r)
    /\ (role_of (topology_data ex) (end1 kv) = "router" ->
        role_of (topology_data ex) (end2 kv) = "router" ->
        end1 kv ≠ end2 kv ->
        (1 < length (members s gateways))%nat
        /\ MultipleGateways s (members s gateways) ∈ rule_issues r
        /\ rule_status r ≠ StPass).
Proof.
  intros Hbuild Hex Hkv Htag gateways. subst gateways.
  unfold export_to_json in Hex.
  destruct (typed_devices (devices topo)) eqn:Htyped;
    [|by rewrite summary_untyped in Hex].
  rewrite summary_typed in Hex by done. simpl in Hex. injection Hex as <-. simpl.
  fold (exported topo).
  destruct (build_closed _ _ Hbuild)
    as (self & groups & _ & Hgroups & Hdev & (Hnd & _) & _ & Hplan).
  rewrite <- Hdev in Hgroups, Hnd.
  pose proof (built_gateway_ready _ _ Hgroups Htyped) as Hready.
  rewrite (check_gateway_configuration_ready (exported topo)) by done.
  eexists. split; [reflexivity|]. simpl.
  destruct (Hplan kv Hkv) as (c & Hc & ->); [by rewrite Htag|].
  destruct (plan_calls _ _ _ Hgroups Hc) as [H1 H2].
  simpl in Htag. injection Htag as <-.
  assert (Hg1 : role_of (exported topo) (device_id c.1.1) = "router" ->
                exists g, gw_device g = device_id c.1.1
                          /\ g ∈ members c.2 (gateway_entries (devices topo))).
  { intros Hr. apply member_gateway; [done|]. intros cfg Hin.
    by apply (role_of_router (exported topo) (device_id c.1.1)). }
  assert (Hg2 : role_of (exported topo) (device_id c.1.2) = "router" ->
                exists g, gw_device g = device_id c.1.2
                          /\ g ∈ members c.2 (gateway_entries (devices topo))).
  { intros Hr. apply member_gateway; [done|]. intros cfg Hin.
    by apply (role_of_router (exported topo) (device_id c.1.2)). }
  split.
  - intros Hrole Hin. apply elem_of_app in Hin as [Hin|Hin].
    + apply (in_missing (exported topo)) in Hin
        as (kv' & s' & _ & _ & _ & Hmem & [= <- _]). simpl in Hmem.
      destruct Hrole as [Hr|Hr].
      * destruct (Hg1 Hr) as (g & _ & Hg). rewrite Hmem in Hg.
        by apply elem_of_nil in Hg.
      * destruct (Hg2 Hr) as (g & _ & Hg). rewrite Hmem in Hg.
        by apply elem_of_nil in Hg.
    + by apply (in_multiple (exported topo)) in Hin as (? & _ & ?).
  - intros Hr1 Hr2 Hne. unfold end1, end2 in Hne. simpl in Hne.
    destruct (Hg1 Hr1) as (g1 & Hd1 & Hin1). destruct (Hg2 Hr2) as (g2 & Hd2 & Hin2).
    assert (Hlen : (1 < length (members c.2 (gateway_entries (devices topo))))%nat).
    { apply (two_elements _ g1 g2); [done|done|]. congruence. }
    assert (Hissue : MultipleGateways c.2 (members c.2 (gateway_entries (devices topo)))
                       ∈ flat_map multiple_gateways
                           (group_by (gateway_entries (devices topo)) [])).
    { apply (in_multiple (exported topo)). by exists c.2. }
    split; [done|]. split; [apply elem_of_app; by right|].
    intros Hpass. apply (gateway_status_pass (exported topo)) in Hpass as [_ Hmult].
    simpl in Hmult. rewrite Hmult in Hissue. by apply elem_of_nil in Hissue.
Qed.

End BuiltGateways.

(** ** The MTU rule *)

Module MtuFacts.
Export Mtus.
Import Rules DictFacts PyFacts GatewayFacts.

Lemma mtu_for_subnet interfaces s :
  _get_interface_mtu_for_subnet interfaces (Some s)
  = mtu_of <$> List.find (on_subnet s) interfaces.
Proof.
  induction interfaces as [|i l IH]; simpl; [done|].
  unfold on_subnet at 1, masked_interface, subnet_of.
  destruct (if_ip_address i) as [ip|]; simpl; [|done].
  destruct (if_subnet_mask i) as [mask|]; simpl; [|by rewrite andb_false_r].
  destruct (str_truthy (Some ip) && str_truthy (Some mask)) eqn:Et; simpl in *;
    rewrite Et; simpl; [|done].
  destruct (String.eqb_spec (_calculate_subnet ip mask) s) as [->|Hne].
  - by rewrite bool_decide_eq_true_2.
  - by rewrite bool_decide_eq_false_2 by congruence.
Qed.

Lemma mtu_for_no_subnet interfaces :
  _get_interface_mtu_for_subnet interfaces None = None.
Proof.
  induction interfaces as [|i l IH]; simpl; [done|].
  destruct (if_ip_address i); [|done]. destruct (if_subnet_mask i); [|done].
  by rewrite andb_false_r.
Qed.

Lemma mtu_issue_untagged topology_data kv :
  subnet kv.2 = None -> mtu_issue topology_data kv = [].
Proof. intros Hs. unfold mtu_issue. by rewrite Hs, !mtu_for_no_subnet. Qed.

Lemma mtu_issue_tagged topology_data kv s :
  subnet kv.2 = Some s ->
  mtu_issue topology_data kv =
  match first_on_subnet topology_data (device_id (device1 kv.2)) s,
        first_on_subnet topology_data (device_id (device2 kv.2)) s with
  | Some i1, Some i2 =>
      if negb (Z.eqb (mtu_of i1) 0) && negb (Z.eqb (mtu_of i2) 0)
         && negb (Z.eqb (mtu_of i1) (mtu_of i2))
      then [ {| mtu_link_id := kv.1;
                mtu_device1 := device_id (device1 kv.2);
                device1_mtu := mtu_of i1;
                mtu_device2 := device_id (device2 kv.2);
                device2_mtu := mtu_of i2 |} ]
      else []
  | _, _ => []
  end.
Proof.
  intros Hs. unfold mtu_issue, first_on_subnet. rewrite Hs, !mtu_for_subnet.
  destruct (List.find _ (_get_device_interfaces topology_data (device_id (device1 kv.2))))
    as [i1|]; simpl; [|done].
  destruct (List.find _ (_get_device_interfaces topology_data (device_id (device2 kv.2))))
    as [i2|]; simpl; [|by rewrite andb_false_r].
  destruct (Z.eqb_spec (mtu_of i1) (mtu_of i2)) as [->|Hne].
  - rewrite bool_decide_eq_true_2 by done. by rewrite !andb_false_r.
  - rewrite bool_decide_eq_false_2 by congruence. done.
Qed.

End MtuFacts.

Section MtuRule.
Import Rules DictFacts PyFacts GatewayFacts MtuFacts Connectivity.

(** X19. The MTU rule never reports a link without a subnet tag, nor a
    link from a device to itself.  It reports a link with the tag s
    exactly when both its devices are known and have an interface on s,
    and the MTUs of the first such interface of each (1500 when the
    interface has none) are not 0 and differ. *)
Theorem mtu_issues_are_about_tagged_links topology_data :
  (forall kv, subnet kv.2 = None -> mtu_issue topology_data kv = [])
  /\ (forall kv, end1 kv = end2 kv -> mtu_issue topology_data kv = [])
  /\ forall issue,
       issue ∈ rule_issues (check_mtu_mismatches topology_data) <->
       exists kv s i1 i2,
         kv ∈ td_links topology_data /\ subnet kv.2 = Some s
         /\ first_on_subnet topology_data (end1 kv) s = Some i1
         /\ first_on_subnet topology_data (end2 kv) s = Some i2
         /\ mtu_of i1 ≠ 0 /\ mtu_of i2 ≠ 0 /\ mtu_of i1 ≠ mtu_of i2
         /\ issue = {| mtu_link_id := kv.1;
                       mtu_device1 := end1 kv; device1_mtu := mtu_of i1;
                       mtu_device2 := end2 kv; device2_mtu := mtu_of i2 |}.
Proof.
  split; [apply mtu_issue_untagged|]. split.
  - intros kv Hends. destruct (subnet kv.2) as [s|] eqn:Hs;
      [|by apply mtu_issue_untagged].
    rewrite (mtu_issue_tagged _ _ s Hs). unfold end1, end2 in Hends. rewrite Hends.
    destruct (first_on_subnet _ _ _) as [i|]; [|done].
    by rewrite Z.eqb_refl, andb_false_r.
  - intros issue. simpl. rewrite list_elem_of_In, in_flat_map. split.
    + intros (kv & Hkv%list_elem_of_In & Hi).
      destruct (subnet kv.2) as [s|] eqn:Hs;
        [|by rewrite mtu_issue_untagged in Hi].
      rewrite (mtu_issue_tagged _ _ s Hs) in Hi.
      destruct (first_on_subnet _ (device_id (device1 kv.2)) s) as [i1|] eqn:E1; [|done].
      destruct (first_on_subnet _ (device_id (device2 kv.2)) s) as [i2|] eqn:E2; [|done].
      destruct (Z.eqb_spec (mtu_of i1) 0); [done|].
      destruct (Z.eqb_spec (mtu_of i2) 0); [done|].
      destruct (Z.eqb_spec (mtu_of i1) (mtu_of i2)); [done|].
      destruct Hi as [<-|[]]. by exists kv, s, i1, i2.
    + intros (kv & s & i1 & i2 & Hkv & Hs & E1 & E2 & H1 & H2 & Hne & ->).
      exists kv. split; [by apply list_elem_of_In|].
      rewrite (mtu_issue_tagged _ _ s Hs). unfold end1, end2 in E1, E2.
      rewrite E1, E2.
      destruct (Z.eqb_spec (mtu_of i1) 0); [done|].
      destruct (Z.eqb_spec (mtu_of i2) 0); [done|].
      destruct (Z.eqb_spec (mtu_of i1) (mtu_of i2)); [done|]. by left.
Qed.

End MtuRule.

Module BuiltMtuFacts.
Import Rules DictFacts PyFacts BuiltFacts GatewayFacts MtuFacts BuiltGatewayFacts.

Lemma find_some {A} (p : A -> bool) l x :
  x ∈ l -> p x = true -> exists y, List.find p l = Some y.
Proof.
  induction l as [|a l IH]; intros Hx Hp; [by apply elem_of_nil in Hx|]. simpl.
  destruct (p a) eqn:Ea; [by eexists|].
  apply elem_of_cons in Hx as [->|Hx]; [congruence | by apply IH].
Qed.

Lemma member_first_on_subnet topo s m :
  NoDup (keys (devices topo)) ->
  subnet_member_of (devices topo) s m ->
  exists i, first_on_subnet (exported topo) (device_id m) s = Some i.
Proof.
  intros Hnd (cfg & i & ip & mask & name & Hdev & Hi & Hip & Hmask & _ & Hs & _).
  unfold first_on_subnet, _get_device_interfaces. simpl.
  rewrite (elem_get _ _ _ Hnd Hdev). apply (find_some _ _ i); [done|].
  unfold on_subnet, masked_interface, subnet_of, Rules._calculate_subnet.
  rewrite Hip, Hmask. simpl. rewrite Hs, String.eqb_refl.
  pose proof (calculate_subnet_truthy _ _ _ Hs) as Ht. simpl in Ht. by rewrite Ht.
Qed.

End BuiltMtuFacts.

Section BuiltMtus.
Import Rules DictFacts PyFacts BuiltFacts GatewayFacts MtuFacts BuiltMtuFacts.
Import Connectivity.

(** X20. On a built topology the MTU rule compares the two ends of every
    link with a subnet tag: both devices have an interface on the subnet,
    and the link is reported exactly when the MTUs of the first such
    interfaces are not 0 and differ. *)
Theorem subnet_links_are_compared configs topo kv s :
  build_topology_from_configs configs = Ok topo ->
  kv ∈ links topo -> subnet kv.2 = Some s ->
  exists i1 i2,
    first_on_subnet (exported topo) (end1 kv) s = Some i1
    /\ first_on_subnet (exported topo) (end2 kv) s = Some i2
    /\ (mtu_issue (exported topo) kv ≠ [] <->
        mtu_of i1 ≠ 0 /\ mtu_of i2 ≠ 0 /\ mtu_of i1 ≠ mtu_of i2).
Proof.
  intros Hbuild Hkv Htag.
  destruct (build_closed _ _ Hbuild)
    as (self & groups & _ & Hgroups & Hdev & (Hnd & _) & _ & Hplan).
  rewrite <- Hdev in Hgroups, Hnd.
  destruct (Hplan kv Hkv) as (c & Hc & ->); [by rewrite Htag|].
  destruct (plan_calls _ _ _ Hgroups Hc) as [H1 H2].
  simpl in Htag. injection Htag as <-.
  destruct (member_first_on_subnet _ _ _ Hnd H1) as [i1 E1].
  destruct (member_first_on_subnet _ _ _ Hnd H2) as [i2 E2].
  exists i1, i2. split; [done|]. split; [done|].
  rewrite (mtu_issue_tagged (exported topo) (Builder.planned_link c) c.2)
    by reflexivity.
  change (device_id (device1 (Builder.planned_link c).2)) with (device_id c.1.1).
  change (device_id (device2 (Builder.planned_link c).2)) with (device_id c.1.2).
  rewrite E1, E2.
  destruct (Z.eqb_spec (mtu_of i1) 0), (Z.eqb_spec (mtu_of i2) 0),
    (Z.eqb_spec (mtu_of i1) (mtu_of i2)); simpl; split; try done; intros (? & ? & ?); done.
Qed.

End BuiltMtus.

(** ** The routing protocol rule *)

Module RoutingFacts.
Export Protocols.
Import Rules DictFacts PyFacts MissingFacts ConnectivityFacts PipelineFacts.
Import Summary SummaryFacts.

Lemma fold_count_protocol ps d :
  fold_left count_protocol ps d = fold_left count_name (map protocol_name ps) d.
Proof. revert d. induction ps as [|p ps IH]; intros d; simpl; [done|]. apply IH. Qed.

Lemma count_protocols_typed devices d :
  typed_devices devices = true ->
  for_each count_protocols devices d
  = Ok (fold_left count_name (router_protocol_names devices) d).
Proof.
  intros Htyped. revert d.
  induction devices as [|[id cfg] devices IH]; intros d; [done|].
  simpl in Htyped. apply andb_true_iff in Htyped as [Ht Htyped].
  change (for_each count_protocols ((id, cfg) :: devices) d)
    with (st' ← count_protocols (id, cfg) d; for_each count_protocols devices st').
  change (router_protocol_names ((id, cfg) :: devices))
    with ((if has_role "router" cfg
           then map protocol_name (default [] (routing_protocols cfg))
           else []) ++ router_protocol_names devices).
  rewrite fold_left_app. unfold count_protocols.
  change (id, cfg).2 with cfg.
  destruct (device_type cfg) as [t|] eqn:Et; [|done].
  rewrite (has_role_eqb "router" cfg t Et).
  change (require "device_type" (Some t)) with (Ok t).
  rewrite SubnetFacts.bind_Ok.
  destruct (String.eqb t "router"); rewrite SubnetFacts.bind_Ok, IH by done.
  - by rewrite fold_count_protocol.
  - done.
Qed.

Lemma occurrences_cons name n names :
  occurrences name (n :: names)
  = (if String.eqb name n then 1 else 0) + occurrences name names.
Proof.
  unfold occurrences. simpl. destruct (String.eqb name n); simpl; lia.
Qed.

Lemma fold_count_spec names d :
  NoDup (keys d) ->
  let d' := fold_left count_name names d in
  NoDup (keys d')
  /\ (forall n, uses d' n = uses d n + occurrences n names)
  /\ (forall n, n ∈ keys d' <-> n ∈ keys d \/ n ∈ names).
Proof.
  revert d. induction names as [|x names IH]; intros d Hnd; simpl.
  - split; [done|]. split.
    + intros n. unfold occurrences. simpl. lia.
    + intros n. split; [by left | intros [?|H]; [done | by apply elem_of_nil in H]].
  - destruct (IH (count_name d x)) as (Hnd' & Huses & Hkeys).
    { by apply NoDup_keys_set. }
    split; [done|]. split.
    + intros n. rewrite Huses, occurrences_cons. unfold uses, count_name.
      destruct (String.eqb_spec n x) as [->|Hne].
      * rewrite get_set_eq. simpl. lia.
      * rewrite get_set_ne by congruence. lia.
    + intros n. rewrite Hkeys. unfold count_name. rewrite keys_set.
      rewrite elem_of_cons. destruct (contains x d) eqn:Ec.
      * apply contains_true in Ec. split; [tauto|].
        intros [?|[->|?]]; tauto.
      * rewrite elem_of_app, list_elem_of_singleton. tauto.
Qed.

Lemma length_two (l : list string) :
  NoDup l -> (1 < length l)%nat <-> exists a b, a ∈ l /\ b ∈ l /\ a ≠ b.
Proof.
  intros Hnd. split.
  - destruct l as [|a [|b l]]; simpl; [lia|lia|]. intros _.
    exists a, b. split; [left|]. split; [right; left|].
    apply NoDup_cons in Hnd as [Ha _]. intros ->. apply Ha. left.
  - intros (a & b & Ha & Hb & Hne). destruct l as [|x [|y l]]; simpl; [|exfalso|lia].
    + by apply elem_of_nil in Ha.
    + apply list_elem_of_singleton in Ha, Hb. congruence.
Qed.

Lemma check_routing_typed topology_data :
  typed_devices (td_devices topology_data) = true ->
  let router_count := length (ids_with_role "router" (td_devices topology_data)) in
  let usage := fold_left count_name
                 (router_protocol_names (td_devices topology_data)) [] in
  let routing_issues :=
    (if (20 <? router_count)%nat && Z.ltb (uses usage "BGP") (uses usage "OSPF")
     then [LargeOspfNetwork router_count] else [])
    ++ (if (1 <? length usage)%nat then [MixedProtocols usage] else [])
    ++ (if (router_count =? 1)%nat then [SingleRouter] else []) in
  check_routing_protocol_optimization topology_data
  = Ok {| rule_status :=
            match routing_issues with [] => StPass | _ :: _ => StWarning end;
          rule_issues := routing_issues;
          rule_suggestions :=
            ["Optimize routing protocol selection based on network size and requirements"] |}.
Proof.
  intros Htyped. unfold check_routing_protocol_optimization.
  rewrite count_role_typed by done. simpl.
  rewrite count_protocols_typed by done. simpl.
  by rewrite <- length_ids_with_role.
Qed.

Lemma no_router_no_names devices :
  ids_with_role "router" devices = [] -> router_protocol_names devices = [].
Proof.
  unfold ids_with_role, router_protocol_names.
  induction devices as [|[id cfg] devices IH]; simpl; [done|].
  destruct (has_role "router" cfg); simpl; [done|]. apply IH.
Qed.

Lemma routing_issues_spec (b1 b2 b3 : bool) (n : nat) (usage : dict string Z) :
  let routing_issues :=
    (if b1 then [LargeOspfNetwork n] else [])
    ++ (if b2 then [MixedProtocols usage] else [])
    ++ (if b3 then [SingleRouter] else []) in
  (SingleRouter ∈ routing_issues <-> b3 = true)
  /\ ((exists u, MixedProtocols u ∈ routing_issues) <-> b2 = true)
  /\ (forall u, MixedProtocols u ∈ routing_issues -> u = usage)
  /\ (LargeOspfNetwork n ∈ routing_issues <-> b1 = true)
  /\ (match routing_issues with [] => StPass | _ :: _ => StWarning end = StPass
      <-> b1 = false /\ b2 = false /\ b3 = false).
Proof.
  destruct b1, b2, b3; cbn; (split; [|split; [|split; [|split]]]).
  all: try (split; intros H); try intros u H.
  all: try match goal with |- exists _, _ => exists usage end.
  all: repeat match goal with
         | H : exists _, _ |- _ => destruct H as [? H]
         | H : _ ∈ _ |- _ => apply list_elem_of_In in H; cbn in H
         | |- _ ∈ _ => apply list_elem_of_In; cbn
         end.
  all: intuition (try discriminate; try congruence).
Qed.

End RoutingFacts.

Section RoutingRule.
Import Rules DictFacts PyFacts MissingFacts ConnectivityFacts PipelineFacts.
Import Summary SummaryFacts RoutingFacts.

(** X21. The routing protocol rule raises [KeyError] when a device has no
    type.  Otherwise it counts, per name, the protocols of the routers (a
    protocol without a name counts as ['unknown']), and it passes exactly
    when the routers are not exactly one, all their protocols have the
    same name, and it is not the case that there are more than 20 routers
    with more OSPF than BGP; a topology without routers passes. *)
Theorem routing_rule_status topology_data :
  let names := router_protocol_names (td_devices topology_data) in
  let router_count := length (ids_with_role "router" (td_devices topology_data)) in
  if typed_devices (td_devices topology_data)
  then exists r,
         check_routing_protocol_optimization topology_data = Ok r
         /\ (SingleRouter ∈ rule_issues r <-> router_count = 1%nat)
         /\ ((exists usage, MixedProtocols usage ∈ rule_issues r)
             <-> exists a b, a ∈ names /\ b ∈ names /\ a ≠ b)
         /\ (forall usage name,
               MixedProtocols usage ∈ rule_issues r ->
               uses usage name = occurrences name names)
         /\ (LargeOspfNetwork router_count ∈ rule_issues r
             <-> (20 < router_count)%nat
                 /\ occurrences "BGP" names < occurrences "OSPF" names)
         /\ (rule_status r = StPass
             <-> router_count ≠ 1%nat
                 /\ (forall a b, a ∈ names -> b ∈ names -> a = b)
                 /\ ~ ((20 < router_count)%nat
                       /\ occurrences "BGP" names < occurrences "OSPF" names))
         /\ (router_count = 0%nat -> rule_status r = StPass)
  else check_routing_protocol_optimization topology_data
       = Raise (KeyError "device_type").
Proof.
  intros names router_count.
  destruct (typed_devices (td_devices topology_data)) eqn:Htyped.
  2:{ unfold check_routing_protocol_optimization.
      by rewrite count_role_untyped. }
  rewrite check_routing_typed by done. fold names router_count.
  destruct (fold_count_spec names [] (NoDup_nil_2)) as (Hnd & Huses & Hkeys).
  set (usage := fold_left count_name names []) in *.
  assert (Hu : forall n, uses usage n = occurrences n names).
  { intros n. rewrite Huses. unfold uses. simpl. lia. }
  assert (Hmixed : (1 <? length usage)%nat = true
                   <-> exists a b, a ∈ names /\ b ∈ names /\ a ≠ b).
  { rewrite Nat.ltb_lt.
    assert (length usage = length (keys usage)) as ->
      by (unfold keys; by rewrite length_map).
    rewrite (length_two _ Hnd). split; intros (a & b & Ha & Hb & Hne); exists a, b.
    - apply Hkeys in Ha as [Ha|Ha]; [by apply elem_of_nil in Ha|].
      apply Hkeys in Hb as [Hb|Hb]; [by apply elem_of_nil in Hb|]. done.
    - split; [apply Hkeys; by right|]. split; [apply Hkeys; by right | done]. }
  assert (Hlarge : (20 <? router_count)%nat
                   && Z.ltb (uses usage "BGP") (uses usage "OSPF") = true
                   <-> (20 < router_count)%nat
                       /\ occurrences "BGP" names < occurrences "OSPF" names).
  { by rewrite andb_true_iff, Nat.ltb_lt, Z.ltb_lt, !Hu. }
  destruct (routing_issues_spec
              ((20 <? router_count)%nat
               && Z.ltb (uses usage "BGP") (uses usage "OSPF"))
              (1 <? length usage)%nat (router_count =? 1)%nat
              router_count usage)
    as (Hsingle & Hmix & Hmixu & Hl & Hpass).
  eexists. split; [reflexivity|]. cbn [rule_issues rule_status].
  split; [by rewrite Hsingle, Nat.eqb_eq|].
  split; [by rewrite Hmix, Hmixed|].
  split; [intros u name Hin; apply Hmixu in Hin as ->; apply Hu|].
  split; [by rewrite Hl, Hlarge|].
  assert (Hsame : (1 <? length usage)%nat = false
                  <-> forall a b, a ∈ names -> b ∈ names -> a = b).
  { rewrite <- not_true_iff_false, Hmixed. split.
    - intros Hno a b Ha Hb. destruct (String.eqb_spec a b) as [|Hne]; [done|].
      exfalso. apply Hno. by exists a, b.
    - intros Hall (a & b & Ha & Hb & Hne). apply Hne. by apply Hall. }
  split.
  - rewrite Hpass, Hsame, <- not_true_iff_false, Hlarge, Nat.eqb_neq. tauto.
  - intros H0. apply Hpass. split; [|split].
    + apply not_true_iff_false. rewrite Hlarge. lia.
    + apply Hsame. intros a b Ha.
      unfold names in Ha. rewrite no_router_no_names in Ha.
      * by apply elem_of_nil in Ha.
      * by apply length_zero_iff_nil.
    + apply Nat.eqb_neq. lia.
Qed.

End RoutingRule.

(** ** What the report collects *)

Module AggregationFacts.
Export Aggregation.
Import DictFacts ValidatorFacts ScoreFacts RunFacts.

Lemma issues_with_app st d1 d2 :
  issues_with st (d1 ++ d2) = issues_with st d1 ++ issues_with st d2.
Proof. unfold issues_with. apply flat_map_app. Qed.

Lemma all_suggestions_app d1 d2 :
  all_suggestions (d1 ++ d2) = all_suggestions d1 ++ all_suggestions d2.
Proof. unfold all_suggestions. apply flat_map_app. Qed.

Section Lists.
Variable topology_data : TopologyData.
Variable traffic_analysis : option Traffic.

Lemma fold_run_lists rules vr :
  let vr' := fold_left (run_rule topology_data traffic_analysis) rules vr in
  let entries := map (entry_for topology_data traffic_analysis) rules in
  critical_issues vr' = critical_issues vr ++ issues_with StFail entries
  /\ warnings_list vr' = warnings_list vr ++ issues_with StWarning entries
  /\ optimization_suggestions vr'
     = optimization_suggestions vr ++ all_suggestions entries.
Proof.
  revert vr. induction rules as [|[name rule] rules IH]; intros vr.
  - cbn. by rewrite !app_nil_r.
  - cbn [fold_left map].
    destruct (IH (run_rule topology_data traffic_analysis vr (name, rule)))
      as (Hc & Hw & Hs).
    cbv zeta. rewrite Hc, Hw, Hs. clear Hc Hw Hs IH.
    unfold run_rule, entry_for. cbn [fst snd].
    change (issues_with ?st ((name, ?e) :: ?l))
      with (issues_of st e ++ issues_with st l).
    change (all_suggestions ((name, ?e) :: ?l))
      with (suggestions_of e ++ all_suggestions l).
    destruct (outcome topology_data traffic_analysis name rule) as [r|e]; cbn.
    + rewrite <- !app_assoc.
      destruct (status r); cbn; rewrite <- ?app_assoc; done.
    + done.
Qed.

Lemma run_validation_lists rules vr :
  run_validation rules topology_data traffic_analysis = Ok vr ->
  let entries := map (entry_for topology_data traffic_analysis) rules in
  critical_issues vr = issues_with StFail entries
  /\ warnings_list vr = issues_with StWarning entries
  /\ optimization_suggestions vr = all_suggestions entries.
Proof.
  unfold run_validation. intros Hrun.
  destruct (fold_run_lists rules (initial rules)) as (Hc & Hw & Hs).
  cbn [initial critical_issues warnings_list optimization_suggestions app] in *.
  set (vr0 := fold_left (run_rule topology_data traffic_analysis) rules
                        (initial rules)) in *.
  destruct (Z.ltb 0 (passed_checks vr0 + failed_checks vr0 + warnings vr0)).
  - destruct (score (passed_checks vr0) (warnings vr0)
                (passed_checks vr0 + failed_checks vr0 + warnings vr0));
      [|done].
    injection Hrun as <-. done.
  - injection Hrun as <-. done.
Qed.
End Lists.

Lemma count_status_total d :
  count_status StPass d + count_status StFail d + count_status StWarning d
  + count_status StError d = Z.of_nat (length d).
Proof.
  unfold count_status.
  induction d as [|[k e] d IH]; simpl; [lia|].
  destruct (entry_status e); simpl; lia.
Qed.

Lemma count_status_elem st k e d :
  (k, e) ∈ d -> entry_status e = st -> 1 <= count_status st d.
Proof.
  intros Hin Hst. apply list_elem_of_In in Hin.
  unfold count_status. induction d as [|[k' e'] d IH]; [done|].
  cbn [List.filter snd]. destruct Hin as [[= -> ->]|Hin].
  - rewrite bool_decide_eq_true_2 by done. cbn [length]. lia.
  - specialize (IH Hin). destruct (bool_decide _); cbn [length]; lia.
Qed.

Lemma extremes_table_ten : extremes_table 10 = true.
Proof. vm_compute. reflexivity. Qed.

Lemma score_extremes passed warned total :
  0 <= passed -> 0 <= warned -> passed + warned <= total -> 0 < total <= 10 ->
  let s := score_formula passed warned total in
  PrimFloat.eqb s (float_of_Z 100) = Z.eqb passed total
  /\ PrimFloat.eqb s (float_of_Z 0) = Z.eqb passed 0 && Z.eqb warned 0.
Proof.
  intros Hp Hw Hpw Ht.
  assert (Hin : forall z, 0 <= z <= 10 -> In (Z.to_nat z) (seq 0 11))
    by (intros z Hz; apply in_seq; lia).
  pose proof (proj1 (forallb_forall _ _) extremes_table_ten _ (Hin total ltac:(lia))) as H1.
  pose proof (proj1 (forallb_forall _ _) H1 _ (Hin passed ltac:(lia))) as H2.
  pose proof (proj1 (forallb_forall _ _) H2 _ (Hin warned ltac:(lia))) as H3.
  cbv beta zeta in H3. rewrite !Z2Nat.id in H3 by lia.
  destruct (Nat.leb_spec (Z.to_nat passed + Z.to_nat warned) (Z.to_nat total)); [|lia].
  destruct (Nat.ltb_spec 0 (Z.to_nat total)); [|lia].
  cbn [andb implb] in H3. apply andb_true_iff in H3 as [Ha Hb].
  apply eqb_prop in Ha, Hb. cbv zeta. rewrite Ha, Hb. split.
  - destruct (Nat.eqb_spec (Z.to_nat passed) (Z.to_nat total)),
      (Z.eqb_spec passed total); try done; lia.
  - destruct (Nat.eqb_spec (Z.to_nat passed) 0), (Z.eqb_spec passed 0),
      (Nat.eqb_spec (Z.to_nat warned) 0), (Z.eqb_spec warned 0); try done; lia.
Qed.

Lemma full_score total :
  0 < total <= 10 -> score_formula total 0 total = float_of_Z 100.
Proof.
  intros H.
  assert (total = 1 \/ total = 2 \/ total = 3 \/ total = 4 \/ total = 5
          \/ total = 6 \/ total = 7 \/ total = 8 \/ total = 9 \/ total = 10)
    as Hc by lia.
  repeat (destruct Hc as [->|Hc]; [vm_compute; reflexivity|]).
  subst. vm_compute. reflexivity.
Qed.

Lemma no_score total :
  0 < total <= 10 -> score_formula 0 0 total = float_of_Z 0.
Proof.
  intros H.
  assert (total = 1 \/ total = 2 \/ total = 3 \/ total = 4 \/ total = 5
          \/ total = 6 \/ total = 7 \/ total = 8 \/ total = 9 \/ total = 10)
    as Hc by lia.
  repeat (destruct Hc as [->|Hc]; [vm_compute; reflexivity|]).
  subst. vm_compute. reflexivity.
Qed.

(** The capacity rule *)



Lemma capacity_issue_Ok entry l :
  capacity_issue entry = Ok l -> l = link_issues entry.
Proof.
  unfold capacity_issue, link_issues. fold (percent_of entry.2).
  destruct (exceeds (percent_of entry.2) 90);
    [|destruct (exceeds (percent_of entry.2) 75)];
    destruct (format_fixed (percent_of entry.2)); cbn;
    unfold mret, result_ret; intros H; by inversion H.
Qed.

Lemma format_fixed_Raise n e :
  format_fixed n = Raise e ->
  e = OverflowError /\ exists i, n = Int i /\ float_limit <= Z.abs i.
Proof.
  destruct n as [i|f]; [|done]. cbn.
  destruct (Z.leb_spec float_limit (Z.abs i)); [|done].
  intros [= <-]. split; [done|]. by exists i.
Qed.

Lemma float_limit_pos : 90 < float_limit.
Proof. by vm_compute. Qed.

Lemma capacity_issue_Raise entry e :
  capacity_issue entry = Raise e ->
  e = OverflowError
  /\ exists i, percent_of entry.2 = Int i /\ float_limit <= i.
Proof.
  unfold capacity_issue. fold (percent_of entry.2). pose proof float_limit_pos.
  destruct (exceeds (percent_of entry.2) 90) eqn:E90;
    [|destruct (exceeds (percent_of entry.2) 75) eqn:E75; [|done]].
  - destruct (format_fixed (percent_of entry.2)) eqn:Ef; [done|].
    intros [= <-]. apply format_fixed_Raise in Ef as (-> & i & Hi & Habs).
    split; [done|]. exists i. split; [done|].
    rewrite Hi in E90. cbn in E90. apply Z.ltb_lt in E90. lia.
  - destruct (format_fixed (percent_of entry.2)) eqn:Ef; [done|].
    intros [= <-]. apply format_fixed_Raise in Ef as (-> & i & Hi & Habs).
    split; [done|]. exists i. split; [done|].
    rewrite Hi in E75. cbn in E75. apply Z.ltb_lt in E75. lia.
Qed.

Lemma capacity_issue_returns entry :
  (forall i, percent_of entry.2 = Int i -> i < float_limit) ->
  capacity_issue entry = Ok (link_issues entry).
Proof.
  intros Hsmall. destruct (capacity_issue entry) as [l|e] eqn:E.
  - by rewrite (capacity_issue_Ok _ _ E).
  - apply capacity_issue_Raise in E as (_ & i & Hi & Hbig).
    specialize (Hsmall i Hi). lia.
Qed.








End AggregationFacts.

Section ValidationReport.
Import DictFacts ValidatorFacts ScoreFacts RunFacts AggregationFacts.

Variable simple_cycles : Nx.DiGraph -> result (list (list string)).
Variable device_str : Device -> string.
Variable check_vlan_consistency : TopologyData -> result RuleResult.
Variable check_gateway_configuration : TopologyData -> result RuleResult.
Variable check_mtu_mismatches : TopologyData -> result RuleResult.
Variable check_routing_protocol_optimization : TopologyData -> result RuleResult.
Variable check_security_zones : TopologyData -> result RuleResult.

Abbreviation registered_rules :=
  (validation_rules simple_cycles device_str check_vlan_consistency
     check_gateway_configuration check_mtu_mismatches
     check_routing_protocol_optimization check_security_zones).

Abbreviation validate_all :=
  (validate_network_configuration simple_cycles device_str
     check_vlan_consistency check_gateway_configuration check_mtu_mismatches
     check_routing_protocol_optimization check_security_zones).

Abbreviation rules_distinct :=
  (validation_rules_distinct simple_cycles device_str check_vlan_consistency
     check_gateway_configuration check_mtu_mismatches
     check_routing_protocol_optimization check_security_zones).

(** X22. In the report of every run, the critical issues are the issues
    of the rules that failed, the warnings list holds the issues of the
    rules that ended with a warning, and the suggestions are those of all
    rules that returned, each in the order of the entries of the report;
    the issues of a rule that passed are in neither list.  Every one of
    the ten rules is counted once: as passed, failed, warning, or error. *)
Theorem report_lists_follow_entries topology_data traffic_analysis :
  exists vr,
    validate_all topology_data traffic_analysis = Ok vr
    /\ critical_issues vr = issues_with StFail (detailed_results vr)
    /\ warnings_list vr = issues_with StWarning (detailed_results vr)
    /\ optimization_suggestions vr = all_suggestions (detailed_results vr)
    /\ total_checks vr = 10%nat
    /\ passed_checks vr + failed_checks vr + warnings vr
       + count_status StError (detailed_results vr) = 10.
Proof.
  destruct (run_validation_spec registered_rules topology_data traffic_analysis
              rules_distinct)
    as (vr & Hrun & Hd & Hp & Hf & Hw & Ht & _).
  destruct (run_validation_lists topology_data traffic_analysis
              registered_rules vr Hrun) as (Hc & Hwl & Hs).
  exists vr. split; [exact Hrun|].
  rewrite Hd, Hc, Hwl, Hs, Hp, Hf, Hw, Ht, count_status_total.
  repeat split; reflexivity.
Qed.

(** X23. The capacity rule is evaluated only in a run with a traffic
    summary: without one the engine calls it with one argument, so that its
    entry is the error record of a [TypeError] and at most nine rules
    count for the score; with one the entry is what the rule does on the
    topology and the summary: its result, or the error record of the
    exception that it raises. *)
Theorem capacity_rule_needs_traffic topology_data traffic_analysis :
  exists vr,
    validate_all topology_data traffic_analysis = Ok vr
    /\ match traffic_analysis with
       | None =>
           get "capacity_validation" (detailed_results vr)
           = Some (Errored TypeError)
           /\ passed_checks vr + failed_checks vr + warnings vr <= 9
       | Some traffic =>
           get "capacity_validation" (detailed_results vr)
           = Some (entry_of (check_capacity_adequacy topology_data
                               (Some traffic)))
       end.
Proof.
  destruct (run_validation_spec registered_rules topology_data traffic_analysis
              rules_distinct)
    as (vr & Hrun & Hd & Hp & Hf & Hw & Ht & _).
  exists vr. split; [exact Hrun|].
  assert (Hget : get "capacity_validation" (detailed_results vr)
                 = Some (entry_of (outcome topology_data traffic_analysis
                                     "capacity_validation"
                                     (Binary check_capacity_adequacy)))).
  { rewrite Hd. apply elem_get.
    - unfold keys. rewrite map_map. apply rules_distinct.
    - apply list_elem_of_fmap.
      exists ("capacity_validation", Binary check_capacity_adequacy).
      split; [reflexivity|]. apply list_elem_of_In. cbn. tauto. }
  assert (Hin : ("capacity_validation",
                 entry_of (outcome topology_data traffic_analysis
                             "capacity_validation"
                             (Binary check_capacity_adequacy)))
                ∈ detailed_results vr).
  { rewrite Hd. apply list_elem_of_fmap.
    exists ("capacity_validation", Binary check_capacity_adequacy).
    split; [reflexivity|]. apply list_elem_of_In. cbn. tauto. }
  destruct traffic_analysis as [traffic|].
  - exact Hget.
  - split; [exact Hget|].
    pose proof (count_status_total (detailed_results vr)) as Htot.
    pose proof (count_status_elem StError _ _ _ Hin eq_refl) as Herr.
    assert (Hlen : length (detailed_results vr) = 10%nat)
      by (rewrite Hd, length_map; reflexivity).
    rewrite Hlen in Htot. rewrite Hp, Hf, Hw, <- Hd. lia.
Qed.

(** X24. When a run has evaluated at least one rule, its score is 100.0
    exactly when no rule failed and none ended with a warning, and it is
    0.0 exactly when no rule passed and none ended with a warning. *)
Theorem score_extremes_of_a_run topology_data traffic_analysis :
  exists vr,
    validate_all topology_data traffic_analysis = Ok vr
    /\ (0 < evaluated (detailed_results vr) ->
        (overall_score vr = Float 100%float
         <-> count_status StFail (detailed_results vr) = 0
             /\ count_status StWarning (detailed_results vr) = 0)
        /\ (overall_score vr = Float 0%float
            <-> count_status StPass (detailed_results vr) = 0
                /\ count_status StWarning (detailed_results vr) = 0)).
Proof.
  destruct (run_validation_spec registered_rules topology_data traffic_analysis
              rules_distinct)
    as (vr & Hrun & Hd & Hp & Hf & Hw & Ht & Hs).
  exists vr. split; [exact Hrun|]. rewrite Hd. unfold evaluated.
  rewrite <- Hp, <- Hf, <- Hw. intros Hpos.
  pose proof (count_status_bound (map (entry_for topology_data traffic_analysis)
                                      registered_rules)) as Hb.
  rewrite length_map in Hb.
  change (length registered_rules) with 10%nat in Hb.
  pose proof (count_status_nonneg StPass
                (map (entry_for topology_data traffic_analysis) registered_rules)).
  pose proof (count_status_nonneg StFail
                (map (entry_for topology_data traffic_analysis) registered_rules)).
  pose proof (count_status_nonneg StWarning
                (map (entry_for topology_data traffic_analysis) registered_rules)).
  unfold evaluated in Hs, Hb. rewrite <- Hp, <- Hf, <- Hw in *.
  destruct (Z.ltb_spec 0 (passed_checks vr + failed_checks vr + warnings vr));
    [|lia].
  rewrite Hs.
  destruct (score_extremes (passed_checks vr) (warnings vr)
              (passed_checks vr + failed_checks vr + warnings vr))
    as [H100 Hzero]; [lia..|].
  cbv zeta in H100, Hzero. split; split.
  - intros [= Heq]. rewrite Heq in H100.
    change (PrimFloat.eqb 100 (float_of_Z 100)) with true in H100.
    symmetry in H100. apply Z.eqb_eq in H100. lia.
  - intros [Hf0 Hw0]. rewrite Hf0, Hw0, !Z.add_0_r.
    f_equal. apply full_score. lia.
  - intros [= Heq]. rewrite Heq in Hzero.
    change (PrimFloat.eqb 0 (float_of_Z 0)) with true in Hzero.
    symmetry in Hzero. apply andb_true_iff in Hzero as [Ha Hb0].
    apply Z.eqb_eq in Ha, Hb0. done.
  - intros [Hp0 Hw0]. rewrite Hp0, Hw0. f_equal. apply no_score. lia.
Qed.

End ValidationReport.

Section CapacityRule.
Import AggregationFacts.


End CapacityRule.

(** ** The rules for security zones and VLAN names *)

Module VlanFacts.
Export Vlans.
Import Rules DictFacts PyFacts.

Lemma used_vlans_spec devices v : v ∈ used_vlans devices <-> tagged devices v.
Proof.
  unfold used_vlans, tagged. rewrite list_elem_of_In, in_flat_map. split.
  - intros ([id cfg] & Hin & Hv). cbn [snd] in Hv.
    apply filter_In in Hv as [Hv Ht]. apply in_map_iff in Hv as (i & <- & Hi).
    split; [done|]. exists id, cfg, i.
    split; [by apply list_elem_of_In|]. split; [by apply list_elem_of_In | done].
  - intros (Ht & id & cfg & i & Hin & Hi & <-). exists (id, cfg).
    split; [by apply list_elem_of_In|]. cbn [snd]. apply filter_In.
    split; [|done]. apply in_map. by apply list_elem_of_In.
Qed.

Lemma default_vlan_devices_spec devices id :
  id ∈ default_vlan_devices devices <-> on_default_vlan devices id.
Proof.
  unfold default_vlan_devices, on_default_vlan.
  rewrite list_elem_of_In, in_flat_map. split.
  - intros ([id' cfg] & Hin & Hid). cbn [fst snd] in Hid.
    apply in_flat_map in Hid as (i & Hi & Hid).
    destruct (bool_decide (vlan_tag i = VInt 1)) eqn:E; [|done].
    apply bool_decide_eq_true_1 in E. destruct Hid as [<-|[]].
    exists cfg, i. split; [by apply list_elem_of_In|].
    split; [by apply list_elem_of_In | done].
  - intros (cfg & i & Hin & Hi & Ht). exists (id, cfg).
    split; [by apply list_elem_of_In|]. cbn [fst snd]. apply in_flat_map.
    exists i. split; [by apply list_elem_of_In|].
    rewrite bool_decide_eq_true_2 by done. by left.
Qed.

Lemma three_distinct {A} (l : list A) :
  NoDup l ->
  (3 <= length l)%nat
  <-> exists a b c, a ≠ b /\ a ≠ c /\ b ≠ c /\ a ∈ l /\ b ∈ l /\ c ∈ l.
Proof.
  intros Hnd. split.
  - destruct l as [|a [|b [|c l]]]; cbn [length]; [lia..|]. intros _.
    apply NoDup_cons in Hnd as [Ha Hnd]. apply NoDup_cons in Hnd as [Hb _].
    exists a, b, c. rewrite !not_elem_of_cons in Ha.
    rewrite not_elem_of_cons in Hb.
    split; [tauto|]. split; [tauto|]. split; [tauto|].
    split; [left|]. split; [right; left | right; right; left].
  - intros (a & b & c & Hab & Hac & Hbc & Ha & Hb & Hc).
    destruct l as [|x [|y [|z l]]]; cbn [length]; [..|lia].
    + by apply elem_of_nil in Ha.
    + apply list_elem_of_singleton in Ha, Hb. congruence.
    + rewrite !elem_of_cons, elem_of_nil in Ha, Hb, Hc.
      destruct Ha as [->|[->|[]]], Hb as [->|[->|[]]], Hc as [->|[->|[]]];
        congruence.
Qed.

Lemma vlan_count_three devices :
  (3 <= size (list_to_set (used_vlans devices) : gset value))%nat
  <-> exists a b c, a ≠ b /\ a ≠ c /\ b ≠ c
                    /\ tagged devices a /\ tagged devices b /\ tagged devices c.
Proof.
  unfold size, set_size. cbn.
  rewrite (three_distinct _ (NoDup_elements _)).
  split; intros (a & b & c & Hab & Hac & Hbc & Ha & Hb & Hc); exists a, b, c.
  - rewrite !elem_of_elements, !elem_of_list_to_set, !used_vlans_spec in Ha, Hb, Hc.
    done.
  - rewrite !elem_of_elements, !elem_of_list_to_set, !used_vlans_spec. done.
Qed.

Lemma security_issues_spec (b : bool) (n m : nat) (ds : list string) :
  let security_issues :=
    (if b then [FewVlans n m] else [])
    ++ (match ds with [] => [] | _ :: _ => [DefaultVlanInUse ds] end) in
  let st := match security_issues with [] => StPass | _ :: _ => StWarning end in
  (forall ds', DefaultVlanInUse ds' ∈ security_issues -> ds' = ds /\ ds ≠ [])
  /\ (ds ≠ [] -> DefaultVlanInUse ds ∈ security_issues)
  /\ (st = StPass <-> b = false /\ ds = [])
  /\ st ≠ StFail.
Proof.
  destruct b, ds as [|d ds]; cbn; (split; [|split; [|split]]).
  all: try (intros ds' H; apply list_elem_of_In in H; cbn in H).
  all: try (intros H; try apply list_elem_of_In; cbn).
  all: intuition (try discriminate; try congruence).
Qed.

End VlanFacts.

Section SecurityRule.
Import Rules VlanFacts.

(** X26. The security rule always returns, also for records without a
    type, and never fails.  It passes exactly when no interface is on
    VLAN 1 and the topology has at most ten devices or at least three
    different true VLAN tags on its interfaces; the issue about VLAN 1
    names exactly the devices with an interface on it. *)
Theorem security_rule_status topology_data :
  let devices := td_devices topology_data in
  exists r,
    check_security_zones topology_data = Ok r
    /\ rule_status r ≠ StFail
    /\ (forall ds id, DefaultVlanInUse ds ∈ rule_issues r ->
                      id ∈ ds <-> on_default_vlan devices id)
    /\ ((exists ds, DefaultVlanInUse ds ∈ rule_issues r)
        <-> exists id, on_default_vlan devices id)
    /\ (rule_status r = StPass
        <-> (forall id, ~ on_default_vlan devices id)
            /\ ((length devices <= 10)%nat
                \/ exists a b c, a ≠ b /\ a ≠ c /\ b ≠ c
                     /\ tagged devices a /\ tagged devices b
                     /\ tagged devices c)).
Proof.
  intros devices. eexists. split; [reflexivity|].
  cbn [rule_status rule_issues]. fold devices.
  rewrite <- vlan_count_three.
  set (vlan_count := size (list_to_set (used_vlans devices) : gset value)).
  pose proof (default_vlan_devices_spec devices) as Hdef.
  destruct (security_issues_spec
              ((10 <? length devices)%nat && (vlan_count <? 3)%nat)
              (length devices) vlan_count (default_vlan_devices devices))
    as (Hin & Hex & Hpass & Hfail).
  cbv zeta in Hin, Hex, Hpass, Hfail.
  split; [exact Hfail|]. split; [|split].
  - intros ds id Hds. apply Hin in Hds as [-> _]. apply Hdef.
  - split.
    + intros [ds Hds]. apply Hin in Hds as [-> Hne].
      destruct (default_vlan_devices devices) as [|d ds] eqn:E; [done|].
      exists d. apply Hdef. left.
    + intros [id Hid]. apply Hdef in Hid. eexists. apply Hex.
      intros E. rewrite E in Hid. by apply elem_of_nil in Hid.
  - rewrite Hpass, andb_false_iff, Nat.ltb_ge, Nat.ltb_ge. split.
    + intros [Hb E]. split; [|exact Hb].
      intros id Hid. apply Hdef in Hid. rewrite E in Hid.
      by apply elem_of_nil in Hid.
    + intros [Hno Hb]. split; [exact Hb|].
      destruct (default_vlan_devices devices) as [|d ds] eqn:E; [done|].
      exfalso. apply (Hno d). apply Hdef. left.
Qed.

End SecurityRule.

Module VlanNameFacts.
Import Rules DictFacts PyFacts VlanFacts SubnetFacts.


















End VlanNameFacts.

Section VlanRule.
Import Rules DictFacts PyFacts VlanFacts VlanNameFacts SubnetFacts.


End VlanRule.

(** * Concrete runs *)

Section Witnesses.
Import Nx Grouping Builder Numerals Records Conflicts Graphs Connectivity.
Import Missing Redundancy Report Examples.

(** Six passed, two warnings and two failed rules: the score is 70.0. *)
Lemma C1_witness :
  exists vr,
    validate_network_configuration Nx.simple_cycles no_text
      (always StPass) (always StWarning) (always StWarning)
      (always StFail) (always StFail)
      lone_router (Some {| link_utilization := None |}) = Ok vr
    /\ count_status StPass (detailed_results vr) = 6
    /\ count_status StWarning (detailed_results vr) = 2
    /\ count_status StFail (detailed_results vr) = 2
    /\ overall_score vr = Float 70%float.
Proof.
  destruct (C1_overall_score Nx.simple_cycles no_text
              (always StPass) (always StWarning) (always StWarning)
              (always StFail) (always StFail)
              lone_router (Some {| link_utilization := None |}))
    as (vr & Hrun & _ & Hscore).
  exists vr. split; [exact Hrun|].
  vm_compute in Hrun. injection Hrun as <-.
  split; [reflexivity|]. split; [reflexivity|]. split; [reflexivity|].
  apply Hscore; reflexivity.
Defined.

(** Every rule raises: the report still has ten entries, all in error. *)
Lemma C4_witness :
  exists vr,
    validate_network_configuration Nx.simple_cycles no_text
      raising raising raising raising raising broken_chain None = Ok vr
    /\ map (fun kv : string * Entry => entry_status kv.2) (detailed_results vr)
       = repeat StError 10
    /\ get "redundancy_analysis" (detailed_results vr)
       = Some (Errored (KeyError "device_type")).
Proof.
  destruct (C4_rule_errors_are_isolated Nx.simple_cycles no_text
              raising raising raising raising raising broken_chain None)
    as (vr & Hrun & Hkeys & Hentry).
  exists vr. split; [exact Hrun|]. split.
  - vm_compute in Hrun. injection Hrun as <-. reflexivity.
  - specialize (Hentry "redundancy_analysis" (Unary check_redundancy)).
    refine (proj1 (Hentry _)). unfold validation_rules.
    do 8 apply list_elem_of_further. apply list_elem_of_here.
Defined.

(** Every rule raises: the score stays at the initial 0. *)
Lemma C10_witness :
  exists vr,
    validate_network_configuration Nx.simple_cycles no_text
      raising raising raising raising raising broken_chain None = Ok vr
    /\ in_percent_range (overall_score vr) = true
    /\ overall_score vr = Int 0.
Proof.
  destruct (C10_score_range Nx.simple_cycles no_text
              raising raising raising raising raising broken_chain None)
    as (vr & Hrun & Hrange & Hzero).
  exists vr. split; [exact Hrun|]. split; [exact Hrange|].
  apply Hzero. vm_compute in Hrun. injection Hrun as <-. reflexivity.
Defined.



(** A switch S1 and the routers R1 and Q1, as parsed: the naming rule
    selects both routers, neither is linked to the switch, and only R1 is
    attached, as the switch is then the first end of a link. *)
Lemma C3_counterexample :
  ~ (forall configs topo switch other,
       build_topology_from_configs configs = Ok topo ->
       switch ∈ devices topo -> has_role "switch" switch.2 = true ->
       other ∈ devices topo -> other.1 ≠ switch.1 ->
       wanted switch other = true ->
       joined switch.1 other.1 (links topo) = true).
Proof.
  intros Hall.
  destruct (build_topology_from_configs one_switch_two_routers) as [topo|] eqn:Hbuild;
    [|vm_compute in Hbuild; discriminate].
  enough (Hjoined : joined "S1" "Q1" (links topo) = true).
  { vm_compute in Hbuild. injection Hbuild as <-.
    vm_compute in Hjoined. discriminate. }
  apply (Hall one_switch_two_routers topo
           ("S1", device "switch" "S1" [] [])
           ("Q1", device "router" "Q1" [] []) Hbuild).
  - vm_compute in Hbuild. injection Hbuild as <-. apply list_elem_of_here.
  - reflexivity.
  - vm_compute in Hbuild. injection Hbuild as <-.
    do 2 apply list_elem_of_further. apply list_elem_of_here.
  - discriminate.
  - vm_compute. reflexivity.
Defined.


(** The chain A - B - C with the enumerations of module [Nx]: B, then
    the links A - B and B - C, and a warning as the status. *)
Lemma C6_witness :
  exists r,
    check_redundancy chain = Ok r
    /\ issues r = [ {| severity := Warning; finding := DeviceSpof "B" "switch" |};
                    bridge_issue ("A", "B"); bridge_issue ("B", "C") ]
    /\ cut_vertex (connectivity_graph chain) "B"
    /\ bridge_edge (connectivity_graph chain) ("A", "B")
    /\ bridge_edge (connectivity_graph chain) ("B", "C")
    /\ status r = StWarning.
Proof.
  destruct (C6_redundancy Nx.articulation_points Nx.bridges chain
              RedundancyRuleFacts.Nx_lists_cut_vertices
              RedundancyRuleFacts.Nx_lists_bridges eq_refl eq_refl)
    as ((r & Hrun & Hissues & _ & Hdev & Hbridge & _) & _).
  exists r. split; [exact Hrun|].
  split; [rewrite Hissues; reflexivity|].
  split; [|split; [|split]].
  - refine (proj2 (proj1 (Hdev "B") _)). rewrite Hissues. apply list_elem_of_here.
  - refine (proj2 (proj1 (Hbridge "A" "B") (or_introl _))). rewrite Hissues.
    apply list_elem_of_further, list_elem_of_here.
  - refine (proj2 (proj1 (Hbridge "B" "C") (or_introl _))). rewrite Hissues.
    do 2 apply list_elem_of_further. apply list_elem_of_here.
  - vm_compute in Hrun. injection Hrun as <-. reflexivity.
Defined.

(** A host that is an end of no link is reported, and the rule fails. *)
Lemma C7_witness :
  exists r,
    check_missing_components stranded_host = Ok r
    /\ about_endpoint "PC2" (issues r)
       = [ {| severity := Critical; finding := NoPathToRouter "PC2" |} ]
    /\ status r = StFail.
Proof.
  destruct (C7_missing_components stranded_host eq_refl eq_refl)
    as (r & Hrun & Hendpoint).
  exists r. split; [exact Hrun|].
  destruct (Hendpoint "PC2" (device "endpoint" "PC2" [] [])) as (Hno & _ & Hlinks).
  - do 2 apply list_elem_of_further. apply list_elem_of_here.
  - reflexivity.
  - apply Hno, Hlinks. intros kv Hkv.
    apply list_elem_of_singleton in Hkv. subst kv. split; discriminate.
Defined.

(** A ring of three switches: the two-device cycles of the search are
    dropped and both orientations of the ring are reported. *)
Lemma C8_witness :
  exists r,
    check_network_loops Nx.simple_cycles no_text ring = Ok r
    /\ (exists i, i ∈ issues r /\ finding i = Loop ["S1"; "S2"; "S3"] 3)
    /\ forall i cycle n,
         i ∈ issues r -> finding i = Loop cycle n ->
         n = length cycle /\ (2 < length cycle)%nat.
Proof.
  destruct (check_network_loops Nx.simple_cycles no_text ring) as [r|] eqn:Hrun;
    [|vm_compute in Hrun; discriminate].
  exists r. split; [reflexivity|]. split.
  - vm_compute in Hrun. injection Hrun as <-.
    eexists. split; [apply list_elem_of_here | reflexivity].
  - exact (proj2 (C8_loops_list_more_than_two_devices
                    Nx.simple_cycles no_text ring r Hrun)).
Defined.

End Witnesses.

(** * More concrete runs *)

Section MoreWitnesses.
Import Nx Grouping Builder Numerals Records Conflicts Graphs Connectivity.
Import Missing Redundancy Report Examples Scenarios.
Import ConfigParser Parser Texts Subnets Built Summary Rules Gateways Mtus.

(** The numbers of three interface lines. *)
Lemma written_numbers_witness :
  _extract_mtu_from_interface "mtu 9000" = Ok 9000
  /\ _extract_bandwidth_from_interface "bandwidth 9000" = Ok 9000
  /\ _extract_vlan_from_interface "switchport access vlan 9000" = Ok (Some 9000).
Proof.
  exact (written_numbers_are_read_back 9000 "9000" "" ltac:(lia) eq_refl eq_refl).
Defined.

(** The key of 10.0.0.7 under a 24-bit mask. *)
Lemma subnet_key_witness :
  exists a m,
    octets "10.0.0.7" = Ok a /\ octets "255.255.255.0" = Ok m
    /\ (4 <= length a)%nat /\ (4 <= length m)%nat
    /\ octets "10.0.0.0" = Ok (masked a m)
    /\ length (split_on "." "10.0.0.0") = 4%nat
    /\ Topology._calculate_subnet "10.0.0.0" "255.255.255.0" = Ok "10.0.0.0".
Proof.
  exact (subnet_key_is_canonical "10.0.0.7" "255.255.255.0" "10.0.0.0" eq_refl).
Defined.

(** An address written with a leading zero is on the same subnet. *)
Lemma same_key_witness :
  exists a1 m1 a2 m2,
    octets "10.0.0.7" = Ok a1 /\ octets "255.255.255.0" = Ok m1
    /\ octets "010.0.0.9" = Ok a2 /\ octets "255.255.255.000" = Ok m2
    /\ ("10.0.0.0" = "10.0.0.0" <-> masked a1 m1 = masked a2 m2).
Proof.
  exact (same_key_iff_same_masked_octets
           "10.0.0.7" "255.255.255.0" "010.0.0.9" "255.255.255.000"
           "10.0.0.0" "10.0.0.0" eq_refl eq_refl).
Defined.

(** The topology of three routers on a subnet is closed. *)
Lemma built_topology_witness :
  exists topo,
    build_topology_from_configs three_on_a_subnet = Ok topo
    /\ NoDup (keys (links topo))
    /\ nodes (graph topo) = keys (devices topo)
    /\ (forall kv, kv ∈ links topo ->
          end1 kv ∈ keys (devices topo) /\ end2 kv ∈ keys (devices topo)).
Proof.
  destruct (build_topology_from_configs three_on_a_subnet) as [topo|] eqn:Hbuild;
    [|vm_compute in Hbuild; discriminate].
  exists topo. split; [reflexivity|].
  destruct (built_topology_is_closed three_on_a_subnet topo Hbuild)
    as (_ & Hl & _ & Hn & He & _).
  split; [exact Hl|]. split; [exact Hn | exact He].
Defined.

(** The link of R1 and R2 joins their interfaces on 10.0.0.0. *)
Lemma tagged_link_witness :
  exists topo,
    build_topology_from_configs three_on_a_subnet = Ok topo
    /\ first_link ∈ links topo
    /\ subnet_member_of (devices topo) "10.0.0.0" (device1 first_link.2)
    /\ subnet_member_of (devices topo) "10.0.0.0" (device2 first_link.2)
    /\ first_link.1 = link_id (end1 first_link) (end2 first_link).
Proof.
  destruct (build_topology_from_configs three_on_a_subnet) as [topo|] eqn:Hbuild;
    [|vm_compute in Hbuild; discriminate].
  assert (Hin : first_link ∈ links topo).
  { pose proof Hbuild as H. vm_compute in H. injection H as <-.
    apply list_elem_of_here. }
  exists topo. split; [reflexivity|]. split; [exact Hin|].
  destruct (tagged_links_join_subnet_members
              three_on_a_subnet topo first_link "10.0.0.0" Hbuild Hin eq_refl)
    as (H1 & H2 & H3 & _).
  split; [exact H1|]. split; [exact H2 | exact H3].
Defined.

(** Of two records named R1 the switch is the device. *)
Lemma last_record_witness :
  exists topo,
    build_topology_from_configs renamed = Ok topo
    /\ get "R1" (devices topo) = Some (device "switch" "R1" [] []).
Proof.
  destruct (build_topology_from_configs renamed) as [topo|] eqn:Hbuild;
    [|vm_compute in Hbuild; discriminate].
  exists topo. split; [reflexivity|].
  rewrite (last_record_of_a_name_wins renamed topo "R1" Hbuild). reflexivity.
Defined.

(** One switch and two hosts in its VLAN: one link. *)
Lemma untagged_links_witness :
  exists topo s,
    build_topology_from_configs one_switch_two_hosts = Ok topo
    /\ get_topology_summary topo = Ok s
    /\ (total_links s <= length (subnet_links topo) + switches s)%nat
    /\ total_links s = 1%nat.
Proof.
  destruct (build_topology_from_configs one_switch_two_hosts) as [topo|] eqn:Hbuild;
    [|vm_compute in Hbuild; discriminate].
  destruct (get_topology_summary topo) as [s|] eqn:Hsum.
  2:{ exfalso. vm_compute in Hbuild. injection Hbuild as <-.
      vm_compute in Hsum. discriminate. }
  exists topo, s. split; [reflexivity|]. split; [exact Hsum|].
  split.
  - exact (at_most_one_untagged_link_per_switch
             one_switch_two_hosts topo s Hbuild Hsum).
  - vm_compute in Hbuild. injection Hbuild as <-.
    vm_compute in Hsum. injection Hsum as <-. reflexivity.
Defined.

(** The stranded host makes the rule fail. *)
Lemma stranded_host_status_witness :
  exists r,
    check_missing_components stranded_host = Ok r
    /\ (status r = StFail <->
        exists e, e ∈ ids_with_role "endpoint" (td_devices stranded_host)
                  /\ ~ reaches_router stranded_host e).
Proof.
  destruct (missing_components_status stranded_host eq_refl)
    as (r & Hr & Hfail & _).
  exists r. split; [exact Hr | exact Hfail].
Defined.

(** The three routers, built and exported, can be validated. *)
Lemma exported_topology_witness :
  exists topo ex,
    build_topology_from_configs three_on_a_subnet = Ok topo
    /\ export_to_json topo = Ok ex
    /\ typed_devices (td_devices (topology_data ex)) = true
    /\ (exists r, check_missing_components (topology_data ex) = Ok r)
    /\ (exists r, check_redundancy (topology_data ex) = Ok r)
    /\ (exists r, check_network_loops Nx.simple_cycles no_text
                    (topology_data ex) = Ok r).
Proof.
  destruct (build_topology_from_configs three_on_a_subnet) as [topo|] eqn:Hbuild;
    [|vm_compute in Hbuild; discriminate].
  destruct (export_to_json topo) as [ex|] eqn:Hex.
  2:{ exfalso. vm_compute in Hbuild. injection Hbuild as <-.
      vm_compute in Hex. discriminate. }
  exists topo, ex. split; [reflexivity|]. split; [exact Hex|].
  destruct (exported_topologies_validate Nx.simple_cycles no_text
              three_on_a_subnet topo ex Hbuild Hex)
    as (_ & Ht & _ & _ & Hm & Hr & Hl).
  split; [exact Ht|]. split; [exact Hm|]. split; [exact Hr | exact Hl].
Defined.

(** Two routers on one subnet: no gateway is missing, and the subnet has
    two. *)
Lemma gateway_rule_witness :
  exists r,
    check_gateway_configuration shared_subnet = Ok r
    /\ (forall s l, MultipleGateways s l ∈ rule_issues r <->
          l = members s (gateway_entries (td_devices shared_subnet))
          /\ (1 < length l)%nat)
    /\ rule_status r = StWarning.
Proof.
  destruct (gateway_rule_status shared_subnet eq_refl)
    as (r & Hr & _ & _ & Hm & _).
  exists r. split; [exact Hr|]. split; [exact Hm|].
  vm_compute in Hr. injection Hr as <-. reflexivity.
Defined.

(** The link between R1 and R2 makes 10.0.0.0 a subnet with several
    gateways. *)
Lemma routers_link_witness :
  exists topo ex r,
    build_topology_from_configs three_on_a_subnet = Ok topo
    /\ export_to_json topo = Ok ex
    /\ check_gateway_configuration (topology_data ex) = Ok r
    /\ (NoGateway "10.0.0.0" "R1-R2" ∉ rule_issues r)
    /\ rule_status r ≠ StPass.
Proof.
  destruct (build_topology_from_configs three_on_a_subnet) as [topo|] eqn:Hbuild;
    [|vm_compute in Hbuild; discriminate].
  destruct (export_to_json topo) as [ex|] eqn:Hex.
  2:{ exfalso. vm_compute in Hbuild. injection Hbuild as <-.
      vm_compute in Hex. discriminate. }
  assert (Hin : first_link ∈ links topo).
  { pose proof Hbuild as H. vm_compute in H. injection H as <-.
    apply list_elem_of_here. }
  destruct (links_between_routers_are_flagged
              three_on_a_subnet topo ex first_link "10.0.0.0"
              Hbuild Hex Hin eq_refl)
    as (r & Hr & Hno & Hmulti).
  assert (Hrole : role_of (topology_data ex) (end1 first_link) = "router"
                  /\ role_of (topology_data ex) (end2 first_link) = "router").
  { vm_compute in Hbuild. injection Hbuild as <-.
    vm_compute in Hex. injection Hex as <-. split; reflexivity. }
  exists topo, ex, r. split; [reflexivity|]. split; [exact Hex|].
  split; [exact Hr|]. split.
  - apply Hno. left. exact (proj1 Hrole).
  - refine (proj2 (proj2 (Hmulti (proj1 Hrole) (proj2 Hrole) _))).
    discriminate.
Defined.

(** Both ends of the link have the MTU 1500: nothing is reported. *)
Lemma compared_link_witness :
  exists topo i1 i2,
    build_topology_from_configs three_on_a_subnet = Ok topo
    /\ first_on_subnet (exported topo) "R1" "10.0.0.0" = Some i1
    /\ first_on_subnet (exported topo) "R2" "10.0.0.0" = Some i2
    /\ (mtu_issue (exported topo) first_link ≠ [] <->
        mtu_of i1 ≠ 0 /\ mtu_of i2 ≠ 0 /\ mtu_of i1 ≠ mtu_of i2).
Proof.
  destruct (build_topology_from_configs three_on_a_subnet) as [topo|] eqn:Hbuild;
    [|vm_compute in Hbuild; discriminate].
  assert (Hin : first_link ∈ links topo).
  { pose proof Hbuild as H. vm_compute in H. injection H as <-.
    apply list_elem_of_here. }
  destruct (subnet_links_are_compared
              three_on_a_subnet topo first_link "10.0.0.0" Hbuild Hin eq_refl)
    as (i1 & i2 & H1 & H2 & H3).
  exists topo, i1, i2. split; [reflexivity|].
  split; [exact H1|]. split; [exact H2 | exact H3].
Defined.

End MoreWitnesses.

